(** * journalsKe client: query planning, facet requests, harvest logs

    A shallow embedding of the parts of the Angular client that decide
    which backend a publication request is sent to, how request
    parameters are built, how page windows are computed and how the
    publication form orders metadata entries.

    Conventions of the embedding.
    - A JavaScript string is a [string]; one [ascii] stands for one code
      unit below 256.
    - A JavaScript number that the code uses as a page, a size, a count or
      a position is an integer and is modelled by [Z]; [Math.floor] and
      [Math.trunc] are the identity on such values. A number that is not
      whole, or not finite, has no counterpart, and [toString] and
      [String] give the plain decimal text, as they do for the whole
      numbers below [10^21].
    - [null] and [undefined] are [None].
    - A signal-based component is a record of its signals; a method is a
      function from that record to the updated record and the list of
      effects (HTTP calls, navigations) it performs. *)

From Stdlib Require Import String Ascii List ZArith Lia Bool.
From Stdlib Require Import DecimalString Sorted Permutation.
From Stdlib Require DecimalPos.
Import ListNotations.

Open Scope string_scope.
Open Scope Z_scope.

(** ** JavaScript primitives used by the client *)

Module Js.

(** Truthiness of a string: only the empty string is falsy. *)
Definition truthy (s : string) : bool :=
  match s with
  | EmptyString => false
  | String _ _ => true
  end.

(** Truthiness of [string | null | undefined]. *)
Definition truthyOpt (v : option string) : bool :=
  match v with
  | Some s => truthy s
  | None => false
  end.

(** [a || b] on strings. *)
Definition orElse (a b : string) : string :=
  if truthy a then a else b.

(** [a || undefined] on strings. *)
Definition orUndefined (a : string) : option string :=
  if truthy a then Some a else None.

(** [a ?? b]. *)
Definition nullish {A : Type} (a : option A) (b : A) : A :=
  match a with
  | Some x => x
  | None => b
  end.

(** White space as [String.prototype.trim] and [parseInt] see it, for code
    units below 256: TAB, LF, VT, FF, CR, SPACE and NBSP. *)
Definition isWhiteSpace (c : ascii) : bool :=
  match c with
  | "009"%char | "010"%char | "011"%char | "012"%char | "013"%char
  | " "%char | "160"%char => true
  | _ => false
  end.

Fixpoint trimStart (s : string) : string :=
  match s with
  | EmptyString => EmptyString
  | String c r => if isWhiteSpace c then trimStart r else s
  end.

Fixpoint trimEnd (s : string) : string :=
  match s with
  | EmptyString => EmptyString
  | String c r =>
      match trimEnd r with
      | EmptyString => if isWhiteSpace c then EmptyString else String c EmptyString
      | r' => String c r'
      end
  end.

(** [s.trim()] *)
Definition trim (s : string) : string := trimEnd (trimStart s).

(** [s.split(sep)] for a one-character separator. *)
Fixpoint split (sep : ascii) (s : string) : list string :=
  match s with
  | EmptyString => [EmptyString]
  | String c r =>
      if Ascii.eqb c sep then EmptyString :: split sep r
      else match split sep r with
           | h :: t => String c h :: t
           | [] => [String c EmptyString]
           end
  end.

(** [l.join(sep)] *)
Fixpoint join (sep : string) (l : list string) : string :=
  match l with
  | [] => EmptyString
  | [x] => x
  | x :: rest => x ++ sep ++ join sep rest
  end.

(** [s.includes(c)] for a one-character needle. *)
Fixpoint includes (c : ascii) (s : string) : bool :=
  match s with
  | EmptyString => false
  | String d r => Ascii.eqb d c || includes c r
  end.

(** [c.toLowerCase()] on one code unit below 256: A-Z and the Latin-1
    capitals U+00C0-U+00DE (the multiplication sign U+00D7 apart). *)
Definition lowerChar (c : ascii) : ascii :=
  let n := N_of_ascii c in
  if ((65 <=? n) && (n <=? 90))%N then ascii_of_N (n + 32)
  else if ((192 <=? n) && (n <=? 222) && negb (n =? 215))%N then ascii_of_N (n + 32)
  else c.

Fixpoint toLowerCase (s : string) : string :=
  match s with
  | EmptyString => EmptyString
  | String c r => String (lowerChar c) (toLowerCase r)
  end.

(** [n.toString()] and [String(n)] for an integer. *)
Definition toString (n : Z) : string :=
  NilZero.string_of_int (Z.to_int n).

Definition digit (c : ascii) : option Z :=
  let n := N_of_ascii c in
  if ((48 <=? n) && (n <=? 57))%N then Some (Z.of_N n - 48) else None.

Fixpoint parseDigitsAcc (s : string) (acc : Z) : Z :=
  match s with
  | EmptyString => acc
  | String c r =>
      match digit c with
      | Some d => parseDigitsAcc r (acc * 10 + d)
      | None => acc
      end
  end.

Definition parseDigits (s : string) : option Z :=
  match s with
  | EmptyString => None
  | String c r =>
      match digit c with
      | Some d => Some (parseDigitsAcc r d)
      | None => None
      end
  end.

(** [Number.parseInt(s, 10)]; [None] is [NaN]. Leading white space is
    skipped, one sign is accepted, then the longest run of decimal digits
    is read. *)
Definition parseInt (s : string) : option Z :=
  match trimStart s with
  | String "-"%char r => option_map Z.opp (parseDigits r)
  | String "+"%char r => parseDigits r
  | t => parseDigits t
  end.

(** [Math.max(a, b)] *)
Definition max (a b : Z) : Z := Z.max a b.

(** [[...l].sort(cmp)], with [le a b] for [cmp(a, b) <= 0]. The sort of
    the language is stable; so is this insertion sort. *)
Fixpoint insertBy {A : Type} (le : A -> A -> bool) (x : A) (l : list A) : list A :=
  match l with
  | [] => [x]
  | y :: r => if le x y then x :: y :: r else y :: insertBy le x r
  end.

Fixpoint sortBy {A : Type} (le : A -> A -> bool) (l : list A) : list A :=
  match l with
  | [] => []
  | x :: r => insertBy le x (sortBy le r)
  end.

(** [l.map((x, index) => f(x, index))] *)
Fixpoint mapiFrom {A B : Type} (f : A -> Z -> B) (start : Z) (l : list A) : list B :=
  match l with
  | [] => []
  | x :: r => f x start :: mapiFrom f (start + 1) r
  end.

Definition mapi {A B : Type} (f : A -> Z -> B) (l : list A) : list B :=
  mapiFrom f 0 l.

(** [l.findIndex(p)]; [None] is [-1]. *)
Fixpoint findIndex {A : Type} (p : A -> bool) (l : list A) : option nat :=
  match l with
  | [] => None
  | x :: r => if p x then Some O else option_map S (findIndex p r)
  end.

(** [l.splice(i, 1)]: the list without its element at [i]. *)
Fixpoint removeAt {A : Type} (i : nat) (l : list A) : list A :=
  match l, i with
  | [], _ => []
  | _ :: r, O => r
  | x :: r, S j => x :: removeAt j r
  end.

(** [Math.ceil(a / b)] for integers [a] and [b > 0]. *)
Definition ceilDiv (a b : Z) : Z := - ((- a) / b).

(** [Array.from({ length: n }, (_, index) => f(index))]; a negative
    length gives the empty array. *)
Definition arrayFrom (n : Z) (f : Z -> Z) : list Z :=
  map (fun i => f (Z.of_nat i)) (seq 0 (Z.to_nat n)).

(** [Math.min(a, b)] *)
Definition min (a b : Z) : Z := Z.min a b.

(** [Math.min(a, ...l)] and [Math.max(a, ...l)] *)
Definition minOf (a : Z) (l : list Z) : Z := fold_left Z.min l a.
Definition maxOf (a : Z) (l : list Z) : Z := fold_left Z.max l a.

(** [s.replace(/\D/g, '')]: the decimal digits of [s], in their order. *)
Fixpoint removeNonDigits (s : string) : string :=
  match s with
  | EmptyString => EmptyString
  | String c r =>
      match digit c with
      | Some _ => String c (removeNonDigits r)
      | None => removeNonDigits r
      end
  end.

(** [s.slice(0, n)] *)
Definition sliceTo (n : nat) (s : string) : string := String.substring 0 n s.

(** [l.every((value, index) => p(value, index))] *)
Fixpoint everyFrom {A : Type} (p : A -> nat -> bool) (start : nat) (l : list A) : bool :=
  match l with
  | [] => true
  | x :: r => p x start && everyFrom p (S start) r
  end.

Definition every {A : Type} (p : A -> nat -> bool) (l : list A) : bool :=
  everyFrom p 0 l.

(** [a === b] on [string | null]. *)
Definition sameOpt (a b : option string) : bool :=
  match a, b with
  | Some x, Some y => String.eqb x y
  | None, None => true
  | _, _ => false
  end.

(** [[...l].sort()]: the default order of the language on strings, by
    code units. *)
Definition sort (l : list string) : list string := sortBy String.leb l.

End Js.

(** ** HttpParams: an ordered multi-map of query parameters *)

Module HttpParams.

Definition t := list (string * list string).

Definition empty : t := [].

(** [params.set(k, v)]: the key keeps one value. *)
Fixpoint set (k v : string) (p : t) : t :=
  match p with
  | [] => [(k, [v])]
  | (k', vs) :: rest =>
      if String.eqb k' k then (k', [v]) :: rest
      else (k', vs) :: set k v rest
  end.

(** [params.append(k, v)]: one more value for the key. *)
Fixpoint append (k v : string) (p : t) : t :=
  match p with
  | [] => [(k, [v])]
  | (k', vs) :: rest =>
      if String.eqb k' k then (k', (vs ++ [v])%list) :: rest
      else (k', vs) :: append k v rest
  end.

Fixpoint getAll (k : string) (p : t) : list string :=
  match p with
  | [] => []
  | (k', vs) :: rest => if String.eqb k' k then vs else getAll k rest
  end.

Definition get (k : string) (p : t) : option string :=
  match getAll k p with
  | [] => None
  | v :: _ => Some v
  end.


End HttpParams.

(** [encodeURIComponent(s)]: unreserved characters are kept, every other
    code unit is written as the percent-escaped bytes of its UTF-8 form. *)
Module Uri.

Definition hexDigit (n : N) : ascii :=
  if (n <? 10)%N then ascii_of_N (48 + n) else ascii_of_N (55 + n).

Definition percent (b : N) (rest : string) : string :=
  String "%"%char (String (hexDigit (b / 16)) (String (hexDigit (b mod 16)) rest)).

Definition unreserved (c : ascii) : bool :=
  let n := N_of_ascii c in
  (((65 <=? n) && (n <=? 90)) || ((97 <=? n) && (n <=? 122)) ||
   ((48 <=? n) && (n <=? 57)))%N ||
  match c with
  | "-"%char | "_"%char | "."%char | "!"%char | "~"%char | "*"%char
  | "'"%char | "("%char | ")"%char => true
  | _ => false
  end.

Fixpoint encodeURIComponent (s : string) : string :=
  match s with
  | EmptyString => EmptyString
  | String c r =>
      let n := N_of_ascii c in
      if unreserved c then String c (encodeURIComponent r)
      else if (n <? 128)%N then percent n (encodeURIComponent r)
      else percent (192 + n / 64) (percent (128 + n mod 64) (encodeURIComponent r))
  end.

End Uri.

(** ** TypeScript interface declarations

    The declared shape of a response is part of the contract between the
    client and the API, so interfaces are kept as data: a list of fields,
    each with its name, whether it is optional ([?]) and its type. *)

Module Ts.

#[warnings="-register-all"]
Inductive type : Type :=
| TNumber
| TString
| TBoolean
| TNull
| TLiteral (s : string)
| TUnion (a b : type)
| TArray (elem : type)
| TObject (fields : list (string * bool * type)).

Definition interface := list (string * bool * type).

Definition required (name : string) (ty : type) : string * bool * type :=
  (name, false, ty).

Definition optional (name : string) (ty : type) : string * bool * type :=
  (name, true, ty).

Definition names (i : interface) : list string :=
  map (fun f => fst (fst f)) i.

Definition lookup (name : string) (i : interface) : option type :=
  option_map snd (find (fun f => String.eqb (fst (fst f)) name) i).

(** [interface A extends B { ... }] *)
Definition extends (base own : interface) : interface := (base ++ own)%list.

(** The field names of an object type; [None] when the type is not one. *)
Definition fieldsOf (ty : type) : option (list string) :=
  match ty with
  | TObject fs => Some (names fs)
  | _ => None
  end.

(** The string literals a union of literal types is made of. *)
Fixpoint literals (ty : type) : list string :=
  match ty with
  | TLiteral s => [s]
  | TUnion a b => (literals a ++ literals b)%list
  | _ => []
  end.

End Ts.

(** ** core/models

    Each interface is given twice where the code computes with its values:
    [t] is the record of values, [decl] the declaration as data. *)

Module Models.
Import Ts.

(** Modelled from the spec: [PaginatedResponse<T>] is declared in
    core/models/pagination.models.ts, which is not among the sources; the
    list/search contract gives the envelope
    [{count, page, page_size, results[]}] (plus [facets] for
    publications). *)
Definition PaginatedResponse (T : type) : interface :=
  [ required "count" TNumber;
    required "page" TNumber;
    required "page_size" TNumber;
    required "results" (TArray T) ].

(** *** harvest-log.models.ts *)

Module HarvestStatus.
Inductive t : Type := running | success | failed.

Definition toString (s : t) : string :=
  match s with
  | running => "running"
  | success => "success"
  | failed => "failed"
  end.

Definition decl : type :=
  TUnion (TLiteral "running") (TUnion (TLiteral "success") (TLiteral "failed")).
End HarvestStatus.

Module HarvestLogJournalSummary.
Record t : Type := {
  id : string;
  slug : string;
  name : string
}.

Definition decl : interface :=
  [ required "id" TString; required "slug" TString; required "name" TString ].
End HarvestLogJournalSummary.

Module HarvestLog.
Record t : Type := {
  id : Z;
  journal : option HarvestLogJournalSummary.t;
  started_at : string;
  finished_at : option string;
  endpoint : string;
  status : string;
  record_count : Z;
  error_message : string
}.

Definition decl : interface :=
  [ required "id" TNumber;
    required "journal" (TUnion (TObject HarvestLogJournalSummary.decl) TNull);
    required "started_at" TString;
    required "finished_at" (TUnion TString TNull);
    required "endpoint" TString;
    required "status" HarvestStatus.decl;
    required "record_count" TNumber;
    required "error_message" TString ].
End HarvestLog.

(** *** publication.models.ts *)

Module PublicationMetadataEntry.
Record t : Type := {
  id : Z;
  schema : string;
  element : string;
  qualifier : option string;
  value : string;
  language : option string;
  position : option Z
}.

Definition decl : interface :=
  [ required "id" TNumber;
    required "schema" TString;
    required "element" TString;
    required "qualifier" (TUnion TString TNull);
    required "value" TString;
    required "language" (TUnion TString TNull);
    required "position" TNumber ].
End PublicationMetadataEntry.

Module Publication.
Record t : Type := {
  id : string;
  title : string;
  slug : string;
  description : string;
  publisher : string;
  issued : option string;
  resource_type : string;
  resource_format : string;
  rights : string;
  metadata : option (list PublicationMetadataEntry.t)
}.

Definition decl : interface :=
  [ required "id" TString;
    required "title" TString;
    required "slug" TString;
    required "description" TString;
    required "publisher" TString;
    optional "publisher_url" TString;
    required "issued" (TUnion TString TNull);
    required "resource_type" TString;
    required "resource_format" TString;
    required "rights" TString;
    optional "journal"
      (TUnion (TObject [ required "id" TString; required "slug" TString;
                         required "name" TString ]) TNull);
    optional "oai_identifier" (TUnion TString TNull);
    optional "oai_datestamp" (TUnion TString TNull);
    required "metadata" (TArray (TObject PublicationMetadataEntry.decl));
    required "created_at" TString;
    required "updated_at" TString ].
End Publication.

Module PublicationMetadataPayload.
Record t : Type := {
  schema : option string;
  element : string;
  qualifier : option string;
  value : string;
  language : option string;
  position : option Z
}.
End PublicationMetadataPayload.

Module PublicationPayload.
Record t : Type := {
  title : string;
  description : string;
  publisher : string;
  issued : option string;
  resource_type : string;
  resource_format : string;
  rights : string;
  metadata : list PublicationMetadataPayload.t
}.
End PublicationPayload.

Module FacetItem.
Record t : Type := {
  value : string;
  label : string;
  count : Z;
  active : bool
}.

Definition decl : interface :=
  [ required "value" TString;
    required "label" TString;
    required "count" TNumber;
    required "active" TBoolean ].
End FacetItem.

Module FacetSummary.
Record t : Type := {
  param : string;
  total : Z;
  more_url : option string;
  items : list FacetItem.t
}.

Definition decl : interface :=
  [ required "param" TString;
    required "total" TNumber;
    optional "more_url" (TUnion TString TNull);
    required "items" (TArray (TObject FacetItem.decl)) ].
End FacetSummary.

Module PublicationFacetCollection.
Record t : Type := {
  authors : FacetSummary.t;
  subjects : FacetSummary.t;
  journals : FacetSummary.t;
  issued_years : FacetSummary.t
}.

Definition decl : interface :=
  [ required "authors" (TObject FacetSummary.decl);
    required "subjects" (TObject FacetSummary.decl);
    required "journals" (TObject FacetSummary.decl);
    required "issued_years" (TObject FacetSummary.decl) ].
End PublicationFacetCollection.

Module PublicationListResponse.
Definition decl : interface :=
  extends (PaginatedResponse (TObject Publication.decl))
          [ required "facets" (TObject PublicationFacetCollection.decl) ].
End PublicationListResponse.

Module FacetListResponse.
(** What a received body holds: [typeof x === 'number'] and
    [Array.isArray(x)] are checked by the consumer, so every field may be
    missing. *)
Record t : Type := {
  count : option Z;
  page : option Z;
  page_size : option Z;
  total_pages : option Z;
  next : option string;
  previous : option string;
  param : option string;
  results : option (list FacetItem.t)
}.

Definition decl : interface :=
  [ required "count" TNumber;
    required "page" TNumber;
    required "page_size" TNumber;
    required "total_pages" TNumber;
    required "next" (TUnion TString TNull);
    required "previous" (TUnion TString TNull);
    required "param" TString;
    required "results" (TArray (TObject FacetItem.decl)) ].
End FacetListResponse.

(** *** journal.models.ts *)

Module Journal.
Record t : Type := {
  id : string;
  name : string;
  slug : string;
  description : string;
  homepage_url : string;
  oai_url : option string;
  last_harvested_at : option string;
  chief_editor : string;
  publisher : string;
  issn_print : string;
  issn_online : string;
  language : string;
  country : string;
  founded_year : option Z;
  contact_email : string;
  is_active : bool;
  created_at : string;
  updated_at : string
}.
End Journal.

Module OAIValidationResponse.
Record t : Type := {
  ok : bool;
  detail : string
}.

Definition decl : interface :=
  [ required "ok" TBoolean; required "detail" TString ].
End OAIValidationResponse.

End Models.

(** What the error callback of a failed HTTP call receives: [err?.status]
    and [err?.error?.detail]. *)
Record HttpErrorResponse : Type := {
  err_status : option Z;
  err_detail : option string
}.

(** ** HTTP calls as data *)

Inductive HttpMethod : Type := GET | POST | PATCH | DELETE.

Record HttpRequest : Type := {
  method : HttpMethod;
  url : string;
  params : HttpParams.t;
  body : list (string * string);
  response : Ts.type
}.

(** [if (v) { params = params.set(k, v) }] for [v : string | undefined]. *)
Definition setIfTruthy (k : string) (v : option string) (p : HttpParams.t) : HttpParams.t :=
  match v with
  | Some s => if Js.truthy s then HttpParams.set k s p else p
  | None => p
  end.

(** [if (n && n > 0) { params = params.set(k, f(n).toString()) }] for
    [n : number | undefined]. *)
Definition setIfPositive (k : string) (n : option Z) (f : Z -> Z) (p : HttpParams.t) : HttpParams.t :=
  match n with
  | Some z => if 0 <? z then HttpParams.set k (Js.toString (f z)) p else p
  | None => p
  end.

(** ** core/services/publication-api.service.ts *)

Module PublicationApiService.

(** An element of [Array<number | string>]. *)
Inductive YearArg : Type :=
| YearNumber (n : Z)
| YearString (s : string).

Module PublicationListOptions.
Record t : Type := {
page : option Z;
search : option string;
pageSize : option Z;
journalSlug : option string;
journalId : option Z;
ordering : option string;
issuedFrom : option string;
issuedTo : option string;
subject : option string;
authors : option (list string);
issuedYears : option (list YearArg)
}.
End PublicationListOptions.
Module O := PublicationListOptions.

(** [options ?? {}] *)
Definition noOptions : O.t :=
  {| O.page := None; O.search := None; O.pageSize := None; O.journalSlug := None;
     O.journalId := None; O.ordering := None; O.issuedFrom := None; O.issuedTo := None;
     O.subject := None; O.authors := None; O.issuedYears := None |}.

(** The [journal] / [journal_id] branch of [list] and [buildFacetParams]. *)
Definition setJournal (slug : option string) (id : option Z) (p : HttpParams.t) : HttpParams.t :=
  if Js.truthyOpt slug then HttpParams.set "journal" (Js.nullish slug "") p
  else match id with
       | Some n => HttpParams.set "journal_id" (Js.toString n) p
       | None => p
       end.

(** [authors.map(a => a?.trim()).filter(Boolean).forEach(a => append('author', a))] *)
Definition appendAuthors (a : option (list string)) (p : HttpParams.t) : HttpParams.t :=
  match a with
  | Some l =>
      fold_left (fun acc author => HttpParams.append "author" author acc)
                (filter Js.truthy (map Js.trim l)) p
  | None => p
  end.

(** [typeof year === 'number' ? year : Number.parseInt(String(year), 10)].
    The years of the embedding are whole numbers, held exactly; the
    source holds them as [number], which is exact on the safe integers (up
    to [2^53 - 1]) and rounds a longer text. *)
Definition yearNumber (y : YearArg) : option Z :=
  match y with
  | YearNumber n => Some n
  | YearString s => Js.parseInt s
  end.

Fixpoint finiteYears (l : list YearArg) : list Z :=
  match l with
  | [] => []
  | y :: rest =>
      match yearNumber y with
      | Some n => n :: finiteYears rest
      | None => finiteYears rest
      end
  end.

(** [issuedYears.map(...).filter(Number.isFinite).forEach(year =>
    append('issued_year', String(year)))]; [String(year)] is the plain
    decimal text on the safe integers. *)
Definition appendIssuedYears (ys : option (list YearArg)) (p : HttpParams.t) : HttpParams.t :=
  match ys with
  | Some l =>
      fold_left (fun acc year => HttpParams.append "issued_year" (Js.toString year) acc)
                (finiteYears l) p
  | None => p
  end.

Section WithBaseUrl.
Variable baseUrl : string.

Definition list (options : option O.t) : HttpRequest :=
  let o := Js.nullish options noOptions in
  let params := HttpParams.set "page" (Js.toString (Js.nullish (O.page o) 1)) HttpParams.empty in
  let params := setIfTruthy "search" (O.search o) params in
  let params := setIfPositive "page_size" (O.pageSize o) (fun n => n) params in
  let params := setJournal (O.journalSlug o) (O.journalId o) params in
  let params := setIfTruthy "ordering" (O.ordering o) params in
  let params := setIfTruthy "issued_from" (O.issuedFrom o) params in
  let params := setIfTruthy "issued_to" (O.issuedTo o) params in
  let params := setIfTruthy "subject" (O.subject o) params in
  let params := appendAuthors (O.authors o) params in
  let params := appendIssuedYears (O.issuedYears o) params in
  {| method := GET;
     url := baseUrl ++ "/publications/";
     params := params;
     body := [];
     response := Ts.TObject Models.PublicationListResponse.decl |}.

Definition search (query : string) (options : option O.t) : HttpRequest :=
  let o := Js.nullish options noOptions in
  let params := HttpParams.set "q" query
                  (HttpParams.set "page" (Js.toString (Js.nullish (O.page o) 1)) HttpParams.empty) in
  let params := setIfPositive "page_size" (O.pageSize o) (fun n => n) params in
  let params := setIfTruthy "journal" (O.journalSlug o) params in
  let params := setIfTruthy "ordering" (O.ordering o) params in
  let params := setIfTruthy "issued_from" (O.issuedFrom o) params in
  let params := setIfTruthy "issued_to" (O.issuedTo o) params in
  let params := setIfTruthy "subject" (O.subject o) params in
  let params := appendAuthors (O.authors o) params in
  let params := appendIssuedYears (O.issuedYears o) params in
  {| method := GET;
     url := baseUrl ++ "/publications/search/";
     params := params;
     body := [];
     response := Ts.TObject Models.PublicationListResponse.decl |}.

Definition buildFacetParams (options : option O.t) : HttpParams.t :=
  let o := Js.nullish options noOptions in
  let params := HttpParams.set "page" (Js.toString (Js.nullish (O.page o) 1)) HttpParams.empty in
  let params := setIfPositive "page_size" (O.pageSize o) (fun n => n) params in
  let params := setJournal (O.journalSlug o) (O.journalId o) params in
  let params := setIfTruthy "ordering" (O.ordering o) params in
  let params := setIfTruthy "issued_from" (O.issuedFrom o) params in
  let params := setIfTruthy "issued_to" (O.issuedTo o) params in
  let params := setIfTruthy "subject" (O.subject o) params in
  let params := appendAuthors (O.authors o) params in
  let params := appendIssuedYears (O.issuedYears o) params in
  params.

Definition listFacet (facetName : string) (options : option O.t) : HttpRequest :=
  let params := buildFacetParams options in
  {| method := GET;
     url := baseUrl ++ "/publications/facets/" ++ Uri.encodeURIComponent facetName ++ "/";
     params := params;
     body := [];
     response := Ts.TObject Models.FacetListResponse.decl |}.

(** [{ ...options, search: undefined }] *)
Definition withoutSearch (options : option O.t) : O.t :=
  let o := Js.nullish options noOptions in
  {| O.page := O.page o; O.search := None; O.pageSize := O.pageSize o;
     O.journalSlug := O.journalSlug o; O.journalId := O.journalId o;
     O.ordering := O.ordering o; O.issuedFrom := O.issuedFrom o; O.issuedTo := O.issuedTo o;
     O.subject := O.subject o; O.authors := O.authors o; O.issuedYears := O.issuedYears o |}.

Definition searchFacet (query facetName : string) (options : option O.t) : HttpRequest :=
  let params := buildFacetParams (Some (withoutSearch options)) in
  let nextParams := HttpParams.set "q" query params in
  {| method := GET;
     url := baseUrl ++ "/publications/search/facets/" ++ Uri.encodeURIComponent facetName ++ "/";
     params := nextParams;
     body := [];
     response := Ts.TObject Models.FacetListResponse.decl |}.

End WithBaseUrl.

End PublicationApiService.

(** ** core/services/harvest-log-api.service.ts *)

Module HarvestLogApiService.

Record HarvestLogQuery : Type := {
  page : option Z;
  pageSize : option Z;
  journal : option string;
  journalId : option string;
  status : option string
}.

Definition emptyQuery : HarvestLogQuery :=
  {| page := None; pageSize := None; journal := None; journalId := None; status := None |}.

Definition list (baseUrl : string) (query : HarvestLogQuery) : HttpRequest :=
  let params := HttpParams.empty in
  let page := Js.nullish (page query) 1 in
  let params := HttpParams.set "page" (Js.toString (Js.max 1 page)) params in
  let params := setIfPositive "page_size" (pageSize query) (fun n => Js.max 1 n) params in
  let params := setIfTruthy "journal" (journal query) params in
  let params := setIfTruthy "journal_id" (journalId query) params in
  let params := setIfTruthy "status" (status query) params in
  {| method := GET;
     url := baseUrl ++ "/harvest-logs/";
     params := params;
     body := [];
     response := Ts.TObject (Models.PaginatedResponse (Ts.TObject Models.HarvestLog.decl)) |}.

End HarvestLogApiService.

(** ** core/services/journal-api.service.ts *)

Module JournalApiService.

Definition validateOai (baseUrl oaiUrl : string) : HttpRequest :=
  {| method := POST;
     url := baseUrl ++ "/journals/validate-oai/";
     params := HttpParams.empty;
     body := [("oai_url", oaiUrl)];
     response := Ts.TObject Models.OAIValidationResponse.decl |}.

End JournalApiService.

(** ** Router and effects *)

(** Angular's [ParamMap] of the current route. *)
Module ParamMap.
Definition t := list (string * list string).
Definition getAll (k : string) (m : t) : list string := HttpParams.getAll k m.
Definition get (k : string) (m : t) : option string := HttpParams.get k m.
End ParamMap.

(** A value of a [queryParams] object handed to [router.navigate]. *)
Inductive QueryValue : Type :=
| QString (s : string)
| QNumber (n : Z)
| QArray (l : list string)
| QNull.

Definition QueryParams := list (string * QueryValue).

(** [queryParams[k] = v] on a key that is not yet present. *)
Definition assign (k : string) (v : QueryValue) (q : QueryParams) : QueryParams :=
  (q ++ [(k, v)])%list.

Definition queryParam (k : string) (q : QueryParams) : option QueryValue :=
  option_map snd (find (fun kv => String.eqb (fst kv) k) q).

(** The router: the query parameters of a navigation as the target route
    holds them. A string or a number is one value, an array one value per
    element, and a [null] value (or an empty array) leaves the key out. *)
Definition routeEntry (kv : string * QueryValue) : ParamMap.t :=
  match snd kv with
  | QString s => [(fst kv, [s])]
  | QNumber n => [(fst kv, [Js.toString n])]
  | QArray [] => []
  | QArray l => [(fst kv, l)]
  | QNull => []
  end.

Definition routeOf (q : QueryParams) : ParamMap.t := flat_map routeEntry q.

(** What a component method does to the outside world. *)
Inductive Effect : Type :=
| Http (r : HttpRequest)
| Navigate (commands : list string) (queryParams : QueryParams)
| SetTitle (title : string).

Definition httpCalls (effects : list Effect) : list HttpRequest :=
  flat_map (fun e => match e with Http r => [r] | _ => [] end) effects.

(** [String(v)] for a value of a [queryParams] object. *)
Definition valueString (v : QueryValue) : string :=
  match v with
  | QString s => s
  | QNumber n => Js.toString n
  | QArray l => Js.join "," l
  | QNull => "null"
  end.

(** [q[k] = v]: the value of a key that is present is replaced where it
    stands, a new key goes last. *)
Fixpoint put (k : string) (v : QueryValue) (q : QueryParams) : QueryParams :=
  match q with
  | [] => [(k, v)]
  | (k', v') :: rest =>
      if String.eqb k' k then (k', v) :: rest else (k', v') :: put k v rest
  end.

(** [delete q[k]] *)
Definition deleteParam (k : string) (q : QueryParams) : QueryParams :=
  filter (fun kv => negb (String.eqb (fst kv) k)) q.

(** The router under [queryParamsHandling: 'merge']: the query parameters
    of the target route, from those of the current route and the
    [queryParams] of the navigation. A key that is given a value takes it, a
    key that is given [null] is removed, every other key of the current
    route stays. The order of the keys, which no lookup depends on, is not
    kept. *)
Definition removeKey (k : string) (m : ParamMap.t) : ParamMap.t :=
  filter (fun kv => negb (String.eqb (fst kv) k)) m.

Definition mergeEntry (m : ParamMap.t) (kv : string * QueryValue) : ParamMap.t :=
  (removeKey (fst kv) m ++ routeEntry kv)%list.

Definition mergeRoute (current : ParamMap.t) (q : QueryParams) : ParamMap.t :=
  fold_left mergeEntry q current.

(** ** features/publications/publication-list/publication-list.component.ts *)

Module PublicationListComponent.

Definition DEFAULT_PAGE_SIZE : Z := 10.
Definition MAX_PAGE_LINKS : Z := 7.

Record State : Type := {
  hasLoadedInitial : bool;
  loading : bool;
  error : option string;
  publications : list Models.Publication.t;
  facets : option Models.PublicationFacetCollection.t;
  count : Z;
  page : Z;
  pageSize : Z;
  searchQuery : string;
  journalSlug : option string;
  journalName : option string;
  ordering : option string;
  issuedFrom : option string;
  issuedTo : option string;
  subjectFilters : list string;
  authorFilters : list string;
  issuedYearFilters : list string
}.

(** [totalPages] *)
Definition totalPages (st : State) : Z :=
  let total := count st in
  let size := Js.max 1 (pageSize st) in
  if total =? 0 then 1 else Js.ceilDiv total size.

(** [pageNumbers] *)
Definition pageNumbers (st : State) : list Z :=
  let total := totalPages st in
  let current := page st in
  let maxLinks := MAX_PAGE_LINKS in
  if total <=? maxLinks then Js.arrayFrom total (fun index => index + 1)
  else
    let half := maxLinks / 2 in
    let start := current - half in
    let end_ := current + half in
    let '(start, end_) :=
      if start <? 1 then (1, 1 + maxLinks - 1) else (start, end_) in
    let '(start, end_) :=
      if total <? end_ then (total - maxLinks + 1, total) else (start, end_) in
    Js.arrayFrom (end_ - start + 1) (fun index => start + index).

(** [parseSubjectParam] *)
Definition parseSubjectParam (value : option string) : list string :=
  if negb (Js.truthyOpt value) then []
  else filter (fun entry => 0 <? Z.of_nat (String.length entry))
              (map Js.trim (Js.split ","%char (Js.nullish value ""))).

(** The [queryParams] object that [updateQueryParams] builds from the
    signals before it compares it with the current route. *)
Definition targetQueryParams (st : State) : QueryParams :=
  let q := [] in
  let q := if 1 <? page st then (assign "page" (QNumber (page st)) q) else q in
  let q := if Js.truthy (searchQuery st) then (assign "search" (QString (searchQuery st)) q) else q in
  let q := if negb (pageSize st =? DEFAULT_PAGE_SIZE)
           then (assign "page_size" (QNumber (pageSize st)) q) else q in
  let q := if Js.truthyOpt (journalSlug st)
           then let q := assign "journal" (QString (Js.nullish (journalSlug st) "")) q in
                if Js.truthyOpt (journalName st)
                then assign "journal_name" (QString (Js.nullish (journalName st) "")) q
                else q
           else q in
  let q := if Js.truthyOpt (ordering st)
           then (assign "ordering" (QString (Js.nullish (ordering st) "")) q) else q in
  let q := if Js.truthyOpt (issuedFrom st)
           then (assign "issued_from" (QString (Js.nullish (issuedFrom st) "")) q) else q in
  let q := if Js.truthyOpt (issuedTo st)
           then (assign "issued_to" (QString (Js.nullish (issuedTo st) "")) q) else q in
  let subjectValues := subjectFilters st in
  let subjectString :=
    if 0 <? Z.of_nat (length subjectValues) then Js.join ", " subjectValues else "" in
  let q := if 0 <? Z.of_nat (length subjectValues)
           then (assign "subject" (QString subjectString) q) else q in
  let q := if 0 <? Z.of_nat (length (authorFilters st))
           then (assign "author" (QArray (authorFilters st)) q) else q in
  let q := if 0 <? Z.of_nat (length (issuedYearFilters st))
           then (assign "issued_year" (QArray (issuedYearFilters st)) q) else q in
  q.

(** [FacetType] *)
Inductive FacetType : Type := authors | subjects | journals | issued_years.

(** The string a [FacetType] is at run time. *)
Definition facetTypeString (facet : FacetType) : string :=
  match facet with
  | authors => "authors"
  | subjects => "subjects"
  | journals => "journals"
  | issued_years => "issued_years"
  end.

(** [buildFacetViewLink(facet)]: the commands and the query parameters of
    the link to the page of one facet. *)
Definition buildFacetViewLink (facet : FacetType) (st : State)
    : list string * QueryParams :=
  let queryParams : QueryParams := [] in
  let trimmedSearch := Js.trim (searchQuery st) in
  let subjectValues := subjectFilters st in
  let authorValues := authorFilters st in
  let issuedYearValues := issuedYearFilters st in
  let queryParams :=
    if Js.truthy trimmedSearch
    then assign "search" (QString trimmedSearch) queryParams else queryParams in
  let queryParams :=
    if Js.truthyOpt (journalSlug st)
    then let queryParams :=
           assign "journal" (QString (Js.nullish (journalSlug st) "")) queryParams in
         if Js.truthyOpt (journalName st)
         then assign "journal_name" (QString (Js.nullish (journalName st) "")) queryParams
         else queryParams
    else queryParams in
  let queryParams :=
    if Js.truthyOpt (ordering st)
    then assign "ordering" (QString (Js.nullish (ordering st) "")) queryParams
    else queryParams in
  let queryParams :=
    if Js.truthyOpt (issuedFrom st)
    then assign "issued_from" (QString (Js.nullish (issuedFrom st) "")) queryParams
    else queryParams in
  let queryParams :=
    if Js.truthyOpt (issuedTo st)
    then assign "issued_to" (QString (Js.nullish (issuedTo st) "")) queryParams
    else queryParams in
  let queryParams :=
    if negb (Z.of_nat (length subjectValues) =? 0)
    then assign "subject" (QString (Js.join ", " subjectValues)) queryParams
    else queryParams in
  let queryParams :=
    if negb (Z.of_nat (length authorValues) =? 0)
    then assign "author" (QArray authorValues) queryParams else queryParams in
  let queryParams :=
    if negb (Z.of_nat (length issuedYearValues) =? 0)
    then assign "issued_year" (QArray issuedYearValues) queryParams else queryParams in
  let usingSearchEndpoint := 0 <? Z.of_nat (String.length trimmedSearch) in
  let queryParams :=
    if usingSearchEndpoint
    then assign "search_mode" (QString "elastic") queryParams else queryParams in
  (["/publications"; "facets"; facetTypeString facet], queryParams).

(** The [subject] parameter as the route then holds it. *)
Definition subjectRouteParam (st : State) : option string :=
  match queryParam "subject" (targetQueryParams st) with
  | Some (QString s) => Some s
  | _ => None
  end.

(** What the callbacks of one [fetchPublications] call close over. *)
Record Pending : Type := {
  request : HttpRequest;
  currentPage : Z;
  requestedPageSize : Z;
  isSearch : bool;
  usingSearchEndpoint : bool
}.

(** [hasAdditionalFilters] of [fetchPublications] *)
Definition hasAdditionalFilters (st : State) : bool :=
  Js.truthyOpt (journalSlug st) ||
  Js.truthyOpt (issuedFrom st) ||
  Js.truthyOpt (issuedTo st) ||
  Js.truthyOpt (ordering st) ||
  negb (Z.of_nat (length (subjectFilters st)) =? 0) ||
  negb (Z.of_nat (length (authorFilters st)) =? 0) ||
  negb (Z.of_nat (length (issuedYearFilters st)) =? 0).

Section WithBaseUrl.
Variable baseUrl : string.

(** [fetchPublications], up to the subscription. *)
Definition fetchPublications (st : State) : State * Pending :=
  let currentPage := page st in
  let currentSearch := searchQuery st in
  let trimmedSearch := Js.trim currentSearch in
  let isSearch := 0 <? Z.of_nat (String.length trimmedSearch) in
  let requestedPageSize := Js.max 1 (pageSize st) in
  let subjectValues := subjectFilters st in
  let subjectString :=
    if negb (Z.of_nat (length subjectValues) =? 0)
    then Some (Js.join ", " subjectValues) else None in
  let authors := authorFilters st in
  let issuedYears := issuedYearFilters st in
  let usingSearchEndpoint := isSearch && negb (hasAdditionalFilters st) in
  let filterOptions (search : option string) :=
    {| PublicationApiService.O.page := Some currentPage;
       PublicationApiService.O.search := search;
       PublicationApiService.O.pageSize := Some requestedPageSize;
       PublicationApiService.O.journalSlug := journalSlug st;
       PublicationApiService.O.journalId := None;
       PublicationApiService.O.ordering := ordering st;
       PublicationApiService.O.issuedFrom := issuedFrom st;
       PublicationApiService.O.issuedTo := issuedTo st;
       PublicationApiService.O.subject := subjectString;
       PublicationApiService.O.authors :=
         if negb (Z.of_nat (length authors) =? 0) then Some authors else None;
       PublicationApiService.O.issuedYears :=
         if negb (Z.of_nat (length issuedYears) =? 0)
         then Some (map PublicationApiService.YearString issuedYears) else None |} in
  let request :=
    if usingSearchEndpoint
    then PublicationApiService.search baseUrl trimmedSearch (Some (filterOptions None))
    else PublicationApiService.list baseUrl
           (Some (filterOptions (if isSearch then Some trimmedSearch else None))) in
  ({| hasLoadedInitial := hasLoadedInitial st;
      loading := true;
      error := None;
      publications := publications st;
      facets := facets st;
      count := count st;
      page := page st;
      pageSize := pageSize st;
      searchQuery := searchQuery st;
      journalSlug := journalSlug st;
      journalName := journalName st;
      ordering := ordering st;
      issuedFrom := issuedFrom st;
      issuedTo := issuedTo st;
      subjectFilters := subjectFilters st;
      authorFilters := authorFilters st;
      issuedYearFilters := issuedYearFilters st |},
   {| request := request;
      currentPage := currentPage;
      requestedPageSize := requestedPageSize;
      isSearch := isSearch;
      usingSearchEndpoint := usingSearchEndpoint |}).

(** The [error] callback of the subscription in [fetchPublications]. *)
Definition fetchPublicationsError (p : Pending) (err : option HttpErrorResponse)
    (st : State) : State * list Effect :=
  let detail :=
    Js.nullish (match err with Some e => err_detail e | None => None end)
               "Unable to load publications." in
  let status := match err with Some e => err_status e | None => None end in
  let detail :=
    if usingSearchEndpoint p &&
       match status with Some n => n =? 503 | None => false end
    then "Search is temporarily unavailable. Please try again later."
    else if isSearch p && negb (usingSearchEndpoint p)
    then "Unable to apply the selected filters with search."
    else detail in
  ({| hasLoadedInitial := true;
      loading := false;
      error := Some detail;
      publications := [];
      facets := None;
      count := 0;
      page := page st;
      pageSize := pageSize st;
      searchQuery := searchQuery st;
      journalSlug := journalSlug st;
      journalName := journalName st;
      ordering := ordering st;
      issuedFrom := issuedFrom st;
      issuedTo := issuedTo st;
      subjectFilters := subjectFilters st;
      authorFilters := authorFilters st;
      issuedYearFilters := issuedYearFilters st |},
   []).

End WithBaseUrl.

(** *** Coercions and comparisons *)

(** A value of type [unknown] that the component coerces: a number, a
    string, or [null] / [undefined]. *)
Inductive Raw : Type :=
| RawNumber (n : Z)
| RawString (s : string)
| RawNull.

(** [normalizeYearInput(value)] *)
Definition normalizeYearInput (value : Raw) : option string :=
  match value with
  | RawNull => None
  | RawNumber v =>
      let year := v in
      if (year <? 1000) || (9999 <? year) then None else Some (Js.toString year)
  | RawString v =>
      let trimmed := Js.trim v in
      if negb (Js.truthy trimmed) then None
      else
        let digits := Js.removeNonDigits trimmed in
        if Z.of_nat (String.length digits) <? 4 then None
        else
          let candidate := Js.sliceTo 4 digits in
          match Js.parseInt candidate with
          | Some numeric => if numeric <? 1000 then None else Some candidate
          | None => None
          end
  end.

(** [coerceSliderValue(raw, min, max)] *)
Definition coerceSliderValue (raw : Raw) (min max : Z) : Z :=
  let numeric :=
    match raw with
    | RawNumber n => Some n
    | RawString s => Js.parseInt (Js.trim s)
    | RawNull => Js.parseInt (Js.trim "")
    end in
  match numeric with
  | None => min
  | Some numeric =>
      if numeric <? min then min
      else if max <? numeric then max
      else numeric
  end.

(** [areStringArraysEqual(a, b)] *)
Definition areStringArraysEqual (a b : list string) : bool :=
  if negb (Nat.eqb (length a) (length b)) then false
  else
    let normalizedA := Js.sort (map Js.toLowerCase a) in
    let normalizedB := Js.sort (map Js.toLowerCase b) in
    Js.every (fun value index =>
                match nth_error normalizedB index with
                | Some other => String.eqb value other
                | None => false
                end) normalizedA.

(** [raw && raw.trim().length > 0 ? raw.trim() : null], as the route
    handler reads [journal], [journal_name] and [ordering]. *)
Definition trimmedOrNull (raw : option string) : option string :=
  match raw with
  | Some r =>
      if Js.truthy r && (0 <? Z.of_nat (String.length (Js.trim r)))
      then Some (Js.trim r) else None
  | None => None
  end.

(** [values.map(value => (value ?? '').trim()).filter(value => value.length > 0)] *)
Definition trimmedTerms (values : list string) : list string :=
  filter (fun value => 0 <? Z.of_nat (String.length value)) (map Js.trim values).

(** [values.map(value => Number.parseInt(value, 10)).filter(Number.isFinite)] *)
Definition finiteYears (values : list string) : list Z :=
  flat_map (fun value => match Js.parseInt value with Some n => [n] | None => [] end) values.

(** *** The component beside its signals *)

(** The controls of [filtersForm]. *)
Module FiltersForm.
Record t : Type := {
  journal : string;
  issuedFromSlider : Z;
  issuedToSlider : Z
}.
End FiltersForm.

(** The value of [issuedYearBounds]. *)
Module YearBounds.
Record t : Type := {
  min : Z;
  max : Z
}.
End YearBounds.

Module RouteSnapshotState.
Record t : Type := {
  page : Z;
  search : string;
  pageSize : Z;
  journal : option string;
  journalName : option string;
  ordering : option string;
  issuedFrom : option string;
  issuedTo : option string;
  subjectFilters : list string;
  authors : list string;
  issuedYears : list string
}.
End RouteSnapshotState.

Module ActiveFilterKey.
Inductive t : Type := journal | issued_from | issued_to | subject | author | issued_year.
End ActiveFilterKey.

Module ActiveFilter.
Record t : Type := {
  key : ActiveFilterKey.t;
  label : string;
  value : string;
  dataKey : option string
}.
End ActiveFilter.

(** A received body of the list or search endpoint, as the [next]
    callback reads it: [count] when it is a number, [results] when it is
    an array, [facets] when present. *)
Module ListBody.
Record t : Type := {
  count : option Z;
  results : option (list Models.Publication.t);
  facets : option Models.PublicationFacetCollection.t
}.
End ListBody.

(** The component: its signals, the last route it handled, the filter
    form, the bounds of the year sliders, and the query parameters of the
    current route ([route.snapshot.queryParamMap]). *)
Record Component : Type := {
  signals : State;
  lastRouteState : RouteSnapshotState.t;
  filtersForm : FiltersForm.t;
  issuedYearBounds : YearBounds.t;
  queryParamMap : ParamMap.t
}.

(** The setters of the signals: [setPage v] is [this.page.set(v)], and so on;
    [setHasLoadedInitial] assigns the private field. *)

Definition setHasLoadedInitial (v : bool) (st : State) : State :=
  {| hasLoadedInitial := v; loading := loading st; error := error st;
     publications := publications st; facets := facets st; count := count st;
     page := page st; pageSize := pageSize st; searchQuery := searchQuery st;
     journalSlug := journalSlug st; journalName := journalName st;
     ordering := ordering st; issuedFrom := issuedFrom st; issuedTo := issuedTo st;
     subjectFilters := subjectFilters st; authorFilters := authorFilters st;
     issuedYearFilters := issuedYearFilters st |}.

Definition setLoading (v : bool) (st : State) : State :=
  {| hasLoadedInitial := hasLoadedInitial st; loading := v; error := error st;
     publications := publications st; facets := facets st; count := count st;
     page := page st; pageSize := pageSize st; searchQuery := searchQuery st;
     journalSlug := journalSlug st; journalName := journalName st;
     ordering := ordering st; issuedFrom := issuedFrom st; issuedTo := issuedTo st;
     subjectFilters := subjectFilters st; authorFilters := authorFilters st;
     issuedYearFilters := issuedYearFilters st |}.

Definition setError (v : option string) (st : State) : State :=
  {| hasLoadedInitial := hasLoadedInitial st; loading := loading st; error := v;
     publications := publications st; facets := facets st; count := count st;
     page := page st; pageSize := pageSize st; searchQuery := searchQuery st;
     journalSlug := journalSlug st; journalName := journalName st;
     ordering := ordering st; issuedFrom := issuedFrom st; issuedTo := issuedTo st;
     subjectFilters := subjectFilters st; authorFilters := authorFilters st;
     issuedYearFilters := issuedYearFilters st |}.

Definition setPublications (v : list Models.Publication.t) (st : State) : State :=
  {| hasLoadedInitial := hasLoadedInitial st; loading := loading st; error := error st;
     publications := v; facets := facets st; count := count st; page := page st;
     pageSize := pageSize st; searchQuery := searchQuery st;
     journalSlug := journalSlug st; journalName := journalName st;
     ordering := ordering st; issuedFrom := issuedFrom st; issuedTo := issuedTo st;
     subjectFilters := subjectFilters st; authorFilters := authorFilters st;
     issuedYearFilters := issuedYearFilters st |}.

Definition setFacets (v : option Models.PublicationFacetCollection.t) (st : State) : State :=
  {| hasLoadedInitial := hasLoadedInitial st; loading := loading st; error := error st;
     publications := publications st; facets := v; count := count st; page := page st;
     pageSize := pageSize st; searchQuery := searchQuery st;
     journalSlug := journalSlug st; journalName := journalName st;
     ordering := ordering st; issuedFrom := issuedFrom st; issuedTo := issuedTo st;
     subjectFilters := subjectFilters st; authorFilters := authorFilters st;
     issuedYearFilters := issuedYearFilters st |}.

Definition setCount (v : Z) (st : State) : State :=
  {| hasLoadedInitial := hasLoadedInitial st; loading := loading st; error := error st;
     publications := publications st; facets := facets st; count := v; page := page st;
     pageSize := pageSize st; searchQuery := searchQuery st;
     journalSlug := journalSlug st; journalName := journalName st;
     ordering := ordering st; issuedFrom := issuedFrom st; issuedTo := issuedTo st;
     subjectFilters := subjectFilters st; authorFilters := authorFilters st;
     issuedYearFilters := issuedYearFilters st |}.

Definition setPage (v : Z) (st : State) : State :=
  {| hasLoadedInitial := hasLoadedInitial st; loading := loading st; error := error st;
     publications := publications st; facets := facets st; count := count st; page := v;
     pageSize := pageSize st; searchQuery := searchQuery st;
     journalSlug := journalSlug st; journalName := journalName st;
     ordering := ordering st; issuedFrom := issuedFrom st; issuedTo := issuedTo st;
     subjectFilters := subjectFilters st; authorFilters := authorFilters st;
     issuedYearFilters := issuedYearFilters st |}.

Definition setPageSize (v : Z) (st : State) : State :=
  {| hasLoadedInitial := hasLoadedInitial st; loading := loading st; error := error st;
     publications := publications st; facets := facets st; count := count st;
     page := page st; pageSize := v; searchQuery := searchQuery st;
     journalSlug := journalSlug st; journalName := journalName st;
     ordering := ordering st; issuedFrom := issuedFrom st; issuedTo := issuedTo st;
     subjectFilters := subjectFilters st; authorFilters := authorFilters st;
     issuedYearFilters := issuedYearFilters st |}.

Definition setSearchQuery (v : string) (st : State) : State :=
  {| hasLoadedInitial := hasLoadedInitial st; loading := loading st; error := error st;
     publications := publications st; facets := facets st; count := count st;
     page := page st; pageSize := pageSize st; searchQuery := v;
     journalSlug := journalSlug st; journalName := journalName st;
     ordering := ordering st; issuedFrom := issuedFrom st; issuedTo := issuedTo st;
     subjectFilters := subjectFilters st; authorFilters := authorFilters st;
     issuedYearFilters := issuedYearFilters st |}.

Definition setJournalSlug (v : option string) (st : State) : State :=
  {| hasLoadedInitial := hasLoadedInitial st; loading := loading st; error := error st;
     publications := publications st; facets := facets st; count := count st;
     page := page st; pageSize := pageSize st; searchQuery := searchQuery st;
     journalSlug := v; journalName := journalName st; ordering := ordering st;
     issuedFrom := issuedFrom st; issuedTo := issuedTo st;
     subjectFilters := subjectFilters st; authorFilters := authorFilters st;
     issuedYearFilters := issuedYearFilters st |}.

Definition setJournalName (v : option string) (st : State) : State :=
  {| hasLoadedInitial := hasLoadedInitial st; loading := loading st; error := error st;
     publications := publications st; facets := facets st; count := count st;
     page := page st; pageSize := pageSize st; searchQuery := searchQuery st;
     journalSlug := journalSlug st; journalName := v; ordering := ordering st;
     issuedFrom := issuedFrom st; issuedTo := issuedTo st;
     subjectFilters := subjectFilters st; authorFilters := authorFilters st;
     issuedYearFilters := issuedYearFilters st |}.

Definition setOrdering (v : option string) (st : State) : State :=
  {| hasLoadedInitial := hasLoadedInitial st; loading := loading st; error := error st;
     publications := publications st; facets := facets st; count := count st;
     page := page st; pageSize := pageSize st; searchQuery := searchQuery st;
     journalSlug := journalSlug st; journalName := journalName st; ordering := v;
     issuedFrom := issuedFrom st; issuedTo := issuedTo st;
     subjectFilters := subjectFilters st; authorFilters := authorFilters st;
     issuedYearFilters := issuedYearFilters st |}.

Definition setIssuedFrom (v : option string) (st : State) : State :=
  {| hasLoadedInitial := hasLoadedInitial st; loading := loading st; error := error st;
     publications := publications st; facets := facets st; count := count st;
     page := page st; pageSize := pageSize st; searchQuery := searchQuery st;
     journalSlug := journalSlug st; journalName := journalName st;
     ordering := ordering st; issuedFrom := v; issuedTo := issuedTo st;
     subjectFilters := subjectFilters st; authorFilters := authorFilters st;
     issuedYearFilters := issuedYearFilters st |}.

Definition setIssuedTo (v : option string) (st : State) : State :=
  {| hasLoadedInitial := hasLoadedInitial st; loading := loading st; error := error st;
     publications := publications st; facets := facets st; count := count st;
     page := page st; pageSize := pageSize st; searchQuery := searchQuery st;
     journalSlug := journalSlug st; journalName := journalName st;
     ordering := ordering st; issuedFrom := issuedFrom st; issuedTo := v;
     subjectFilters := subjectFilters st; authorFilters := authorFilters st;
     issuedYearFilters := issuedYearFilters st |}.

Definition setSubjectFilters (v : list string) (st : State) : State :=
  {| hasLoadedInitial := hasLoadedInitial st; loading := loading st; error := error st;
     publications := publications st; facets := facets st; count := count st;
     page := page st; pageSize := pageSize st; searchQuery := searchQuery st;
     journalSlug := journalSlug st; journalName := journalName st;
     ordering := ordering st; issuedFrom := issuedFrom st; issuedTo := issuedTo st;
     subjectFilters := v; authorFilters := authorFilters st;
     issuedYearFilters := issuedYearFilters st |}.

Definition setAuthorFilters (v : list string) (st : State) : State :=
  {| hasLoadedInitial := hasLoadedInitial st; loading := loading st; error := error st;
     publications := publications st; facets := facets st; count := count st;
     page := page st; pageSize := pageSize st; searchQuery := searchQuery st;
     journalSlug := journalSlug st; journalName := journalName st;
     ordering := ordering st; issuedFrom := issuedFrom st; issuedTo := issuedTo st;
     subjectFilters := subjectFilters st; authorFilters := v;
     issuedYearFilters := issuedYearFilters st |}.

Definition setIssuedYearFilters (v : list string) (st : State) : State :=
  {| hasLoadedInitial := hasLoadedInitial st; loading := loading st; error := error st;
     publications := publications st; facets := facets st; count := count st;
     page := page st; pageSize := pageSize st; searchQuery := searchQuery st;
     journalSlug := journalSlug st; journalName := journalName st;
     ordering := ordering st; issuedFrom := issuedFrom st; issuedTo := issuedTo st;
     subjectFilters := subjectFilters st; authorFilters := authorFilters st;
     issuedYearFilters := v |}.


(** Updates of the parts of the component. *)
Definition onSignals (f : State -> State) (c : Component) : Component :=
  {| signals := f (signals c);
     lastRouteState := lastRouteState c;
     filtersForm := filtersForm c;
     issuedYearBounds := issuedYearBounds c;
     queryParamMap := queryParamMap c |}.

Definition withSignals (st : State) (c : Component) : Component :=
  onSignals (fun _ => st) c.

Definition withFiltersForm (form : FiltersForm.t) (c : Component) : Component :=
  {| signals := signals c;
     lastRouteState := lastRouteState c;
     filtersForm := form;
     issuedYearBounds := issuedYearBounds c;
     queryParamMap := queryParamMap c |}.

Definition withBounds (bounds : YearBounds.t) (c : Component) : Component :=
  {| signals := signals c;
     lastRouteState := lastRouteState c;
     filtersForm := filtersForm c;
     issuedYearBounds := bounds;
     queryParamMap := queryParamMap c |}.

Definition withLastRouteState (last : RouteSnapshotState.t) (c : Component) : Component :=
  {| signals := signals c;
     lastRouteState := last;
     filtersForm := filtersForm c;
     issuedYearBounds := issuedYearBounds c;
     queryParamMap := queryParamMap c |}.

(** [filtersForm.patchValue({ issuedFromSlider: a, issuedToSlider: b })] *)
Definition patchSliders (a b : Z) (c : Component) : Component :=
  withFiltersForm
    {| FiltersForm.journal := FiltersForm.journal (filtersForm c);
       FiltersForm.issuedFromSlider := a;
       FiltersForm.issuedToSlider := b |} c.

(** [filtersForm.controls.journal.setValue(v)] *)
Definition patchJournal (v : string) (c : Component) : Component :=
  withFiltersForm
    {| FiltersForm.journal := v;
       FiltersForm.issuedFromSlider := FiltersForm.issuedFromSlider (filtersForm c);
       FiltersForm.issuedToSlider := FiltersForm.issuedToSlider (filtersForm c) |} c.

(** [activeFilters] *)
Definition activeFilters (st : State) : list ActiveFilter.t :=
  let filters : list ActiveFilter.t := [] in
  let filters :=
    if Js.truthyOpt (journalSlug st)
    then (filters ++
          [ {| ActiveFilter.key := ActiveFilterKey.journal;
               ActiveFilter.label := "Journal";
               ActiveFilter.value :=
                 Js.nullish (journalName st) (Js.nullish (journalSlug st) "");
               ActiveFilter.dataKey := journalSlug st |} ])%list
    else filters in
  let filters :=
    if Js.truthyOpt (issuedFrom st)
    then (filters ++
          [ {| ActiveFilter.key := ActiveFilterKey.issued_from;
               ActiveFilter.label := "Issued from";
               ActiveFilter.value := Js.nullish (issuedFrom st) "";
               ActiveFilter.dataKey := None |} ])%list
    else filters in
  let filters :=
    if Js.truthyOpt (issuedTo st)
    then (filters ++
          [ {| ActiveFilter.key := ActiveFilterKey.issued_to;
               ActiveFilter.label := "Issued to";
               ActiveFilter.value := Js.nullish (issuedTo st) "";
               ActiveFilter.dataKey := None |} ])%list
    else filters in
  let filters :=
    (filters ++
     map (fun subject =>
            {| ActiveFilter.key := ActiveFilterKey.subject;
               ActiveFilter.label := "Subject";
               ActiveFilter.value := subject;
               ActiveFilter.dataKey := Some subject |}) (subjectFilters st))%list in
  let filters :=
    (filters ++
     map (fun author =>
            {| ActiveFilter.key := ActiveFilterKey.author;
               ActiveFilter.label := "Author";
               ActiveFilter.value := author;
               ActiveFilter.dataKey := Some author |}) (authorFilters st))%list in
  let filters :=
    (filters ++
     map (fun issuedYear =>
            {| ActiveFilter.key := ActiveFilterKey.issued_year;
               ActiveFilter.label := "Issued year";
               ActiveFilter.value := issuedYear;
               ActiveFilter.dataKey := Some issuedYear |}) (issuedYearFilters st))%list in
  filters.

(** [hasActiveFilters] *)
Definition hasActiveFilters (st : State) : bool :=
  0 <? Z.of_nat (length (activeFilters st)).

(** [ensureYearWithinBounds(year)] *)
Definition ensureYearWithinBounds (year : Z) (c : Component) : Component :=
  let bounds := issuedYearBounds c in
  let min := Js.min (YearBounds.min bounds) year in
  let max := Js.max (YearBounds.max bounds) year in
  if negb (min =? YearBounds.min bounds) || negb (max =? YearBounds.max bounds)
  then withBounds {| YearBounds.min := min; YearBounds.max := max |} c
  else c.

(** [updateIssuedYearBounds(facets)] *)
Definition updateIssuedYearBounds (facets : option Models.PublicationFacetCollection.t)
    (c : Component) : Component :=
  match facets with
  | None => c
  | Some collection =>
      let years := finiteYears (issuedYearFilters (signals c)) in
      let facetItems :=
        Models.FacetSummary.items (Models.PublicationFacetCollection.issued_years collection) in
      let years := (years ++ finiteYears (map Models.FacetItem.value facetItems))%list in
      if Z.of_nat (length years) =? 0 then c
      else
        let bounds := issuedYearBounds c in
        let min := Js.minOf (YearBounds.min bounds) years in
        let max := Js.maxOf (YearBounds.max bounds) years in
        if negb (min =? YearBounds.min bounds) || negb (max =? YearBounds.max bounds)
        then withBounds {| YearBounds.min := min; YearBounds.max := max |} c
        else c
  end.

(** [updateQueryParams()]: whether it navigated, and the navigation. The
    target parameters are compared with those of the current route. *)
Definition updateQueryParams (c : Component) : bool * list Effect :=
  let st := signals c in
  let queryParams := targetQueryParams st in
  let subjectValues := subjectFilters st in
  let authors := authorFilters st in
  let issuedYears := issuedYearFilters st in
  let currentParams := queryParamMap c in
  let currentPage := ParamMap.get "page" currentParams in
  let currentSearch := Js.nullish (ParamMap.get "search" currentParams) "" in
  let currentPageSize := ParamMap.get "page_size" currentParams in
  let currentJournal := ParamMap.get "journal" currentParams in
  let currentJournalName := ParamMap.get "journal_name" currentParams in
  let currentOrdering := ParamMap.get "ordering" currentParams in
  let currentIssuedFrom := ParamMap.get "issued_from" currentParams in
  let currentIssuedTo := ParamMap.get "issued_to" currentParams in
  let currentSubjectValues := parseSubjectParam (ParamMap.get "subject" currentParams) in
  let currentAuthors := trimmedTerms (ParamMap.getAll "author" currentParams) in
  let currentIssuedYears := trimmedTerms (ParamMap.getAll "issued_year" currentParams) in
  let targetPage := option_map valueString (queryParam "page" queryParams) in
  let targetSearch := Js.nullish (option_map valueString (queryParam "search" queryParams)) "" in
  let targetPageSize := option_map valueString (queryParam "page_size" queryParams) in
  let targetJournal := journalSlug st in
  let targetJournalName :=
    if Js.truthyOpt (journalSlug st) && Js.truthyOpt (journalName st)
    then journalName st else None in
  let targetOrdering := ordering st in
  let targetIssuedFrom := issuedFrom st in
  let targetIssuedTo := issuedTo st in
  let subjectsEqual := areStringArraysEqual currentSubjectValues subjectValues in
  let authorsEqual := areStringArraysEqual currentAuthors authors in
  let issuedYearsEqual := areStringArraysEqual currentIssuedYears issuedYears in
  if Js.sameOpt currentPage targetPage &&
     String.eqb currentSearch targetSearch &&
     Js.sameOpt currentPageSize targetPageSize &&
     Js.sameOpt currentJournal targetJournal &&
     Js.sameOpt currentJournalName targetJournalName &&
     Js.sameOpt currentOrdering targetOrdering &&
     Js.sameOpt currentIssuedFrom targetIssuedFrom &&
     Js.sameOpt currentIssuedTo targetIssuedTo &&
     subjectsEqual && authorsEqual && issuedYearsEqual
  then (false, [])
  else (true, [Navigate [] queryParams]).

Section Methods.
Variable baseUrl : string.

(** The block that ends [goToPage], [refreshFilterResults] and the
    handlers of the search box:
    [hasLoadedInitial = false], then [updateQueryParams()], and when that
    did not navigate, [fetchPublications()] and [hasLoadedInitial = true]. *)
Definition navigateOrFetch (c : Component) : Component * list Effect :=
  let c := onSignals (setHasLoadedInitial false) c in
  let '(navigated, effects) := updateQueryParams c in
  if negb navigated
  then
    let '(st, pending) := fetchPublications baseUrl (signals c) in
    (onSignals (setHasLoadedInitial true) (withSignals st c),
     (effects ++ [Http (request pending)])%list)
  else (c, effects).

(** [refreshFilterResults()] *)
Definition refreshFilterResults (c : Component) : Component * list Effect :=
  let c := if negb (page (signals c) =? 1) then onSignals (setPage 1) c else c in
  navigateOrFetch c.

(** [goToPage(page)] *)
Definition goToPage (target : Z) (c : Component) : Component * list Effect :=
  if (target =? page (signals c)) || (target <? 1) || (totalPages (signals c) <? target)
  then (c, [])
  else navigateOrFetch (onSignals (setPage target) c).

(** [nextPage()] and [previousPage()] *)
Definition nextPage (c : Component) : Component * list Effect :=
  goToPage (page (signals c) + 1) c.

Definition previousPage (c : Component) : Component * list Effect :=
  goToPage (page (signals c) - 1) c.

(** [clearFilter(key, value)] *)
Definition clearFilter (key : ActiveFilterKey.t) (value : option string) (c : Component)
    : Component * list Effect :=
  let st := signals c in
  let changed := false in
  let '(c, changed) :=
    match key with
    | ActiveFilterKey.journal =>
        let '(c, changed) :=
          if Js.truthyOpt (journalSlug st)
          then (onSignals (setJournalSlug None) c, true) else (c, changed) in
        let c :=
          if Js.truthyOpt (journalName st) then onSignals (setJournalName None) c else c in
        if Js.truthy (FiltersForm.journal (filtersForm c))
        then (patchJournal "" c, true) else (c, changed)
    | ActiveFilterKey.issued_from =>
        let bounds := issuedYearBounds c in
        let '(c, changed) :=
          if negb (FiltersForm.issuedFromSlider (filtersForm c) =? YearBounds.min bounds)
          then (patchSliders (YearBounds.min bounds)
                  (FiltersForm.issuedToSlider (filtersForm c)) c, true)
          else (c, changed) in
        if Js.truthyOpt (issuedFrom st)
        then (onSignals (setIssuedFrom None) c, true) else (c, changed)
    | ActiveFilterKey.issued_to =>
        let bounds := issuedYearBounds c in
        let '(c, changed) :=
          if negb (FiltersForm.issuedToSlider (filtersForm c) =? YearBounds.max bounds)
          then (patchSliders (FiltersForm.issuedFromSlider (filtersForm c))
                  (YearBounds.max bounds) c, true)
          else (c, changed) in
        if Js.truthyOpt (issuedTo st)
        then (onSignals (setIssuedTo None) c, true) else (c, changed)
    | ActiveFilterKey.subject =>
        let current := subjectFilters st in
        let target := Js.toLowerCase (Js.nullish value "") in
        let next :=
          filter (fun subject => negb (String.eqb (Js.toLowerCase subject) target)) current in
        if negb (Nat.eqb (length next) (length current))
        then (onSignals (setSubjectFilters next) c, true) else (c, changed)
    | ActiveFilterKey.author =>
        let current := authorFilters st in
        let target := Js.toLowerCase (Js.nullish value "") in
        let next :=
          filter (fun author => negb (String.eqb (Js.toLowerCase author) target)) current in
        if negb (Nat.eqb (length next) (length current))
        then (onSignals (setAuthorFilters next) c, true) else (c, changed)
    | ActiveFilterKey.issued_year =>
        let current := issuedYearFilters st in
        let target := Js.trim (Js.nullish value "") in
        let next := filter (fun year => negb (String.eqb year target)) current in
        let '(c, changed) :=
          if negb (Nat.eqb (length next) (length current))
          then (onSignals (setIssuedYearFilters next) c, true) else (c, changed) in
        let c :=
          if Nat.eqb (length next) 0
          then
            let bounds := issuedYearBounds c in
            let c := patchSliders (YearBounds.min bounds) (YearBounds.max bounds) c in
            onSignals (setIssuedTo None) (onSignals (setIssuedFrom None) c)
          else c in
        (c, changed)
    end in
  if negb changed then (c, []) else refreshFilterResults c.

(** [toggleFacet(facet, item)] *)
Definition toggleFacet (facet : FacetType) (item : Models.FacetItem.t) (c : Component)
    : Component * list Effect :=
  let st := signals c in
  match facet with
  | journals =>
      let current := journalSlug st in
      if Js.sameOpt current (Some (Models.FacetItem.value item))
      then clearFilter ActiveFilterKey.journal None c
      else
        let c := onSignals (setJournalSlug (Some (Models.FacetItem.value item))) c in
        let c := onSignals (setJournalName (Some (Models.FacetItem.label item))) c in
        let c := patchJournal (Models.FacetItem.value item) c in
        refreshFilterResults c
  | issued_years =>
      let value := Js.trim (Models.FacetItem.value item) in
      if negb (Js.truthy value) then (c, [])
      else
        let existing := issuedYearFilters st in
        if existsb (String.eqb value) existing
        then clearFilter ActiveFilterKey.issued_year (Some value) c
        else
          let c := onSignals (setIssuedYearFilters (existing ++ [value])%list) c in
          let c := onSignals (setIssuedFrom None) c in
          let c := onSignals (setIssuedTo None) c in
          let c :=
            match Js.parseInt value with
            | Some numeric => patchSliders numeric numeric (ensureYearWithinBounds numeric c)
            | None => c
            end in
          refreshFilterResults c
  | subjects =>
      let value := Js.trim (Models.FacetItem.value item) in
      if negb (Js.truthy value) then (c, [])
      else
        let existing := subjectFilters st in
        if existsb (fun entry => String.eqb (Js.toLowerCase entry) (Js.toLowerCase value))
                   existing
        then clearFilter ActiveFilterKey.subject (Some value) c
        else refreshFilterResults (onSignals (setSubjectFilters (existing ++ [value])%list) c)
  | authors =>
      let value := Js.trim (Models.FacetItem.value item) in
      if negb (Js.truthy value) then (c, [])
      else
        let existing := authorFilters st in
        if existsb (fun entry => String.eqb (Js.toLowerCase entry) (Js.toLowerCase value))
                   existing
        then clearFilter ActiveFilterKey.author (Some value) c
        else refreshFilterResults (onSignals (setAuthorFilters (existing ++ [value])%list) c)
  end.

(** [clearAllFilters()] *)
Definition clearAllFilters (c : Component) : Component * list Effect :=
  let st := signals c in
  if negb (hasActiveFilters st) then (c, [])
  else
    let bounds := issuedYearBounds c in
    let c :=
      withFiltersForm
        {| FiltersForm.journal := "";
           FiltersForm.issuedFromSlider := YearBounds.min bounds;
           FiltersForm.issuedToSlider := YearBounds.max bounds |} c in
    let hadChanges :=
      Js.truthyOpt (journalSlug st) ||
      Js.truthyOpt (issuedFrom st) ||
      Js.truthyOpt (issuedTo st) ||
      negb (Z.of_nat (length (subjectFilters st)) =? 0) ||
      negb (Z.of_nat (length (authorFilters st)) =? 0) ||
      negb (Z.of_nat (length (issuedYearFilters st)) =? 0) in
    let c := onSignals (setJournalSlug None) c in
    let c := onSignals (setJournalName None) c in
    let c := onSignals (setOrdering None) c in
    let c := onSignals (setIssuedFrom None) c in
    let c := onSignals (setIssuedTo None) c in
    let c := onSignals (setSubjectFilters []) c in
    let c := onSignals (setAuthorFilters []) c in
    let c := onSignals (setIssuedYearFilters []) c in
    if negb hadChanges then (c, []) else refreshFilterResults c.

(** The subscription to [route.queryParamMap] in [ngOnInit]; [pageParam]
    and [pageSizeParam] are [Number(params.get('page'))] and
    [Number(params.get('page_size'))] when these are whole numbers, [None]
    when they are [NaN]. The source keeps a positive page as it is, without
    rounding it, so that a page that is not whole ([?page=0.5]) stays in
    the signal; such a route is outside the embedding, whose pages are
    whole. The page size is rounded down by the source, which changes
    nothing on a whole number. The slider values the handler computes from
    the route are not used by it and are left out. *)
Definition onQueryParams (pageParam pageSizeParam : option Z) (params : ParamMap.t)
    (c : Component) : Component * list Effect :=
  let bounds := issuedYearBounds c in
  let resolvedPage :=
    match pageParam with
    | Some n => if 0 <? n then n else 1
    | None => 1
    end in
  let searchParam := Js.nullish (ParamMap.get "search" params) "" in
  let normalizedSearchParam := Js.trim searchParam in
  let parsedPageSize :=
    match pageSizeParam with
    | Some n => if 0 <? n then n else DEFAULT_PAGE_SIZE
    | None => DEFAULT_PAGE_SIZE
    end in
  let resolvedPageSize := Js.max 1 parsedPageSize in
  let journalParam := trimmedOrNull (ParamMap.get "journal" params) in
  let journalNameParam := trimmedOrNull (ParamMap.get "journal_name" params) in
  let orderingParam := trimmedOrNull (ParamMap.get "ordering" params) in
  let rawParam := fun name =>
    match ParamMap.get name params with
    | Some s => RawString s
    | None => RawNull
    end in
  let issuedFromParamNormalized := Js.nullish (normalizeYearInput (rawParam "issued_from")) "" in
  let issuedToParamNormalized := Js.nullish (normalizeYearInput (rawParam "issued_to")) "" in
  let subjectTermList := parseSubjectParam (ParamMap.get "subject" params) in
  let authorTermList := trimmedTerms (ParamMap.getAll "author" params) in
  let issuedYearList := trimmedTerms (ParamMap.getAll "issued_year" params) in
  let numericIssuedYears := finiteYears issuedYearList in
  let numericIssuedFrom :=
    if Js.truthy issuedFromParamNormalized
    then Js.parseInt issuedFromParamNormalized else None in
  let numericIssuedYears :=
    match numericIssuedFrom with
    | Some n => (numericIssuedYears ++ [n])%list
    | None => numericIssuedYears
    end in
  let numericIssuedTo :=
    if Js.truthy issuedToParamNormalized
    then Js.parseInt issuedToParamNormalized else None in
  let numericIssuedYears :=
    match numericIssuedTo with
    | Some n => (numericIssuedYears ++ [n])%list
    | None => numericIssuedYears
    end in
  let c :=
    if negb (Z.of_nat (length numericIssuedYears) =? 0)
    then
      let min := Js.minOf (YearBounds.min bounds) numericIssuedYears in
      let max := Js.maxOf (YearBounds.max bounds) numericIssuedYears in
      if negb (min =? YearBounds.min bounds) || negb (max =? YearBounds.max bounds)
      then withBounds {| YearBounds.min := min; YearBounds.max := max |} c
      else c
    else c in
  let last := lastRouteState c in
  let pageChanged := negb (resolvedPage =? RouteSnapshotState.page last) in
  let searchChanged :=
    negb (String.eqb normalizedSearchParam (RouteSnapshotState.search last)) in
  let pageSizeChanged := negb (resolvedPageSize =? RouteSnapshotState.pageSize last) in
  let journalChanged := negb (Js.sameOpt journalParam (RouteSnapshotState.journal last)) in
  let journalNameChanged :=
    negb (Js.sameOpt journalNameParam (RouteSnapshotState.journalName last)) in
  let orderingChanged := negb (Js.sameOpt orderingParam (RouteSnapshotState.ordering last)) in
  let issuedFromChanged :=
    negb (Js.sameOpt (Some issuedFromParamNormalized) (RouteSnapshotState.issuedFrom last)) in
  let issuedToChanged :=
    negb (Js.sameOpt (Some issuedToParamNormalized) (RouteSnapshotState.issuedTo last)) in
  let subjectChanged :=
    negb (areStringArraysEqual subjectTermList (RouteSnapshotState.subjectFilters last)) in
  let authorsChanged :=
    negb (areStringArraysEqual authorTermList (RouteSnapshotState.authors last)) in
  let issuedYearsChanged :=
    negb (areStringArraysEqual issuedYearList (RouteSnapshotState.issuedYears last)) in
  let c := onSignals (setPage resolvedPage) c in
  let c := onSignals (setSearchQuery normalizedSearchParam) c in
  let c := onSignals (setPageSize resolvedPageSize) c in
  let c := onSignals (setJournalSlug journalParam) c in
  let c := onSignals (setJournalName journalNameParam) c in
  let c := onSignals (setOrdering orderingParam) c in
  let c := onSignals (setIssuedFrom (Js.orUndefined issuedFromParamNormalized)) c in
  let c := onSignals (setIssuedTo (Js.orUndefined issuedToParamNormalized)) c in
  let c := onSignals (setSubjectFilters subjectTermList) c in
  let c := onSignals (setAuthorFilters authorTermList) c in
  let c := onSignals (setIssuedYearFilters issuedYearList) c in
  let '(c, effects) :=
    if negb (hasLoadedInitial (signals c)) || pageChanged || searchChanged ||
       pageSizeChanged || journalChanged || journalNameChanged || orderingChanged ||
       issuedFromChanged || issuedToChanged || subjectChanged || authorsChanged ||
       issuedYearsChanged
    then
      let '(st, pending) := fetchPublications baseUrl (signals c) in
      (withSignals st c, [Http (request pending)])
    else (c, []) in
  let c := onSignals (setHasLoadedInitial true) c in
  (withLastRouteState
     {| RouteSnapshotState.page := resolvedPage;
        RouteSnapshotState.search := normalizedSearchParam;
        RouteSnapshotState.pageSize := resolvedPageSize;
        RouteSnapshotState.journal := journalParam;
        RouteSnapshotState.journalName := journalNameParam;
        RouteSnapshotState.ordering := orderingParam;
        RouteSnapshotState.issuedFrom := Some issuedFromParamNormalized;
        RouteSnapshotState.issuedTo := Some issuedToParamNormalized;
        RouteSnapshotState.subjectFilters := subjectTermList;
        RouteSnapshotState.authors := authorTermList;
        RouteSnapshotState.issuedYears := issuedYearList |} c,
   effects).

(** The subscription to [controls.search.valueChanges] in [ngOnInit]. *)
Definition searchValueChanges (value : string) (c : Component) : Component * list Effect :=
  let trimmed := Js.trim value in
  if String.eqb trimmed (searchQuery (signals c)) then (c, [])
  else
    let c := onSignals (setSearchQuery trimmed) c in
    let c := if negb (page (signals c) =? 1) then onSignals (setPage 1) c else c in
    navigateOrFetch c.

(** The subscription to [filterControls.issuedFromSlider.valueChanges]. *)
Definition issuedFromSliderValueChanges (value : Raw) (c : Component)
    : Component * list Effect :=
  let bounds := issuedYearBounds c in
  let fromValue := coerceSliderValue value (YearBounds.min bounds) (YearBounds.max bounds) in
  let currentToRaw := FiltersForm.issuedToSlider (filtersForm c) in
  let toValue :=
    coerceSliderValue (RawNumber currentToRaw) (YearBounds.min bounds) (YearBounds.max bounds) in
  let '(fromValue, c) :=
    if toValue <? fromValue
    then (toValue, patchSliders toValue (FiltersForm.issuedToSlider (filtersForm c)) c)
    else (fromValue, c) in
  let filterValue :=
    if fromValue <=? YearBounds.min bounds then None else Some (Js.toString fromValue) in
  if Js.sameOpt filterValue (issuedFrom (signals c)) then (c, [])
  else
    let c := onSignals (setIssuedFrom filterValue) c in
    let c :=
      if negb (Z.of_nat (length (issuedYearFilters (signals c))) =? 0)
      then onSignals (setIssuedYearFilters []) c else c in
    refreshFilterResults c.

(** The subscription to [filterControls.issuedToSlider.valueChanges]. *)
Definition issuedToSliderValueChanges (value : Raw) (c : Component)
    : Component * list Effect :=
  let bounds := issuedYearBounds c in
  let currentFromRaw := FiltersForm.issuedFromSlider (filtersForm c) in
  let fromValue :=
    coerceSliderValue (RawNumber currentFromRaw) (YearBounds.min bounds)
      (YearBounds.max bounds) in
  let toValue := coerceSliderValue value (YearBounds.min bounds) (YearBounds.max bounds) in
  let '(toValue, c) :=
    if toValue <? fromValue
    then (fromValue, patchSliders (FiltersForm.issuedFromSlider (filtersForm c)) fromValue c)
    else (toValue, c) in
  let filterValue :=
    if YearBounds.max bounds <=? toValue then None else Some (Js.toString toValue) in
  if Js.sameOpt filterValue (issuedTo (signals c)) then (c, [])
  else
    let c := onSignals (setIssuedTo filterValue) c in
    let c :=
      if negb (Z.of_nat (length (issuedYearFilters (signals c))) =? 0)
      then onSignals (setIssuedYearFilters []) c else c in
    refreshFilterResults c.

(** The [next] callback of the subscription in [fetchPublications]. *)
Definition fetchPublicationsNext (p : Pending) (response : ListBody.t) (c : Component)
    : Component * list Effect :=
  let results := Js.nullish (ListBody.results response) [] in
  let totalCount := Js.nullish (ListBody.count response) (Z.of_nat (length results)) in
  let totalPages :=
    if 0 <? totalCount then Js.ceilDiv totalCount (requestedPageSize p) else 1 in
  let c := onSignals (setCount totalCount) c in
  let c := onSignals (setFacets (ListBody.facets response)) c in
  let c := updateIssuedYearBounds (ListBody.facets response) c in
  if totalCount =? 0
  then
    let '(c, effects) :=
      if negb (currentPage p =? 1)
      then
        let c := onSignals (setPage 1) c in
        let c := onSignals (setHasLoadedInitial false) c in
        let '(navigated, effects) := updateQueryParams c in
        ((if negb navigated then onSignals (setHasLoadedInitial true) c else c), effects)
      else (c, []) in
    let c := onSignals (setPublications []) c in
    let c := onSignals (setLoading false) c in
    (onSignals (setHasLoadedInitial true) c, effects)
  else
    let fallbackPage := Js.max 1 totalPages in
    if (Z.of_nat (length results) =? 0) && (totalPages <? currentPage p) &&
       negb (fallbackPage =? currentPage p)
    then
      let c := onSignals (setPage fallbackPage) c in
      let c := onSignals (setHasLoadedInitial false) c in
      let '(navigated, effects) := updateQueryParams c in
      let '(c, effects) :=
        if negb navigated
        then
          let '(st, pending) := fetchPublications baseUrl (signals c) in
          (onSignals (setHasLoadedInitial true) (withSignals st c),
           (effects ++ [Http (request pending)])%list)
        else (c, effects) in
      (onSignals (setLoading false) c, effects)
    else
      let c := onSignals (setPublications results) c in
      let c := onSignals (setLoading false) c in
      (onSignals (setHasLoadedInitial true) c, []).

End Methods.

(** *** What the template shows of a publication *)

(** [formatList(values)] *)
Definition formatList (values : option (list string)) : string :=
  match values with
  | Some l => if Z.of_nat (length l) =? 0 then "" else Js.join ", " l
  | None => ""
  end.

(** [metadataValues(publication, element, qualifier)]; [qualifier] is
    [None] when the argument is left out. *)
Definition metadataValues (publication : Models.Publication.t) (element : string)
    (qualifier : option string) : list string :=
  match Models.Publication.metadata publication with
  | None => []
  | Some metadata =>
      if Z.of_nat (length metadata) =? 0 then []
      else
        let elementLower := Js.toLowerCase element in
        let qualifierLower :=
          if Js.truthyOpt qualifier
          then Some (Js.toLowerCase (Js.nullish qualifier "")) else None in
        filter (fun value => Js.truthy value && Js.truthy (Js.trim value))
          (map Models.PublicationMetadataEntry.value
             (filter
                (fun entry =>
                   if negb (String.eqb
                              (Js.toLowerCase
                                 (Js.orElse (Models.PublicationMetadataEntry.schema entry) "dc"))
                              "dc")
                   then false
                   else if negb (String.eqb
                                   (Js.toLowerCase (Models.PublicationMetadataEntry.element entry))
                                   elementLower)
                   then false
                   else if Js.truthyOpt qualifierLower
                   then String.eqb
                          (Js.toLowerCase
                             (Js.nullish (Models.PublicationMetadataEntry.qualifier entry) ""))
                          (Js.nullish qualifierLower "")
                   else true)
                metadata))
  end.

End PublicationListComponent.

(** ** features/harvest-logs/harvest-log-list/harvest-log-list.component.ts *)

Module HarvestLogListComponent.

Definition DEFAULT_PAGE_SIZE : Z := 25.
Definition PAGE_SIZE_OPTIONS : list Z := [10; 25; 50; 100].
Definition MAX_PAGE_LINKS : Z := 7.

Record State : Type := {
  loading : bool;
  error : option string;
  logs : list Models.HarvestLog.t;
  count : Z;
  page : Z;
  pageSize : Z;
  journalSlug : option string;
  journalName : option string;
  statusFilter : option string;
  pageSizeOptions : list Z
}.

(** [totalPages] *)
Definition totalPages (st : State) : Z :=
  let total := count st in
  let size := Js.max 1 (pageSize st) in
  if total =? 0 then 1 else Js.ceilDiv total size.

(** [pageNumbers] *)
Definition pageNumbers (st : State) : list Z :=
  let total := totalPages st in
  let current := page st in
  let maxLinks := MAX_PAGE_LINKS in
  if total <=? maxLinks then Js.arrayFrom total (fun index => index + 1)
  else
    let half := maxLinks / 2 in
    let start := current - half in
    let end_ := current + half in
    let '(start, end_) :=
      if start <? 1 then (1, 1 + maxLinks - 1) else (start, end_) in
    let '(start, end_) :=
      if total <? end_ then (total - maxLinks + 1, total) else (start, end_) in
    Js.arrayFrom (end_ - start + 1) (fun index => start + index).

(** [statusParam && ['running', 'success', 'failed'].includes(statusParam)
    ? statusParam : null] *)
Definition normalizedStatus (statusParam : option string) : option string :=
  match statusParam with
  | Some s =>
      if Js.truthy s && existsb (String.eqb s) ["running"; "success"; "failed"]
      then Some s else None
  | None => None
  end.

(** The overrides object given to [updateQueryParams]; the outer [option]
    of a field is [hasOwnProperty]. *)
Record Overrides : Type := {
  o_page : option Z;
  o_page_size : option Z;
  o_journal : option (option string);
  o_journal_name : option (option string);
  o_status : option (option string)
}.

Definition noOverrides : Overrides :=
  {| o_page := None; o_page_size := None; o_journal := None;
     o_journal_name := None; o_status := None |}.

Definition stringOrNull (v : option string) : QueryValue :=
  match v with
  | Some s => if Js.truthy s then QString s else QNull
  | None => QNull
  end.

(** [String(nextValue)] of [updateQueryParams] *)
Definition queryValueString (v : QueryValue) : string :=
  match v with
  | QString s => s
  | QNumber n => Js.toString n
  | QArray l => Js.join "," l
  | QNull => "null"
  end.

(** [updateQueryParams(overrides)], against the query parameters of the
    current route. *)
Definition updateQueryParams (current : ParamMap.t) (overrides : Overrides)
    (st : State) : list Effect :=
  let nextPage := Js.nullish (o_page overrides) (page st) in
  let nextPageSize := Js.nullish (o_page_size overrides) (pageSize st) in
  let nextJournal := Js.nullish (o_journal overrides) (journalSlug st) in
  let nextJournalName := Js.nullish (o_journal_name overrides) (journalName st) in
  let nextStatus := Js.nullish (o_status overrides) (statusFilter st) in
  let queryParams : QueryParams :=
    [ ("page", if 1 <? nextPage then QNumber nextPage else QNull);
      ("page_size",
       if negb (nextPageSize =? DEFAULT_PAGE_SIZE) then QNumber nextPageSize else QNull);
      ("journal", stringOrNull nextJournal);
      ("journal_name", stringOrNull nextJournalName);
      ("status", stringOrNull nextStatus) ] in
  let isDifferent :=
    existsb (fun kv =>
               let currentValue := ParamMap.get (fst kv) current in
               match snd kv with
               | QNull => match currentValue with Some _ => true | None => false end
               | nextValue =>
                   match currentValue with
                   | Some c => negb (String.eqb (queryValueString nextValue) c)
                   | None => true
                   end
               end) queryParams in
  if negb isDifferent then [] else [Navigate [] queryParams].

Section WithBaseUrl.
Variable baseUrl : string.

(** [fetchLogs], up to the subscription. *)
Definition fetchLogs (st : State) : State * list Effect :=
  let page := page st in
  let pageSize := pageSize st in
  let journal := journalSlug st in
  let status := statusFilter st in
  ({| loading := true;
      error := None;
      logs := logs st;
      count := count st;
      page := page;
      pageSize := pageSize;
      journalSlug := journalSlug st;
      journalName := journalName st;
      statusFilter := statusFilter st;
      pageSizeOptions := pageSizeOptions st |},
   [Http (HarvestLogApiService.list baseUrl
            {| HarvestLogApiService.page := Some page;
               HarvestLogApiService.pageSize := Some pageSize;
               HarvestLogApiService.journal :=
                 if Js.truthyOpt journal then journal else None;
               HarvestLogApiService.journalId := None;
               HarvestLogApiService.status :=
                 if Js.truthyOpt status then status else None |})]).

(** The subscription to [route.queryParamMap] in [ngOnInit];
    [pageParam] and [pageSizeParam] are [Number(params.get('page'))] and
    [Number(params.get('page_size'))] when these are whole numbers, [None]
    when they are [NaN]. The source rounds a positive page and a positive
    page size down with [Math.floor], which changes nothing on a whole
    number; a route whose page is not whole ([?page=0.5], where the source
    stores page 0) is outside the embedding. *)
Definition onQueryParams (pageParam pageSizeParam : option Z) (params : ParamMap.t)
    (st : State) : State * list Effect :=
  let resolvedPage :=
    match pageParam with
    | Some n => if 0 <? n then n else 1
    | None => 1
    end in
  let resolvedPageSize :=
    match pageSizeParam with
    | Some n => if 0 <? n then n else DEFAULT_PAGE_SIZE
    | None => DEFAULT_PAGE_SIZE
    end in
  let journalParam := ParamMap.get "journal" params in
  let journalNameParam := ParamMap.get "journal_name" params in
  let statusParam := ParamMap.get "status" params in
  let normalizedStatus := normalizedStatus statusParam in
  let normalizedSize := Js.max 1 resolvedPageSize in
  let options :=
    if negb (existsb (Z.eqb normalizedSize) (pageSizeOptions st))
    then Js.sortBy Z.leb (pageSizeOptions st ++ [normalizedSize])%list
    else pageSizeOptions st in
  fetchLogs
    {| loading := loading st;
       error := error st;
       logs := logs st;
       count := count st;
       page := resolvedPage;
       pageSize := normalizedSize;
       journalSlug :=
         if Js.truthyOpt journalParam
         then Some (Js.trim (Js.nullish journalParam "")) else None;
       journalName :=
         match journalNameParam with
         | Some n => if Js.truthy n && Js.truthy (Js.trim n)
                     then Some (Js.trim n) else journalName st
         | None => journalName st
         end;
       statusFilter := normalizedStatus;
       pageSizeOptions := options |}.

End WithBaseUrl.

(** [applyStatusFilter(status)] *)
Definition applyStatusFilter (current : ParamMap.t)
    (status : option Models.HarvestStatus.t) (st : State) : State * list Effect :=
  let st' :=
    {| loading := loading st;
       error := error st;
       logs := logs st;
       count := count st;
       page := page st;
       pageSize := pageSize st;
       journalSlug := journalSlug st;
       journalName := journalName st;
       statusFilter := option_map Models.HarvestStatus.toString status;
       pageSizeOptions := pageSizeOptions st |} in
  (st',
   updateQueryParams current
     {| o_page := Some 1; o_page_size := None; o_journal := None;
        o_journal_name := None;
        o_status := Some (option_map Models.HarvestStatus.toString status) |} st').

(** [onStatusChange(value)] *)
Definition onStatusChange (current : ParamMap.t) (value : string) (st : State)
    : State * list Effect :=
  if negb (Js.truthy value) || String.eqb value "all"
  then applyStatusFilter current None st
  else if String.eqb value "success"
  then applyStatusFilter current (Some Models.HarvestStatus.success) st
  else if String.eqb value "failed"
  then applyStatusFilter current (Some Models.HarvestStatus.failed) st
  else if String.eqb value "running"
  then applyStatusFilter current (Some Models.HarvestStatus.running) st
  else (st, []).


(** A received body of the harvest-log endpoint, as the [next] callback
    reads it: [count] when it is a number, [results] when it is an array. *)
Module LogsBody.
Record t : Type := {
  count : option Z;
  results : option (list Models.HarvestLog.t)
}.
End LogsBody.

(** [STATUS_BADGE_MAP[status] ?? 'text-bg-secondary'] *)
Definition badgeClass (status : Models.HarvestStatus.t) : string :=
  match status with
  | Models.HarvestStatus.running => "text-bg-warning"
  | Models.HarvestStatus.success => "text-bg-success"
  | Models.HarvestStatus.failed => "text-bg-danger"
  end.

(** [statusLabel(status)] *)
Definition statusLabel (status : Models.HarvestStatus.t) : string :=
  match status with
  | Models.HarvestStatus.success => "Success"
  | Models.HarvestStatus.failed => "Failed"
  | Models.HarvestStatus.running => "Running"
  end.

(** [goToPage(page)]; the navigation merges into the current route. *)
Definition goToPage (current : ParamMap.t) (target : Z) (st : State) : State * list Effect :=
  if (target =? page st) || (target <? 1) || (totalPages st <? target) then (st, [])
  else
    (st,
     updateQueryParams current
       {| o_page := Some target; o_page_size := None; o_journal := None;
          o_journal_name := None; o_status := None |} st).

(** [nextPage()] and [previousPage()] *)
Definition nextPage (current : ParamMap.t) (st : State) : State * list Effect :=
  goToPage current (page st + 1) st.

Definition previousPage (current : ParamMap.t) (st : State) : State * list Effect :=
  goToPage current (page st - 1) st.

(** [changePageSize(value)] *)
Definition changePageSize (current : ParamMap.t) (value : string) (st : State)
    : State * list Effect :=
  match Js.parseInt value with
  | None => (st, [])
  | Some parsed =>
      if parsed <=? 0 then (st, [])
      else
        let normalized := Js.max 1 parsed in
        if normalized =? pageSize st then (st, [])
        else
          (st,
           updateQueryParams current
             {| o_page := Some 1; o_page_size := Some normalized; o_journal := None;
                o_journal_name := None; o_status := None |} st)
  end.

(** [clearJournalFilter()] *)
Definition clearJournalFilter (current : ParamMap.t) (st : State) : State * list Effect :=
  let st' :=
    {| loading := loading st;
       error := error st;
       logs := logs st;
       count := count st;
       page := page st;
       pageSize := pageSize st;
       journalSlug := None;
       journalName := None;
       statusFilter := statusFilter st;
       pageSizeOptions := pageSizeOptions st |} in
  (st',
   updateQueryParams current
     {| o_page := Some 1; o_page_size := None; o_journal := Some None;
        o_journal_name := Some None; o_status := None |} st').

(** [navigateToJournal(log)] *)
Definition navigateToJournal (log : Models.HarvestLog.t) : list Effect :=
  match Models.HarvestLog.journal log with
  | Some summary =>
      if Js.truthy (Models.HarvestLogJournalSummary.slug summary)
      then [Navigate ["/journals"; Models.HarvestLogJournalSummary.slug summary] []]
      else []
  | None => []
  end.

(** The [next] callback of [fetchLogs]; [journal] is the journal filter the
    request was made with. *)
Definition fetchLogsNext (journal : option string) (response : LogsBody.t) (st : State)
    : State * list Effect :=
  let results := Js.nullish (LogsBody.results response) [] in
  let totalCount := Js.nullish (LogsBody.count response) (Z.of_nat (length results)) in
  let name :=
    if negb (Js.truthyOpt journal) && (0 <? Z.of_nat (length results))
    then
      match results with
      | first :: _ =>
          match Models.HarvestLog.journal first with
          | Some firstJournal => Some (Models.HarvestLogJournalSummary.name firstJournal)
          | None => journalName st
          end
      | [] => journalName st
      end
    else if Js.truthyOpt journal && negb (Js.truthyOpt (journalName st))
    then
      let inferred :=
        match
          find (fun item =>
                  match Models.HarvestLog.journal item with
                  | Some summary =>
                      Js.sameOpt (Some (Models.HarvestLogJournalSummary.slug summary)) journal
                  | None => false
                  end) results
        with
        | Some item => option_map Models.HarvestLogJournalSummary.name (Models.HarvestLog.journal item)
        | None => None
        end in
      if Js.truthyOpt inferred then inferred else journalName st
    else journalName st in
  ({| loading := false;
      error := error st;
      logs := results;
      count := totalCount;
      page := page st;
      pageSize := pageSize st;
      journalSlug := journalSlug st;
      journalName := name;
      statusFilter := statusFilter st;
      pageSizeOptions := pageSizeOptions st |},
   []).

(** The [error] callback of [fetchLogs]. *)
Definition fetchLogsError (err : option HttpErrorResponse) (st : State)
    : State * list Effect :=
  let detail :=
    Js.nullish (match err with Some e => err_detail e | None => None end)
               "Unable to load harvesting logs." in
  ({| loading := false;
      error := Some detail;
      logs := [];
      count := 0;
      page := page st;
      pageSize := pageSize st;
      journalSlug := journalSlug st;
      journalName := journalName st;
      statusFilter := statusFilter st;
      pageSizeOptions := pageSizeOptions st |},
   []).

End HarvestLogListComponent.

(** ** features/journals/journal-detail/journal-detail.component.ts *)

Module JournalDetailComponent.

Record State : Type := {
  loading : bool;
  error : option string;
  journal : option Models.Journal.t;
  testingOai : bool;
  oaiTestMessage : option string;
  oaiTestSuccess : option bool
}.

(** [resetOaiTestState] *)
Definition resetOaiTestState (st : State) : State :=
  {| loading := loading st;
     error := error st;
     journal := journal st;
     testingOai := false;
     oaiTestMessage := None;
     oaiTestSuccess := None |}.

Definition setOaiTest (testing : bool) (success : option bool) (message : option string)
    (st : State) : State :=
  {| loading := loading st;
     error := error st;
     journal := journal st;
     testingOai := testing;
     oaiTestMessage := message;
     oaiTestSuccess := success |}.

Section WithEnvironment.
Variable baseUrl : string.
(** [canManage()], that is [authState.isAuthenticated]. *)
Variable canManage : bool.

(** [testOaiEndpoint], up to the subscription. *)
Definition testOaiEndpoint (st : State) : State * list Effect :=
  if negb canManage || testingOai st then (st, [])
  else
    let oaiUrl :=
      match journal st with
      | Some j => option_map Js.trim (Models.Journal.oai_url j)
      | None => None
      end in
    let st := resetOaiTestState st in
    if negb (Js.truthyOpt oaiUrl)
    then (setOaiTest (testingOai st) (Some false)
            (Some "No OAI-PMH URL is configured for this journal.") st, [])
    else (setOaiTest true (oaiTestSuccess st) (oaiTestMessage st) st,
          [Http (JournalApiService.validateOai baseUrl (Js.nullish oaiUrl ""))]).

End WithEnvironment.

(** The [next] callback of [testOaiEndpoint]. *)
Definition testOaiNext (result : Models.OAIValidationResponse.t) (st : State)
    : State * list Effect :=
  (setOaiTest false (Some (Models.OAIValidationResponse.ok result))
     (Some (Js.orElse (Models.OAIValidationResponse.detail result)
              (if Models.OAIValidationResponse.ok result
               then "Endpoint responded successfully."
               else "Endpoint did not respond with valid OAI."))) st,
   []).

(** The [error] callback of [testOaiEndpoint]; [err_detail] is [None] when
    [err?.error?.detail] is not a string. *)
Definition testOaiError (err : option HttpErrorResponse) (st : State)
    : State * list Effect :=
  let detail := match err with Some e => err_detail e | None => None end in
  let fallback := "Unable to validate the endpoint. Confirm the URL is reachable." in
  (setOaiTest false (Some false)
     (Some match detail with
           | Some d => if Js.truthy (Js.trim d) then d else fallback
           | None => fallback
           end) st,
   []).


(** [goToEdit()] *)
Definition goToEdit (st : State) : list Effect :=
  match journal st with
  | Some j =>
      if Js.truthy (Models.Journal.slug j)
      then [Navigate ["/journals"; Models.Journal.slug j; "edit"] []]
      else []
  | None => []
  end.

(** [viewHarvestLogs()] *)
Definition viewHarvestLogs (st : State) : list Effect :=
  match journal st with
  | Some j =>
      [Navigate ["/harvest-logs"]
         [("journal", QString (Models.Journal.slug j));
          ("journal_name", QString (Models.Journal.name j))]]
  | None => []
  end.

End JournalDetailComponent.

(** ** features/publications/publication-facet-list/publication-facet-list.component.ts *)

Module PublicationFacetListComponent.

Definition PAGE_SIZE_OPTIONS : list Z := [25; 50; 100].
Definition MAX_PAGE_LINKS : Z := 7.
Definition DEFAULT_PAGE_SIZE : Z := 50.

Inductive FacetRouteKey : Type := authors | subjects | journals | issued_years.

(** The string a [FacetRouteKey] is at run time. *)
Definition keyString (k : FacetRouteKey) : string :=
  match k with
  | authors => "authors"
  | subjects => "subjects"
  | journals => "journals"
  | issued_years => "issued_years"
  end.

Definition FACET_LABELS (k : FacetRouteKey) : string :=
  match k with
  | authors => "Authors"
  | subjects => "Subjects"
  | journals => "Journals"
  | issued_years => "Issued Years"
  end.

Definition FACET_PARAM_MAP (k : FacetRouteKey) : string :=
  match k with
  | authors => "author"
  | subjects => "subject"
  | journals => "journal"
  | issued_years => "issued_year"
  end.

(** [isFacetRouteKey(value)]: [Some k] when the guard holds, with the key
    the value is narrowed to. *)
Definition isFacetRouteKey (value : option string) : option FacetRouteKey :=
  match value with
  | Some v =>
      if String.eqb v "authors" then Some authors
      else if String.eqb v "subjects" then Some subjects
      else if String.eqb v "journals" then Some journals
      else if String.eqb v "issued_years" then Some issued_years
      else None
  | None => None
  end.

Inductive SearchMode : Type := default | elastic.

Record FacetFilterChip : Type := {
  label : string;
  value : string
}.

Record State : Type := {
  loading : bool;
  error : option string;
  items : list Models.FacetItem.t;
  total : Z;
  page : Z;
  totalPages : Z;
  pageSize : Z;
  facetKey : FacetRouteKey;
  facetParam : string;
  searchMode : SearchMode;
  searchTerm : string;
  baseQueryParams : QueryParams;
  filterChips : list FacetFilterChip
}.

(** The result of [parseQueryParams]. *)
Record Context : Type := {
  c_page : Z;
  c_pageSize : Z;
  c_searchMode : SearchMode;
  c_searchTerm : string;
  c_baseQuery : QueryParams;
  c_filterChips : list FacetFilterChip;
  c_options : PublicationApiService.O.t
}.

(** [parseQueryParams(getAll, getSingle)], with both accessors bound to
    the query parameters of the route. *)
Definition parseQueryParams (queryParams : ParamMap.t) : Context :=
  let getSingle := fun name => ParamMap.get name queryParams in
  let getAll := fun name => ParamMap.getAll name queryParams in
  let positiveOr (raw : option Z) (d : Z) :=
    match raw with
    | Some n => if 0 <? n then n else d
    | None => d
    end in
  let page := positiveOr (Js.parseInt (Js.nullish (getSingle "page") "")) 1 in
  let pageSize :=
    positiveOr (Js.parseInt (Js.nullish (getSingle "page_size") "")) DEFAULT_PAGE_SIZE in
  let searchTerm := Js.trim (Js.nullish (getSingle "search") "") in
  let searchMode :=
    match getSingle "search_mode" with
    | Some m => if String.eqb m "elastic" then elastic else default
    | None => default
    end in
  let journalSlug := Js.trim (Js.nullish (getSingle "journal") "") in
  let journalName := Js.trim (Js.nullish (getSingle "journal_name") "") in
  let ordering := Js.trim (Js.nullish (getSingle "ordering") "") in
  let issuedFrom := Js.trim (Js.nullish (getSingle "issued_from") "") in
  let issuedTo := Js.trim (Js.nullish (getSingle "issued_to") "") in
  let subject := Js.trim (Js.nullish (getSingle "subject") "") in
  let authors := filter Js.truthy (map Js.trim (getAll "author")) in
  let issuedYears := filter Js.truthy (map Js.trim (getAll "issued_year")) in
  let chip := fun l v => {| label := l; value := v |} in
  let baseQuery : QueryParams := [] in
  let chips : list FacetFilterChip := [] in
  let '(baseQuery, chips) :=
    if Js.truthy searchTerm
    then (assign "search" (QString searchTerm) baseQuery,
          (chips ++ [chip "Search" searchTerm])%list)
    else (baseQuery, chips) in
  let '(baseQuery, chips) :=
    if Js.truthy journalSlug
    then
      let baseQuery := assign "journal" (QString journalSlug) baseQuery in
      if Js.truthy journalName
      then (assign "journal_name" (QString journalName) baseQuery,
            (chips ++ [chip "Journal" journalName])%list)
      else (baseQuery, (chips ++ [chip "Journal" journalSlug])%list)
    else (baseQuery, chips) in
  let baseQuery :=
    if Js.truthy ordering then assign "ordering" (QString ordering) baseQuery
    else baseQuery in
  let '(baseQuery, chips) :=
    if Js.truthy issuedFrom
    then (assign "issued_from" (QString issuedFrom) baseQuery,
          (chips ++ [chip "Issued from" issuedFrom])%list)
    else (baseQuery, chips) in
  let '(baseQuery, chips) :=
    if Js.truthy issuedTo
    then (assign "issued_to" (QString issuedTo) baseQuery,
          (chips ++ [chip "Issued to" issuedTo])%list)
    else (baseQuery, chips) in
  let '(baseQuery, chips) :=
    if Js.truthy subject
    then (assign "subject" (QString subject) baseQuery,
          (chips ++ map (chip "Subject")
                     (filter Js.truthy (map Js.trim (Js.split ","%char subject))))%list)
    else (baseQuery, chips) in
  let '(baseQuery, chips) :=
    if negb (Z.of_nat (length authors) =? 0)
    then (assign "author" (QArray authors) baseQuery,
          (chips ++ map (chip "Author") authors)%list)
    else (baseQuery, chips) in
  let '(baseQuery, chips) :=
    if negb (Z.of_nat (length issuedYears) =? 0)
    then (assign "issued_year" (QArray issuedYears) baseQuery,
          (chips ++ map (chip "Issued year") issuedYears)%list)
    else (baseQuery, chips) in
  let options :=
    {| PublicationApiService.O.page := Some page;
       PublicationApiService.O.search :=
         match searchMode with
         | elastic => None
         | default => Js.orUndefined searchTerm
         end;
       PublicationApiService.O.pageSize := Some pageSize;
       PublicationApiService.O.journalSlug := Js.orUndefined journalSlug;
       PublicationApiService.O.journalId := None;
       PublicationApiService.O.ordering := Js.orUndefined ordering;
       PublicationApiService.O.issuedFrom := Js.orUndefined issuedFrom;
       PublicationApiService.O.issuedTo := Js.orUndefined issuedTo;
       PublicationApiService.O.subject := Js.orUndefined subject;
       PublicationApiService.O.authors :=
         if negb (Z.of_nat (length authors) =? 0) then Some authors else None;
       PublicationApiService.O.issuedYears :=
         if negb (Z.of_nat (length issuedYears) =? 0)
         then Some (map PublicationApiService.YearString issuedYears) else None |} in
  {| c_page := page;
     c_pageSize := pageSize;
     c_searchMode := searchMode;
     c_searchTerm := searchTerm;
     c_baseQuery := baseQuery;
     c_filterChips := chips;
     c_options := options |}.

Section WithBaseUrl.
Variable baseUrl : string.

(** The request [fetchFacet] chooses. *)
Definition facetRequest (st : State) (options : PublicationApiService.O.t) : HttpRequest :=
  let facetKey := facetKey st in
  let searchMode := searchMode st in
  let searchTerm := searchTerm st in
  match searchMode with
  | elastic =>
      if Js.truthy searchTerm
      then PublicationApiService.searchFacet baseUrl searchTerm (keyString facetKey)
             (Some options)
      else PublicationApiService.listFacet baseUrl (keyString facetKey) (Some options)
  | default => PublicationApiService.listFacet baseUrl (keyString facetKey) (Some options)
  end.

(** [fetchFacet(options)], up to the subscription. *)
Definition fetchFacet (options : PublicationApiService.O.t) (st : State)
    : State * list Effect :=
  ({| loading := true;
      error := None;
      items := items st;
      total := total st;
      page := page st;
      totalPages := totalPages st;
      pageSize := pageSize st;
      facetKey := facetKey st;
      facetParam := facetParam st;
      searchMode := searchMode st;
      searchTerm := searchTerm st;
      baseQueryParams := baseQueryParams st;
      filterChips := filterChips st |},
   [Http (facetRequest st options)]).

(** The subscription to the route in [ngOnInit]; [facet] is
    [params.get('facet')]. *)
Definition onRoute (facet : option string) (queryParams : ParamMap.t) (st : State)
    : State * list Effect :=
  match isFacetRouteKey facet with
  | None => (st, [Navigate ["/publications"] []])
  | Some facetParam =>
      let context := parseQueryParams queryParams in
      let st :=
        {| loading := loading st;
           error := error st;
           items := items st;
           total := total st;
           page := c_page context;
           totalPages := totalPages st;
           pageSize := c_pageSize context;
           facetKey := facetParam;
           facetParam := FACET_PARAM_MAP facetParam;
           searchMode := c_searchMode context;
           searchTerm := c_searchTerm context;
           baseQueryParams := c_baseQuery context;
           filterChips := c_filterChips context |} in
      let '(st, effects) := fetchFacet (c_options context) st in
      (st, (effects ++
            [SetTitle ("All " ++ FACET_LABELS (facetKey st) ++ " | Publications")])%list)
  end.

End WithBaseUrl.

(** The [next] callback of [fetchFacet(options)]; the page size it divides
    by is positive whenever the response or the options give one. *)
Definition fetchFacetNext (options : PublicationApiService.O.t)
    (response : Models.FacetListResponse.t) (st : State) : State * list Effect :=
  let results := Js.nullish (Models.FacetListResponse.results response) [] in
  let sorted :=
    Js.sortBy (fun a b => Models.FacetItem.count b <=? Models.FacetItem.count a) results in
  let totalCount :=
    Js.nullish (Models.FacetListResponse.count response) (Z.of_nat (length sorted)) in
  let resolvedPage :=
    Js.nullish (Models.FacetListResponse.page response)
      (Js.nullish (PublicationApiService.O.page options) 1) in
  let resolvedPageSize :=
    Js.nullish (Models.FacetListResponse.page_size response)
      (Js.nullish (PublicationApiService.O.pageSize options) DEFAULT_PAGE_SIZE) in
  let resolvedTotalPages :=
    Js.nullish (Models.FacetListResponse.total_pages response)
      (Js.max 1 (Js.ceilDiv totalCount resolvedPageSize)) in
  ({| loading := false;
      error := error st;
      items := sorted;
      total := totalCount;
      page := resolvedPage;
      totalPages := resolvedTotalPages;
      pageSize := resolvedPageSize;
      facetKey := facetKey st;
      facetParam :=
        Js.nullish (Models.FacetListResponse.param response) (FACET_PARAM_MAP (facetKey st));
      searchMode := searchMode st;
      searchTerm := searchTerm st;
      baseQueryParams := baseQueryParams st;
      filterChips := filterChips st |},
   []).

(** The [error] callback of [fetchFacet]. *)
Definition fetchFacetError (err : option HttpErrorResponse) (st : State)
    : State * list Effect :=
  let detail :=
    Js.nullish (match err with Some e => err_detail e | None => None end)
               "Unable to load facet values." in
  ({| loading := false;
      error := Some detail;
      items := [];
      total := 0;
      page := page st;
      totalPages := 1;
      pageSize := pageSize st;
      facetKey := facetKey st;
      facetParam := facetParam st;
      searchMode := searchMode st;
      searchTerm := searchTerm st;
      baseQueryParams := baseQueryParams st;
      filterChips := filterChips st |},
   []).


(** [pageNumbers] *)
Definition pageNumbers (st : State) : list Z :=
  let total := totalPages st in
  let current := page st in
  let maxLinks := MAX_PAGE_LINKS in
  if total <=? maxLinks then Js.arrayFrom total (fun index => index + 1)
  else
    let half := maxLinks / 2 in
    let start := current - half in
    let end_ := current + half in
    let '(start, end_) :=
      if start <? 1 then (1, 1 + maxLinks - 1) else (start, end_) in
    let '(start, end_) :=
      if total <? end_ then (total - maxLinks + 1, total) else (start, end_) in
    Js.arrayFrom (end_ - start + 1) (fun index => start + index).

(** [goBackToResults()] *)
Definition goBackToResults (st : State) : list Effect :=
  [Navigate ["/publications"] (baseQueryParams st)].

(** [goToPage(target)]; the navigation merges into the current route. *)
Definition goToPage (target : Z) (st : State) : list Effect :=
  if (target =? page st) || (target <? 1) || (totalPages st <? target) then []
  else [Navigate [] [("page", if 1 <? target then QNumber target else QNull)]].

(** [changePageSize(rawValue)]; the navigation merges into the current
    route. *)
Definition changePageSize (rawValue : string) (st : State) : list Effect :=
  match Js.parseInt rawValue with
  | None => []
  | Some parsed =>
      if parsed <=? 0 then []
      else
        let normalized := Js.max 1 parsed in
        [Navigate [] [("page_size", QNumber normalized); ("page", QNull)]]
  end.

(** [applyFacetFilter(item)] *)
Definition applyFacetFilter (item : Models.FacetItem.t) (st : State) : list Effect :=
  let value := Js.trim (Models.FacetItem.value item) in
  if negb (Js.truthy value) then []
  else
    let params := baseQueryParams st in
    let params :=
      match facetKey st with
      | authors => put "author" (QArray [value]) params
      | subjects => put "subject" (QString value) params
      | journals =>
          put "journal_name" (QString (Models.FacetItem.label item))
            (put "journal" (QString value) params)
      | issued_years =>
          deleteParam "issued_to"
            (deleteParam "issued_from" (put "issued_year" (QArray [value]) params))
      end in
    let params :=
      match facetKey st with
      | journals => params
      | _ => deleteParam "journal_name" params
      end in
    let params := put "page" QNull params in
    let params := put "page_size" QNull params in
    [Navigate ["/publications"] params].

End PublicationFacetListComponent.

(** ** features/publications/publication-form/publication-form.component.ts *)

Module PublicationFormComponent.

Module MetadataFormGroup.
Record t : Type := {
  schema : string;
  element : string;
  qualifier : string;
  language : string;
  value : string
}.
End MetadataFormGroup.

Module MetadataPreset.
Record t : Type := {
  label : string;
  schema : string;
  element : string;
  qualifier : option string
}.
End MetadataPreset.

Module CoreFieldKey.
Inductive t : Type :=
| title | description | publisher | resource_type | resource_format | rights | issued.
End CoreFieldKey.

Record CoreFieldControlConfig : Type := {
  schemaControl : string;
  elementControl : string;
  qualifierControl : option string;
  languageControl : option string
}.

Module CoreFieldDefaults.
Record t : Type := {
  schema : string;
  element : string;
  qualifier : string
}.
End CoreFieldDefaults.

Definition defaultSchema : string := "dc".

Definition coreControlMap (field : CoreFieldKey.t) : CoreFieldControlConfig :=
  match field with
  | CoreFieldKey.title =>
      {| schemaControl := "title_schema"; elementControl := "title_element";
         qualifierControl := Some "title_qualifier"; languageControl := None |}
  | CoreFieldKey.description =>
      {| schemaControl := "description_schema"; elementControl := "description_element";
         qualifierControl := Some "description_qualifier"; languageControl := None |}
  | CoreFieldKey.publisher =>
      {| schemaControl := "publisher_schema"; elementControl := "publisher_element";
         qualifierControl := Some "publisher_qualifier"; languageControl := None |}
  | CoreFieldKey.resource_type =>
      {| schemaControl := "resource_type_schema"; elementControl := "resource_type_element";
         qualifierControl := Some "resource_type_qualifier"; languageControl := None |}
  | CoreFieldKey.resource_format =>
      {| schemaControl := "resource_format_schema";
         elementControl := "resource_format_element";
         qualifierControl := Some "resource_format_qualifier"; languageControl := None |}
  | CoreFieldKey.rights =>
      {| schemaControl := "rights_schema"; elementControl := "rights_element";
         qualifierControl := Some "rights_qualifier"; languageControl := None |}
  | CoreFieldKey.issued =>
      {| schemaControl := "issued_schema"; elementControl := "issued_element";
         qualifierControl := Some "issued_qualifier"; languageControl := None |}
  end.

(** The reactive form: its text controls by name, and the [metadata]
    form array. *)
Module Form.
Record t : Type := {
  controls : list (string * string);
  metadata : list MetadataFormGroup.t
}.
End Form.

(** The form as the component creates it. *)
Definition form : Form.t :=
  {| Form.controls :=
       [ ("title", ""); ("title_schema", defaultSchema); ("title_element", "title");
         ("title_qualifier", "");
         ("description", ""); ("description_schema", defaultSchema);
         ("description_element", "description"); ("description_qualifier", "");
         ("publisher", ""); ("publisher_schema", defaultSchema);
         ("publisher_element", "publisher"); ("publisher_qualifier", "");
         ("issued", ""); ("issued_schema", defaultSchema); ("issued_element", "date");
         ("issued_qualifier", "issued");
         ("resource_type", ""); ("resource_type_schema", defaultSchema);
         ("resource_type_element", "type"); ("resource_type_qualifier", "");
         ("resource_format", ""); ("resource_format_schema", defaultSchema);
         ("resource_format_element", "format"); ("resource_format_qualifier", "");
         ("rights", ""); ("rights_schema", defaultSchema); ("rights_element", "rights");
         ("rights_qualifier", "") ];
     Form.metadata := [] |}.

(** [getCoreDefaults(field)] *)
Definition getCoreDefaults (field : CoreFieldKey.t) : CoreFieldDefaults.t :=
  match field with
  | CoreFieldKey.title =>
      {| CoreFieldDefaults.schema := defaultSchema; CoreFieldDefaults.element := "title";
         CoreFieldDefaults.qualifier := "" |}
  | CoreFieldKey.description =>
      {| CoreFieldDefaults.schema := defaultSchema;
         CoreFieldDefaults.element := "description"; CoreFieldDefaults.qualifier := "" |}
  | CoreFieldKey.publisher =>
      {| CoreFieldDefaults.schema := defaultSchema;
         CoreFieldDefaults.element := "publisher"; CoreFieldDefaults.qualifier := "" |}
  | CoreFieldKey.resource_type =>
      {| CoreFieldDefaults.schema := defaultSchema; CoreFieldDefaults.element := "type";
         CoreFieldDefaults.qualifier := "" |}
  | CoreFieldKey.resource_format =>
      {| CoreFieldDefaults.schema := defaultSchema; CoreFieldDefaults.element := "format";
         CoreFieldDefaults.qualifier := "" |}
  | CoreFieldKey.rights =>
      {| CoreFieldDefaults.schema := defaultSchema; CoreFieldDefaults.element := "rights";
         CoreFieldDefaults.qualifier := "" |}
  | CoreFieldKey.issued =>
      {| CoreFieldDefaults.schema := defaultSchema; CoreFieldDefaults.element := "date";
         CoreFieldDefaults.qualifier := "issued" |}
  end.

(** [getTextControl(controlName).value]; the component only asks for
    controls the form has. *)
Fixpoint getTextControl (controls : list (string * string)) (controlName : string)
    : option string :=
  match controls with
  | [] => None
  | (n, v) :: rest => if String.eqb n controlName then Some v else getTextControl rest controlName
  end.

(** [getTextControl(controlName).setValue(v)] *)
Fixpoint setValue (controlName v : string) (controls : list (string * string))
    : list (string * string) :=
  match controls with
  | [] => []
  | (n, old) :: rest =>
      if String.eqb n controlName then (n, v) :: rest
      else (n, old) :: setValue controlName v rest
  end.

(** [getTrimmedControlValue(controlName)] *)
Definition getTrimmedControlValue (f : Form.t) (controlName : string) : string :=
  let value := Js.nullish (getTextControl (Form.controls f) controlName) "" in
  Js.trim value.

(** [normalizeValue(value)] *)
Definition normalizeValue (value : option string) : string :=
  Js.toLowerCase (Js.trim (Js.nullish value "")).

(** [extractCoreEntry(entries, targetValue, defaults)]: the entry taken
    out, and [entries] after the splice. *)
Definition extractCoreEntry (entries : list Models.PublicationMetadataEntry.t)
    (targetValue : option string) (defaults : CoreFieldDefaults.t)
    : option Models.PublicationMetadataEntry.t * list Models.PublicationMetadataEntry.t :=
  let normalizedTarget := normalizeValue (Some (Js.nullish targetValue "")) in
  let index : option nat := None in
  let index :=
    if Js.truthy normalizedTarget
    then Js.findIndex
           (fun entry =>
              String.eqb (normalizeValue (Some (Models.PublicationMetadataEntry.value entry)))
                         normalizedTarget) entries
    else index in
  let index :=
    match index with
    | Some i => Some i
    | None =>
        Js.findIndex
          (fun entry =>
             String.eqb (normalizeValue (Some (Models.PublicationMetadataEntry.schema entry)))
                        (normalizeValue (Some (CoreFieldDefaults.schema defaults))) &&
             String.eqb (normalizeValue (Some (Models.PublicationMetadataEntry.element entry)))
                        (normalizeValue (Some (CoreFieldDefaults.element defaults))) &&
             String.eqb
               (normalizeValue
                  (Some (Js.nullish (Models.PublicationMetadataEntry.qualifier entry) "")))
               (normalizeValue (Some (CoreFieldDefaults.qualifier defaults))))
          entries
    end in
  match index with
  | Some i => (nth_error entries i, Js.removeAt i entries)
  | None => (None, entries)
  end.

(** [applyCoreMetadataControls(field, entry)] *)
Definition applyCoreMetadataControls (field : CoreFieldKey.t)
    (entry : option Models.PublicationMetadataEntry.t) (f : Form.t) : Form.t :=
  let config := coreControlMap field in
  let defaults := getCoreDefaults field in
  let controls := Form.controls f in
  let controls :=
    setValue (schemaControl config)
      (Js.nullish (option_map Models.PublicationMetadataEntry.schema entry)
                  (CoreFieldDefaults.schema defaults)) controls in
  let controls :=
    setValue (elementControl config)
      (Js.nullish (option_map Models.PublicationMetadataEntry.element entry)
                  (CoreFieldDefaults.element defaults)) controls in
  let controls :=
    match qualifierControl config with
    | Some qualifierControlName =>
        let qualifierValue :=
          Js.nullish
            (match entry with
             | Some e => Models.PublicationMetadataEntry.qualifier e
             | None => None
             end)
            (CoreFieldDefaults.qualifier defaults) in
        setValue qualifierControlName qualifierValue controls
    | None => controls
    end in
  let controls :=
    match languageControl config with
    | Some languageControlName =>
        setValue languageControlName
          (Js.nullish
             (match entry with
              | Some e => Models.PublicationMetadataEntry.language e
              | None => None
              end) "") controls
    | None => controls
    end in
  {| Form.controls := controls; Form.metadata := Form.metadata f |}.

(** The fields of an entry or of a preset that [createMetadataGroup]
    reads, each possibly missing. *)
Module PartialEntry.
Record t : Type := {
  schema : option string;
  element : option string;
  qualifier : option string;
  language : option string;
  value : option string
}.
End PartialEntry.

Definition ofEntry (e : Models.PublicationMetadataEntry.t) : PartialEntry.t :=
  {| PartialEntry.schema := Some (Models.PublicationMetadataEntry.schema e);
     PartialEntry.element := Some (Models.PublicationMetadataEntry.element e);
     PartialEntry.qualifier := Models.PublicationMetadataEntry.qualifier e;
     PartialEntry.language := Models.PublicationMetadataEntry.language e;
     PartialEntry.value := Some (Models.PublicationMetadataEntry.value e) |}.

(** [createMetadataGroup(entry)] *)
Definition createMetadataGroup (entry : option PartialEntry.t) : MetadataFormGroup.t :=
  let field := fun (get : PartialEntry.t -> option string) =>
                 match entry with Some e => get e | None => None end in
  {| MetadataFormGroup.schema := Js.nullish (field PartialEntry.schema) defaultSchema;
     MetadataFormGroup.element := Js.nullish (field PartialEntry.element) "";
     MetadataFormGroup.qualifier := Js.nullish (field PartialEntry.qualifier) "";
     MetadataFormGroup.language := Js.nullish (field PartialEntry.language) "";
     MetadataFormGroup.value := Js.nullish (field PartialEntry.value) "" |}.

(** [addMetadataEntry(preset)]: the new row goes first. *)
Definition addMetadataEntry (preset : option PartialEntry.t) (f : Form.t) : Form.t :=
  {| Form.controls := Form.controls f;
     Form.metadata := createMetadataGroup preset :: Form.metadata f |}.

(** [removeMetadataEntry(index)] *)
Definition removeMetadataEntry (index : Z) (f : Form.t) : Form.t :=
  if (index <? 0) || (Z.of_nat (length (Form.metadata f)) <=? index) then f
  else {| Form.controls := Form.controls f;
          Form.metadata := Js.removeAt (Z.to_nat index) (Form.metadata f) |}.

(** [applyPreset(preset)] *)
Definition applyPreset (preset : MetadataPreset.t) (f : Form.t) : Form.t :=
  addMetadataEntry
    (Some {| PartialEntry.schema := Some (MetadataPreset.schema preset);
             PartialEntry.element := Some (MetadataPreset.element preset);
             PartialEntry.qualifier := Some (Js.nullish (MetadataPreset.qualifier preset) "");
             PartialEntry.language := None;
             PartialEntry.value := None |}) f.

(** The position [setMetadataEntries] sorts by: [entry.position ?? 0]. *)
Definition positionOf (e : Models.PublicationMetadataEntry.t) : Z :=
  Js.nullish (Models.PublicationMetadataEntry.position e) 0.

(** [setMetadataEntries(entries)] *)
Definition setMetadataEntries (entries : list Models.PublicationMetadataEntry.t)
    (f : Form.t) : Form.t :=
  let cleared : list MetadataFormGroup.t := [] in
  if Z.of_nat (length entries) =? 0
  then {| Form.controls := Form.controls f; Form.metadata := cleared |}
  else
    {| Form.controls := Form.controls f;
       Form.metadata :=
         (cleared ++
          map (fun entry => createMetadataGroup (Some (ofEntry entry)))
              (Js.sortBy (fun a b => positionOf a - positionOf b <=? 0) entries))%list |}.

(** One core field of [patchForm]: take its entry out of the list, set the
    value control and the schema, element and qualifier controls. *)
Definition patchCoreField (field : CoreFieldKey.t) (valueControl : string)
    (publicationValue : option string) (shown : string -> string)
    (state : list Models.PublicationMetadataEntry.t * Form.t)
    : list Models.PublicationMetadataEntry.t * Form.t :=
  let '(metadataEntries, f) := state in
  let '(entry, metadataEntries) :=
    extractCoreEntry metadataEntries publicationValue (getCoreDefaults field) in
  let value :=
    Js.nullish (option_map Models.PublicationMetadataEntry.value entry)
               (Js.nullish publicationValue "") in
  let f := {| Form.controls := setValue valueControl (shown value) (Form.controls f);
              Form.metadata := Form.metadata f |} in
  (metadataEntries, applyCoreMetadataControls field entry f).

(** [issuedRaw.includes('T') ? issuedRaw.split('T')[0] : issuedRaw] *)
Definition issuedDate (issuedRaw : string) : string :=
  if Js.includes "T"%char issuedRaw
  then hd "" (Js.split "T"%char issuedRaw)
  else issuedRaw.

(** [patchForm(publication)] before its last statement: the entries left
    once the seven core fields took theirs, and the form with the core
    controls set. *)
Definition patchCoreFields (publication : Models.Publication.t) (f : Form.t)
    : list Models.PublicationMetadataEntry.t * Form.t :=
  let same := fun s : string => s in
  let state := (Js.nullish (Models.Publication.metadata publication) [], f) in
  let state :=
    patchCoreField CoreFieldKey.title "title"
      (Some (Models.Publication.title publication)) same state in
  let state :=
    patchCoreField CoreFieldKey.description "description"
      (Some (Models.Publication.description publication)) same state in
  let state :=
    patchCoreField CoreFieldKey.publisher "publisher"
      (Some (Models.Publication.publisher publication)) same state in
  let state :=
    patchCoreField CoreFieldKey.resource_type "resource_type"
      (Some (Models.Publication.resource_type publication)) same state in
  let state :=
    patchCoreField CoreFieldKey.resource_format "resource_format"
      (Some (Models.Publication.resource_format publication)) same state in
  let state :=
    patchCoreField CoreFieldKey.rights "rights"
      (Some (Models.Publication.rights publication)) same state in
  patchCoreField CoreFieldKey.issued "issued"
    (Models.Publication.issued publication) issuedDate state.

(** [patchForm(publication)] *)
Definition patchForm (publication : Models.Publication.t) (f : Form.t) : Form.t :=
  let '(metadataEntries, f) := patchCoreFields publication f in
  setMetadataEntries metadataEntries f.

(** The [metadataEntries] of [buildPayload]: one sanitized entry per row
    of the form array that has a value and an element. *)
Definition sanitizeRow (group : MetadataFormGroup.t)
    : option Models.PublicationMetadataPayload.t :=
  let trimmedValue := Js.trim (MetadataFormGroup.value group) in
  let trimmedElement := Js.trim (MetadataFormGroup.element group) in
  if negb (Js.truthy trimmedValue) || negb (Js.truthy trimmedElement) then None
  else
    let trimmedSchema :=
      Js.toLowerCase
        (Js.orElse (Js.trim (Js.orElse (MetadataFormGroup.schema group) defaultSchema))
                   defaultSchema) in
    let trimmedQualifier := Js.trim (MetadataFormGroup.qualifier group) in
    let trimmedLanguage := Js.trim (MetadataFormGroup.language group) in
    Some {| Models.PublicationMetadataPayload.schema := Some trimmedSchema;
            Models.PublicationMetadataPayload.element := Js.toLowerCase trimmedElement;
            Models.PublicationMetadataPayload.qualifier :=
              if Js.truthy trimmedQualifier
              then Some (Js.toLowerCase trimmedQualifier) else None;
            Models.PublicationMetadataPayload.value := trimmedValue;
            Models.PublicationMetadataPayload.language :=
              if Js.truthy trimmedLanguage
              then Some (Js.toLowerCase trimmedLanguage) else None;
            Models.PublicationMetadataPayload.position := None |}.

Fixpoint metadataEntries (rows : list MetadataFormGroup.t)
    : list Models.PublicationMetadataPayload.t :=
  match rows with
  | [] => []
  | group :: rest =>
      match sanitizeRow group with
      | Some entry => entry :: metadataEntries rest
      | None => metadataEntries rest
      end
  end.

(** [addCoreEntryFromControls(field, value)] of [buildPayload], on the
    [coreEntries] collected so far. *)
Definition addCoreEntryFromControls (f : Form.t) (field : CoreFieldKey.t)
    (value : option string) (coreEntries : list Models.PublicationMetadataPayload.t)
    : list Models.PublicationMetadataPayload.t :=
  let trimmedValue := Js.trim (Js.nullish value "") in
  if negb (Js.truthy trimmedValue) then coreEntries
  else
    let config := coreControlMap field in
    let defaults := getCoreDefaults field in
    let schemaValue :=
      Js.orElse (getTrimmedControlValue f (schemaControl config))
                (CoreFieldDefaults.schema defaults) in
    let elementValue :=
      Js.orElse (getTrimmedControlValue f (elementControl config))
                (CoreFieldDefaults.element defaults) in
    if negb (Js.truthy elementValue) then coreEntries
    else
      let qualifierValue :=
        match qualifierControl config with
        | Some qualifierControlName => getTrimmedControlValue f qualifierControlName
        | None => ""
        end in
      let qualifierValue :=
        if negb (Js.truthy qualifierValue) && Js.truthy (CoreFieldDefaults.qualifier defaults)
        then CoreFieldDefaults.qualifier defaults else qualifierValue in
      let languageValue :=
        match languageControl config with
        | Some languageControlName => getTrimmedControlValue f languageControlName
        | None => ""
        end in
      (coreEntries ++
       [ {| Models.PublicationMetadataPayload.schema :=
              Some (Js.toLowerCase (Js.orElse schemaValue defaultSchema));
            Models.PublicationMetadataPayload.element := Js.toLowerCase elementValue;
            Models.PublicationMetadataPayload.qualifier :=
              if Js.truthy qualifierValue then Some (Js.toLowerCase qualifierValue) else None;
            Models.PublicationMetadataPayload.value := trimmedValue;
            Models.PublicationMetadataPayload.language :=
              if Js.truthy languageValue then Some (Js.toLowerCase languageValue) else None;
            Models.PublicationMetadataPayload.position := None |} ])%list.

(** The callback of [[...coreEntries, ...metadataEntries].map(...)]. *)
Definition positioned (entry : Models.PublicationMetadataPayload.t) (index : Z)
    : Models.PublicationMetadataPayload.t :=
  {| Models.PublicationMetadataPayload.schema :=
       Some (Js.toLowerCase
               (Js.orElse (Js.nullish (Models.PublicationMetadataPayload.schema entry) "")
                          defaultSchema));
     Models.PublicationMetadataPayload.element :=
       Js.toLowerCase (Js.orElse (Models.PublicationMetadataPayload.element entry) "");
     Models.PublicationMetadataPayload.qualifier :=
       if Js.truthyOpt (Models.PublicationMetadataPayload.qualifier entry)
       then option_map Js.toLowerCase (Models.PublicationMetadataPayload.qualifier entry)
       else None;
     Models.PublicationMetadataPayload.value := Models.PublicationMetadataPayload.value entry;
     Models.PublicationMetadataPayload.language :=
       if Js.truthyOpt (Models.PublicationMetadataPayload.language entry)
       then option_map Js.toLowerCase (Models.PublicationMetadataPayload.language entry)
       else None;
     Models.PublicationMetadataPayload.position := Some index |}.

(** The [coreEntries] of [buildPayload]. *)
Definition coreEntries (f : Form.t) : list Models.PublicationMetadataPayload.t :=
  let raw := fun name => Js.nullish (getTextControl (Form.controls f) name) "" in
  let title := Js.trim (raw "title") in
  let description := Js.orElse (Js.trim (raw "description")) "" in
  let publisher := Js.orElse (Js.trim (raw "publisher")) "" in
  let resource_type := Js.orElse (Js.trim (raw "resource_type")) "" in
  let resource_format := Js.orElse (Js.trim (raw "resource_format")) "" in
  let rights := Js.orElse (Js.trim (raw "rights")) "" in
  let issued := Js.orUndefined (Js.trim (raw "issued")) in
  let entries := [] in
  let entries := addCoreEntryFromControls f CoreFieldKey.title (Some title) entries in
  let entries := addCoreEntryFromControls f CoreFieldKey.description (Some description) entries in
  let entries := addCoreEntryFromControls f CoreFieldKey.publisher (Some publisher) entries in
  let entries :=
    addCoreEntryFromControls f CoreFieldKey.resource_type (Some resource_type) entries in
  let entries :=
    addCoreEntryFromControls f CoreFieldKey.resource_format (Some resource_format) entries in
  let entries := addCoreEntryFromControls f CoreFieldKey.rights (Some rights) entries in
  addCoreEntryFromControls f CoreFieldKey.issued issued entries.

(** [buildPayload()] *)
Definition buildPayload (f : Form.t) : Models.PublicationPayload.t :=
  let raw := fun name => Js.nullish (getTextControl (Form.controls f) name) "" in
  let combinedEntries :=
    Js.mapi positioned (coreEntries f ++ metadataEntries (Form.metadata f))%list in
  {| Models.PublicationPayload.title := Js.trim (raw "title");
     Models.PublicationPayload.description := Js.orElse (Js.trim (raw "description")) "";
     Models.PublicationPayload.publisher := Js.orElse (Js.trim (raw "publisher")) "";
     Models.PublicationPayload.issued := Js.orUndefined (Js.trim (raw "issued"));
     Models.PublicationPayload.resource_type := Js.orElse (Js.trim (raw "resource_type")) "";
     Models.PublicationPayload.resource_format :=
       Js.orElse (Js.trim (raw "resource_format")) "";
     Models.PublicationPayload.rights := Js.orElse (Js.trim (raw "rights")) "";
     Models.PublicationPayload.metadata := combinedEntries |}.

End PublicationFormComponent.

(** * The vocabulary of the specification

    Each definition below reads one notion of the specification over the
    embedding; the properties that follow are stated with them. *)

Module Reading.

(** ** Query planning (publication list) *)

(** A structured filter is set: one of journal, issued_from, issued_to,
    ordering, subject, author, issued_year. *)
Definition structuredFilterSet (st : PublicationListComponent.State) : Prop :=
  (exists s, PublicationListComponent.journalSlug st = Some s /\ s <> "") \/
  (exists s, PublicationListComponent.issuedFrom st = Some s /\ s <> "") \/
  (exists s, PublicationListComponent.issuedTo st = Some s /\ s <> "") \/
  (exists s, PublicationListComponent.ordering st = Some s /\ s <> "") \/
  PublicationListComponent.subjectFilters st <> [] \/
  PublicationListComponent.authorFilters st <> [] \/
  PublicationListComponent.issuedYearFilters st <> [].

(** The free-text query of a request: the text of the search box without
    the white space around it (the component stores no other text in the
    signal). *)
Definition freeTextQuery (st : PublicationListComponent.State) : string :=
  Js.trim (PublicationListComponent.searchQuery st).

(** What is left of a failed request, as the caller sees it: the component
    after the error callback, and what the callback set in motion. *)
Definition failedFetch (baseUrl : string) (st : PublicationListComponent.State)
    (err : option HttpErrorResponse) : PublicationListComponent.State * list Effect :=
  let started := PublicationListComponent.fetchPublications baseUrl st in
  PublicationListComponent.fetchPublicationsError (snd started) err (fst started).

(** The page shows an error: the template and [isEmpty] read the [error]
    signal by its truthiness, so that an empty text counts as no error. *)
Definition showsError (st : PublicationListComponent.State) : Prop :=
  exists msg, PublicationListComponent.error st = Some msg /\ msg <> "".

(** A request to the relational list endpoint takes the place of the failed
    one. *)
Definition fallsBack (baseUrl : string) (effects : list Effect) : Prop :=
  exists r, In r (httpCalls effects) /\ url r = baseUrl ++ "/publications/".

(** Graceful degradation of a failed request, read generously: the page
    shows no error, or a request to the relational list endpoint takes the
    place of the failed one. *)
Definition degradesGracefully (baseUrl : string)
    (outcome : PublicationListComponent.State * list Effect) : Prop :=
  ~ showsError (fst outcome) \/ fallsBack baseUrl (snd outcome).

(** The structured filter parameters of a request. *)
Definition structuredFilterKeys : list string :=
  ["journal"; "issued_from"; "issued_to"; "subject"; "author"; "issued_year"; "ordering"].

(** The facet dimensions. *)
Definition facetDimensions : list string :=
  ["authors"; "subjects"; "journals"; "issued_years"].

(** Two facet responses agree on the fields of the envelope: [count],
    [page], [page_size], [total_pages], [param] and [results]. *)
Definition sameEnvelope (a b : Models.FacetListResponse.t) : Prop :=
  Models.FacetListResponse.count a = Models.FacetListResponse.count b /\
  Models.FacetListResponse.page a = Models.FacetListResponse.page b /\
  Models.FacetListResponse.page_size a = Models.FacetListResponse.page_size b /\
  Models.FacetListResponse.total_pages a = Models.FacetListResponse.total_pages b /\
  Models.FacetListResponse.param a = Models.FacetListResponse.param b /\
  Models.FacetListResponse.results a = Models.FacetListResponse.results b.

(** The filters of the publication list are stored trimmed, and no stored
    term is empty, as every setter of the component leaves them. *)
Definition storedTrimmed (v : option string) : Prop :=
  forall s, v = Some s -> Js.trim s = s.

Definition filtersTrimmed (st : PublicationListComponent.State) : Prop :=
  storedTrimmed (PublicationListComponent.journalSlug st) /\
  storedTrimmed (PublicationListComponent.ordering st) /\
  storedTrimmed (PublicationListComponent.issuedFrom st) /\
  storedTrimmed (PublicationListComponent.issuedTo st) /\
  Forall (fun t => Js.trim t = t /\ t <> "") (PublicationListComponent.subjectFilters st) /\
  Forall (fun t => Js.trim t = t /\ t <> "") (PublicationListComponent.authorFilters st) /\
  Forall (fun t => Js.trim t = t /\ t <> "") (PublicationListComponent.issuedYearFilters st).

(** The query parameters of the route that the link from the publication
    list to the page of a facet leads to. *)
Definition linkRoute (facet : PublicationListComponent.FacetType)
    (listState : PublicationListComponent.State) : ParamMap.t :=
  routeOf (snd (PublicationListComponent.buildFacetViewLink facet listState)).

(** The requests the facet page issues when it is reached through that
    link. *)
Definition facetCallsFromLink (baseUrl : string) (facet : PublicationListComponent.FacetType)
    (listState : PublicationListComponent.State)
    (facetState : PublicationFacetListComponent.State) : list HttpRequest :=
  httpCalls
    (snd (PublicationFacetListComponent.onRoute baseUrl
            (Some (PublicationListComponent.facetTypeString facet))
            (linkRoute facet listState) facetState)).

(** The route does not bind the key [k]: looking [k] up past it gives what
    comes after. *)
Definition unbound (k : string) (m : ParamMap.t) : Prop :=
  forall rest, ParamMap.getAll k (m ++ rest)%list = ParamMap.getAll k rest.

(** ** Numbers as texts *)


(** A whole number that a [number] holds exactly, whatever decimal text it
    is read from: the safe integers, up to [2^53 - 1]. *)
Definition safeInteger (n : Z) : Prop := Z.abs n <= 2 ^ 53 - 1.

(** ** Harvest logs *)

(** A string is one of the three harvest statuses. *)
Definition isHarvestStatus (s : string) : Prop :=
  exists h : Models.HarvestStatus.t, s = Models.HarvestStatus.toString h.

(** A status filter is one of the three statuses, or no filter. *)
Definition validStatusFilter (f : option string) : Prop :=
  match f with
  | Some s => isHarvestStatus s
  | None => True
  end.

(** ** Journals *)

(** Between two states of the journal page nothing but the displayed state
    of the endpoint test differs: the journal, the loading flag and the
    page error are the same. *)
Definition onlyTestStateDiffers (before after : JournalDetailComponent.State) : Prop :=
  JournalDetailComponent.journal after = JournalDetailComponent.journal before /\
  JournalDetailComponent.loading after = JournalDetailComponent.loading before /\
  JournalDetailComponent.error after = JournalDetailComponent.error before.

(** ** Pagination *)

(** [t] is the ceiling of [count / size]. *)
Definition isCeiling (t count size : Z) : Prop :=
  (t - 1) * size < count <= t * size.

(** The run of [n] consecutive integers that starts at [a]. *)
Fixpoint run (a : Z) (n : nat) : list Z :=
  match n with
  | O => []
  | S m => a :: run (a + 1) m
  end.

(** A page-link window for the page [current] out of [total]: a run of at
    most seven consecutive page numbers, all of them pages that exist, with
    the current page among them. *)
Definition pageWindow (l : list Z) (current total : Z) : Prop :=
  exists a n,
    l = run a n /\
    (n <= 7)%nat /\
    StronglySorted Z.lt l /\
    Forall (fun p => 1 <= p <= total) l /\
    In current l.

(** ** Subject terms *)

(** A subject term that the filter encoding keeps: not empty, equal to its
    own trim, without comma. *)
Definition plainTerm (t : string) : Prop :=
  t <> "" /\ Js.trim t = t /\ Js.includes ","%char t = false.

(** ** Metadata entries *)

(** The (schema, element, qualifier) group of a payload entry. *)
Definition groupOf (e : Models.PublicationMetadataPayload.t)
    : option string * string * option string :=
  (Models.PublicationMetadataPayload.schema e,
   Models.PublicationMetadataPayload.element e,
   Models.PublicationMetadataPayload.qualifier e).

Definition sameGroup (g : option string * string * option string)
    (e : Models.PublicationMetadataPayload.t) : bool :=
  let '(s, el, q) := g in
  let '(s', el', q') := groupOf e in
  match s, s' with
  | Some a, Some b => String.eqb a b
  | None, None => true
  | _, _ => false
  end &&
  String.eqb el el' &&
  match q, q' with
  | Some a, Some b => String.eqb a b
  | None, None => true
  | _, _ => false
  end.

(** The positions of the entries of one group, in the order of the list. *)
Definition positionsOfGroup (g : option string * string * option string)
    (l : list Models.PublicationMetadataPayload.t) : list (option Z) :=
  map Models.PublicationMetadataPayload.position (filter (sameGroup g) l).

(** Strictly increasing positions, each of them present. *)
Inductive increasing : list (option Z) -> Prop :=
| increasing_nil : increasing []
| increasing_one (a : Z) : increasing [Some a]
| increasing_cons (a b : Z) (rest : list (option Z)) :
    a < b -> increasing (Some b :: rest) -> increasing (Some a :: Some b :: rest).

(** The rows of the form array show the entries [l], in this order. *)
Definition showsEntries (f : PublicationFormComponent.Form.t)
    (l : list Models.PublicationMetadataEntry.t) : Prop :=
  PublicationFormComponent.Form.metadata f =
  map (fun e => PublicationFormComponent.createMetadataGroup
                  (Some (PublicationFormComponent.ofEntry e))) l.

(** The position an entry is stored with; an entry stored without one
    stands at 0. *)
Definition storedPosition (e : Models.PublicationMetadataEntry.t) : Z :=
  match Models.PublicationMetadataEntry.position e with
  | Some p => p
  | None => 0
  end.

(** Ascending stored positions: no entry stands before one of a smaller
    position. *)
Definition ascending (l : list Models.PublicationMetadataEntry.t) : Prop :=
  StronglySorted (fun a b => storedPosition a <= storedPosition b) l.

End Reading.

(** * Sample inputs *)

Module Samples.

(** A request with the query "maize" and no structured filter. *)
Definition maizeOnly : PublicationListComponent.State :=
  {| PublicationListComponent.hasLoadedInitial := true;
     PublicationListComponent.loading := false;
     PublicationListComponent.error := None;
     PublicationListComponent.publications := [];
     PublicationListComponent.facets := None;
     PublicationListComponent.count := 0;
     PublicationListComponent.page := 1;
     PublicationListComponent.pageSize := 10;
     PublicationListComponent.searchQuery := "maize";
     PublicationListComponent.journalSlug := None;
     PublicationListComponent.journalName := None;
     PublicationListComponent.ordering := None;
     PublicationListComponent.issuedFrom := None;
     PublicationListComponent.issuedTo := None;
     PublicationListComponent.subjectFilters := [];
     PublicationListComponent.authorFilters := [];
     PublicationListComponent.issuedYearFilters := [] |}.

(** Scenario C: the query "maize" together with issued_year = 2020. *)
Definition maize2020 : PublicationListComponent.State :=
  {| PublicationListComponent.hasLoadedInitial := true;
     PublicationListComponent.loading := false;
     PublicationListComponent.error := None;
     PublicationListComponent.publications := [];
     PublicationListComponent.facets := None;
     PublicationListComponent.count := 0;
     PublicationListComponent.page := 1;
     PublicationListComponent.pageSize := 10;
     PublicationListComponent.searchQuery := "maize";
     PublicationListComponent.journalSlug := None;
     PublicationListComponent.journalName := None;
     PublicationListComponent.ordering := None;
     PublicationListComponent.issuedFrom := None;
     PublicationListComponent.issuedTo := None;
     PublicationListComponent.subjectFilters := [];
     PublicationListComponent.authorFilters := [];
     PublicationListComponent.issuedYearFilters := ["2020"] |}.

(** Two subject filters, one of them of two words. *)
Definition soilAndCrops : PublicationListComponent.State :=
  {| PublicationListComponent.hasLoadedInitial := true;
     PublicationListComponent.loading := false;
     PublicationListComponent.error := None;
     PublicationListComponent.publications := [];
     PublicationListComponent.facets := None;
     PublicationListComponent.count := 95;
     PublicationListComponent.page := 5;
     PublicationListComponent.pageSize := 10;
     PublicationListComponent.searchQuery := "";
     PublicationListComponent.journalSlug := Some "ajk";
     PublicationListComponent.journalName := Some "African Journal";
     PublicationListComponent.ordering := None;
     PublicationListComponent.issuedFrom := None;
     PublicationListComponent.issuedTo := None;
     PublicationListComponent.subjectFilters := ["soil"; "crop science"];
     PublicationListComponent.authorFilters := [];
     PublicationListComponent.issuedYearFilters := [] |}.

(** Page 9 of 312 harvest runs, 25 to a page. *)
Definition manyLogs : HarvestLogListComponent.State :=
  {| HarvestLogListComponent.loading := false;
     HarvestLogListComponent.error := None;
     HarvestLogListComponent.logs := [];
     HarvestLogListComponent.count := 312;
     HarvestLogListComponent.page := 9;
     HarvestLogListComponent.pageSize := 25;
     HarvestLogListComponent.journalSlug := None;
     HarvestLogListComponent.journalName := None;
     HarvestLogListComponent.statusFilter := Some "failed";
     HarvestLogListComponent.pageSizeOptions := HarvestLogListComponent.PAGE_SIZE_OPTIONS |}.

(** The route of the harvest-log list asks for the failed runs. *)
Definition failedRuns : ParamMap.t := [("status", ["failed"])].

(** The route of the harvest-log list with a status that does not exist. *)
Definition bogusStatus : ParamMap.t := [("status", ["done"])].

(** A journal page of a journal with an OAI endpoint, no test running. *)
Definition journalPage : JournalDetailComponent.State :=
  {| JournalDetailComponent.loading := false;
     JournalDetailComponent.error := None;
     JournalDetailComponent.journal :=
       Some {| Models.Journal.id := "7";
               Models.Journal.name := "African Journal";
               Models.Journal.slug := "ajk";
               Models.Journal.description := "";
               Models.Journal.homepage_url := "https://ajk.example";
               Models.Journal.oai_url := Some " https://ajk.example/oai ";
               Models.Journal.last_harvested_at := None;
               Models.Journal.chief_editor := "";
               Models.Journal.publisher := "";
               Models.Journal.issn_print := "";
               Models.Journal.issn_online := "";
               Models.Journal.language := "en";
               Models.Journal.country := "KE";
               Models.Journal.founded_year := None;
               Models.Journal.contact_email := "";
               Models.Journal.is_active := true;
               Models.Journal.created_at := "2024-01-01";
               Models.Journal.updated_at := "2024-01-01" |};
     JournalDetailComponent.testingOai := false;
     JournalDetailComponent.oaiTestMessage := None;
     JournalDetailComponent.oaiTestSuccess := None |}.

(** The facet page as the component creates it. *)
Definition facetPage : PublicationFacetListComponent.State :=
  {| PublicationFacetListComponent.loading := true;
     PublicationFacetListComponent.error := None;
     PublicationFacetListComponent.items := [];
     PublicationFacetListComponent.total := 0;
     PublicationFacetListComponent.page := 1;
     PublicationFacetListComponent.totalPages := 1;
     PublicationFacetListComponent.pageSize := PublicationFacetListComponent.DEFAULT_PAGE_SIZE;
     PublicationFacetListComponent.facetKey := PublicationFacetListComponent.authors;
     PublicationFacetListComponent.facetParam := "author";
     PublicationFacetListComponent.searchMode := PublicationFacetListComponent.default;
     PublicationFacetListComponent.searchTerm := "";
     PublicationFacetListComponent.baseQueryParams := [];
     PublicationFacetListComponent.filterChips := [] |}.

(** The query parameters of a facet route: two subjects and a year. *)
Definition facetRoute : ParamMap.t :=
  [("subject", ["soil, crop science"]); ("issued_year", ["2020"]); ("page", ["2"])].

(** The options the facet page parses from [facetRoute]. *)
Definition facetOptions : PublicationApiService.O.t :=
  PublicationFacetListComponent.c_options
    (PublicationFacetListComponent.parseQueryParams facetRoute).

(** A stored metadata entry with the element, qualifier, value and position
    given. *)
Definition stored (id : Z) (element : string) (qualifier : option string) (value : string)
    (position : Z) : Models.PublicationMetadataEntry.t :=
  {| Models.PublicationMetadataEntry.id := id;
     Models.PublicationMetadataEntry.schema := "dc";
     Models.PublicationMetadataEntry.element := element;
     Models.PublicationMetadataEntry.qualifier := qualifier;
     Models.PublicationMetadataEntry.value := value;
     Models.PublicationMetadataEntry.language := None;
     Models.PublicationMetadataEntry.position := Some position |}.

(** A stored publication whose entries arrive out of order. *)
Definition storedPublication : Models.Publication.t :=
  {| Models.Publication.id := "1";
     Models.Publication.title := "Maize yields";
     Models.Publication.slug := "maize-yields";
     Models.Publication.description := "";
     Models.Publication.publisher := "KJ";
     Models.Publication.issued := Some "2020-01-02T00:00:00Z";
     Models.Publication.resource_type := "";
     Models.Publication.resource_format := "";
     Models.Publication.rights := "";
     Models.Publication.metadata :=
       Some [ stored 1 "creator" None "B" 3;
              stored 2 "title" None "Maize yields" 0;
              stored 3 "creator" None "A" 2;
              stored 4 "date" (Some "issued") "2020-01-02" 1;
              stored 5 "subject" None "soil" 4 ] |}.

(** The form after [storedPublication] was loaded into it. *)
Definition loadedForm : PublicationFormComponent.Form.t :=
  PublicationFormComponent.patchForm storedPublication PublicationFormComponent.form.

(** The group of the creators. *)
Definition creators : option string * string * option string :=
  (Some "dc", "creator", None).

(** The index is unavailable: status 503, no detail. *)
Definition unavailable : option HttpErrorResponse :=
  Some {| err_status := Some 503; err_detail := None |}.

End Samples.

(** * Invariants and further sample inputs

    What the methods of the components keep, named once; the properties of
    the last part of the development are stated with these. *)

Module Invariants.

(** Filter terms as the component stores them: each equal to its own trim,
    none empty. *)
Definition termsTrimmed (l : list string) : Prop :=
  Forall (fun t => Js.trim t = t /\ t <> "") l.

(** A scalar filter as the component stores it: absent, or trimmed and not
    empty. *)
Definition scalarTrimmed (v : option string) : Prop :=
  forall s, v = Some s -> Js.trim s = s /\ s <> "".

(** [value] is among the terms, letter case apart. *)
Definition activeTerm (value : string) (l : list string) : Prop :=
  exists t, In t l /\ Js.toLowerCase t = Js.toLowerCase value.

(** A text of four decimal digits that reads as a year from 1000 to 9999. *)
Definition fourDigitYear (y : string) : Prop :=
  String.length y = 4%nat /\
  Js.removeNonDigits y = y /\
  exists n, Js.parseInt y = Some n /\ 1000 <= n <= 9999.

Definition yearOrNone (v : option string) : Prop :=
  forall y, v = Some y -> fourDigitYear y.

(** The signals of the publication list as the route handler leaves them. *)
Definition routeShaped (st : PublicationListComponent.State) : Prop :=
  1 <= PublicationListComponent.page st /\
  1 <= PublicationListComponent.pageSize st /\
  Js.trim (PublicationListComponent.searchQuery st) = PublicationListComponent.searchQuery st /\
  scalarTrimmed (PublicationListComponent.journalSlug st) /\
  scalarTrimmed (PublicationListComponent.journalName st) /\
  scalarTrimmed (PublicationListComponent.ordering st) /\
  yearOrNone (PublicationListComponent.issuedFrom st) /\
  yearOrNone (PublicationListComponent.issuedTo st) /\
  Forall Reading.plainTerm (PublicationListComponent.subjectFilters st) /\
  termsTrimmed (PublicationListComponent.authorFilters st) /\
  termsTrimmed (PublicationListComponent.issuedYearFilters st).

(** The filters of two states of the publication list are the same. *)
Definition sameFilters (a b : PublicationListComponent.State) : Prop :=
  PublicationListComponent.journalSlug a = PublicationListComponent.journalSlug b /\
  PublicationListComponent.journalName a = PublicationListComponent.journalName b /\
  PublicationListComponent.ordering a = PublicationListComponent.ordering b /\
  PublicationListComponent.issuedFrom a = PublicationListComponent.issuedFrom b /\
  PublicationListComponent.issuedTo a = PublicationListComponent.issuedTo b /\
  PublicationListComponent.subjectFilters a = PublicationListComponent.subjectFilters b /\
  PublicationListComponent.authorFilters a = PublicationListComponent.authorFilters b /\
  PublicationListComponent.issuedYearFilters a = PublicationListComponent.issuedYearFilters b.

(** Two states of the publication list ask for the same page of the same
    query. *)
Definition sameQuery (a b : PublicationListComponent.State) : Prop :=
  PublicationListComponent.page a = PublicationListComponent.page b /\
  PublicationListComponent.pageSize a = PublicationListComponent.pageSize b /\
  PublicationListComponent.searchQuery a = PublicationListComponent.searchQuery b /\
  PublicationListComponent.count a = PublicationListComponent.count b /\
  sameFilters a b.

(** Two states of the component differ in the signals at most. *)
Definition sameSurroundings (a b : PublicationListComponent.Component) : Prop :=
  PublicationListComponent.lastRouteState a = PublicationListComponent.lastRouteState b /\
  PublicationListComponent.filtersForm a = PublicationListComponent.filtersForm b /\
  PublicationListComponent.issuedYearBounds a = PublicationListComponent.issuedYearBounds b /\
  PublicationListComponent.queryParamMap a = PublicationListComponent.queryParamMap b.

(** What a change of the query of the publication list sets in motion:
    one navigation to the parameters of the new state, or one request to
    the list or the search endpoint. *)
Definition oneNavigationOrRequest (baseUrl : string) (st : PublicationListComponent.State)
    (effects : list Effect) : Prop :=
  effects = [Navigate [] (PublicationListComponent.targetQueryParams st)] \/
  exists r, effects = [Http r] /\
            (url r = baseUrl ++ "/publications/" \/ url r = baseUrl ++ "/publications/search/").

(** The page shown exists. *)
Definition pageInRange (st : PublicationListComponent.State) : Prop :=
  1 <= PublicationListComponent.page st <= PublicationListComponent.totalPages st.

(** The year [y] lies within the bounds of the sliders. *)
Definition withinBounds (b : PublicationListComponent.YearBounds.t) (y : Z) : Prop :=
  PublicationListComponent.YearBounds.min b <= y <= PublicationListComponent.YearBounds.max b.

(** The bounds [b'] include the bounds [b]. *)
Definition widens (b b' : PublicationListComponent.YearBounds.t) : Prop :=
  PublicationListComponent.YearBounds.min b' <= PublicationListComponent.YearBounds.min b /\
  PublicationListComponent.YearBounds.max b <= PublicationListComponent.YearBounds.max b'.

(** A metadata entry as the API is to receive it: a value without white
    space around it, a schema and an element in lower case, none of them
    empty, and a qualifier and a language that are absent or non-empty and
    in lower case. *)
Definition lowerCased (s : string) : Prop := s <> "" /\ Js.toLowerCase s = s.

Definition sanitized (e : Models.PublicationMetadataPayload.t) : Prop :=
  Js.trim (Models.PublicationMetadataPayload.value e) = Models.PublicationMetadataPayload.value e /\
  Models.PublicationMetadataPayload.value e <> "" /\
  lowerCased (Models.PublicationMetadataPayload.element e) /\
  (exists s, Models.PublicationMetadataPayload.schema e = Some s /\ lowerCased s) /\
  (forall q, Models.PublicationMetadataPayload.qualifier e = Some q -> lowerCased q) /\
  (forall l, Models.PublicationMetadataPayload.language e = Some l -> lowerCased l).

(** Facet items ordered by falling count. *)
Definition byFallingCount (l : list Models.FacetItem.t) : Prop :=
  StronglySorted (fun a b => Models.FacetItem.count b <= Models.FacetItem.count a) l.

(** The text of a positive integer: a request parameter that carries a
    page number or a page size. *)
Definition positiveText (v : option string) : Prop :=
  exists n, v = Some (Js.toString n) /\ 1 <= n.

(** The keys of a [queryParams] object are distinct. *)
Definition distinctKeys (q : QueryParams) : Prop := NoDup (map fst q).

(** The query parameters of the route once the effects of a method have
    taken place: a navigation without commands stays on the page and
    merges its parameters into those of the route. *)
Definition routeAfter (current : ParamMap.t) (effects : list Effect) : ParamMap.t :=
  fold_left (fun route e =>
               match e with
               | Navigate [] q => mergeRoute route q
               | _ => route
               end) effects current.

End Invariants.

Module MoreSamples.

(** The publication list on the route of its own parameters, soil and crop
    science selected. *)
Definition listPage : PublicationListComponent.Component :=
  {| PublicationListComponent.signals := Samples.soilAndCrops;
     PublicationListComponent.lastRouteState :=
       {| PublicationListComponent.RouteSnapshotState.page := 5;
          PublicationListComponent.RouteSnapshotState.search := "";
          PublicationListComponent.RouteSnapshotState.pageSize := 10;
          PublicationListComponent.RouteSnapshotState.journal := Some "ajk";
          PublicationListComponent.RouteSnapshotState.journalName := Some "African Journal";
          PublicationListComponent.RouteSnapshotState.ordering := None;
          PublicationListComponent.RouteSnapshotState.issuedFrom := Some "";
          PublicationListComponent.RouteSnapshotState.issuedTo := Some "";
          PublicationListComponent.RouteSnapshotState.subjectFilters := ["soil"; "crop science"];
          PublicationListComponent.RouteSnapshotState.authors := [];
          PublicationListComponent.RouteSnapshotState.issuedYears := [] |};
     PublicationListComponent.filtersForm :=
       {| PublicationListComponent.FiltersForm.journal := "ajk";
          PublicationListComponent.FiltersForm.issuedFromSlider := 1950;
          PublicationListComponent.FiltersForm.issuedToSlider := 2025 |};
     PublicationListComponent.issuedYearBounds :=
       {| PublicationListComponent.YearBounds.min := 1950;
          PublicationListComponent.YearBounds.max := 2025 |};
     PublicationListComponent.queryParamMap :=
       routeOf (PublicationListComponent.targetQueryParams Samples.soilAndCrops) |}.

(** A facet item. *)
Definition item (value label : string) (count : Z) : Models.FacetItem.t :=
  {| Models.FacetItem.value := value;
     Models.FacetItem.label := label;
     Models.FacetItem.count := count;
     Models.FacetItem.active := false |}.

(** The facet page of the subjects, reached from a list filtered by a
    journal. *)
Definition subjectsPage : PublicationFacetListComponent.State :=
  {| PublicationFacetListComponent.loading := false;
     PublicationFacetListComponent.error := None;
     PublicationFacetListComponent.items := [item "soil" "soil" 12; item "maize" "maize" 7];
     PublicationFacetListComponent.total := 2;
     PublicationFacetListComponent.page := 1;
     PublicationFacetListComponent.totalPages := 1;
     PublicationFacetListComponent.pageSize := PublicationFacetListComponent.DEFAULT_PAGE_SIZE;
     PublicationFacetListComponent.facetKey := PublicationFacetListComponent.subjects;
     PublicationFacetListComponent.facetParam := "subject";
     PublicationFacetListComponent.searchMode := PublicationFacetListComponent.default;
     PublicationFacetListComponent.searchTerm := "";
     PublicationFacetListComponent.baseQueryParams :=
       [("journal", QString "ajk"); ("journal_name", QString "African Journal")];
     PublicationFacetListComponent.filterChips := [] |}.

End MoreSamples.

(** * Properties *)

(** ** Strings *)

Section StringFacts.

Lemma truthy_true_iff (s : string) : Js.truthy s = true <-> s <> "".
Proof. destruct s; simpl; split; intros; congruence. Qed.

Lemma truthy_false_iff (s : string) : Js.truthy s = false <-> s = "".
Proof. destruct s; simpl; split; intros; congruence. Qed.

Lemma length_positive_truthy (s : string) :
  (0 <? Z.of_nat (String.length s)) = Js.truthy s.
Proof. destruct s; simpl; [reflexivity | apply Z.ltb_lt; lia]. Qed.

Lemma nonempty_list_iff {A : Type} (l : list A) :
  negb (Z.of_nat (length l) =? 0) = true <-> l <> [].
Proof.
  destruct l; simpl; split; intros; congruence.
Qed.

Lemma append_cancel_l (a x y : string) : a ++ x = a ++ y -> x = y.
Proof.
  induction a as [| c a IH]; simpl; intros H; [exact H |].
  injection H as H. auto.
Qed.

End StringFacts.

(** ** Query parameters *)

Ltac decide_keys :=
  repeat match goal with
         | |- context [String.eqb ?a ?b] =>
             let v := eval vm_compute in (String.eqb a b) in
             change (String.eqb a b) with v
         end;
  cbv iota.

Section HttpParamsFacts.

Lemma getAll_set (k k' v : string) (p : HttpParams.t) :
  HttpParams.getAll k (HttpParams.set k' v p) =
  if String.eqb k' k then [v] else HttpParams.getAll k p.
Proof.
  induction p as [| [k0 vs] rest IH]; simpl.
  - destruct (String.eqb k' k); reflexivity.
  - destruct (String.eqb_spec k0 k') as [-> | Hne]; simpl.
    + destruct (String.eqb k' k); reflexivity.
    + rewrite IH. destruct (String.eqb_spec k0 k) as [-> | Hne']; [| reflexivity].
      destruct (String.eqb_spec k' k); [congruence | reflexivity].
Qed.

Lemma getAll_append (k k' v : string) (p : HttpParams.t) :
  HttpParams.getAll k (HttpParams.append k' v p) =
  if String.eqb k' k then (HttpParams.getAll k p ++ [v])%list else HttpParams.getAll k p.
Proof.
  induction p as [| [k0 vs] rest IH]; simpl.
  - destruct (String.eqb k' k); reflexivity.
  - destruct (String.eqb_spec k0 k') as [-> | Hne]; simpl.
    + destruct (String.eqb k' k); reflexivity.
    + rewrite IH. destruct (String.eqb_spec k0 k) as [-> | Hne']; [| reflexivity].
      destruct (String.eqb_spec k' k); [congruence | reflexivity].
Qed.

Lemma getAll_fold_append (k k' : string) (vs : list string) (p : HttpParams.t) :
  HttpParams.getAll k (fold_left (fun acc v => HttpParams.append k' v acc) vs p) =
  if String.eqb k' k then (HttpParams.getAll k p ++ vs)%list else HttpParams.getAll k p.
Proof.
  revert p. induction vs as [| v vs IH]; intros p; cbn [fold_left].
  - destruct (String.eqb k' k); [now rewrite app_nil_r | reflexivity].
  - rewrite IH, getAll_append. destruct (String.eqb k' k); [| reflexivity].
    now rewrite <- app_assoc.
Qed.

Lemma getAll_setIfTruthy (k k' : string) (v : option string) (p : HttpParams.t) :
  HttpParams.getAll k (setIfTruthy k' v p) =
  if String.eqb k' k && Js.truthyOpt v then [Js.nullish v ""] else HttpParams.getAll k p.
Proof.
  unfold setIfTruthy. destruct v as [s |]; simpl.
  - destruct (Js.truthy s); [rewrite getAll_set |];
      destruct (String.eqb k' k); reflexivity.
  - now rewrite andb_false_r.
Qed.

Lemma getAll_setIfPositive (k k' : string) (n : option Z) (f : Z -> Z) (p : HttpParams.t) :
  String.eqb k' k = false ->
  HttpParams.getAll k (setIfPositive k' n f p) = HttpParams.getAll k p.
Proof.
  intros Hne. unfold setIfPositive. destruct n as [z |]; [| reflexivity].
  destruct (0 <? z); [| reflexivity]. now rewrite getAll_set, Hne.
Qed.

Lemma getAll_setJournal (k : string) (slug : option string) (id : option Z)
    (p : HttpParams.t) :
  String.eqb "journal_id" k = false ->
  HttpParams.getAll k (PublicationApiService.setJournal slug id p) =
  if String.eqb "journal" k && Js.truthyOpt slug then [Js.nullish slug ""]
  else HttpParams.getAll k p.
Proof.
  intros Hne. unfold PublicationApiService.setJournal.
  destruct (Js.truthyOpt slug).
  - rewrite getAll_set. now rewrite andb_true_r.
  - rewrite andb_false_r. destruct id; [| reflexivity]. now rewrite getAll_set, Hne.
Qed.

Lemma getAll_appendAuthors (k : string) (a : option (list string)) (p : HttpParams.t) :
  HttpParams.getAll k (PublicationApiService.appendAuthors a p) =
  if String.eqb "author" k
  then (HttpParams.getAll k p ++
        match a with Some l => filter Js.truthy (map Js.trim l) | None => [] end)%list
  else HttpParams.getAll k p.
Proof.
  unfold PublicationApiService.appendAuthors. destruct a as [l |].
  - apply getAll_fold_append.
  - destruct (String.eqb "author" k); [now rewrite app_nil_r | reflexivity].
Qed.

Lemma getAll_appendIssuedYears (k : string)
    (ys : option (list PublicationApiService.YearArg)) (p : HttpParams.t) :
  HttpParams.getAll k (PublicationApiService.appendIssuedYears ys p) =
  if String.eqb "issued_year" k
  then (HttpParams.getAll k p ++
        match ys with
        | Some l => map Js.toString (PublicationApiService.finiteYears l)
        | None => []
        end)%list
  else HttpParams.getAll k p.
Proof.
  unfold PublicationApiService.appendIssuedYears. destruct ys as [l |].
  - generalize (PublicationApiService.finiteYears l). intros zs. revert p.
    induction zs as [| z zs IH]; intros p; cbn [fold_left map].
    + destruct (String.eqb "issued_year" k); [now rewrite app_nil_r | reflexivity].
    + rewrite IH, getAll_append. destruct (String.eqb "issued_year" k); [| reflexivity].
      now rewrite <- app_assoc.
  - destruct (String.eqb "issued_year" k); [now rewrite app_nil_r | reflexivity].
Qed.

End HttpParamsFacts.

(** Rewrites a [getAll] through the parameter builders of the services, for
    a key given as a literal. *)
Ltac through_builders :=
  repeat first
    [ rewrite getAll_appendIssuedYears
    | rewrite getAll_appendAuthors
    | rewrite getAll_setIfTruthy
    | rewrite getAll_setJournal by reflexivity
    | rewrite getAll_setIfPositive by reflexivity
    | rewrite getAll_set ];
  decide_keys.

(** Reduces the fields of an options record that is written out. *)
Ltac option_fields :=
  cbn [params Js.nullish PublicationApiService.O.search
       PublicationApiService.O.page PublicationApiService.O.pageSize
       PublicationApiService.O.journalSlug PublicationApiService.O.journalId
       PublicationApiService.O.ordering PublicationApiService.O.issuedFrom
       PublicationApiService.O.issuedTo PublicationApiService.O.subject
       PublicationApiService.O.authors PublicationApiService.O.issuedYears].

(** ** Backend selection of the publication list *)

Module PublicationListFacts.
Import PublicationListComponent.

Lemma truthyOpt_iff (v : option string) :
  Js.truthyOpt v = true <-> exists s, v = Some s /\ s <> "".
Proof.
  destruct v as [s |]; simpl.
  - rewrite truthy_true_iff. split.
    + intros H. exists s. auto.
    + intros [s' [[= ->] H]]. exact H.
  - split; [discriminate | intros [s [[=] _]]].
Qed.

Lemma hasAdditionalFilters_iff (st : State) :
  hasAdditionalFilters st = true <-> Reading.structuredFilterSet st.
Proof.
  unfold hasAdditionalFilters, Reading.structuredFilterSet.
  rewrite !orb_true_iff, !truthyOpt_iff, !nonempty_list_iff. tauto.
Qed.

Lemma usingSearchEndpoint_iff (baseUrl : string) (st : State) :
  usingSearchEndpoint (snd (fetchPublications baseUrl st)) = true <->
  Reading.freeTextQuery st <> "" /\ ~ Reading.structuredFilterSet st.
Proof.
  unfold fetchPublications, Reading.freeTextQuery; cbn [snd usingSearchEndpoint].
  rewrite andb_true_iff, negb_true_iff, length_positive_truthy, truthy_true_iff.
  rewrite <- hasAdditionalFilters_iff.
  destruct (hasAdditionalFilters st); intuition congruence.
Qed.

Lemma request_url (baseUrl : string) (st : State) :
  url (request (snd (fetchPublications baseUrl st))) =
  if usingSearchEndpoint (snd (fetchPublications baseUrl st))
  then baseUrl ++ "/publications/search/" else baseUrl ++ "/publications/".
Proof.
  unfold fetchPublications; cbn [snd request usingSearchEndpoint].
  destruct (_ && _); reflexivity.
Qed.

Lemma endpoints_differ (baseUrl : string) :
  baseUrl ++ "/publications/search/" <> baseUrl ++ "/publications/".
Proof. intros H. apply append_cancel_l in H. discriminate. Qed.

End PublicationListFacts.

(** C1. A publication list/search request goes to the index search endpoint
    [/publications/search/] exactly when it has a non-empty free-text query
    and no structured filter (journal, issued_from, issued_to, ordering,
    subject, author, issued_year) is set; the query then travels as [q].
    Every other request, also one that combines a query with a structured
    filter, goes to the relational list endpoint [/publications/], carries
    the query (when there is one) as the plain [search] parameter, and has
    no [q] parameter: the index is not queried. *)
Theorem C1_backend_selection (baseUrl : string) (st : PublicationListComponent.State) :
  let r := PublicationListComponent.request
             (snd (PublicationListComponent.fetchPublications baseUrl st)) in
  let q := Reading.freeTextQuery st in
  (url r = baseUrl ++ "/publications/search/" <->
   q <> "" /\ ~ Reading.structuredFilterSet st) /\
  (url r = baseUrl ++ "/publications/" <->
   ~ (q <> "" /\ ~ Reading.structuredFilterSet st)) /\
  (url r = baseUrl ++ "/publications/search/" ->
   HttpParams.getAll "q" (params r) = [q] /\ HttpParams.getAll "search" (params r) = []) /\
  (url r = baseUrl ++ "/publications/" ->
   HttpParams.getAll "search" (params r) = (if Js.truthy q then [q] else []) /\
   HttpParams.getAll "q" (params r) = []).
Proof.
  intros r q.
  pose proof (PublicationListFacts.usingSearchEndpoint_iff baseUrl st) as Huse.
  pose proof (PublicationListFacts.request_url baseUrl st) as Hurl.
  fold r in Hurl. fold q in Huse.
  assert (Hparams :
    if PublicationListComponent.usingSearchEndpoint
         (snd (PublicationListComponent.fetchPublications baseUrl st))
    then HttpParams.getAll "q" (params r) = [q] /\
         HttpParams.getAll "search" (params r) = []
    else HttpParams.getAll "search" (params r) = (if Js.truthy q then [q] else []) /\
         HttpParams.getAll "q" (params r) = []).
  { subst r q. unfold Reading.freeTextQuery.
    unfold PublicationListComponent.fetchPublications;
      cbn [snd PublicationListComponent.request PublicationListComponent.usingSearchEndpoint].
    rewrite length_positive_truthy.
    destruct (Js.truthy (Js.trim (PublicationListComponent.searchQuery st))) eqn:Hq;
      destruct (PublicationListComponent.hasAdditionalFilters st); cbn [andb negb];
      unfold PublicationApiService.search, PublicationApiService.list;
      option_fields;
      split; through_builders; cbn [andb Js.truthyOpt HttpParams.getAll HttpParams.empty];
      rewrite ?Hq; reflexivity. }
  destruct (PublicationListComponent.usingSearchEndpoint
              (snd (PublicationListComponent.fetchPublications baseUrl st))) eqn:E.
  - assert (Hyes : q <> "" /\ ~ Reading.structuredFilterSet st)
      by (apply Huse; reflexivity).
    split; [| split; [| split]].
    + split; auto.
    + split; [| intros H; contradiction].
      intros H. rewrite Hurl in H. now apply PublicationListFacts.endpoints_differ in H.
    + intros _. exact Hparams.
    + intros H. rewrite Hurl in H. now apply PublicationListFacts.endpoints_differ in H.
  - assert (Hno : ~ (q <> "" /\ ~ Reading.structuredFilterSet st)).
    { intros H. apply Huse in H. discriminate. }
    assert (Hne : url r <> baseUrl ++ "/publications/search/").
    { rewrite Hurl. intros H. symmetry in H.
      now apply PublicationListFacts.endpoints_differ in H. }
    split; [| split; [| split]].
    + split; [intros H; contradiction | intros H; contradiction].
    + split; auto.
    + intros H. contradiction.
    + intros _. exact Hparams.
Qed.

(** The two plans at work: "maize" alone is sent to the index search
    endpoint as [q]; "maize" with issued_year = 2020 is sent to the
    relational list endpoint as [search]. *)
Lemma C1_witness :
  (let r := PublicationListComponent.request
              (snd (PublicationListComponent.fetchPublications "/api" Samples.maizeOnly)) in
   url r = "/api/publications/search/" /\
   HttpParams.getAll "q" (params r) = ["maize"] /\
   HttpParams.getAll "search" (params r) = []) /\
  (let r := PublicationListComponent.request
              (snd (PublicationListComponent.fetchPublications "/api" Samples.maize2020)) in
   url r = "/api/publications/" /\
   HttpParams.getAll "search" (params r) = ["maize"] /\
   HttpParams.getAll "q" (params r) = []).
Proof.
  split.
  - destruct (C1_backend_selection "/api" Samples.maizeOnly) as (Hsearch & _ & Hq & _).
    assert (Hurl : url (PublicationListComponent.request
                          (snd (PublicationListComponent.fetchPublications "/api"
                                  Samples.maizeOnly))) = "/api/publications/search/").
    { apply Hsearch. split; [discriminate |].
      intros [[s [H _]] | [[s [H _]] | [[s [H _]] | [[s [H _]] | [H | [H | H]]]]]];
        first [discriminate H | now apply H]. }
    split; [exact Hurl | exact (Hq Hurl)].
  - destruct (C1_backend_selection "/api" Samples.maize2020) as (_ & Hlist & _ & Hs).
    assert (Hurl : url (PublicationListComponent.request
                          (snd (PublicationListComponent.fetchPublications "/api"
                                  Samples.maize2020))) = "/api/publications/").
    { apply Hlist. intros [_ Hno]. apply Hno.
      do 6 right. discriminate. }
    split; [exact Hurl | exact (Hs Hurl)].
Defined.

(** Scenario C of the specification: "maize" with issued_year = 2020 is sent
    to the relational list endpoint, with the query as [search]. *)
Example scenario_C :
  let r := PublicationListComponent.request
             (snd (PublicationListComponent.fetchPublications "/api" Samples.maize2020)) in
  url r = "/api/publications/" /\
  params r = [("page", ["1"]); ("search", ["maize"]); ("page_size", ["10"]);
              ("issued_year", ["2020"])].
Proof. split; reflexivity. Qed.

(** ** The response envelope *)

(** The request of the publication list is typed by the one response
    interface, whichever endpoint it goes to. *)
Lemma fetchPublications_response (baseUrl : string) (st : PublicationListComponent.State) :
  response (PublicationListComponent.request
              (snd (PublicationListComponent.fetchPublications baseUrl st))) =
  Ts.TObject Models.PublicationListResponse.decl.
Proof.
  unfold PublicationListComponent.fetchPublications;
    cbn [snd PublicationListComponent.request].
  destruct (_ && _); reflexivity.
Qed.

(** C2. The relational list request and the index search request are typed
    by one and the same response envelope; its fields are [count], [page],
    [page_size], [results] (an array) and [facets], and [facets] has exactly
    the four dimensions [authors], [subjects], [journals] and
    [issued_years]. The request the publication list issues has this
    response type on either path. *)
Theorem C2_one_response_envelope (baseUrl query : string)
    (options : option PublicationApiService.O.t) (st : PublicationListComponent.State) :
  response (PublicationApiService.list baseUrl options) =
  response (PublicationApiService.search baseUrl query options) /\
  response (PublicationListComponent.request
              (snd (PublicationListComponent.fetchPublications baseUrl st))) =
  response (PublicationApiService.list baseUrl options) /\
  Ts.fieldsOf (response (PublicationApiService.list baseUrl options)) =
  Some ["count"; "page"; "page_size"; "results"; "facets"] /\
  (exists T, Ts.lookup "results" Models.PublicationListResponse.decl = Some (Ts.TArray T)) /\
  match Ts.lookup "facets" Models.PublicationListResponse.decl with
  | Some facets => Ts.fieldsOf facets = Some Reading.facetDimensions
  | None => False
  end.
Proof.
  split; [reflexivity |].
  split; [apply fetchPublications_response |].
  split; [reflexivity |].
  split; [eexists; reflexivity | reflexivity].
Qed.

(** ** Failed requests of the publication list *)

Lemma failedFetch_clears (baseUrl : string) (st : PublicationListComponent.State)
    (err : option HttpErrorResponse) :
  snd (Reading.failedFetch baseUrl st err) = [] /\
  PublicationListComponent.publications (fst (Reading.failedFetch baseUrl st err)) = [] /\
  PublicationListComponent.count (fst (Reading.failedFetch baseUrl st err)) = 0 /\
  PublicationListComponent.facets (fst (Reading.failedFetch baseUrl st err)) = None /\
  PublicationListComponent.loading (fst (Reading.failedFetch baseUrl st err)) = false.
Proof. repeat split. Qed.

Lemma isSearch_iff (baseUrl : string) (st : PublicationListComponent.State) :
  PublicationListComponent.isSearch
    (snd (PublicationListComponent.fetchPublications baseUrl st)) = true <->
  Reading.freeTextQuery st <> "".
Proof.
  unfold PublicationListComponent.fetchPublications, Reading.freeTextQuery;
    cbn [snd PublicationListComponent.isSearch].
  now rewrite length_positive_truthy, truthy_true_iff.
Qed.

(** The text the error callback shows, by the request that failed. *)
Lemma failedFetch_message (baseUrl : string) (st : PublicationListComponent.State)
    (err : option HttpErrorResponse) :
  let p := snd (PublicationListComponent.fetchPublications baseUrl st) in
  PublicationListComponent.error (fst (Reading.failedFetch baseUrl st err)) =
  Some (if PublicationListComponent.usingSearchEndpoint p &&
           match err with
           | Some e => match err_status e with Some n => n =? 503 | None => false end
           | None => false
           end
        then "Search is temporarily unavailable. Please try again later."
        else if PublicationListComponent.isSearch p &&
                negb (PublicationListComponent.usingSearchEndpoint p)
        then "Unable to apply the selected filters with search."
        else match err with
             | Some e => match err_detail e with
                         | Some d => d
                         | None => "Unable to load publications."
                         end
             | None => "Unable to load publications."
             end).
Proof.
  cbv zeta. unfold Reading.failedFetch, PublicationListComponent.fetchPublicationsError.
  cbn [fst PublicationListComponent.error]. f_equal.
  destruct err as [[[n |] [d |]] |]; reflexivity.
Qed.

Lemma failedFetch_unavailable_message (baseUrl : string)
    (st : PublicationListComponent.State) (e : HttpErrorResponse) :
  Reading.freeTextQuery st <> "" ->
  ~ Reading.structuredFilterSet st ->
  err_status e = Some 503 ->
  PublicationListComponent.error (fst (Reading.failedFetch baseUrl st (Some e))) =
  Some "Search is temporarily unavailable. Please try again later.".
Proof.
  intros Hq Hf Hs.
  assert (Huse : PublicationListComponent.usingSearchEndpoint
                   (snd (PublicationListComponent.fetchPublications baseUrl st)) = true)
    by (apply PublicationListFacts.usingSearchEndpoint_iff; auto).
  rewrite failedFetch_message. cbv zeta. rewrite Huse, Hs. reflexivity.
Qed.

Lemma failedFetch_filters_message (baseUrl : string)
    (st : PublicationListComponent.State) (err : option HttpErrorResponse) :
  Reading.freeTextQuery st <> "" ->
  Reading.structuredFilterSet st ->
  PublicationListComponent.error (fst (Reading.failedFetch baseUrl st err)) =
  Some "Unable to apply the selected filters with search.".
Proof.
  intros Hq Hf.
  assert (Huse : PublicationListComponent.usingSearchEndpoint
                   (snd (PublicationListComponent.fetchPublications baseUrl st)) = false).
  { destruct (PublicationListComponent.usingSearchEndpoint _) eqn:E; [| reflexivity].
    apply PublicationListFacts.usingSearchEndpoint_iff in E. tauto. }
  assert (His : PublicationListComponent.isSearch
                  (snd (PublicationListComponent.fetchPublications baseUrl st)) = true)
    by now apply isSearch_iff.
  rewrite failedFetch_message. cbv zeta. rewrite Huse, His. reflexivity.
Qed.

Lemma failedFetch_detail_message (baseUrl : string)
    (st : PublicationListComponent.State) (err : option HttpErrorResponse) :
  Reading.freeTextQuery st = "" \/
  (~ Reading.structuredFilterSet st /\
   forall e, err = Some e -> err_status e <> Some 503) ->
  PublicationListComponent.error (fst (Reading.failedFetch baseUrl st err)) =
  Some match err with
       | Some e => match err_detail e with
                   | Some d => d
                   | None => "Unable to load publications."
                   end
       | None => "Unable to load publications."
       end.
Proof.
  intros H. rewrite failedFetch_message. cbv zeta.
  destruct (PublicationListComponent.isSearch
              (snd (PublicationListComponent.fetchPublications baseUrl st))) eqn:His.
  - apply isSearch_iff in His. destruct H as [H | [Hf H]]; [contradiction |].
    assert (Huse : PublicationListComponent.usingSearchEndpoint
                     (snd (PublicationListComponent.fetchPublications baseUrl st)) = true)
      by (apply PublicationListFacts.usingSearchEndpoint_iff; auto).
    rewrite Huse. cbn [andb negb].
    destruct err as [e |]; [| reflexivity].
    destruct (err_status e) as [n |] eqn:Es; [| reflexivity].
    destruct (n =? 503) eqn:En; [| reflexivity].
    apply Z.eqb_eq in En. subst n. now destruct (H e eq_refl).
  - assert (Huse : PublicationListComponent.usingSearchEndpoint
                     (snd (PublicationListComponent.fetchPublications baseUrl st)) = false).
    { destruct (PublicationListComponent.usingSearchEndpoint _) eqn:E; [| reflexivity].
      apply PublicationListFacts.usingSearchEndpoint_iff in E. destruct E as [E _].
      pose proof (proj2 (isSearch_iff baseUrl st) E). congruence. }
    rewrite Huse. reflexivity.
Qed.

(** An empty text is shown only for an error whose detail is empty. *)
Lemma failedFetch_empty_message (baseUrl : string)
    (st : PublicationListComponent.State) (err : option HttpErrorResponse) :
  PublicationListComponent.error (fst (Reading.failedFetch baseUrl st err)) = Some "" ->
  exists e, err = Some e /\ err_detail e = Some "".
Proof.
  rewrite failedFetch_message. cbv zeta.
  destruct (_ && _); [discriminate |].
  destruct (_ && _); [discriminate |].
  destruct err as [e |]; [| discriminate].
  destruct (err_detail e) as [d |] eqn:Ed; [| discriminate].
  intros [= ->]. now exists e.
Qed.

Lemma failedFetch_graceful_iff (baseUrl : string)
    (st : PublicationListComponent.State) (err : option HttpErrorResponse) :
  Reading.degradesGracefully baseUrl (Reading.failedFetch baseUrl st err) <->
  PublicationListComponent.error (fst (Reading.failedFetch baseUrl st err)) = Some "".
Proof.
  unfold Reading.degradesGracefully, Reading.showsError, Reading.fallsBack.
  destruct (failedFetch_clears baseUrl st err) as [Hnil _]. rewrite Hnil.
  rewrite failedFetch_message. cbv zeta.
  match goal with |- context [Some ?m] => generalize m end. intros m.
  split.
  - intros [H | [r [[] _]]]. destruct m as [| c m]; [reflexivity |].
    exfalso. apply H. eexists. split; [reflexivity | discriminate].
  - intros [= ->]. left. intros [msg [[= <-] Hne]]. now apply Hne.
Qed.

(** C3, as the publication list has it. A failed list or search request of
    the publication list is never followed by a fall-back to relational
    filtering: the error callback issues no request and empties the result
    list (count 0, facets cleared). The text it sets is "Search is
    temporarily unavailable. Please try again later." when the request went
    to the index search endpoint (a query, no structured filter) and the
    status is 503; "Unable to apply the selected filters with search." when
    the request combined a query with a structured filter; and otherwise
    the detail of the error response, or "Unable to load publications."
    when it has none. The failure counts as degraded gracefully, read
    generously (no error on the page, or a fall-back request), exactly when
    that text is empty, which happens only for an error response whose
    detail is the empty text: the page then shows an empty list and no
    error. *)
Theorem C3_index_unavailable_is_shown (baseUrl : string)
    (st : PublicationListComponent.State) (err : option HttpErrorResponse) :
  let outcome := Reading.failedFetch baseUrl st err in
  let detail :=
    match err with
    | Some e => match err_detail e with
                | Some d => d
                | None => "Unable to load publications."
                end
    | None => "Unable to load publications."
    end in
  snd outcome = [] /\
  ~ Reading.fallsBack baseUrl (snd outcome) /\
  PublicationListComponent.publications (fst outcome) = [] /\
  PublicationListComponent.count (fst outcome) = 0 /\
  PublicationListComponent.facets (fst outcome) = None /\
  (forall e, err = Some e ->
     Reading.freeTextQuery st <> "" ->
     ~ Reading.structuredFilterSet st ->
     err_status e = Some 503 ->
     PublicationListComponent.error (fst outcome) =
       Some "Search is temporarily unavailable. Please try again later." /\
     Reading.showsError (fst outcome)) /\
  (Reading.freeTextQuery st <> "" ->
   Reading.structuredFilterSet st ->
   PublicationListComponent.error (fst outcome) =
     Some "Unable to apply the selected filters with search.") /\
  (Reading.freeTextQuery st = "" \/
   (~ Reading.structuredFilterSet st /\
    forall e, err = Some e -> err_status e <> Some 503) ->
   PublicationListComponent.error (fst outcome) = Some detail) /\
  (Reading.degradesGracefully baseUrl outcome <->
   PublicationListComponent.error (fst outcome) = Some "") /\
  (PublicationListComponent.error (fst outcome) = Some "" ->
   exists e, err = Some e /\ err_detail e = Some "").
Proof.
  intros outcome detail. subst outcome detail.
  destruct (failedFetch_clears baseUrl st err) as (H1 & H2 & H3 & H4 & _).
  split; [exact H1 |].
  split; [rewrite H1; intros [r [[] _]] |].
  split; [exact H2 |]. split; [exact H3 |]. split; [exact H4 |].
  split.
  { intros e -> Hq Hf Hs.
    pose proof (failedFetch_unavailable_message baseUrl st e Hq Hf Hs) as Hm.
    split; [exact Hm |]. eexists. split; [exact Hm | discriminate]. }
  split; [now apply failedFetch_filters_message |].
  split; [now apply failedFetch_detail_message |].
  split; [apply failedFetch_graceful_iff | apply failedFetch_empty_message].
Qed.

(** C3 as stated fails: the query "maize" without filters goes to the index
    search endpoint; when that answers 503 the caller gets the error message
    and an empty list, and no request to the relational list endpoint. *)
Lemma C3_counterexample :
  url (PublicationListComponent.request
         (snd (PublicationListComponent.fetchPublications "/api" Samples.maizeOnly))) =
  "/api/publications/search/" /\
  Reading.failedFetch "/api" Samples.maizeOnly Samples.unavailable =
  ({| PublicationListComponent.hasLoadedInitial := true;
      PublicationListComponent.loading := false;
      PublicationListComponent.error :=
        Some "Search is temporarily unavailable. Please try again later.";
      PublicationListComponent.publications := [];
      PublicationListComponent.facets := None;
      PublicationListComponent.count := 0;
      PublicationListComponent.page := 1;
      PublicationListComponent.pageSize := 10;
      PublicationListComponent.searchQuery := "maize";
      PublicationListComponent.journalSlug := None;
      PublicationListComponent.journalName := None;
      PublicationListComponent.ordering := None;
      PublicationListComponent.issuedFrom := None;
      PublicationListComponent.issuedTo := None;
      PublicationListComponent.subjectFilters := [];
      PublicationListComponent.authorFilters := [];
      PublicationListComponent.issuedYearFilters := [] |}, []) /\
  ~ Reading.degradesGracefully "/api"
      (Reading.failedFetch "/api" Samples.maizeOnly Samples.unavailable).
Proof.
  split; [reflexivity |]. split; [reflexivity |].
  intros [Hnone | [r [Hin _]]]; [| exact Hin].
  apply Hnone. eexists. split; [reflexivity | discriminate].
Qed.

(** The "maize" request answered with 503: the message is on the page, and
    no request takes the place of the failed one. *)
Lemma C3_witness :
  PublicationListComponent.error
    (fst (Reading.failedFetch "/api" Samples.maizeOnly Samples.unavailable)) =
  Some "Search is temporarily unavailable. Please try again later." /\
  Reading.showsError (fst (Reading.failedFetch "/api" Samples.maizeOnly Samples.unavailable)) /\
  snd (Reading.failedFetch "/api" Samples.maizeOnly Samples.unavailable) = [].
Proof.
  destruct (C3_index_unavailable_is_shown "/api" Samples.maizeOnly Samples.unavailable)
    as (Hnone & _ & _ & _ & _ & Hmsg & _).
  destruct (Hmsg {| err_status := Some 503; err_detail := None |}) as [Hm Hs].
  - reflexivity.
  - discriminate.
  - intros [[s [H _]] | [[s [H _]] | [[s [H _]] | [[s [H _]] | [H | [H | H]]]]]];
      first [discriminate H | now apply H].
  - reflexivity.
  - split; [exact Hm |]. split; [exact Hs | exact Hnone].
Defined.

(** ** Harvest logs *)

Lemma isHarvestStatus_iff (s : string) :
  Reading.isHarvestStatus s <-> s = "running" \/ s = "success" \/ s = "failed".
Proof.
  split.
  - intros [[| |] ->]; simpl; auto.
  - intros [-> | [-> | ->]].
    + now exists Models.HarvestStatus.running.
    + now exists Models.HarvestStatus.success.
    + now exists Models.HarvestStatus.failed.
Qed.

Lemma normalizedStatus_cases (statusParam : option string) :
  (exists s, statusParam = Some s /\ Reading.isHarvestStatus s /\
             HarvestLogListComponent.normalizedStatus statusParam = Some s) \/
  ((forall s, statusParam = Some s -> ~ Reading.isHarvestStatus s) /\
   HarvestLogListComponent.normalizedStatus statusParam = None).
Proof.
  destruct statusParam as [s |]; [| right; split; [discriminate | reflexivity]].
  unfold HarvestLogListComponent.normalizedStatus.
  destruct (existsb (String.eqb s) ["running"; "success"; "failed"]) eqn:E.
  - left. exists s. apply existsb_exists in E. destruct E as [x [Hin Hx]].
    apply String.eqb_eq in Hx. subst x.
    assert (Hs : Reading.isHarvestStatus s).
    { apply isHarvestStatus_iff. simpl in Hin. intuition congruence. }
    repeat split; auto.
    destruct s; [simpl in Hin; intuition discriminate | reflexivity].
  - right. rewrite andb_false_r. split; [| reflexivity].
    intros s' [= <-] Hs. apply isHarvestStatus_iff in Hs.
    assert (existsb (String.eqb s) ["running"; "success"; "failed"] = true).
    { apply existsb_exists. exists s. split; [simpl; intuition | apply String.eqb_refl]. }
    congruence.
Qed.

Lemma harvest_list_params (baseUrl : string) (query : HarvestLogApiService.HarvestLogQuery) :
  let p := params (HarvestLogApiService.list baseUrl query) in
  HttpParams.getAll "page" p =
    [Js.toString (Js.max 1 (Js.nullish (HarvestLogApiService.page query) 1))] /\
  HttpParams.getAll "page_size" p =
    match HarvestLogApiService.pageSize query with
    | Some n => if 0 <? n then [Js.toString (Js.max 1 n)] else []
    | None => []
    end /\
  HttpParams.getAll "journal" p =
    (if Js.truthyOpt (HarvestLogApiService.journal query)
     then [Js.nullish (HarvestLogApiService.journal query) ""] else []) /\
  HttpParams.getAll "status" p =
    (if Js.truthyOpt (HarvestLogApiService.status query)
     then [Js.nullish (HarvestLogApiService.status query) ""] else []).
Proof.
  unfold HarvestLogApiService.list; cbn [params].
  repeat split.
  - through_builders. reflexivity.
  - rewrite !getAll_setIfTruthy. decide_keys. cbn [andb].
    unfold setIfPositive. destruct (HarvestLogApiService.pageSize query) as [n |].
    + destruct (0 <? n); [now rewrite getAll_set | reflexivity].
    + reflexivity.
  - through_builders. cbn [andb].
    destruct (Js.truthyOpt (HarvestLogApiService.journal query)); reflexivity.
  - through_builders. cbn [andb].
    destruct (Js.truthyOpt (HarvestLogApiService.status query)); reflexivity.
Qed.




Lemma onQueryParams_status (baseUrl : string) (pageParam pageSizeParam : option Z)
    (routeParams : ParamMap.t) (st : HarvestLogListComponent.State) :
  HarvestLogListComponent.statusFilter
    (fst (HarvestLogListComponent.onQueryParams baseUrl pageParam pageSizeParam routeParams st)) =
  HarvestLogListComponent.normalizedStatus (ParamMap.get "status" routeParams).
Proof. reflexivity. Qed.

Lemma onQueryParams_request (baseUrl : string) (pageParam pageSizeParam : option Z)
    (routeParams : ParamMap.t) (st : HarvestLogListComponent.State) :
  exists r,
    httpCalls
      (snd (HarvestLogListComponent.onQueryParams baseUrl pageParam pageSizeParam routeParams st))
    = [r] /\
    url r = baseUrl ++ "/harvest-logs/" /\
    HttpParams.getAll "status" (params r) =
    match HarvestLogListComponent.normalizedStatus (ParamMap.get "status" routeParams) with
    | Some s => [s]
    | None => []
    end.
Proof.
  eexists. split; [reflexivity |]. split; [reflexivity |].
  match goal with
  | |- HttpParams.getAll _ (params (HarvestLogApiService.list ?b ?q)) = _ =>
      destruct (harvest_list_params b q) as (_ & _ & _ & Hstatus); rewrite Hstatus
  end.
  cbn [HarvestLogApiService.status HarvestLogListComponent.statusFilter].
  destruct (normalizedStatus_cases (ParamMap.get "status" routeParams))
    as [(s & _ & Hs & ->) | [_ ->]]; [| reflexivity].
  apply isHarvestStatus_iff in Hs. destruct Hs as [-> | [-> | ->]]; reflexivity.
Qed.

Lemma applyStatusFilter_valid (current : ParamMap.t) (status : option Models.HarvestStatus.t)
    (st : HarvestLogListComponent.State) :
  Reading.validStatusFilter
    (HarvestLogListComponent.statusFilter
       (fst (HarvestLogListComponent.applyStatusFilter current status st))).
Proof.
  destruct status as [h |]; simpl; [now exists h | exact I].
Qed.

Lemma onStatusChange_valid (current : ParamMap.t) (value : string)
    (st : HarvestLogListComponent.State) :
  Reading.validStatusFilter (HarvestLogListComponent.statusFilter st) ->
  Reading.validStatusFilter
    (HarvestLogListComponent.statusFilter
       (fst (HarvestLogListComponent.onStatusChange current value st))).
Proof.
  intros Hst. unfold HarvestLogListComponent.onStatusChange.
  repeat match goal with
         | |- context [if ?b then _ else _] => destruct b
         end;
    first [apply applyStatusFilter_valid | exact Hst].
Qed.

(** C5. The harvest status type has exactly the three values [running],
    [success] and [failed]. For every [status] value read from the route of
    the harvest-log list, the status filter the component applies is that
    value when it is one of the three and no filter otherwise; the listing
    request it then issues carries [status] with that very value in the
    first case and no [status] parameter in the second. Changing the filter
    from the page keeps it one of the three values or none. *)
Theorem C5_status_filter (baseUrl : string) (pageParam pageSizeParam : option Z)
    (routeParams current : ParamMap.t) (value : string)
    (st : HarvestLogListComponent.State) :
  let outcome :=
    HarvestLogListComponent.onQueryParams baseUrl pageParam pageSizeParam routeParams st in
  let statusParam := ParamMap.get "status" routeParams in
  let applied := HarvestLogListComponent.statusFilter (fst outcome) in
  Ts.literals Models.HarvestStatus.decl = ["running"; "success"; "failed"] /\
  (forall s, Reading.isHarvestStatus s <-> In s (Ts.literals Models.HarvestStatus.decl)) /\
  Reading.validStatusFilter applied /\
  ((exists s, statusParam = Some s /\ Reading.isHarvestStatus s /\ applied = Some s) \/
   ((forall s, statusParam = Some s -> ~ Reading.isHarvestStatus s) /\ applied = None)) /\
  (exists r, httpCalls (snd outcome) = [r] /\
             url r = baseUrl ++ "/harvest-logs/" /\
             HttpParams.getAll "status" (params r) =
             match applied with Some s => [s] | None => [] end) /\
  (Reading.validStatusFilter (HarvestLogListComponent.statusFilter st) ->
   Reading.validStatusFilter
     (HarvestLogListComponent.statusFilter
        (fst (HarvestLogListComponent.onStatusChange current value st)))).
Proof.
  intros outcome statusParam applied.
  assert (Happlied : applied = HarvestLogListComponent.normalizedStatus statusParam)
    by apply onQueryParams_status.
  split; [reflexivity |].
  split.
  { intros s. rewrite isHarvestStatus_iff. simpl. intuition. }
  split.
  { rewrite Happlied.
    destruct (normalizedStatus_cases statusParam) as [(s & _ & Hs & ->) | [_ ->]];
      [exact Hs | exact I]. }
  split.
  { rewrite Happlied. apply normalizedStatus_cases. }
  split.
  { rewrite Happlied. apply onQueryParams_request. }
  apply onStatusChange_valid.
Qed.

(** A page whose filter is [failed], asked for [status=done] and then told
    an unknown value by the status box: the filter stays one of the three
    values or none. *)
Lemma C5_witness :
  Reading.validStatusFilter
    (HarvestLogListComponent.statusFilter
       (fst (HarvestLogListComponent.onStatusChange Samples.failedRuns "done"
               Samples.manyLogs))) /\
  HarvestLogListComponent.statusFilter
    (fst (HarvestLogListComponent.onQueryParams "/api" (Some 1) None Samples.bogusStatus
            Samples.manyLogs)) = None.
Proof.
  destruct (C5_status_filter "/api" (Some 1) None Samples.bogusStatus Samples.failedRuns
              "done" Samples.manyLogs) as (_ & _ & _ & Hcases & _ & Hkeep).
  split.
  - apply Hkeep. exists Models.HarvestStatus.failed. reflexivity.
  - destruct Hcases as [(s & Hs & Hvalid & _) | [_ Hnone]]; [| exact Hnone].
    injection Hs as <-. destruct Hvalid as [[| |] Hh]; discriminate Hh.
Defined.

(** ** Pagination *)

Section PaginationFacts.

Lemma ceilDiv_isCeiling (count size : Z) :
  0 < size -> Reading.isCeiling (Js.ceilDiv count size) count size.
Proof.
  intros Hsize. unfold Reading.isCeiling, Js.ceilDiv.
  pose proof (Z.div_mod (- count) size ltac:(lia)) as Hdm.
  pose proof (Z.mod_pos_bound (- count) size Hsize) as Hmod.
  nia.
Qed.

Lemma ceilDiv_positive (count size : Z) :
  0 < size -> 0 < count -> 1 <= Js.ceilDiv count size.
Proof.
  intros Hsize Hcount. pose proof (ceilDiv_isCeiling count size Hsize) as [_ Hle].
  nia.
Qed.

Lemma length_run (a : Z) (n : nat) : length (Reading.run a n) = n.
Proof. revert a. induction n; intros a; simpl; auto. Qed.

Lemma in_run (x a : Z) (n : nat) :
  In x (Reading.run a n) <-> a <= x < a + Z.of_nat n.
Proof.
  revert a. induction n as [| n IH]; intros a; cbn [Reading.run In].
  - lia.
  - rewrite IH. lia.
Qed.

Lemma run_sorted (a : Z) (n : nat) : StronglySorted Z.lt (Reading.run a n).
Proof.
  revert a. induction n as [| n IH]; intros a; cbn [Reading.run]; constructor.
  - apply IH.
  - apply Forall_forall. intros x Hx. apply in_run in Hx. lia.
Qed.

Lemma map_seq_run (a : Z) (s n : nat) :
  map (fun i => a + Z.of_nat i) (seq s n) = Reading.run (a + Z.of_nat s) n.
Proof.
  revert s. induction n as [| n IH]; intros s; cbn [seq map Reading.run]; [reflexivity |].
  rewrite IH. do 2 f_equal. lia.
Qed.

Lemma arrayFrom_from (a n : Z) :
  Js.arrayFrom n (fun index => a + index) = Reading.run a (Z.to_nat n).
Proof.
  unfold Js.arrayFrom. rewrite map_seq_run. f_equal. lia.
Qed.

Lemma arrayFrom_succ (n : Z) :
  Js.arrayFrom n (fun index => index + 1) = Reading.run 1 (Z.to_nat n).
Proof.
  rewrite <- arrayFrom_from. unfold Js.arrayFrom. apply map_ext. intros i. lia.
Qed.

Lemma run_window (a : Z) (n : nat) (current total : Z) :
  (n <= 7)%nat -> 1 <= a -> a + Z.of_nat n - 1 <= total ->
  a <= current < a + Z.of_nat n ->
  Reading.pageWindow (Reading.run a n) current total.
Proof.
  intros Hn Ha Hend Hcur. exists a, n.
  split; [reflexivity |]. split; [exact Hn |]. split; [apply run_sorted |].
  split; [| now apply in_run].
  apply Forall_forall. intros x Hx. apply in_run in Hx. lia.
Qed.

(** The window computation that both list components share. *)
Lemma page_window (total current : Z) :
  1 <= current <= total ->
  Reading.pageWindow
    (if total <=? 7 then Js.arrayFrom total (fun index => index + 1)
     else
       let half := 7 / 2 in
       let start := current - half in
       let end_ := current + half in
       let '(start, end_) :=
         if start <? 1 then (1, 1 + 7 - 1) else (start, end_) in
       let '(start, end_) :=
         if total <? end_ then (total - 7 + 1, total) else (start, end_) in
       Js.arrayFrom (end_ - start + 1) (fun index => start + index))
    current total.
Proof.
  intros Hcur. destruct (total <=? 7) eqn:Hsmall.
  - apply Z.leb_le in Hsmall. rewrite arrayFrom_succ. apply run_window; lia.
  - apply Z.leb_gt in Hsmall. change (7 / 2) with 3. cbv zeta.
    destruct (current - 3 <? 1) eqn:Hlow.
    + apply Z.ltb_lt in Hlow.
      destruct (total <? 1 + 7 - 1) eqn:Hhigh; [apply Z.ltb_lt in Hhigh; lia |].
      rewrite arrayFrom_from. apply run_window; lia.
    + apply Z.ltb_ge in Hlow.
      destruct (total <? current + 3) eqn:Hhigh.
      * apply Z.ltb_lt in Hhigh. rewrite arrayFrom_from. apply run_window; lia.
      * apply Z.ltb_ge in Hhigh. rewrite arrayFrom_from. apply run_window; lia.
Qed.

Lemma publication_totalPages (st : PublicationListComponent.State) :
  0 <= PublicationListComponent.count st ->
  1 <= PublicationListComponent.pageSize st ->
  (PublicationListComponent.count st = 0 -> PublicationListComponent.totalPages st = 1) /\
  (PublicationListComponent.count st <> 0 ->
   Reading.isCeiling (PublicationListComponent.totalPages st)
     (PublicationListComponent.count st) (PublicationListComponent.pageSize st)).
Proof.
  intros Hcount Hsize. unfold PublicationListComponent.totalPages, Js.max.
  rewrite Z.max_r by lia. split; intros H.
  - now rewrite H.
  - apply Z.eqb_neq in H. rewrite H. apply ceilDiv_isCeiling. lia.
Qed.

Lemma harvest_totalPages (st : HarvestLogListComponent.State) :
  0 <= HarvestLogListComponent.count st ->
  1 <= HarvestLogListComponent.pageSize st ->
  (HarvestLogListComponent.count st = 0 -> HarvestLogListComponent.totalPages st = 1) /\
  (HarvestLogListComponent.count st <> 0 ->
   Reading.isCeiling (HarvestLogListComponent.totalPages st)
     (HarvestLogListComponent.count st) (HarvestLogListComponent.pageSize st)).
Proof.
  intros Hcount Hsize. unfold HarvestLogListComponent.totalPages, Js.max.
  rewrite Z.max_r by lia. split; intros H.
  - now rewrite H.
  - apply Z.eqb_neq in H. rewrite H. apply ceilDiv_isCeiling. lia.
Qed.

End PaginationFacts.

(** C9. In the publication list and in the harvest-log list alike: for a
    result count that is not negative and a page size of at least 1, the
    number of pages is 1 when the count is 0 and the ceiling of count /
    page size otherwise; and for a current page between 1 and that number,
    the page links are a run of at most seven consecutive, strictly
    increasing page numbers, each between 1 and the number of pages, with
    the current page among them. *)
Theorem C9_pages_and_window (p : PublicationListComponent.State)
    (h : HarvestLogListComponent.State) :
  (0 <= PublicationListComponent.count p ->
   1 <= PublicationListComponent.pageSize p ->
   (PublicationListComponent.count p = 0 -> PublicationListComponent.totalPages p = 1) /\
   (PublicationListComponent.count p <> 0 ->
    Reading.isCeiling (PublicationListComponent.totalPages p)
      (PublicationListComponent.count p) (PublicationListComponent.pageSize p)) /\
   (1 <= PublicationListComponent.page p <= PublicationListComponent.totalPages p ->
    Reading.pageWindow (PublicationListComponent.pageNumbers p)
      (PublicationListComponent.page p) (PublicationListComponent.totalPages p))) /\
  (0 <= HarvestLogListComponent.count h ->
   1 <= HarvestLogListComponent.pageSize h ->
   (HarvestLogListComponent.count h = 0 -> HarvestLogListComponent.totalPages h = 1) /\
   (HarvestLogListComponent.count h <> 0 ->
    Reading.isCeiling (HarvestLogListComponent.totalPages h)
      (HarvestLogListComponent.count h) (HarvestLogListComponent.pageSize h)) /\
   (1 <= HarvestLogListComponent.page h <= HarvestLogListComponent.totalPages h ->
    Reading.pageWindow (HarvestLogListComponent.pageNumbers h)
      (HarvestLogListComponent.page h) (HarvestLogListComponent.totalPages h))).
Proof.
  split; intros Hcount Hsize.
  - destruct (publication_totalPages p Hcount Hsize) as [H0 H1].
    repeat split; auto. apply H1; assumption. apply H1; assumption.
    intros Hpage. unfold PublicationListComponent.pageNumbers.
    apply page_window. exact Hpage.
  - destruct (harvest_totalPages h Hcount Hsize) as [H0 H1].
    repeat split; auto. apply H1; assumption. apply H1; assumption.
    intros Hpage. unfold HarvestLogListComponent.pageNumbers.
    apply page_window. exact Hpage.
Qed.

(** The pages of 95 publications at 10 a page, seen from page 5, and of 312
    harvest runs at 25 a page, seen from page 9. *)
Lemma C9_witness :
  (PublicationListComponent.totalPages Samples.soilAndCrops = 10 /\
   PublicationListComponent.pageNumbers Samples.soilAndCrops = [2; 3; 4; 5; 6; 7; 8] /\
   Reading.pageWindow (PublicationListComponent.pageNumbers Samples.soilAndCrops) 5 10) /\
  (HarvestLogListComponent.totalPages Samples.manyLogs = 13 /\
   HarvestLogListComponent.pageNumbers Samples.manyLogs = [6; 7; 8; 9; 10; 11; 12] /\
   Reading.pageWindow (HarvestLogListComponent.pageNumbers Samples.manyLogs) 9 13).
Proof.
  destruct (C9_pages_and_window Samples.soilAndCrops Samples.manyLogs) as [Hp Hh].
  split.
  - split; [reflexivity |]. split; [reflexivity |].
    apply Hp; cbn; lia.
  - split; [reflexivity |]. split; [reflexivity |].
    apply Hh; cbn; lia.
Defined.

(** ** The subject filter encoding *)

Section SubjectFacts.

Lemma split_not_nil (c : ascii) (s : string) : Js.split c s <> [].
Proof.
  destruct s as [| d s]; cbn [Js.split]; [discriminate |].
  destruct (Ascii.eqb d c); [discriminate |].
  destruct (Js.split c s); discriminate.
Qed.

Lemma split_without_separator (c : ascii) (s : string) :
  Js.includes c s = false -> Js.split c s = [s].
Proof.
  induction s as [| d s IH]; cbn [Js.split Js.includes]; [reflexivity |].
  intros H. apply orb_false_iff in H. destruct H as [Hd Hs].
  rewrite Hd, (IH Hs). reflexivity.
Qed.

Lemma split_at_separator (c : ascii) (a r : string) :
  Js.includes c a = false ->
  Js.split c (a ++ String c r) = a :: Js.split c r.
Proof.
  induction a as [| d a IH]; cbn [Js.split Js.includes String.append].
  - intros _. now rewrite Ascii.eqb_refl.
  - intros H. apply orb_false_iff in H. destruct H as [Hd Ha].
    rewrite Hd, (IH Ha). reflexivity.
Qed.

Lemma trim_after_space (s : string) : Js.trim (String " "%char s) = Js.trim s.
Proof. reflexivity. Qed.

(** Splitting text that starts with a space: the space goes to the first
    piece, which trims to the same. *)
Lemma trimmed_split_after_space (s : string) :
  map Js.trim (Js.split ","%char (String " "%char s)) =
  map Js.trim (Js.split ","%char s).
Proof.
  cbn [Js.split]. change (Ascii.eqb " "%char ","%char) with false. cbv iota.
  destruct (Js.split ","%char s) as [| h t] eqn:E.
  - now apply split_not_nil in E.
  - cbn [map]. now rewrite trim_after_space.
Qed.

Lemma parse_join (l : list string) :
  Forall Reading.plainTerm l ->
  filter (fun entry => 0 <? Z.of_nat (String.length entry))
         (map Js.trim (Js.split ","%char (Js.join ", " l))) = l.
Proof.
  induction l as [| x [| y r] IH]; intros Hall.
  - reflexivity.
  - inversion Hall as [| ? ? (Hne & Htrim & Hcomma) _]; subst.
    cbn [Js.join]. rewrite (split_without_separator _ _ Hcomma).
    cbn [map filter]. rewrite Htrim, length_positive_truthy.
    apply truthy_true_iff in Hne. now rewrite Hne.
  - inversion Hall as [| ? ? (Hne & Htrim & Hcomma) Hrest]; subst.
    change (Js.join ", " (x :: y :: r))
      with (x ++ String ","%char (String " "%char (Js.join ", " (y :: r)))).
    rewrite (split_at_separator _ _ _ Hcomma).
    cbn [map filter]. rewrite trimmed_split_after_space, (IH Hrest).
    rewrite Htrim, length_positive_truthy.
    apply truthy_true_iff in Hne. now rewrite Hne.
Qed.

Lemma parseSubjectParam_some (s : string) :
  PublicationListComponent.parseSubjectParam (Some s) =
  filter (fun entry => 0 <? Z.of_nat (String.length entry))
         (map Js.trim (Js.split ","%char s)).
Proof. destruct s; reflexivity. Qed.

Lemma queryParam_assign_other (k k' : string) (v : QueryValue) (q : QueryParams) :
  String.eqb k' k = false -> queryParam k (assign k' v q) = queryParam k q.
Proof.
  intros Hne. unfold queryParam, assign. induction q as [| [k0 v0] q IH]; cbn [find fst app].
  - now rewrite Hne.
  - destruct (String.eqb k0 k); [reflexivity | exact IH].
Qed.

Lemma queryParam_assign_new (k : string) (v : QueryValue) (q : QueryParams) :
  queryParam k q = None -> queryParam k (assign k v q) = Some v.
Proof.
  unfold queryParam, assign. induction q as [| [k0 v0] q IH]; cbn [find fst app].
  - intros _. now rewrite String.eqb_refl.
  - destruct (String.eqb k0 k); [discriminate | exact IH].
Qed.

Lemma queryParam_when_other (k k' : string) (c : bool) (v : QueryValue) (q : QueryParams) :
  String.eqb k' k = false ->
  queryParam k (if c then assign k' v q else q) = queryParam k q.
Proof. intros Hne. destruct c; [now apply queryParam_assign_other | reflexivity]. Qed.

Lemma subjectRouteParam_join (st : PublicationListComponent.State) :
  PublicationListComponent.subjectRouteParam st =
  match PublicationListComponent.subjectFilters st with
  | [] => None
  | _ :: _ => Some (Js.join ", " (PublicationListComponent.subjectFilters st))
  end.
Proof.
  unfold PublicationListComponent.subjectRouteParam,
    PublicationListComponent.targetQueryParams.
  cbv zeta.
  rewrite !queryParam_when_other by reflexivity.
  assert (Hbefore : forall q c1 c2 v1 v2,
             queryParam "subject" q = None ->
             queryParam "subject"
               (if c1 : bool
                then if c2 : bool then assign "journal_name" v2 (assign "journal" v1 q)
                     else assign "journal" v1 q
                else q) = None).
  { intros q c1 c2 v1 v2 Hq. destruct c1, c2;
      rewrite ?queryParam_assign_other by reflexivity; exact Hq. }
  destruct (PublicationListComponent.subjectFilters st) as [| x r] eqn:E.
  - cbn [length Z.of_nat Z.ltb Z.compare].
    rewrite !queryParam_when_other by reflexivity.
    rewrite Hbefore; [reflexivity |].
    rewrite !queryParam_when_other by reflexivity. reflexivity.
  - replace (0 <? Z.of_nat (length (x :: r))) with true
      by (symmetry; apply Z.ltb_lt; cbn [length]; lia).
    rewrite queryParam_assign_new; [reflexivity |].
    rewrite !queryParam_when_other by reflexivity.
    rewrite Hbefore; [reflexivity |].
    rewrite !queryParam_when_other by reflexivity. reflexivity.
Qed.

Lemma fetchPublications_subject (baseUrl : string) (st : PublicationListComponent.State) :
  HttpParams.get "subject"
    (params (PublicationListComponent.request
               (snd (PublicationListComponent.fetchPublications baseUrl st)))) =
  match PublicationListComponent.subjectFilters st with
  | [] => None
  | _ :: _ =>
      Js.orUndefined (Js.join ", " (PublicationListComponent.subjectFilters st))
  end.
Proof.
  unfold HttpParams.get, PublicationListComponent.fetchPublications;
    cbn [snd PublicationListComponent.request].
  destruct (_ && _);
    unfold PublicationApiService.search, PublicationApiService.list;
    option_fields;
    through_builders; cbn [andb HttpParams.getAll HttpParams.empty];
    destruct (PublicationListComponent.subjectFilters st) as [| x r];
    try reflexivity;
    replace (negb (Z.of_nat (length (x :: r)) =? 0)) with true
      by (symmetry; apply nonempty_list_iff; discriminate);
    cbn [Js.truthyOpt Js.nullish]; unfold Js.orUndefined;
    destruct (Js.truthy (Js.join ", " (x :: r))); reflexivity.
Qed.

End SubjectFacts.

(** C10. For subject filters that are each non-empty, equal to their own
    trim and free of commas: the [subject] query parameter the component
    writes to the route (the terms joined with ", ") parses back, by
    splitting on commas, trimming and dropping empty pieces, to the very
    list of filters, in order; so does the [subject] parameter of the
    request sent to the API. *)
Theorem C10_subject_round_trip (baseUrl : string) (st : PublicationListComponent.State) :
  Forall Reading.plainTerm (PublicationListComponent.subjectFilters st) ->
  PublicationListComponent.parseSubjectParam (PublicationListComponent.subjectRouteParam st) =
  PublicationListComponent.subjectFilters st /\
  PublicationListComponent.parseSubjectParam
    (HttpParams.get "subject"
       (params (PublicationListComponent.request
                  (snd (PublicationListComponent.fetchPublications baseUrl st))))) =
  PublicationListComponent.subjectFilters st.
Proof.
  intros Hall. rewrite subjectRouteParam_join, fetchPublications_subject.
  destruct (PublicationListComponent.subjectFilters st) as [| x r] eqn:E.
  - split; reflexivity.
  - assert (Hparse : PublicationListComponent.parseSubjectParam (Some (Js.join ", " (x :: r)))
                     = x :: r)
      by (rewrite parseSubjectParam_some; now apply parse_join).
    split; [exact Hparse |].
    unfold Js.orUndefined. destruct (Js.truthy (Js.join ", " (x :: r))) eqn:T.
    + exact Hparse.
    + apply truthy_false_iff in T. rewrite T in Hparse. discriminate Hparse.
Qed.

(** The round trip at two subject filters, one of them of two words. *)
Lemma C10_witness :
  PublicationListComponent.parseSubjectParam
    (PublicationListComponent.subjectRouteParam Samples.soilAndCrops) =
  ["soil"; "crop science"] /\
  PublicationListComponent.parseSubjectParam
    (HttpParams.get "subject"
       (params (PublicationListComponent.request
                  (snd (PublicationListComponent.fetchPublications "/api"
                          Samples.soilAndCrops))))) =
  ["soil"; "crop science"].
Proof.
  apply (C10_subject_round_trip "/api" Samples.soilAndCrops).
  repeat constructor; discriminate.
Defined.

(** ** The OAI endpoint probe *)

Section ProbeFacts.

Variables (baseUrl : string) (canManage : bool).

Lemma testOaiEndpoint_calls (st : JournalDetailComponent.State) :
  httpCalls (snd (JournalDetailComponent.testOaiEndpoint baseUrl canManage st)) = [] \/
  exists u, u <> "" /\
    httpCalls (snd (JournalDetailComponent.testOaiEndpoint baseUrl canManage st)) =
    [JournalApiService.validateOai baseUrl u].
Proof.
  unfold JournalDetailComponent.testOaiEndpoint.
  destruct (negb canManage || JournalDetailComponent.testingOai st); [now left |].
  destruct (JournalDetailComponent.journal st) as [j |]; [| now left].
  destruct (Models.Journal.oai_url j) as [u |]; [| now left].
  cbn [option_map Js.truthyOpt Js.nullish].
  destruct (Js.truthy (Js.trim u)) eqn:T; [| now left].
  right. exists (Js.trim u). split; [now apply truthy_true_iff | reflexivity].
Qed.

Lemma testOaiEndpoint_probe (st : JournalDetailComponent.State) (j : Models.Journal.t)
    (u : string) :
  canManage = true ->
  JournalDetailComponent.testingOai st = false ->
  JournalDetailComponent.journal st = Some j ->
  Models.Journal.oai_url j = Some u ->
  Js.trim u <> "" ->
  httpCalls (snd (JournalDetailComponent.testOaiEndpoint baseUrl canManage st)) =
  [JournalApiService.validateOai baseUrl (Js.trim u)].
Proof.
  intros -> Ht Hj Hu Hne. unfold JournalDetailComponent.testOaiEndpoint.
  rewrite Ht, Hj, Hu. cbn [negb orb option_map Js.truthyOpt Js.nullish].
  apply truthy_true_iff in Hne. rewrite Hne. reflexivity.
Qed.

Lemma testOaiEndpoint_keeps (st : JournalDetailComponent.State) :
  Reading.onlyTestStateDiffers st
    (fst (JournalDetailComponent.testOaiEndpoint baseUrl canManage st)).
Proof.
  unfold JournalDetailComponent.testOaiEndpoint, Reading.onlyTestStateDiffers.
  destruct (negb canManage || JournalDetailComponent.testingOai st); [now repeat split |].
  destruct (negb _); now repeat split.
Qed.

End ProbeFacts.

Lemma testOaiError_message (err : option HttpErrorResponse)
    (st : JournalDetailComponent.State) :
  exists msg,
    JournalDetailComponent.oaiTestMessage (fst (JournalDetailComponent.testOaiError err st)) =
    Some msg /\
    msg <> "" /\
    (forall e d, err = Some e -> err_detail e = Some d -> Js.trim d <> "" -> msg = d).
Proof.
  unfold JournalDetailComponent.testOaiError;
    cbn [fst JournalDetailComponent.setOaiTest JournalDetailComponent.oaiTestMessage].
  eexists. split; [reflexivity |].
  destruct err as [[s [d |]] |]; cbn [err_detail].
  - destruct (Js.truthy (Js.trim d)) eqn:T.
    + split.
      * intros ->. discriminate T.
      * intros e d' [= <-] [= <-] _. reflexivity.
    + split; [discriminate |].
      intros e d' [= <-] [= <-] Hne. apply truthy_true_iff in Hne. cbn [err_detail] in *.
      congruence.
  - split; [discriminate | intros e d [= <-] [=]].
  - split; [discriminate | intros e d [=]].
Qed.

(** C8. The probe of a candidate OAI URL is one POST of [{oai_url}] to
    [/journals/validate-oai/], without query parameters, answered by
    [{ok: boolean, detail: string}]. The journal page issues at most one
    call per test, and exactly this POST with the trimmed URL of the journal
    when a user who may manage starts a test that is not yet running on a
    journal that has a URL. The answer and the failure callbacks issue no
    call; they show [ok] (false on failure) and the returned detail, or a
    default message when the detail is empty; and from start to answer
    nothing but the displayed test state changes, never the journal. *)
Theorem C8_oai_validation_probe (baseUrl oaiUrl : string) (canManage : bool)
    (st : JournalDetailComponent.State) (result : Models.OAIValidationResponse.t)
    (err : option HttpErrorResponse) :
  let probe := JournalApiService.validateOai baseUrl oaiUrl in
  let started := JournalDetailComponent.testOaiEndpoint baseUrl canManage st in
  let answered := JournalDetailComponent.testOaiNext result st in
  let failed := JournalDetailComponent.testOaiError err st in
  (method probe = POST /\
   url probe = baseUrl ++ "/journals/validate-oai/" /\
   body probe = [("oai_url", oaiUrl)] /\
   params probe = HttpParams.empty /\
   response probe = Ts.TObject Models.OAIValidationResponse.decl /\
   Models.OAIValidationResponse.decl =
     [Ts.required "ok" Ts.TBoolean; Ts.required "detail" Ts.TString]) /\
  (httpCalls (snd started) = [] \/
   exists u, u <> "" /\ httpCalls (snd started) = [JournalApiService.validateOai baseUrl u]) /\
  (forall j u,
     canManage = true ->
     JournalDetailComponent.testingOai st = false ->
     JournalDetailComponent.journal st = Some j ->
     Models.Journal.oai_url j = Some u ->
     Js.trim u <> "" ->
     httpCalls (snd started) = [JournalApiService.validateOai baseUrl (Js.trim u)]) /\
  (snd answered = [] /\ snd failed = []) /\
  (Reading.onlyTestStateDiffers st (fst started) /\
   Reading.onlyTestStateDiffers st (fst answered) /\
   Reading.onlyTestStateDiffers st (fst failed)) /\
  (JournalDetailComponent.oaiTestSuccess (fst answered) =
     Some (Models.OAIValidationResponse.ok result) /\
   JournalDetailComponent.oaiTestMessage (fst answered) =
     Some (if Js.truthy (Models.OAIValidationResponse.detail result)
           then Models.OAIValidationResponse.detail result
           else if Models.OAIValidationResponse.ok result
                then "Endpoint responded successfully."
                else "Endpoint did not respond with valid OAI.")) /\
  (JournalDetailComponent.oaiTestSuccess (fst failed) = Some false /\
   exists msg,
     JournalDetailComponent.oaiTestMessage (fst failed) = Some msg /\
     msg <> "" /\
     (forall e d, err = Some e -> err_detail e = Some d -> Js.trim d <> "" -> msg = d)).
Proof.
  intros probe started answered failed.
  split; [repeat split |].
  split; [apply testOaiEndpoint_calls |].
  split; [intros j u; apply testOaiEndpoint_probe |].
  split; [split; reflexivity |].
  split; [split; [apply testOaiEndpoint_keeps | split; repeat split] |].
  split; [split; reflexivity |].
  split; [reflexivity | apply testOaiError_message].
Qed.

(** A manager tests the endpoint of a journal: one POST with the trimmed
    URL. *)
Lemma C8_witness :
  httpCalls (snd (JournalDetailComponent.testOaiEndpoint "/api" true Samples.journalPage)) =
  [JournalApiService.validateOai "/api" "https://ajk.example/oai"].
Proof.
  destruct (C8_oai_validation_probe "/api" "https://ajk.example/oai" true Samples.journalPage
              {| Models.OAIValidationResponse.ok := true;
                 Models.OAIValidationResponse.detail := "" |} None)
    as (_ & _ & Hprobe & _).
  eapply (Hprobe _ " https://ajk.example/oai "); try reflexivity. discriminate.
Defined.

(** ** Facet-only requests *)

Section FacetFacts.

Variable baseUrl : string.

Lemma isFacetRouteKey_some (facet : option string)
    (k : PublicationFacetListComponent.FacetRouteKey) :
  PublicationFacetListComponent.isFacetRouteKey facet = Some k ->
  facet = Some (PublicationFacetListComponent.keyString k).
Proof.
  unfold PublicationFacetListComponent.isFacetRouteKey.
  destruct facet as [v |]; [| discriminate].
  repeat match goal with
         | |- context [String.eqb v ?s] =>
             destruct (String.eqb_spec v s) as [-> | ?]
         end; intros [= <-]; reflexivity.
Qed.

Lemma isFacetRouteKey_none (facet : option string) :
  PublicationFacetListComponent.isFacetRouteKey facet = None ->
  forall d, In d Reading.facetDimensions -> facet <> Some d.
Proof.
  unfold PublicationFacetListComponent.isFacetRouteKey.
  destruct facet as [v |]; [| discriminate].
  intros H d Hd [= ->]. simpl in Hd.
  destruct Hd as [<- | [<- | [<- | [<- | []]]]]; discriminate H.
Qed.

Lemma keyString_dimension (k : PublicationFacetListComponent.FacetRouteKey) :
  In (PublicationFacetListComponent.keyString k) Reading.facetDimensions /\
  Uri.encodeURIComponent (PublicationFacetListComponent.keyString k) =
  PublicationFacetListComponent.keyString k.
Proof. destruct k; simpl; intuition. Qed.

Lemma facetRequest_scoped (st : PublicationFacetListComponent.State)
    (options : PublicationApiService.O.t) :
  let r := PublicationFacetListComponent.facetRequest baseUrl st options in
  let d := PublicationFacetListComponent.keyString
             (PublicationFacetListComponent.facetKey st) in
  (url r = baseUrl ++ "/publications/facets/" ++ d ++ "/" \/
   url r = baseUrl ++ "/publications/search/facets/" ++ d ++ "/") /\
  method r = GET /\
  response r = Ts.TObject Models.FacetListResponse.decl.
Proof.
  intros r d. subst r d. unfold PublicationFacetListComponent.facetRequest.
  destruct (keyString_dimension (PublicationFacetListComponent.facetKey st)) as [_ Henc].
  destruct (PublicationFacetListComponent.searchMode st);
    [| destruct (Js.truthy (PublicationFacetListComponent.searchTerm st))];
    unfold PublicationApiService.listFacet, PublicationApiService.searchFacet;
    cbn [url method response]; rewrite Henc; auto.
Qed.

Lemma onRoute_calls (facet : option string) (queryParams : ParamMap.t)
    (st : PublicationFacetListComponent.State) :
  match PublicationFacetListComponent.isFacetRouteKey facet with
  | Some k =>
      exists st' options,
        PublicationFacetListComponent.facetKey st' = k /\
        httpCalls (snd (PublicationFacetListComponent.onRoute baseUrl facet queryParams st)) =
        [PublicationFacetListComponent.facetRequest baseUrl st' options]
  | None =>
      httpCalls (snd (PublicationFacetListComponent.onRoute baseUrl facet queryParams st)) = []
  end.
Proof.
  unfold PublicationFacetListComponent.onRoute.
  destruct (PublicationFacetListComponent.isFacetRouteKey facet) as [k |]; [| reflexivity].
  eexists. eexists. split; [| reflexivity]. reflexivity.
Qed.

Lemma facet_filters_as_list (k name : string) (options : option PublicationApiService.O.t) :
  In k Reading.structuredFilterKeys ->
  HttpParams.getAll k (params (PublicationApiService.listFacet baseUrl name options)) =
  HttpParams.getAll k (params (PublicationApiService.list baseUrl options)).
Proof.
  intros Hk. unfold PublicationApiService.listFacet, PublicationApiService.buildFacetParams,
    PublicationApiService.list; cbn [params].
  simpl in Hk.
  destruct Hk as [<- | [<- | [<- | [<- | [<- | [<- | [<- | []]]]]]]];
    through_builders; reflexivity.
Qed.

Lemma facet_filters_as_search (k query name : string)
    (options : option PublicationApiService.O.t) :
  In k Reading.structuredFilterKeys ->
  HttpParams.getAll k
    (params (PublicationApiService.searchFacet baseUrl query name options)) =
  HttpParams.getAll k (params (PublicationApiService.search baseUrl query options)).
Proof.
  intros Hk. unfold PublicationApiService.searchFacet, PublicationApiService.buildFacetParams,
    PublicationApiService.search, PublicationApiService.withoutSearch; cbn [params].
  simpl in Hk.
  destruct options as [o |];
    option_fields;
    destruct Hk as [<- | [<- | [<- | [<- | [<- | [<- | [<- | []]]]]]]];
    through_builders; reflexivity.
Qed.

Lemma facet_paging (name : string) (options : option PublicationApiService.O.t) :
  let o := Js.nullish options PublicationApiService.noOptions in
  let p := params (PublicationApiService.listFacet baseUrl name options) in
  HttpParams.getAll "page" p =
    [Js.toString (Js.nullish (PublicationApiService.O.page o) 1)] /\
  HttpParams.getAll "page_size" p =
    match PublicationApiService.O.pageSize o with
    | Some n => if 0 <? n then [Js.toString n] else []
    | None => []
    end.
Proof.
  intros o p. subst o p.
  unfold PublicationApiService.listFacet, PublicationApiService.buildFacetParams;
    cbn [params].
  split.
  - through_builders. reflexivity.
  - rewrite getAll_appendIssuedYears, getAll_appendAuthors, !getAll_setIfTruthy,
      getAll_setJournal by reflexivity.
    decide_keys. cbn [andb]. unfold setIfPositive.
    destruct (PublicationApiService.O.pageSize _) as [n |]; [| reflexivity].
    destruct (0 <? n); [now rewrite getAll_set | reflexivity].
Qed.

End FacetFacts.

Lemma queryParam_journal_other (k : string) (c1 c2 : bool) (v1 v2 : QueryValue)
    (q : QueryParams) :
  String.eqb "journal" k = false ->
  String.eqb "journal_name" k = false ->
  queryParam k
    (if c1
     then if c2 then assign "journal_name" v2 (assign "journal" v1 q)
          else assign "journal" v1 q
     else q) = queryParam k q.
Proof.
  intros H1 H2. destruct c1, c2; rewrite ?queryParam_assign_other by assumption; reflexivity.
Qed.

Lemma facet_link_without_pagination (facet : PublicationListComponent.FacetType)
    (st : PublicationListComponent.State) :
  let link := PublicationListComponent.buildFacetViewLink facet st in
  (exists d, In d Reading.facetDimensions /\ fst link = ["/publications"; "facets"; d]) /\
  queryParam "page" (snd link) = None /\
  queryParam "page_size" (snd link) = None.
Proof.
  intros link. subst link. unfold PublicationListComponent.buildFacetViewLink.
  cbv zeta. cbn [fst snd].
  split.
  - exists (PublicationListComponent.facetTypeString facet).
    split; [destruct facet; simpl; intuition | reflexivity].
  - split;
      rewrite !queryParam_when_other by reflexivity;
      rewrite queryParam_journal_other by reflexivity;
      rewrite !queryParam_when_other by reflexivity; reflexivity.
Qed.

Lemma fetchFacetNext_reads_envelope (options : PublicationApiService.O.t)
    (a b : Models.FacetListResponse.t) (st : PublicationFacetListComponent.State) :
  Reading.sameEnvelope a b ->
  PublicationFacetListComponent.fetchFacetNext options a st =
  PublicationFacetListComponent.fetchFacetNext options b st.
Proof.
  intros (Hc & Hp & Hs & Ht & Hm & Hr).
  unfold PublicationFacetListComponent.fetchFacetNext.
  now rewrite Hc, Hp, Hs, Ht, Hm, Hr.
Qed.


(** ** From the result list to the facet page *)

Section TrimFacts.

Lemma trimStart_length (s : string) : (String.length (Js.trimStart s) <= String.length s)%nat.
Proof.
  induction s as [| c s IH]; cbn [Js.trimStart String.length]; [lia |].
  destruct (Js.isWhiteSpace c); cbn [String.length]; lia.
Qed.

Lemma trimEnd_length (s : string) : (String.length (Js.trimEnd s) <= String.length s)%nat.
Proof.
  induction s as [| c s IH]; cbn [Js.trimEnd String.length]; [lia |].
  destruct (Js.trimEnd s) as [| d r]; cbn [String.length] in *.
  - destruct (Js.isWhiteSpace c); cbn [String.length]; lia.
  - lia.
Qed.

Lemma trimStart_same_length (s : string) :
  String.length (Js.trimStart s) = String.length s -> Js.trimStart s = s.
Proof.
  destruct s as [| c s]; cbn [Js.trimStart String.length]; [reflexivity |].
  destruct (Js.isWhiteSpace c); [| reflexivity].
  intros H. pose proof (trimStart_length s). lia.
Qed.

(** A string that is its own trim has no white space to lose at either
  end. *)
Lemma trim_fixed (s : string) :
  Js.trim s = s -> Js.trimStart s = s /\ Js.trimEnd s = s.
Proof.
  unfold Js.trim. intros H.
  assert (Hs : Js.trimStart s = s).
  { apply trimStart_same_length.
    pose proof (trimStart_length s). pose proof (trimEnd_length (Js.trimStart s)).
    rewrite H in *. lia. }
  split; [exact Hs | now rewrite Hs in H].
Qed.

Lemma trimStart_app (a b : string) :
  a <> "" -> Js.trimStart a = a -> Js.trimStart (a ++ b) = a ++ b.
Proof.
  destruct a as [| c a]; [congruence |]. intros _.
  cbn [Js.trimStart String.append].
  destruct (Js.isWhiteSpace c); [| reflexivity].
  intros H. pose proof (trimStart_length a).
  apply (f_equal String.length) in H. cbn [String.length] in H. lia.
Qed.

Lemma trimEnd_app (a b : string) :
  b <> "" -> Js.trimEnd b = b -> Js.trimEnd (a ++ b) = a ++ b.
Proof.
  intros Hb Hfix. induction a as [| c a IH]; cbn [String.append Js.trimEnd]; [exact Hfix |].
  rewrite IH. destruct (a ++ b) eqn:E; [| reflexivity].
  destruct a; cbn [String.append] in E; congruence.
Qed.

Lemma join_trimmed (l : list string) :
  l <> [] ->
  Forall (fun t => Js.trim t = t /\ t <> "") l ->
  Js.join ", " l <> "" /\
  Js.trimStart (Js.join ", " l) = Js.join ", " l /\
  Js.trimEnd (Js.join ", " l) = Js.join ", " l.
Proof.
  induction l as [| x [| y r] IH]; intros Hne Hall; [congruence | |].
  - apply Forall_inv in Hall. destruct Hall as [Ht Hx].
    cbn [Js.join]. apply trim_fixed in Ht. tauto.
  - inversion Hall as [| ? ? [Ht Hx] Hrest]; subst.
    destruct (IH ltac:(discriminate) Hrest) as (Hj & _ & Hend).
    apply trim_fixed in Ht. destruct Ht as [Hstart _].
    change (Js.join ", " (x :: y :: r)) with (x ++ ", " ++ Js.join ", " (y :: r)).
    split; [| split].
    + destruct x; [congruence | discriminate].
    + now apply trimStart_app.
    + apply trimEnd_app.
      * discriminate.
      * cbn [String.append Js.trimEnd]. rewrite Hend.
        destruct (Js.join ", " (y :: r)); [congruence | reflexivity].
Qed.

Lemma trim_join (l : list string) :
  l <> [] ->
  Forall (fun t => Js.trim t = t /\ t <> "") l ->
  Js.trim (Js.join ", " l) = Js.join ", " l /\ Js.join ", " l <> "".
Proof.
  intros Hne Hall. destruct (join_trimmed l Hne Hall) as (Hj & Hs & He).
  split; [| exact Hj]. unfold Js.trim. now rewrite Hs.
Qed.

Lemma trimmed_terms_kept (l : list string) :
  Forall (fun t => Js.trim t = t /\ t <> "") l ->
  filter Js.truthy (map Js.trim l) = l.
Proof.
  induction 1 as [| x r [Ht Hx] _ IH]; cbn [map filter]; [reflexivity |].
  rewrite Ht, IH. apply truthy_true_iff in Hx. now rewrite Hx.
Qed.

End TrimFacts.

Section RouteFacts.

Lemma routeOf_assign (k : string) (v : QueryValue) (q : QueryParams) :
  routeOf (assign k v q) = (routeOf q ++ routeEntry (k, v))%list.
Proof.
  unfold routeOf, assign. rewrite flat_map_app. cbn [flat_map]. now rewrite app_nil_r.
Qed.

Lemma routeEntry_other (k k' : string) (v : QueryValue) (rest : ParamMap.t) :
  String.eqb k' k = false ->
  ParamMap.getAll k (routeEntry (k', v) ++ rest)%list = ParamMap.getAll k rest.
Proof.
  intros Hne. unfold routeEntry, ParamMap.getAll. cbn [fst snd].
  destruct v as [s | n | [| x l] |]; cbn [app HttpParams.getAll]; rewrite ?Hne; reflexivity.
Qed.

Lemma getAll_past_entry (k k' : string) (v : QueryValue) (m : ParamMap.t) :
  String.eqb k' k = false ->
  ParamMap.getAll k (m ++ routeEntry (k', v))%list = ParamMap.getAll k m.
Proof.
  intros Hne. unfold ParamMap.getAll.
  induction m as [| [k0 vs] m IH]; cbn [app HttpParams.getAll].
  - pose proof (routeEntry_other k k' v [] Hne) as H.
    rewrite app_nil_r in H. exact H.
  - destruct (String.eqb k0 k); [reflexivity | exact IH].
Qed.

Lemma route_assign_other (k k' : string) (v : QueryValue) (q : QueryParams) :
  String.eqb k' k = false ->
  ParamMap.getAll k (routeOf (assign k' v q)) = ParamMap.getAll k (routeOf q).
Proof. intros Hne. rewrite routeOf_assign. now apply getAll_past_entry. Qed.

Lemma route_when_other (k k' : string) (c : bool) (v : QueryValue) (q : QueryParams) :
  String.eqb k' k = false ->
  ParamMap.getAll k (routeOf (if c then assign k' v q else q)) =
  ParamMap.getAll k (routeOf q).
Proof. intros Hne. destruct c; [now apply route_assign_other | reflexivity]. Qed.

Lemma route_journal_other (k : string) (c1 c2 : bool) (v1 v2 : QueryValue) (q : QueryParams) :
  String.eqb "journal" k = false ->
  String.eqb "journal_name" k = false ->
  ParamMap.getAll k
    (routeOf (if c1
              then if c2 then assign "journal_name" v2 (assign "journal" v1 q)
                   else assign "journal" v1 q
              else q)) = ParamMap.getAll k (routeOf q).
Proof.
  intros H1 H2. destruct c1, c2; rewrite ?route_assign_other by assumption; reflexivity.
Qed.

Lemma unbound_nil (k : string) : Reading.unbound k (routeOf []).
Proof. intros rest. reflexivity. Qed.

Lemma unbound_assign_other (k k' : string) (v : QueryValue) (q : QueryParams) :
  String.eqb k' k = false ->
  Reading.unbound k (routeOf q) -> Reading.unbound k (routeOf (assign k' v q)).
Proof.
  intros Hne Hq rest. rewrite routeOf_assign, <- app_assoc, Hq.
  now apply routeEntry_other.
Qed.

Lemma unbound_when_other (k k' : string) (c : bool) (v : QueryValue) (q : QueryParams) :
  String.eqb k' k = false ->
  Reading.unbound k (routeOf q) ->
  Reading.unbound k (routeOf (if c then assign k' v q else q)).
Proof. intros Hne Hq. destruct c; [now apply unbound_assign_other | exact Hq]. Qed.

Lemma unbound_journal_other (k : string) (c1 c2 : bool) (v1 v2 : QueryValue)
    (q : QueryParams) :
  String.eqb "journal" k = false ->
  String.eqb "journal_name" k = false ->
  Reading.unbound k (routeOf q) ->
  Reading.unbound k
    (routeOf (if c1
              then if c2 then assign "journal_name" v2 (assign "journal" v1 q)
                   else assign "journal" v1 q
              else q)).
Proof.
  intros H1 H2 Hq. destruct c1, c2; repeat apply unbound_assign_other; assumption.
Qed.

Lemma unbound_lookup (k : string) (m : ParamMap.t) :
  Reading.unbound k m -> ParamMap.getAll k m = [].
Proof. intros H. specialize (H []). now rewrite app_nil_r in H. Qed.

Lemma route_assign_new (k : string) (v : QueryValue) (q : QueryParams) :
  Reading.unbound k (routeOf q) ->
  ParamMap.getAll k (routeOf (assign k v q)) = ParamMap.getAll k (routeEntry (k, v)).
Proof. intros Hq. rewrite routeOf_assign. apply Hq. Qed.

Lemma route_when_new (k : string) (c : bool) (v : QueryValue) (q : QueryParams) :
  Reading.unbound k (routeOf q) ->
  ParamMap.getAll k (routeOf (if c then assign k v q else q)) =
  if c then ParamMap.getAll k (routeEntry (k, v)) else [].
Proof.
  intros Hq. destruct c; [now apply route_assign_new | now apply unbound_lookup].
Qed.

End RouteFacts.

(** Shows that a prefix of the link's parameters does not bind a key. *)
Ltac prefix_unbound :=
  repeat first
    [ apply unbound_nil
    | apply unbound_when_other; [reflexivity |]
    | apply unbound_journal_other; [reflexivity | reflexivity |] ].

(** Looks a key up in the route of the link: past the parameters written
    after it, then at its own. *)
Ltac lookup_in_link :=
  rewrite ?route_when_other by reflexivity;
  rewrite ?route_journal_other by reflexivity;
  rewrite ?route_when_other by reflexivity;
  first [ rewrite route_when_new by prefix_unbound
        | apply unbound_lookup; prefix_unbound ].

Ltac open_link :=
  unfold Reading.linkRoute, PublicationListComponent.buildFacetViewLink;
  cbv zeta; cbn [snd].

Section LinkFacts.

Variables (facet : PublicationListComponent.FacetType)
          (st : PublicationListComponent.State).

Lemma link_single (k : string) (c : bool) (v : string) (route : ParamMap.t) :
  ParamMap.getAll k route = (if c then ParamMap.getAll k (routeEntry (k, QString v)) else []) ->
  ParamMap.get k route = if c then Some v else None.
Proof.
  unfold ParamMap.get, HttpParams.get, ParamMap.getAll. intros ->.
  destruct c; [| reflexivity].
  unfold routeEntry; cbn [fst snd HttpParams.getAll]. now rewrite String.eqb_refl.
Qed.

Lemma link_paging :
  ParamMap.get "page" (Reading.linkRoute facet st) = None /\
  ParamMap.get "page_size" (Reading.linkRoute facet st) = None.
Proof.
  unfold ParamMap.get, HttpParams.get.
  assert (H : forall k, String.eqb "search" k = false -> String.eqb "journal" k = false ->
                String.eqb "journal_name" k = false -> String.eqb "ordering" k = false ->
                String.eqb "issued_from" k = false -> String.eqb "issued_to" k = false ->
                String.eqb "subject" k = false -> String.eqb "author" k = false ->
                String.eqb "issued_year" k = false -> String.eqb "search_mode" k = false ->
                ParamMap.getAll k (Reading.linkRoute facet st) = []).
  { intros k H1 H2 H3 H4 H5 H6 H7 H8 H9 H10. open_link.
    rewrite !route_when_other by assumption.
    rewrite route_journal_other by assumption.
    rewrite !route_when_other by assumption. reflexivity. }
  unfold ParamMap.getAll in H. split; rewrite H; reflexivity.
Qed.

Lemma link_search :
  ParamMap.get "search" (Reading.linkRoute facet st) =
    Js.orUndefined (Js.trim (PublicationListComponent.searchQuery st)) /\
  ParamMap.get "search_mode" (Reading.linkRoute facet st) =
    (if Js.truthy (Js.trim (PublicationListComponent.searchQuery st))
     then Some "elastic" else None).
Proof.
  split.
  - unfold Js.orUndefined. apply link_single. open_link. lookup_in_link. reflexivity.
  - apply link_single. open_link. rewrite length_positive_truthy.
    lookup_in_link. reflexivity.
Qed.

Lemma link_journal :
  ParamMap.get "journal" (Reading.linkRoute facet st) =
  if Js.truthyOpt (PublicationListComponent.journalSlug st)
  then Some (Js.nullish (PublicationListComponent.journalSlug st) "") else None.
Proof.
  apply link_single. open_link.
  rewrite !route_when_other by reflexivity.
  destruct (Js.truthyOpt (PublicationListComponent.journalSlug st)).
  - destruct (Js.truthyOpt (PublicationListComponent.journalName st));
      rewrite ?route_assign_other by reflexivity;
      rewrite route_assign_new by prefix_unbound; reflexivity.
  - apply unbound_lookup. prefix_unbound.
Qed.

Lemma link_scalars :
  ParamMap.get "ordering" (Reading.linkRoute facet st) =
    (if Js.truthyOpt (PublicationListComponent.ordering st)
     then Some (Js.nullish (PublicationListComponent.ordering st) "") else None) /\
  ParamMap.get "issued_from" (Reading.linkRoute facet st) =
    (if Js.truthyOpt (PublicationListComponent.issuedFrom st)
     then Some (Js.nullish (PublicationListComponent.issuedFrom st) "") else None) /\
  ParamMap.get "issued_to" (Reading.linkRoute facet st) =
    (if Js.truthyOpt (PublicationListComponent.issuedTo st)
     then Some (Js.nullish (PublicationListComponent.issuedTo st) "") else None) /\
  ParamMap.get "subject" (Reading.linkRoute facet st) =
    (if negb (Z.of_nat (length (PublicationListComponent.subjectFilters st)) =? 0)
     then Some (Js.join ", " (PublicationListComponent.subjectFilters st)) else None).
Proof.
  repeat split; apply link_single; open_link; lookup_in_link; reflexivity.
Qed.

Lemma link_arrays :
  ParamMap.getAll "author" (Reading.linkRoute facet st) =
    PublicationListComponent.authorFilters st /\
  ParamMap.getAll "issued_year" (Reading.linkRoute facet st) =
    PublicationListComponent.issuedYearFilters st.
Proof.
  split; open_link; lookup_in_link.
  - destruct (PublicationListComponent.authorFilters st) as [| x l]; [reflexivity |].
    replace (negb (Z.of_nat (length (x :: l)) =? 0)) with true
      by (symmetry; apply nonempty_list_iff; discriminate).
    reflexivity.
  - destruct (PublicationListComponent.issuedYearFilters st) as [| x l]; [reflexivity |].
    replace (negb (Z.of_nat (length (x :: l)) =? 0)) with true
      by (symmetry; apply nonempty_list_iff; discriminate).
    reflexivity.
Qed.

End LinkFacts.

Section FacetPageFacts.

Variable baseUrl : string.

Lemma parseQueryParams_options (q : ParamMap.t) :
  let context := PublicationFacetListComponent.parseQueryParams q in
  let options := PublicationFacetListComponent.c_options context in
  let single := fun name => Js.trim (Js.nullish (ParamMap.get name q) "") in
  let several := fun name => filter Js.truthy (map Js.trim (ParamMap.getAll name q)) in
  PublicationFacetListComponent.c_searchTerm context = single "search" /\
  PublicationFacetListComponent.c_searchMode context =
    match ParamMap.get "search_mode" q with
    | Some m => if String.eqb m "elastic"
                then PublicationFacetListComponent.elastic
                else PublicationFacetListComponent.default
    | None => PublicationFacetListComponent.default
    end /\
  PublicationApiService.O.page options =
    Some match Js.parseInt (Js.nullish (ParamMap.get "page" q) "") with
         | Some n => if 0 <? n then n else 1
         | None => 1
         end /\
  PublicationApiService.O.pageSize options =
    Some match Js.parseInt (Js.nullish (ParamMap.get "page_size" q) "") with
         | Some n => if 0 <? n then n else PublicationFacetListComponent.DEFAULT_PAGE_SIZE
         | None => PublicationFacetListComponent.DEFAULT_PAGE_SIZE
         end /\
  PublicationApiService.O.journalSlug options = Js.orUndefined (single "journal") /\
  PublicationApiService.O.journalId options = None /\
  PublicationApiService.O.ordering options = Js.orUndefined (single "ordering") /\
  PublicationApiService.O.issuedFrom options = Js.orUndefined (single "issued_from") /\
  PublicationApiService.O.issuedTo options = Js.orUndefined (single "issued_to") /\
  PublicationApiService.O.subject options = Js.orUndefined (single "subject") /\
  PublicationApiService.O.authors options =
    (if negb (Z.of_nat (length (several "author")) =? 0)
     then Some (several "author") else None) /\
  PublicationApiService.O.issuedYears options =
    (if negb (Z.of_nat (length (several "issued_year")) =? 0)
     then Some (map PublicationApiService.YearString (several "issued_year")) else None).
Proof.
  cbv zeta. unfold PublicationFacetListComponent.parseQueryParams. cbv zeta.
  repeat match goal with
         | |- context [match ?p with pair _ _ => _ end] => destruct p
         end.
  cbn [PublicationFacetListComponent.c_searchTerm PublicationFacetListComponent.c_searchMode
       PublicationFacetListComponent.c_options
       PublicationApiService.O.page PublicationApiService.O.pageSize
       PublicationApiService.O.journalSlug PublicationApiService.O.journalId
       PublicationApiService.O.ordering PublicationApiService.O.issuedFrom
       PublicationApiService.O.issuedTo PublicationApiService.O.subject
       PublicationApiService.O.authors PublicationApiService.O.issuedYears].
  repeat split.
Qed.

Lemma onRoute_request (facet : option string)
    (k : PublicationFacetListComponent.FacetRouteKey) (queryParams : ParamMap.t)
    (st : PublicationFacetListComponent.State) :
  PublicationFacetListComponent.isFacetRouteKey facet = Some k ->
  let context := PublicationFacetListComponent.parseQueryParams queryParams in
  let options := PublicationFacetListComponent.c_options context in
  httpCalls (snd (PublicationFacetListComponent.onRoute baseUrl facet queryParams st)) =
  [ match PublicationFacetListComponent.c_searchMode context with
    | PublicationFacetListComponent.elastic =>
        if Js.truthy (PublicationFacetListComponent.c_searchTerm context)
        then PublicationApiService.searchFacet baseUrl
               (PublicationFacetListComponent.c_searchTerm context)
               (PublicationFacetListComponent.keyString k) (Some options)
        else PublicationApiService.listFacet baseUrl
               (PublicationFacetListComponent.keyString k) (Some options)
    | PublicationFacetListComponent.default =>
        PublicationApiService.listFacet baseUrl
          (PublicationFacetListComponent.keyString k) (Some options)
    end ].
Proof.
  intros Hk. cbv zeta. unfold PublicationFacetListComponent.onRoute. rewrite Hk.
  reflexivity.
Qed.

Lemma facetType_is_key (facet : PublicationListComponent.FacetType) :
  exists k,
    PublicationFacetListComponent.isFacetRouteKey
      (Some (PublicationListComponent.facetTypeString facet)) = Some k /\
    PublicationFacetListComponent.keyString k =
    PublicationListComponent.facetTypeString facet.
Proof. destruct facet; eexists; split; reflexivity. Qed.

End FacetPageFacts.

Section FromLinkFacts.

Variable baseUrl : string.

Lemma trimmed_single (v : option string) :
  Reading.storedTrimmed v ->
  Js.orUndefined
    (Js.trim (Js.nullish (if Js.truthyOpt v then Some (Js.nullish v "") else None) "")) =
  if Js.truthyOpt v then v else None.
Proof.
  intros Hv. destruct v as [[| c s] |]; cbn [Js.truthyOpt Js.truthy Js.nullish];
    try reflexivity.
  rewrite (Hv _ eq_refl). reflexivity.
Qed.

Lemma list_search_filters (k query : string) (o : option PublicationApiService.O.t) :
  In k Reading.structuredFilterKeys ->
  HttpParams.getAll k (params (PublicationApiService.search baseUrl query o)) =
  HttpParams.getAll k (params (PublicationApiService.list baseUrl o)).
Proof.
  intros Hk. unfold PublicationApiService.search, PublicationApiService.list; cbn [params].
  simpl in Hk.
  destruct Hk as [<- | [<- | [<- | [<- | [<- | [<- | [<- | []]]]]]]];
    through_builders; reflexivity.
Qed.

(** The options the facet page parses from the link, in terms of the
  filters of the list it comes from. *)
Lemma options_from_link (facet : PublicationListComponent.FacetType)
    (st : PublicationListComponent.State) :
  Reading.filtersTrimmed st ->
  let context :=
    PublicationFacetListComponent.parseQueryParams (Reading.linkRoute facet st) in
  let options := PublicationFacetListComponent.c_options context in
  PublicationApiService.O.page options = Some 1 /\
  PublicationApiService.O.pageSize options =
    Some PublicationFacetListComponent.DEFAULT_PAGE_SIZE /\
  PublicationApiService.O.journalSlug options =
    (if Js.truthyOpt (PublicationListComponent.journalSlug st)
     then PublicationListComponent.journalSlug st else None) /\
  PublicationApiService.O.ordering options =
    (if Js.truthyOpt (PublicationListComponent.ordering st)
     then PublicationListComponent.ordering st else None) /\
  PublicationApiService.O.issuedFrom options =
    (if Js.truthyOpt (PublicationListComponent.issuedFrom st)
     then PublicationListComponent.issuedFrom st else None) /\
  PublicationApiService.O.issuedTo options =
    (if Js.truthyOpt (PublicationListComponent.issuedTo st)
     then PublicationListComponent.issuedTo st else None) /\
  PublicationApiService.O.subject options =
    (if negb (Z.of_nat (length (PublicationListComponent.subjectFilters st)) =? 0)
     then Some (Js.join ", " (PublicationListComponent.subjectFilters st)) else None) /\
  PublicationApiService.O.authors options =
    (if negb (Z.of_nat (length (PublicationListComponent.authorFilters st)) =? 0)
     then Some (PublicationListComponent.authorFilters st) else None) /\
  PublicationApiService.O.issuedYears options =
    (if negb (Z.of_nat (length (PublicationListComponent.issuedYearFilters st)) =? 0)
     then Some (map PublicationApiService.YearString
                  (PublicationListComponent.issuedYearFilters st))
     else None).
Proof.
  intros (Hj & Ho & Hf & Ht & Hsub & Hauth & Hyear). cbv zeta.
  destruct (parseQueryParams_options (Reading.linkRoute facet st))
    as (_ & _ & Ppage & Psize & Pj & _ & Po & Pf & Pt & Ps & Pa & Py).
  destruct (link_paging facet st) as [Lpage Lsize].
  destruct (link_scalars facet st) as (Lo & Lf & Lt & Ls).
  destruct (link_arrays facet st) as [La Ly].
  rewrite Ppage, Psize, Pj, Po, Pf, Pt, Ps, Pa, Py.
  rewrite Lpage, Lsize, (link_journal facet st), Lo, Lf, Lt, Ls, La, Ly.
  rewrite !trimmed_single by assumption.
  rewrite !trimmed_terms_kept by assumption.
  repeat split.
  destruct (PublicationListComponent.subjectFilters st) as [| x l] eqn:E; [reflexivity |].
  replace (negb (Z.of_nat (length (x :: l)) =? 0)) with true
    by (symmetry; apply nonempty_list_iff; discriminate).
  cbn [Js.nullish].
  destruct (trim_join (x :: l) ltac:(discriminate) Hsub) as [Htrim Hne].
  rewrite Htrim. unfold Js.orUndefined. apply truthy_true_iff in Hne. now rewrite Hne.
Qed.

End FromLinkFacts.

Section FromLinkRequest.

Variable baseUrl : string.

Lemma list_request_filters (k : string) (st : PublicationListComponent.State) :
  In k Reading.structuredFilterKeys ->
  HttpParams.getAll k
    (params (PublicationListComponent.request
               (snd (PublicationListComponent.fetchPublications baseUrl st)))) =
  HttpParams.getAll k
    (params (PublicationApiService.list baseUrl
       (Some {| PublicationApiService.O.page := None;
                PublicationApiService.O.search := None;
                PublicationApiService.O.pageSize := None;
                PublicationApiService.O.journalSlug :=
                  if Js.truthyOpt (PublicationListComponent.journalSlug st)
                  then PublicationListComponent.journalSlug st else None;
                PublicationApiService.O.journalId := None;
                PublicationApiService.O.ordering :=
                  if Js.truthyOpt (PublicationListComponent.ordering st)
                  then PublicationListComponent.ordering st else None;
                PublicationApiService.O.issuedFrom :=
                  if Js.truthyOpt (PublicationListComponent.issuedFrom st)
                  then PublicationListComponent.issuedFrom st else None;
                PublicationApiService.O.issuedTo :=
                  if Js.truthyOpt (PublicationListComponent.issuedTo st)
                  then PublicationListComponent.issuedTo st else None;
                PublicationApiService.O.subject :=
                  if negb (Z.of_nat (length (PublicationListComponent.subjectFilters st)) =? 0)
                  then Some (Js.join ", " (PublicationListComponent.subjectFilters st))
                  else None;
                PublicationApiService.O.authors :=
                  if negb (Z.of_nat (length (PublicationListComponent.authorFilters st)) =? 0)
                  then Some (PublicationListComponent.authorFilters st) else None;
                PublicationApiService.O.issuedYears :=
                  if negb (Z.of_nat (length (PublicationListComponent.issuedYearFilters st))
                           =? 0)
                  then Some (map PublicationApiService.YearString
                               (PublicationListComponent.issuedYearFilters st))
                  else None |}))).
Proof.
  intros Hk. unfold PublicationListComponent.fetchPublications;
    cbn [snd PublicationListComponent.request].
  destruct (_ && _); [rewrite list_search_filters by assumption |];
    unfold PublicationApiService.list; option_fields; simpl in Hk;
    destruct Hk as [<- | [<- | [<- | [<- | [<- | [<- | [<- | []]]]]]]];
    through_builders; cbn [andb];
    try reflexivity;
    match goal with
    | |- context [Js.truthyOpt ?v] => destruct v as [[| ? ?] |]; reflexivity
    end.
Qed.

Lemma facet_options_filters (k : string) (o1 o2 : PublicationApiService.O.t) :
  In k Reading.structuredFilterKeys ->
  PublicationApiService.O.journalSlug o1 = PublicationApiService.O.journalSlug o2 ->
  PublicationApiService.O.ordering o1 = PublicationApiService.O.ordering o2 ->
  PublicationApiService.O.issuedFrom o1 = PublicationApiService.O.issuedFrom o2 ->
  PublicationApiService.O.issuedTo o1 = PublicationApiService.O.issuedTo o2 ->
  PublicationApiService.O.subject o1 = PublicationApiService.O.subject o2 ->
  PublicationApiService.O.authors o1 = PublicationApiService.O.authors o2 ->
  PublicationApiService.O.issuedYears o1 = PublicationApiService.O.issuedYears o2 ->
  HttpParams.getAll k (params (PublicationApiService.list baseUrl (Some o1))) =
  HttpParams.getAll k (params (PublicationApiService.list baseUrl (Some o2))).
Proof.
  intros Hk Hj Ho Hf Ht Hs Ha Hy.
  unfold PublicationApiService.list; option_fields; simpl in Hk.
  destruct Hk as [<- | [<- | [<- | [<- | [<- | [<- | [<- | []]]]]]]];
    through_builders; cbn [andb]; rewrite ?Hj, ?Ho, ?Hf, ?Ht, ?Hs, ?Ha, ?Hy; reflexivity.
Qed.

(** Reached through the link of the result list, the facet page asks for
  the first page of fifty facet values, with the structured filters of the
  list request. *)
Lemma facet_from_link (facet : PublicationListComponent.FacetType)
    (st : PublicationListComponent.State)
    (facetState : PublicationFacetListComponent.State) :
  Reading.filtersTrimmed st ->
  exists r,
    Reading.facetCallsFromLink baseUrl facet st facetState = [r] /\
    (forall k, In k Reading.structuredFilterKeys ->
       HttpParams.getAll k (params r) =
       HttpParams.getAll k
         (params (PublicationListComponent.request
                    (snd (PublicationListComponent.fetchPublications baseUrl st))))) /\
    HttpParams.getAll "page" (params r) = ["1"] /\
    HttpParams.getAll "page_size" (params r) = ["50"].
Proof.
  intros Hinv. destruct (facetType_is_key facet) as (key & Hkey & _).
  unfold Reading.facetCallsFromLink. rewrite (onRoute_request baseUrl _ key _ _ Hkey).
  eexists. split; [reflexivity |].
  destruct (options_from_link facet st Hinv)
    as (Hpage & Hsize & Hj & Ho & Hf & Ht & Hs & Ha & Hy).
  cbv zeta in *.
  set (context := PublicationFacetListComponent.parseQueryParams (Reading.linkRoute facet st))
    in *.
  set (o := PublicationFacetListComponent.c_options context) in *.
  assert (Hshape :
    forall k, String.eqb "q" k = false ->
      HttpParams.getAll k
        (params match PublicationFacetListComponent.c_searchMode context with
                | PublicationFacetListComponent.default =>
                    PublicationApiService.listFacet baseUrl
                      (PublicationFacetListComponent.keyString key) (Some o)
                | PublicationFacetListComponent.elastic =>
                    if Js.truthy (PublicationFacetListComponent.c_searchTerm context)
                    then PublicationApiService.searchFacet baseUrl
                           (PublicationFacetListComponent.c_searchTerm context)
                           (PublicationFacetListComponent.keyString key) (Some o)
                    else PublicationApiService.listFacet baseUrl
                           (PublicationFacetListComponent.keyString key) (Some o)
                end) =
      HttpParams.getAll k (PublicationApiService.buildFacetParams (Some o))).
  { intros k Hq.
    destruct (PublicationFacetListComponent.c_searchMode context); [reflexivity |].
    destruct (Js.truthy (PublicationFacetListComponent.c_searchTerm context));
      [| reflexivity].
    unfold PublicationApiService.searchFacet; cbn [params].
    rewrite getAll_set, Hq.
    unfold PublicationApiService.withoutSearch, PublicationApiService.buildFacetParams.
    reflexivity. }
  split; [| split].
  - intros k Hk. rewrite Hshape.
    + change (PublicationApiService.buildFacetParams (Some o))
        with (params (PublicationApiService.listFacet baseUrl "" (Some o))).
      rewrite (facet_filters_as_list baseUrl k "" (Some o) Hk).
      rewrite (list_request_filters k st Hk).
      apply facet_options_filters; assumption.
    + simpl in Hk.
      destruct Hk as [<- | [<- | [<- | [<- | [<- | [<- | [<- | []]]]]]]]; reflexivity.
  - rewrite Hshape by reflexivity.
    unfold PublicationApiService.buildFacetParams. through_builders.
    cbn [Js.nullish]. rewrite Hpage. reflexivity.
  - rewrite Hshape by reflexivity.
    unfold PublicationApiService.buildFacetParams.
    rewrite getAll_appendIssuedYears, getAll_appendAuthors, !getAll_setIfTruthy,
      getAll_setJournal by reflexivity.
    decide_keys. cbn [andb Js.nullish]. rewrite Hsize. reflexivity.
Qed.

End FromLinkRequest.

(** C7. A facet-only request, as the facet page issues it, is a GET scoped
    to exactly one facet dimension: the route names one of [authors],
    [subjects], [journals] and [issued_years] and the request goes to the
    facet endpoint of that dimension (of the list or of the search), or the
    route names none and no request is issued. For the same options the
    facet request carries the structured filter parameters of the list
    request (of the search request, on the search side) value for value;
    the link from the result list to the facet page drops the page and the
    page size of the list, and the facet request is paged on its own
    ([page] always, [page_size] when positive). Reached through that link
    from a list whose filters are stored trimmed, the facet page asks for
    page 1 of 50 facet values with, key by key, the structured filters of
    the request of the list. It is answered by an
    envelope with [count], [page], [page_size], [total_pages], [param] and
    [results], the latter an array of items with exactly the fields
    [value], [label], [count] and [active]; these six fields are all that
    the page reads of an answer. *)
Theorem C7_facet_only_request (baseUrl query name : string) (facet : option string)
    (queryParams : ParamMap.t) (st : PublicationFacetListComponent.State)
    (options : option PublicationApiService.O.t)
    (facetType : PublicationListComponent.FacetType)
    (listState : PublicationListComponent.State)
    (parsed : PublicationApiService.O.t) :
  let calls :=
    httpCalls (snd (PublicationFacetListComponent.onRoute baseUrl facet queryParams st)) in
  let link := PublicationListComponent.buildFacetViewLink facetType listState in
  ((calls = [] /\ forall d, In d Reading.facetDimensions -> facet <> Some d) \/
   (exists d r,
      In d Reading.facetDimensions /\ facet = Some d /\ calls = [r] /\
      method r = GET /\
      (url r = baseUrl ++ "/publications/facets/" ++ d ++ "/" \/
       url r = baseUrl ++ "/publications/search/facets/" ++ d ++ "/") /\
      response r = Ts.TObject Models.FacetListResponse.decl)) /\
  (forall k, In k Reading.structuredFilterKeys ->
     HttpParams.getAll k (params (PublicationApiService.listFacet baseUrl name options)) =
     HttpParams.getAll k (params (PublicationApiService.list baseUrl options)) /\
     HttpParams.getAll k
       (params (PublicationApiService.searchFacet baseUrl query name options)) =
     HttpParams.getAll k (params (PublicationApiService.search baseUrl query options))) /\
  ((exists d, In d Reading.facetDimensions /\ fst link = ["/publications"; "facets"; d]) /\
   queryParam "page" (snd link) = None /\
   queryParam "page_size" (snd link) = None) /\
  (exists page,
     HttpParams.getAll "page"
       (params (PublicationApiService.listFacet baseUrl name options)) = [page]) /\
  (incl ["count"; "page"; "page_size"; "total_pages"; "param"; "results"]
        (Ts.names Models.FacetListResponse.decl) /\
   Ts.lookup "results" Models.FacetListResponse.decl =
     Some (Ts.TArray (Ts.TObject Models.FacetItem.decl)) /\
   Ts.names Models.FacetItem.decl = ["value"; "label"; "count"; "active"]) /\
  (forall a b, Reading.sameEnvelope a b ->
     PublicationFacetListComponent.fetchFacetNext parsed a st =
     PublicationFacetListComponent.fetchFacetNext parsed b st) /\
  (Reading.filtersTrimmed listState ->
   exists r,
     Reading.facetCallsFromLink baseUrl facetType listState st = [r] /\
     (forall k, In k Reading.structuredFilterKeys ->
        HttpParams.getAll k (params r) =
        HttpParams.getAll k
          (params (PublicationListComponent.request
                     (snd (PublicationListComponent.fetchPublications baseUrl listState))))) /\
     HttpParams.getAll "page" (params r) = ["1"] /\
     HttpParams.getAll "page_size" (params r) = ["50"]).
Proof.
  intros calls link.
  split.
  { subst calls. pose proof (onRoute_calls baseUrl facet queryParams st) as Hcalls.
    destruct (PublicationFacetListComponent.isFacetRouteKey facet) as [k |] eqn:Hk.
    - right. destruct Hcalls as (st' & opts & Hkey & Hcalls).
      apply isFacetRouteKey_some in Hk.
      destruct (keyString_dimension k) as [Hdim _].
      destruct (facetRequest_scoped baseUrl st' opts) as (Hurl & Hget & Hresp).
      rewrite Hkey in Hurl.
      exists (PublicationFacetListComponent.keyString k),
             (PublicationFacetListComponent.facetRequest baseUrl st' opts).
      repeat split; assumption.
    - left. split; [exact Hcalls | now apply isFacetRouteKey_none]. }
  split.
  { intros k Hk. split;
      [now apply facet_filters_as_list | now apply facet_filters_as_search]. }
  split; [apply facet_link_without_pagination |].
  split.
  { destruct (facet_paging baseUrl name options) as [Hpage _]. eexists. exact Hpage. }
  split; [| split; [intros a b; apply fetchFacetNext_reads_envelope
                    | apply facet_from_link]].
  split; [| split; reflexivity].
  intros x Hx. simpl in Hx. simpl.
  repeat match goal with H : _ \/ _ |- _ => destruct H as [<- | H] end; tauto.
Qed.

(** The facet page of the subjects, reached from a list filtered by
    journal and by two subjects: one request, for page 1 of 50 values, with
    the [journal] and [subject] parameters of the request of the list. *)
Lemma C7_witness :
  exists r,
    Reading.facetCallsFromLink "/api" PublicationListComponent.subjects
      Samples.soilAndCrops Samples.facetPage = [r] /\
    (forall k, In k Reading.structuredFilterKeys ->
       HttpParams.getAll k (params r) =
       HttpParams.getAll k
         (params (PublicationListComponent.request
                    (snd (PublicationListComponent.fetchPublications "/api"
                            Samples.soilAndCrops))))) /\
    HttpParams.getAll "page" (params r) = ["1"] /\
    HttpParams.getAll "page_size" (params r) = ["50"].
Proof.
  destruct (C7_facet_only_request "/api" "maize" "subjects" (Some "subjects")
              Samples.facetRoute Samples.facetPage (Some Samples.facetOptions)
              PublicationListComponent.subjects Samples.soilAndCrops Samples.facetOptions)
    as (_ & _ & _ & _ & _ & _ & Hlink).
  apply Hlink.
  unfold Reading.filtersTrimmed, Reading.storedTrimmed. cbn.
  repeat split; try (intros s Hs; first [discriminate Hs | now injection Hs as <-]);
    repeat constructor; discriminate.
Defined.

(** That request, written out. *)
Example facet_request_from_link :
  map (fun r => (url r, params r))
      (Reading.facetCallsFromLink "/api" PublicationListComponent.subjects
         Samples.soilAndCrops Samples.facetPage) =
  [("/api/publications/facets/subjects/",
    [("page", ["1"]); ("page_size", ["50"]); ("journal", ["ajk"]);
     ("subject", ["soil, crop science"])])].
Proof. reflexivity. Qed.

(** ** Metadata entries of the publication form *)

Section SortFacts.

Context {A : Type} (key : A -> Z).

Lemma insertBy_permutation (x : A) (l : list A) :
  Permutation (Js.insertBy (fun a b => key a - key b <=? 0) x l) (x :: l).
Proof.
  induction l as [| y r IH]; cbn [Js.insertBy]; [apply Permutation_refl |].
  destruct (key x - key y <=? 0); [apply Permutation_refl |].
  eapply Permutation_trans; [apply perm_skip, IH | apply perm_swap].
Qed.

Lemma sortBy_permutation (l : list A) : Permutation (Js.sortBy (fun a b => key a - key b <=? 0) l) l.
Proof.
  induction l as [| x r IH]; cbn [Js.sortBy]; [apply Permutation_refl |].
  eapply Permutation_trans; [apply insertBy_permutation | apply perm_skip, IH].
Qed.

Lemma insertBy_ascending (x : A) (l : list A) :
  StronglySorted (fun a b => key a <= key b) l ->
  StronglySorted (fun a b => key a <= key b) (Js.insertBy (fun a b => key a - key b <=? 0) x l).
Proof.
  induction l as [| y r IH]; intros Hs; cbn [Js.insertBy].
  - constructor; constructor.
  - inversion Hs as [| ? ? Hr Hy]; subst.
    destruct (key x - key y <=? 0) eqn:E.
    + apply Z.leb_le in E. constructor; [exact Hs |].
      constructor; [lia |].
      eapply Forall_impl; [| exact Hy]. cbn beta. intros z Hz. lia.
    + apply Z.leb_gt in E. constructor; [now apply IH |].
      eapply Permutation_Forall.
      * apply Permutation_sym, insertBy_permutation.
      * constructor; [lia | exact Hy].
Qed.

Lemma sortBy_ascending (l : list A) :
  StronglySorted (fun a b => key a <= key b) (Js.sortBy (fun a b => key a - key b <=? 0) l).
Proof.
  induction l as [| x r IH]; cbn [Js.sortBy]; [constructor |].
  now apply insertBy_ascending.
Qed.

End SortFacts.

Section PayloadFacts.

Lemma mapiFrom_nth {A B : Type} (f : A -> Z -> B) (s : Z) (l : list A) (i : nat) :
  nth_error (Js.mapiFrom f s l) i =
  option_map (fun e => f e (s + Z.of_nat i)) (nth_error l i).
Proof.
  revert s i. induction l as [| x r IH]; intros s i; cbn [Js.mapiFrom].
  - destruct i; reflexivity.
  - destruct i as [| i]; cbn [nth_error option_map].
    + do 2 f_equal. lia.
    + rewrite IH. destruct (nth_error r i); cbn [option_map]; [| reflexivity].
      do 2 f_equal. lia.
Qed.

Lemma mapiFrom_length {A B : Type} (f : A -> Z -> B) (s : Z) (l : list A) :
  length (Js.mapiFrom f s l) = length l.
Proof. revert s. induction l; intros s; cbn [Js.mapiFrom length]; auto. Qed.

Lemma positioned_positions (s : Z) (l : list Models.PublicationMetadataPayload.t) :
  map Models.PublicationMetadataPayload.position
      (Js.mapiFrom PublicationFormComponent.positioned s l) =
  map Some (Reading.run s (length l)).
Proof.
  revert s. induction l as [| x r IH]; intros s;
    cbn [Js.mapiFrom map length Reading.run]; [reflexivity |].
  now rewrite IH.
Qed.

Lemma increasing_above (a : Z) (l : list (option Z)) :
  Reading.increasing l ->
  Forall (fun o => exists b, o = Some b /\ a < b) l ->
  Reading.increasing (Some a :: l).
Proof.
  intros Hinc Hall. destruct Hinc as [| b | b c rest Hlt Hrest].
  - constructor.
  - apply Forall_inv in Hall. destruct Hall as [b' [Heq Hb]].
    injection Heq as ->. constructor; [exact Hb | constructor].
  - apply Forall_inv in Hall. destruct Hall as [b' [Heq Hb]].
    injection Heq as ->. constructor; [exact Hb |]. now constructor.
Qed.

Lemma group_positions_increasing (g : option string * string * option string) (s : Z)
    (l : list Models.PublicationMetadataPayload.t) :
  Reading.increasing
    (Reading.positionsOfGroup g (Js.mapiFrom PublicationFormComponent.positioned s l)) /\
  Forall (fun o => exists b, o = Some b /\ s <= b)
    (Reading.positionsOfGroup g (Js.mapiFrom PublicationFormComponent.positioned s l)).
Proof.
  unfold Reading.positionsOfGroup.
  revert s. induction l as [| x r IH]; intros s; cbn [Js.mapiFrom filter map].
  - split; constructor.
  - destruct (IH (s + 1)) as [Hinc Hall].
    assert (Hweak : Forall (fun o => exists b, o = Some b /\ s <= b)
              (map Models.PublicationMetadataPayload.position
                 (filter (Reading.sameGroup g)
                    (Js.mapiFrom PublicationFormComponent.positioned (s + 1) r)))).
    { eapply Forall_impl; [| exact Hall]. cbn beta. intros o [b [-> Hb]].
      exists b. split; [reflexivity | lia]. }
    destruct (Reading.sameGroup g (PublicationFormComponent.positioned x s));
      cbn [map]; [| split; assumption].
    split.
    + apply increasing_above; [exact Hinc |].
      eapply Forall_impl; [| exact Hall]. cbn beta. intros o [b [-> Hb]].
      exists b. split; [reflexivity | lia].
    + constructor; [| exact Hweak].
      exists s. split; [reflexivity | lia].
Qed.

Lemma removeAt_incl {A : Type} (i : nat) (l : list A) : incl (Js.removeAt i l) l.
Proof.
  revert i. induction l as [| x r IH]; intros i; cbn [Js.removeAt].
  - destruct i; apply incl_refl.
  - destruct i as [| i]; [apply incl_tl, incl_refl |].
    intros y [<- | Hy]; [now left | right; now apply (IH i)].
Qed.

Lemma extractCoreEntry_incl (entries : list Models.PublicationMetadataEntry.t)
    (targetValue : option string) (defaults : PublicationFormComponent.CoreFieldDefaults.t) :
  incl (snd (PublicationFormComponent.extractCoreEntry entries targetValue defaults))
       entries.
Proof.
  unfold PublicationFormComponent.extractCoreEntry. cbv zeta.
  repeat match goal with
         | |- context [match ?x with Some _ => _ | None => _ end] => destruct x
         | |- context [if ?b then _ else _] => destruct b
         end; cbn [snd]; first [apply removeAt_incl | apply incl_refl].
Qed.

Lemma patchCoreField_incl (field : PublicationFormComponent.CoreFieldKey.t)
    (valueControl : string) (publicationValue : option string) (shown : string -> string)
    (entries : list Models.PublicationMetadataEntry.t)
    (f : PublicationFormComponent.Form.t) :
  incl (fst (PublicationFormComponent.patchCoreField field valueControl publicationValue
               shown (entries, f)))
       entries.
Proof.
  unfold PublicationFormComponent.patchCoreField.
  pose proof (extractCoreEntry_incl entries publicationValue
                (PublicationFormComponent.getCoreDefaults field)) as H.
  destruct (PublicationFormComponent.extractCoreEntry entries publicationValue
              (PublicationFormComponent.getCoreDefaults field)) as [entry rest].
  exact H.
Qed.

Lemma patchCoreFields_incl (publication : Models.Publication.t)
    (f : PublicationFormComponent.Form.t) :
  incl (fst (PublicationFormComponent.patchCoreFields publication f))
       (Js.nullish (Models.Publication.metadata publication) []).
Proof.
  unfold PublicationFormComponent.patchCoreFields. cbv zeta.
  repeat match goal with
         | |- incl (fst (PublicationFormComponent.patchCoreField ?k ?c ?v ?s ?state)) _ =>
             let H := fresh "H" in
             pose proof (patchCoreField_incl k c v s (fst state) (snd state)) as H;
             rewrite <- surjective_pairing in H;
             eapply incl_tran; [exact H | clear H]
         end.
  apply incl_refl.
Qed.

Lemma patchForm_shows_sorted (publication : Models.Publication.t)
    (f : PublicationFormComponent.Form.t) :
  Reading.showsEntries (PublicationFormComponent.patchForm publication f)
    (Js.sortBy
       (fun a b => PublicationFormComponent.positionOf a -
                   PublicationFormComponent.positionOf b <=? 0)
       (fst (PublicationFormComponent.patchCoreFields publication f))).
Proof.
  unfold Reading.showsEntries, PublicationFormComponent.patchForm.
  destruct (PublicationFormComponent.patchCoreFields publication f) as [remaining f'].
  cbn [fst]. unfold PublicationFormComponent.setMetadataEntries.
  destruct remaining as [| x r]; [reflexivity |].
  replace (Z.of_nat (length (x :: r)) =? 0) with false
    by (symmetry; apply Z.eqb_neq; cbn [length]; lia).
  reflexivity.
Qed.

End PayloadFacts.

(** C6. In every payload the publication form builds, the metadata list is
    the core-field entries followed by the additional entries, the entry at
    place [i] standing at position [i]: the positions are 0, 1, 2, ... in
    display order, so within any (schema, element, qualifier) group they
    strictly increase. When a stored publication is loaded into the form,
    the rows of its metadata array show its entries, those left after the
    core fields took theirs, each once, sorted by the ascending position
    they are stored with. *)
Theorem C6_metadata_positions (f : PublicationFormComponent.Form.t)
    (publication : Models.Publication.t)
    (g : option string * string * option string) :
  let payload := Models.PublicationPayload.metadata (PublicationFormComponent.buildPayload f) in
  let combined :=
    (PublicationFormComponent.coreEntries f ++
     PublicationFormComponent.metadataEntries (PublicationFormComponent.Form.metadata f))%list in
  let remaining := fst (PublicationFormComponent.patchCoreFields publication f) in
  length payload = length combined /\
  (forall i e, nth_error combined i = Some e ->
     nth_error payload i = Some (PublicationFormComponent.positioned e (Z.of_nat i))) /\
  map Models.PublicationMetadataPayload.position payload =
    map Some (Reading.run 0 (length combined)) /\
  Reading.increasing (Reading.positionsOfGroup g payload) /\
  incl remaining (Js.nullish (Models.Publication.metadata publication) []) /\
  (exists shown,
     Permutation shown remaining /\
     Reading.ascending shown /\
     Reading.showsEntries (PublicationFormComponent.patchForm publication f) shown /\
     map PublicationFormComponent.MetadataFormGroup.value
         (PublicationFormComponent.Form.metadata
            (PublicationFormComponent.patchForm publication f)) =
     map Models.PublicationMetadataEntry.value shown).
Proof.
  intros payload combined remaining. subst payload.
  unfold PublicationFormComponent.buildPayload;
    cbn [Models.PublicationPayload.metadata]. fold combined. unfold Js.mapi.
  split; [apply mapiFrom_length |].
  split.
  { intros i e He. rewrite mapiFrom_nth, He. reflexivity. }
  split; [apply positioned_positions |].
  split; [apply group_positions_increasing |].
  split; [apply patchCoreFields_incl |].
  pose proof (patchForm_shows_sorted publication f) as Hshown.
  eexists. split; [| split; [| split; [exact Hshown |]]].
  - apply (sortBy_permutation PublicationFormComponent.positionOf).
  - unfold Reading.ascending.
    exact (sortBy_ascending PublicationFormComponent.positionOf remaining).
  - unfold Reading.showsEntries in Hshown. rewrite Hshown, map_map. reflexivity.
Qed.

(** A stored publication whose entries arrive out of order, loaded into the
    form and sent back. The title and the date go to their core fields;
    the rows show the two creators and the subject by their stored
    positions 2, 3 and 4, the creator A before the creator B that arrived
    first; the payload numbers its three core entries and the three rows 0
    to 5. *)
Lemma C6_witness :
  (exists shown,
     Permutation shown
       [ Samples.stored 1 "creator" None "B" 3;
         Samples.stored 3 "creator" None "A" 2;
         Samples.stored 5 "subject" None "soil" 4 ] /\
     Reading.ascending shown /\
     map PublicationFormComponent.MetadataFormGroup.value
         (PublicationFormComponent.Form.metadata Samples.loadedForm) =
     map Models.PublicationMetadataEntry.value shown) /\
  map PublicationFormComponent.MetadataFormGroup.value
      (PublicationFormComponent.Form.metadata Samples.loadedForm) = ["A"; "B"; "soil"] /\
  map Models.PublicationMetadataPayload.position
      (Models.PublicationPayload.metadata
         (PublicationFormComponent.buildPayload Samples.loadedForm)) =
  [Some 0; Some 1; Some 2; Some 3; Some 4; Some 5] /\
  Reading.increasing
    (Reading.positionsOfGroup Samples.creators
       (Models.PublicationPayload.metadata
          (PublicationFormComponent.buildPayload Samples.loadedForm))).
Proof.
  destruct (C6_metadata_positions Samples.loadedForm Samples.storedPublication
              Samples.creators) as (_ & _ & Hpos & Hinc & _).
  destruct (C6_metadata_positions PublicationFormComponent.form Samples.storedPublication
              Samples.creators) as (_ & _ & _ & _ & _ & shown & Hperm & Hasc & _ & Hrows).
  split; [| split; [reflexivity | split; [exact Hpos | exact Hinc]]].
  exists shown. split; [exact Hperm |]. split; [exact Hasc | exact Hrows].
Defined.

(** * More of the client: properties beyond the specification's claims *)

(** ** Strings: trimming and lower case *)

Lemma trimEnd_first (c : ascii) (s : string) :
  Js.isWhiteSpace c = false ->
  exists r, Js.trimEnd (String c s) = String c r.
Proof.
  intros Hc. cbn [Js.trimEnd]. destruct (Js.trimEnd s) as [| d r].
  - rewrite Hc. now exists "".
  - now exists (String d r).
Qed.

Lemma trimEnd_idempotent (s : string) : Js.trimEnd (Js.trimEnd s) = Js.trimEnd s.
Proof.
  induction s as [| c s IH]; [reflexivity |].
  cbn [Js.trimEnd]. destruct (Js.trimEnd s) as [| d r] eqn:E.
  - destruct (Js.isWhiteSpace c) eqn:Hc; [reflexivity |].
    cbn [Js.trimEnd]. now rewrite Hc.
  - cbn [Js.trimEnd]. cbn [Js.trimEnd] in IH. rewrite IH. reflexivity.
Qed.

Lemma trimStart_head (s : string) :
  Js.trimStart s = "" \/
  exists c r, Js.trimStart s = String c r /\ Js.isWhiteSpace c = false.
Proof.
  induction s as [| c s IH]; [now left |].
  cbn [Js.trimStart]. destruct (Js.isWhiteSpace c) eqn:Hc; [exact IH |].
  right. now exists c, s.
Qed.

Lemma trim_idempotent (s : string) : Js.trim (Js.trim s) = Js.trim s.
Proof.
  unfold Js.trim. destruct (trimStart_head s) as [-> | (c & r & -> & Hc)]; [reflexivity |].
  destruct (trimEnd_first c r Hc) as [r' Hr]. rewrite Hr.
  cbn [Js.trimStart]. rewrite Hc, <- Hr. apply trimEnd_idempotent.
Qed.

Lemma lowerChar_idempotent (c : ascii) : Js.lowerChar (Js.lowerChar c) = Js.lowerChar c.
Proof. destruct c as [[] [] [] [] [] [] [] []]; reflexivity. Qed.

Lemma toLowerCase_idempotent (s : string) :
  Js.toLowerCase (Js.toLowerCase s) = Js.toLowerCase s.
Proof.
  induction s as [| c s IH]; cbn [Js.toLowerCase]; [reflexivity |].
  now rewrite lowerChar_idempotent, IH.
Qed.

Lemma toLowerCase_truthy (s : string) : Js.truthy (Js.toLowerCase s) = Js.truthy s.
Proof. destruct s; reflexivity. Qed.

Lemma trimmedTerms_spec (values : list string) :
  PublicationListComponent.trimmedTerms values = filter Js.truthy (map Js.trim values).
Proof.
  unfold PublicationListComponent.trimmedTerms. apply filter_ext.
  intros s. apply length_positive_truthy.
Qed.

Lemma trimmedTerms_shape (values : list string) :
  Forall (fun t => Js.trim t = t /\ t <> "") (PublicationListComponent.trimmedTerms values).
Proof.
  rewrite trimmedTerms_spec. apply Forall_forall. intros t Ht.
  apply filter_In in Ht. destruct Ht as [Hin Htr].
  apply in_map_iff in Hin. destruct Hin as (v & <- & _).
  split; [apply trim_idempotent | now apply truthy_true_iff].
Qed.

Lemma trimmedTerms_fixed (l : list string) :
  Forall (fun t => Js.trim t = t /\ t <> "") l ->
  PublicationListComponent.trimmedTerms l = l.
Proof. rewrite trimmedTerms_spec. apply trimmed_terms_kept. Qed.

(** ** Numbers: decimal text and back *)

Lemma digit_cases (c : ascii) (d : Z) :
  Js.digit c = Some d -> 0 <= d <= 9 /\ Js.isWhiteSpace c = false /\ c <> "-"%char /\ c <> "+"%char.
Proof.
  destruct c as [[] [] [] [] [] [] [] []]; cbv; intros [= <-];
    repeat split; congruence.
Qed.

Lemma parseDigitsAcc_uint (u : Decimal.uint) (acc : positive) :
  Js.parseDigitsAcc (NilEmpty.string_of_uint u) (Z.pos acc) = Z.pos (Pos.of_uint_acc u acc).
Proof.
  revert acc. induction u; intros acc; cbn [NilEmpty.string_of_uint Js.parseDigitsAcc Pos.of_uint_acc];
    [reflexivity | ..];
    match goal with
    | |- context [Js.digit ?c] =>
        let d := eval cbv in (Js.digit c) in change (Js.digit c) with d
    end; cbv iota;
    match goal with
    | |- Js.parseDigitsAcc _ ?a = _ =>
        match goal with
        | |- _ = Z.pos (Pos.of_uint_acc _ ?b) =>
            replace a with (Z.pos b) by lia
        end
    end; apply IHu.
Qed.

Lemma parseDigitsAcc_of_uint (u : Decimal.uint) :
  Js.parseDigitsAcc (NilEmpty.string_of_uint u) 0 = Z.of_N (Pos.of_uint u).
Proof.
  induction u; cbn [NilEmpty.string_of_uint Js.parseDigitsAcc Pos.of_uint];
    [reflexivity | ..];
    match goal with
    | |- context [Js.digit ?c] =>
        let d := eval cbv in (Js.digit c) in change (Js.digit c) with d
    end; cbv iota; cbn [Z.mul Z.add];
    [exact IHu | ..]; cbn [Z.of_N]; apply parseDigitsAcc_uint.
Qed.

Lemma parseDigits_from_zero (s : string) :
  s <> "" -> (exists c r d, s = String c r /\ Js.digit c = Some d) ->
  Js.parseDigits s = Some (Js.parseDigitsAcc s 0).
Proof.
  intros _ (c & r & d & -> & Hd). cbn [Js.parseDigits Js.parseDigitsAcc].
  rewrite Hd. cbn [Z.mul Z.add]. reflexivity.
Qed.

Lemma uint_first_digit (u : Decimal.uint) :
  u <> Decimal.Nil ->
  exists c r d, NilEmpty.string_of_uint u = String c r /\ Js.digit c = Some d.
Proof.
  destruct u; [congruence | ..]; intros _; cbn [NilEmpty.string_of_uint];
    eexists _, _, _; (split; [reflexivity | cbv; reflexivity]).
Qed.

Lemma parseDigits_uint (u : Decimal.uint) :
  u <> Decimal.Nil ->
  Js.parseDigits (NilEmpty.string_of_uint u) = Some (Z.of_N (Pos.of_uint u)).
Proof.
  intros Hu. destruct (uint_first_digit u Hu) as (c & r & d & E & Hd).
  rewrite parseDigits_from_zero.
  - now rewrite parseDigitsAcc_of_uint.
  - rewrite E. congruence.
  - now exists c, r, d.
Qed.

(** A string that starts with a digit is read by [parseInt] as its run of
    digits. *)
Lemma parseInt_digits (s : string) :
  (exists c r d, s = String c r /\ Js.digit c = Some d) ->
  Js.parseInt s = Js.parseDigits s.
Proof.
  intros (c & r & d & -> & Hd). destruct (digit_cases c d Hd) as (_ & Hw & Hm & Hp).
  unfold Js.parseInt. cbn [Js.trimStart]. rewrite Hw.
  destruct c as [[] [] [] [] [] [] [] []]; try reflexivity; congruence.
Qed.

Lemma toString_positive (p : positive) :
  Js.toString (Z.pos p) = NilEmpty.string_of_uint (Pos.to_uint p).
Proof.
  unfold Js.toString. cbn [Z.to_int NilZero.string_of_int].
  unfold NilZero.string_of_uint.
  destruct (Pos.to_uint p) eqn:E; try reflexivity.
  now apply DecimalPos.Unsigned.to_uint_nonnil in E.
Qed.

Lemma parseInt_toString_positive (p : positive) :
  Js.parseInt (Js.toString (Z.pos p)) = Some (Z.pos p).
Proof.
  rewrite toString_positive.
  pose proof (DecimalPos.Unsigned.to_uint_nonnil p) as Hn.
  rewrite parseInt_digits by now apply uint_first_digit.
  rewrite parseDigits_uint by exact Hn.
  now rewrite DecimalPos.Unsigned.of_to.
Qed.

(** [Number.parseInt(String(n), 10) === n] for every integer [n]. *)
Lemma parseInt_toString (n : Z) : Js.parseInt (Js.toString n) = Some n.
Proof.
  destruct n as [| p | p].
  - reflexivity.
  - apply parseInt_toString_positive.
  - unfold Js.toString. cbn [Z.to_int NilZero.string_of_int].
    unfold Js.parseInt. cbn [Js.trimStart]. change (Js.isWhiteSpace "-"%char) with false.
    cbv iota.
    pose proof (DecimalPos.Unsigned.to_uint_nonnil p) as Hn.
    replace (NilZero.string_of_uint (Pos.to_uint p))
      with (NilEmpty.string_of_uint (Pos.to_uint p))
      by (unfold NilZero.string_of_uint; destruct (Pos.to_uint p); congruence).
    rewrite parseDigits_uint by exact Hn.
    now rewrite DecimalPos.Unsigned.of_to.
Qed.


(** ** Years *)

Lemma removeNonDigits_length (s : string) :
  (String.length (Js.removeNonDigits s) <= String.length s)%nat.
Proof.
  induction s as [| c s IH]; cbn [Js.removeNonDigits String.length]; [lia |].
  destruct (Js.digit c); cbn [String.length]; lia.
Qed.

(** A string of digits only: taking its digits changes nothing. *)
Lemma digits_only_cons (c : ascii) (s : string) :
  Js.removeNonDigits (String c s) = String c s ->
  (exists d, Js.digit c = Some d) /\ Js.removeNonDigits s = s.
Proof.
  cbn [Js.removeNonDigits]. destruct (Js.digit c) as [d |] eqn:Hd.
  - intros [= H]. split; [now exists d | exact H].
  - intros H. pose proof (removeNonDigits_length s) as Hl. rewrite H in Hl.
    cbn [String.length] in Hl. lia.
Qed.

Lemma digits_only_slice (n : nat) (t : string) :
  Js.removeNonDigits (Js.sliceTo n (Js.removeNonDigits t)) = Js.sliceTo n (Js.removeNonDigits t).
Proof.
  unfold Js.sliceTo. revert n. induction t as [| c t IH]; intros n.
  - destruct n; reflexivity.
  - cbn [Js.removeNonDigits]. destruct (Js.digit c) as [d |] eqn:Hd; [| apply IH].
    destruct n as [| n]; [reflexivity |].
    cbn [String.substring Js.removeNonDigits]. rewrite Hd. now rewrite IH.
Qed.

Lemma slice_length (n : nat) (s : string) :
  (n <= String.length s)%nat -> String.length (Js.sliceTo n s) = n.
Proof.
  unfold Js.sliceTo. revert s. induction n as [| n IH]; intros s Hn.
  - destruct s; reflexivity.
  - destruct s as [| c s]; cbn [String.length] in Hn; [lia |].
    cbn [String.substring String.length]. rewrite IH; [reflexivity | lia].
Qed.

Lemma slice_whole (s : string) : Js.sliceTo (String.length s) s = s.
Proof.
  unfold Js.sliceTo. induction s as [| c s IH]; [reflexivity |].
  cbn [String.length String.substring]. now rewrite IH.
Qed.

Lemma trimEnd_digits (s : string) : Js.removeNonDigits s = s -> Js.trimEnd s = s.
Proof.
  induction s as [| c s IH]; [reflexivity |].
  intros H. apply digits_only_cons in H. destruct H as [[d Hd] Hs].
  destruct (digit_cases c d Hd) as (_ & Hw & _).
  cbn [Js.trimEnd]. rewrite (IH Hs). destruct s; [now rewrite Hw | reflexivity].
Qed.

Lemma trim_digits (s : string) : Js.removeNonDigits s = s -> Js.trim s = s.
Proof.
  intros H. unfold Js.trim.
  assert (Hs : Js.trimStart s = s).
  { destruct s as [| c s]; [reflexivity |].
    apply digits_only_cons in H. destruct H as [[d Hd] _].
    destruct (digit_cases c d Hd) as (_ & Hw & _).
    cbn [Js.trimStart]. now rewrite Hw. }
  rewrite Hs. now apply trimEnd_digits.
Qed.

Lemma parseDigitsAcc_bound (s : string) (acc : Z) :
  0 <= acc ->
  acc <= Js.parseDigitsAcc s acc < (acc + 1) * 10 ^ Z.of_nat (String.length s).
Proof.
  revert acc. induction s as [| c s IH]; intros acc Hacc; cbn [Js.parseDigitsAcc String.length].
  - cbn. lia.
  - rewrite Nat2Z.inj_succ, Z.pow_succ_r by lia.
    assert (Hp : 0 < 10 ^ Z.of_nat (String.length s)) by (apply Z.pow_pos_nonneg; lia).
    destruct (Js.digit c) as [d |] eqn:Hd.
    + destruct (digit_cases c d Hd) as (Hr & _).
      specialize (IH (acc * 10 + d) ltac:(lia)). nia.
    + nia.
Qed.

Lemma parseInt_digits_only (s : string) :
  s <> "" -> Js.removeNonDigits s = s ->
  exists n, Js.parseInt s = Some n /\ 0 <= n < 10 ^ Z.of_nat (String.length s).
Proof.
  intros Hne H. destruct s as [| c r]; [congruence |].
  destruct (digits_only_cons c r H) as [[d Hd] _].
  rewrite parseInt_digits by now exists c, r, d.
  rewrite parseDigits_from_zero; [| congruence | now exists c, r, d].
  eexists; split; [reflexivity |].
  pose proof (parseDigitsAcc_bound (String c r) 0 ltac:(lia)). lia.
Qed.

(** The decimal text of the numbers from 1000 to 9999: four digits. *)
Lemma year_text (n : Z) :
  1000 <= n <= 9999 ->
  String.length (Js.toString n) = 4%nat /\ Js.removeNonDigits (Js.toString n) = Js.toString n.
Proof.
  intros Hn.
  assert (Hall : forallb (fun k => Nat.eqb (String.length (Js.toString k)) 4 &&
                                   String.eqb (Js.removeNonDigits (Js.toString k)) (Js.toString k))
                         (map (fun i => 1000 + Z.of_nat i) (seq 0 (Z.to_nat 9000))) = true)
    by (vm_compute; reflexivity).
  rewrite forallb_forall in Hall.
  specialize (Hall n). 
  assert (Hin : In n (map (fun i => 1000 + Z.of_nat i) (seq 0 (Z.to_nat 9000)))).
  { apply in_map_iff. exists (Z.to_nat (n - 1000)). split; [lia |]. apply in_seq. lia. }
  apply Hall in Hin. apply andb_true_iff in Hin. destruct Hin as [Hl He].
  apply Nat.eqb_eq in Hl. apply String.eqb_eq in He. now split.
Qed.

(** What [normalizeYearInput] accepts: a text of four digits that reads as
    a year from 1000 to 9999. *)
Lemma normalizeYearInput_shape (value : PublicationListComponent.Raw) (y : string) :
  PublicationListComponent.normalizeYearInput value = Some y ->
  String.length y = 4%nat /\ Js.removeNonDigits y = y /\
  exists n, Js.parseInt y = Some n /\ 1000 <= n <= 9999.
Proof.
  destruct value as [v | v |]; cbn [PublicationListComponent.normalizeYearInput]; cbv zeta.
  - destruct ((v <? 1000) || (9999 <? v)) eqn:E; [discriminate |].
    apply orb_false_iff in E. destruct E as [E1 E2].
    apply Z.ltb_ge in E1. apply Z.ltb_ge in E2.
    intros [= <-]. destruct (year_text v ltac:(lia)) as [Hl Hd].
    repeat split; try assumption. exists v. split; [apply parseInt_toString | lia].
  - destruct (negb (Js.truthy (Js.trim v))); [discriminate |].
    destruct (Z.of_nat (String.length (Js.removeNonDigits (Js.trim v))) <? 4) eqn:E;
      [discriminate |].
    apply Z.ltb_ge in E.
    set (candidate := Js.sliceTo 4 (Js.removeNonDigits (Js.trim v))).
    assert (Hl : String.length candidate = 4%nat) by (apply slice_length; lia).
    assert (Hd : Js.removeNonDigits candidate = candidate) by apply digits_only_slice.
    destruct (Js.parseInt candidate) as [numeric |] eqn:Hp; [| discriminate].
    destruct (numeric <? 1000) eqn:E2; [discriminate |]. apply Z.ltb_ge in E2.
    intros [= <-]. repeat split; try assumption.
    exists numeric. split; [exact Hp |].
    destruct (parseInt_digits_only candidate) as (n & Hn & Hb); try assumption.
    { intros H0. rewrite H0 in Hl. discriminate. }
    rewrite Hl in Hb. change (10 ^ Z.of_nat 4) with 10000 in Hb. 
    rewrite Hp in Hn. injection Hn as <-. lia.
  - discriminate.
Qed.

(** A year text that was accepted is accepted again, unchanged. *)
Lemma normalizeYearInput_again (y : string) :
  String.length y = 4%nat -> Js.removeNonDigits y = y ->
  (exists n, Js.parseInt y = Some n /\ 1000 <= n <= 9999) ->
  PublicationListComponent.normalizeYearInput (PublicationListComponent.RawString y) = Some y.
Proof.
  intros Hl Hd (n & Hp & Hn).
  cbn [PublicationListComponent.normalizeYearInput]; cbv zeta.
  assert (Hs : Js.sliceTo 4 y = y) by (rewrite <- Hl; apply slice_whole).
  rewrite (trim_digits y Hd), Hd, Hl, Hs.
  assert (Ht : Js.truthy y = true) by (destruct y; [discriminate | reflexivity]).
  rewrite Ht. cbn [negb]. change (Z.of_nat 4 <? 4) with false. cbv iota.
  rewrite Hp.
  destruct (n <? 1000) eqn:E; [apply Z.ltb_lt in E; lia | reflexivity].
Qed.

(** ** Sorting *)

Section Sorting.
Context {A : Type}.
Variable le : A -> A -> bool.

Lemma insertBy_perm (x : A) (l : list A) : Permutation (Js.insertBy le x l) (x :: l).
Proof.
  induction l as [| y r IH]; cbn [Js.insertBy]; [apply Permutation_refl |].
  destruct (le x y); [apply Permutation_refl |].
  eapply Permutation_trans; [apply perm_skip, IH | apply perm_swap].
Qed.

Lemma sortBy_perm (l : list A) : Permutation (Js.sortBy le l) l.
Proof.
  induction l as [| x r IH]; cbn [Js.sortBy]; [apply Permutation_refl |].
  eapply Permutation_trans; [apply insertBy_perm | apply perm_skip, IH].
Qed.

Hypothesis le_total : forall a b, le a b = true \/ le b a = true.
Hypothesis le_trans : forall a b c, le a b = true -> le b c = true -> le a c = true.

Lemma insertBy_sorted (x : A) (l : list A) :
  StronglySorted (fun a b => le a b = true) l ->
  StronglySorted (fun a b => le a b = true) (Js.insertBy le x l).
Proof.
  induction l as [| y r IH]; intros Hs; cbn [Js.insertBy].
  - constructor; constructor.
  - inversion Hs as [| ? ? Hr Hy]; subst.
    destruct (le x y) eqn:E.
    + constructor; [exact Hs |]. constructor; [exact E |].
      eapply Forall_impl; [| exact Hy]. intros z Hz. now apply (le_trans x y z).
    + constructor; [now apply IH |].
      assert (Hyx : le y x = true) by (destruct (le_total x y); congruence).
      eapply Permutation_Forall; [apply Permutation_sym, insertBy_perm |].
      constructor; assumption.
Qed.

Lemma sortBy_sorted (l : list A) : StronglySorted (fun a b => le a b = true) (Js.sortBy le l).
Proof.
  induction l as [| x r IH]; cbn [Js.sortBy]; [constructor |].
  now apply insertBy_sorted.
Qed.

Hypothesis le_antisym : forall a b, le a b = true -> le b a = true -> a = b.

Lemma sorted_perm_eq (l m : list A) :
  StronglySorted (fun a b => le a b = true) l ->
  StronglySorted (fun a b => le a b = true) m ->
  Permutation l m -> l = m.
Proof.
  revert m. induction l as [| x r IH]; intros m Hl Hm Hp.
  - apply Permutation_nil in Hp. now subst.
  - destruct m as [| y s]; [apply Permutation_sym, Permutation_nil in Hp; discriminate |].
    inversion Hl as [| ? ? Hr Hx]; subst. inversion Hm as [| ? ? Hs Hy]; subst.
    assert (Hxy : x = y).
    { assert (Hin1 : In x (y :: s)) by (eapply Permutation_in; [exact Hp | now left]).
      assert (Hin2 : In y (x :: r))
        by (eapply Permutation_in; [apply Permutation_sym, Hp | now left]).
      destruct Hin1 as [-> | Hin1]; [reflexivity |].
      destruct Hin2 as [-> | Hin2]; [reflexivity |].
      rewrite Forall_forall in Hx, Hy. apply le_antisym; [now apply Hx | now apply Hy]. }
    subst y. f_equal. apply IH; try assumption. now apply Permutation_cons_inv in Hp.
Qed.

Lemma sortBy_of_perm (l m : list A) :
  Permutation l m -> Js.sortBy le l = Js.sortBy le m.
Proof.
  intros Hp. apply sorted_perm_eq; try apply sortBy_sorted.
  eapply Permutation_trans; [apply sortBy_perm |].
  eapply Permutation_trans; [exact Hp | apply Permutation_sym, sortBy_perm].
Qed.

End Sorting.

Lemma string_leb_trans (a b c : string) :
  String.leb a b = true -> String.leb b c = true -> String.leb a c = true.
Proof.
  unfold String.leb. revert b c.
  induction a as [| x a IH]; intros [| y b] [| z c]; cbn [String.compare]; try easy.
  specialize (IH b c).
  destruct (Ascii.compare x y) eqn:Exy; destruct (Ascii.compare y z) eqn:Eyz;
    try easy;
    try (apply Ascii.compare_eq_iff in Exy; subst y);
    try (apply Ascii.compare_eq_iff in Eyz; subst z);
    rewrite ?Exy, ?Eyz; try easy.
  - unfold Ascii.compare. rewrite N.compare_refl. exact IH.
  - unfold Ascii.compare in *.
    rewrite N.compare_lt_iff in Exy. rewrite N.compare_lt_iff in Eyz.
    assert (H : (N_of_ascii x ?= N_of_ascii z)%N = Lt)
      by (apply N.compare_lt_iff; eapply N.lt_trans; eassumption).
    now rewrite H.
Qed.

Lemma sort_of_perm (l m : list string) : Permutation l m -> Js.sort l = Js.sort m.
Proof.
  apply sortBy_of_perm.
  - apply String.leb_total.
  - apply string_leb_trans.
  - apply String.leb_antisym.
Qed.

Lemma sort_perm (l : list string) : Permutation (Js.sort l) l.
Proof. apply sortBy_perm. Qed.

(** [every] against the element of another array at the same index: both
    arrays are the same, when they are as long. *)
Lemma everyFrom_nth (a b : list string) (k : nat) :
  (length a + k)%nat = length b ->
  Js.everyFrom (fun value index =>
                  match nth_error b index with
                  | Some other => String.eqb value other
                  | None => false
                  end) k a = true <-> a = skipn k b.
Proof.
  revert k. induction a as [| x r IH]; intros k Hl; cbn [Js.everyFrom length] in *.
  - rewrite skipn_all2 by lia. tauto.
  - destruct (nth_error b k) as [y |] eqn:Hn.
    2:{ apply nth_error_None in Hn. lia. }
    assert (Hs : skipn k b = y :: skipn (S k) b).
    { clear - Hn. revert k Hn. induction b as [| z b IHb]; intros [| k] Hn;
        cbn in *; try discriminate.
      - now injection Hn as ->.
      - now apply IHb. }
    rewrite Hs, andb_true_iff, String.eqb_eq, (IH (S k)) by lia.
    split; [intros [-> ->]; reflexivity | intros [= -> ->]; now split].
Qed.

Lemma areStringArraysEqual_sorted (a b : list string) :
  PublicationListComponent.areStringArraysEqual a b = true <->
  Js.sort (map Js.toLowerCase a) = Js.sort (map Js.toLowerCase b).
Proof.
  unfold PublicationListComponent.areStringArraysEqual. cbv zeta.
  assert (Hlen : forall l : list string,
             length (Js.sort (map Js.toLowerCase l)) = length l).
  { intros l. rewrite (Permutation_length (sort_perm _)). apply length_map. }
  destruct (Nat.eqb (length a) (length b)) eqn:E; cbn [negb].
  - apply Nat.eqb_eq in E. unfold Js.every. rewrite everyFrom_nth.
    + reflexivity.
    + rewrite !Hlen. lia.
  - apply Nat.eqb_neq in E. split; [discriminate |].
    intros H. apply (f_equal (@length string)) in H. rewrite !Hlen in H. contradiction.
Qed.

Lemma areStringArraysEqual_refl (a : list string) :
  PublicationListComponent.areStringArraysEqual a a = true.
Proof. now apply areStringArraysEqual_sorted. Qed.

(** ** The route that [updateQueryParams] asks for *)

Lemma get_single (k : string) (c : bool) (v : string) (route : ParamMap.t) :
  ParamMap.getAll k route = (if c then [v] else []) ->
  ParamMap.get k route = if c then Some v else None.
Proof.
  unfold ParamMap.get, HttpParams.get, ParamMap.getAll. intros ->. now destruct c.
Qed.

Lemma entry_string (k v : string) : ParamMap.getAll k (routeEntry (k, QString v)) = [v].
Proof.
  unfold routeEntry, ParamMap.getAll; cbn [fst snd HttpParams.getAll].
  now rewrite String.eqb_refl.
Qed.

Lemma entry_number (k : string) (n : Z) :
  ParamMap.getAll k (routeEntry (k, QNumber n)) = [Js.toString n].
Proof.
  unfold routeEntry, ParamMap.getAll; cbn [fst snd HttpParams.getAll].
  now rewrite String.eqb_refl.
Qed.

Lemma entry_array (k : string) (l : list string) :
  ParamMap.getAll k (routeEntry (k, QArray l)) = l.
Proof.
  unfold routeEntry, ParamMap.getAll; cbn [fst snd]. destruct l; [reflexivity |].
  cbn [HttpParams.getAll]. now rewrite String.eqb_refl.
Qed.

Ltac open_target :=
  unfold PublicationListComponent.targetQueryParams; cbv zeta.

Section TargetRoute.
Variable st : PublicationListComponent.State.

Lemma target_page :
  ParamMap.get "page" (routeOf (PublicationListComponent.targetQueryParams st)) =
  if 1 <? PublicationListComponent.page st
  then Some (Js.toString (PublicationListComponent.page st)) else None.
Proof.
  apply get_single. open_target. lookup_in_link.
  destruct (1 <? PublicationListComponent.page st); [apply entry_number | reflexivity].
Qed.

Lemma target_search :
  ParamMap.get "search" (routeOf (PublicationListComponent.targetQueryParams st)) =
  if Js.truthy (PublicationListComponent.searchQuery st)
  then Some (PublicationListComponent.searchQuery st) else None.
Proof.
  apply get_single. open_target. lookup_in_link.
  destruct (Js.truthy (PublicationListComponent.searchQuery st));
    [apply entry_string | reflexivity].
Qed.

Lemma target_page_size :
  ParamMap.get "page_size" (routeOf (PublicationListComponent.targetQueryParams st)) =
  if negb (PublicationListComponent.pageSize st =? PublicationListComponent.DEFAULT_PAGE_SIZE)
  then Some (Js.toString (PublicationListComponent.pageSize st)) else None.
Proof.
  apply get_single. open_target. lookup_in_link.
  destruct (negb _); [apply entry_number | reflexivity].
Qed.

Lemma target_journal :
  ParamMap.get "journal" (routeOf (PublicationListComponent.targetQueryParams st)) =
  if Js.truthyOpt (PublicationListComponent.journalSlug st)
  then Some (Js.nullish (PublicationListComponent.journalSlug st) "") else None.
Proof.
  apply get_single. open_target.
  rewrite !route_when_other by reflexivity.
  destruct (Js.truthyOpt (PublicationListComponent.journalSlug st)).
  - destruct (Js.truthyOpt (PublicationListComponent.journalName st));
      rewrite ?route_assign_other by reflexivity;
      rewrite route_assign_new by prefix_unbound; apply entry_string.
  - apply unbound_lookup. prefix_unbound.
Qed.

Lemma target_journal_name :
  ParamMap.get "journal_name" (routeOf (PublicationListComponent.targetQueryParams st)) =
  if Js.truthyOpt (PublicationListComponent.journalSlug st) &&
     Js.truthyOpt (PublicationListComponent.journalName st)
  then Some (Js.nullish (PublicationListComponent.journalName st) "") else None.
Proof.
  apply get_single. open_target.
  rewrite !route_when_other by reflexivity.
  destruct (Js.truthyOpt (PublicationListComponent.journalSlug st)); cbn [andb].
  - destruct (Js.truthyOpt (PublicationListComponent.journalName st)).
    + rewrite route_assign_new; [apply entry_string |].
      apply unbound_assign_other; [reflexivity |]. prefix_unbound.
    + rewrite route_assign_other by reflexivity. apply unbound_lookup. prefix_unbound.
  - apply unbound_lookup. prefix_unbound.
Qed.

Lemma target_scalars :
  ParamMap.get "ordering" (routeOf (PublicationListComponent.targetQueryParams st)) =
    (if Js.truthyOpt (PublicationListComponent.ordering st)
     then Some (Js.nullish (PublicationListComponent.ordering st) "") else None) /\
  ParamMap.get "issued_from" (routeOf (PublicationListComponent.targetQueryParams st)) =
    (if Js.truthyOpt (PublicationListComponent.issuedFrom st)
     then Some (Js.nullish (PublicationListComponent.issuedFrom st) "") else None) /\
  ParamMap.get "issued_to" (routeOf (PublicationListComponent.targetQueryParams st)) =
    (if Js.truthyOpt (PublicationListComponent.issuedTo st)
     then Some (Js.nullish (PublicationListComponent.issuedTo st) "") else None).
Proof.
  repeat split; apply get_single; open_target; lookup_in_link;
    match goal with |- (if ?c then _ else _) = _ => destruct c end;
    first [apply entry_string | reflexivity].
Qed.

Lemma target_subject :
  ParamMap.get "subject" (routeOf (PublicationListComponent.targetQueryParams st)) =
  if 0 <? Z.of_nat (length (PublicationListComponent.subjectFilters st))
  then Some (Js.join ", " (PublicationListComponent.subjectFilters st)) else None.
Proof.
  apply get_single. open_target. lookup_in_link.
  destruct (0 <? Z.of_nat (length (PublicationListComponent.subjectFilters st)));
    [apply entry_string | reflexivity].
Qed.

Lemma target_arrays :
  ParamMap.getAll "author" (routeOf (PublicationListComponent.targetQueryParams st)) = PublicationListComponent.authorFilters st /\
  ParamMap.getAll "issued_year" (routeOf (PublicationListComponent.targetQueryParams st)) = PublicationListComponent.issuedYearFilters st.
Proof.
  split; open_target; lookup_in_link.
  - destruct (PublicationListComponent.authorFilters st) as [| x l]; [reflexivity |].
    replace (0 <? Z.of_nat (length (x :: l))) with true
      by (symmetry; apply Z.ltb_lt; cbn [length]; lia).
    apply entry_array.
  - destruct (PublicationListComponent.issuedYearFilters st) as [| x l]; [reflexivity |].
    replace (0 <? Z.of_nat (length (x :: l))) with true
      by (symmetry; apply Z.ltb_lt; cbn [length]; lia).
    apply entry_array.
Qed.

End TargetRoute.

Lemma queryParam_when_new (k : string) (c : bool) (v : QueryValue) (q : QueryParams) :
  queryParam k q = None ->
  queryParam k (if c then assign k v q else q) = if c then Some v else None.
Proof. intros Hq. destruct c; [now apply queryParam_assign_new | exact Hq]. Qed.

Ltac lookup_in_target :=
  rewrite ?queryParam_when_other by reflexivity;
  rewrite ?queryParam_journal_other by reflexivity;
  rewrite ?queryParam_when_other by reflexivity;
  rewrite queryParam_when_new
    by (rewrite ?queryParam_when_other by reflexivity; reflexivity).

Lemma target_params (st : PublicationListComponent.State) :
  queryParam "page" (PublicationListComponent.targetQueryParams st) =
    (if 1 <? PublicationListComponent.page st
     then Some (QNumber (PublicationListComponent.page st)) else None) /\
  queryParam "search" (PublicationListComponent.targetQueryParams st) =
    (if Js.truthy (PublicationListComponent.searchQuery st)
     then Some (QString (PublicationListComponent.searchQuery st)) else None) /\
  queryParam "page_size" (PublicationListComponent.targetQueryParams st) =
    (if negb (PublicationListComponent.pageSize st =? PublicationListComponent.DEFAULT_PAGE_SIZE)
     then Some (QNumber (PublicationListComponent.pageSize st)) else None).
Proof.
  repeat split; open_target; lookup_in_target; reflexivity.
Qed.

Lemma sameOpt_refl (a : option string) : Js.sameOpt a a = true.
Proof. destruct a; [apply String.eqb_refl | reflexivity]. Qed.

Lemma sameOpt_eq (a b : option string) : Js.sameOpt a b = true <-> a = b.
Proof.
  destruct a, b; cbn [Js.sameOpt]; try (split; congruence).
  rewrite String.eqb_eq. split; congruence.
Qed.

(** A stored filter that is not the empty string. *)
Lemma truthyOpt_stored (v : option string) :
  v <> Some "" -> (if Js.truthyOpt v then Some (Js.nullish v "") else None) = v.
Proof. destruct v as [[| c s] |]; cbn; congruence. Qed.

Lemma parse_target_subject (l : list string) :
  Forall Reading.plainTerm l ->
  PublicationListComponent.parseSubjectParam
    (if 0 <? Z.of_nat (length l) then Some (Js.join ", " l) else None) = l.
Proof.
  intros Hall. destruct l as [| x r]; [reflexivity |].
  replace (0 <? Z.of_nat (length (x :: r))) with true
    by (symmetry; apply Z.ltb_lt; cbn [length]; lia).
  rewrite parseSubjectParam_some. now apply parse_join.
Qed.

Lemma updateQueryParams_on_target (c : PublicationListComponent.Component) :
  PublicationListComponent.journalSlug (PublicationListComponent.signals c) <> Some "" ->
  PublicationListComponent.ordering (PublicationListComponent.signals c) <> Some "" ->
  PublicationListComponent.issuedFrom (PublicationListComponent.signals c) <> Some "" ->
  PublicationListComponent.issuedTo (PublicationListComponent.signals c) <> Some "" ->
  Forall Reading.plainTerm
    (PublicationListComponent.subjectFilters (PublicationListComponent.signals c)) ->
  Forall (fun t => Js.trim t = t /\ t <> "")
    (PublicationListComponent.authorFilters (PublicationListComponent.signals c)) ->
  Forall (fun t => Js.trim t = t /\ t <> "")
    (PublicationListComponent.issuedYearFilters (PublicationListComponent.signals c)) ->
  PublicationListComponent.queryParamMap c =
    routeOf (PublicationListComponent.targetQueryParams (PublicationListComponent.signals c)) ->
  PublicationListComponent.updateQueryParams c = (false, []).
Proof.
  intros Hj Ho Hf Ht Hs Ha Hy Hroute.
  unfold PublicationListComponent.updateQueryParams. cbv zeta. rewrite Hroute.
  set (st := PublicationListComponent.signals c) in *.
  destruct (target_params st) as (Tp & Ts & Tz).
  destruct (target_scalars st) as (To & Tf & Tt).
  destruct (target_arrays st) as (Ta & Ty).
  rewrite Tp, Ts, Tz, To, Tf, Tt, Ta, Ty.
  rewrite target_page, target_search, target_page_size, target_journal,
    target_journal_name, target_subject.
  rewrite !truthyOpt_stored by assumption.
  rewrite parse_target_subject by assumption.
  rewrite !trimmedTerms_fixed by assumption.
  rewrite !areStringArraysEqual_refl.
  replace (Js.sameOpt _ (option_map valueString _)) with true
    by (destruct (1 <? PublicationListComponent.page st); cbn; now rewrite ?String.eqb_refl).
  replace (Js.sameOpt _ (option_map valueString _)) with true
    by (destruct (negb _); cbn; now rewrite ?String.eqb_refl).
  replace (String.eqb _ _) with true
    by (destruct (Js.truthy (PublicationListComponent.searchQuery st)); cbn;
        now rewrite ?String.eqb_refl).
  rewrite !sameOpt_refl.
  replace (Js.sameOpt _ _) with true; [reflexivity |].
  symmetry. apply sameOpt_eq.
  destruct (Js.truthyOpt (PublicationListComponent.journalSlug st) &&
            Js.truthyOpt (PublicationListComponent.journalName st)) eqn:E;
    [| reflexivity].
  apply andb_true_iff in E. destruct E as [_ E].
  destruct (PublicationListComponent.journalName st); [reflexivity | discriminate].
Qed.

(** ** The publication list: what its methods keep *)

Module ListMethods.
Import PublicationListComponent.

(** Projections of the signals through the setters. *)
Ltac through_setters :=
  cbn [signals lastRouteState filtersForm issuedYearBounds queryParamMap
       onSignals withSignals withFiltersForm withBounds withLastRouteState
       patchSliders patchJournal
       setHasLoadedInitial setLoading setError setPublications setFacets setCount
       setPage setPageSize setSearchQuery setJournalSlug setJournalName setOrdering
       setIssuedFrom setIssuedTo setSubjectFilters setAuthorFilters setIssuedYearFilters
       hasLoadedInitial loading error publications facets count page pageSize searchQuery
       journalSlug journalName ordering issuedFrom issuedTo subjectFilters authorFilters
       issuedYearFilters fst snd] in *.

Lemma sameQuery_refl (st : State) : Invariants.sameQuery st st.
Proof. repeat split. Qed.

Lemma sameSurroundings_refl (c : Component) : Invariants.sameSurroundings c c.
Proof. repeat split. Qed.

Lemma updateQueryParams_cases (c : Component) :
  updateQueryParams c = (false, []) \/
  updateQueryParams c = (true, [Navigate [] (targetQueryParams (signals c))]).
Proof.
  unfold updateQueryParams. cbv zeta.
  match goal with |- context [if ?b then _ else _] => destruct b end; auto.
Qed.

Section WithBaseUrl.
Variable baseUrl : string.

Lemma fetch_state (st : State) :
  fst (fetchPublications baseUrl st) = setError None (setLoading true st).
Proof. reflexivity. Qed.

Lemma navigateOrFetch_cases (c : Component) :
  navigateOrFetch baseUrl c =
    (onSignals (setHasLoadedInitial false) c, [Navigate [] (targetQueryParams (signals c))]) \/
  navigateOrFetch baseUrl c =
    (onSignals (fun st => setHasLoadedInitial true (setError None (setLoading true st))) c,
     [Http (request (snd (fetchPublications baseUrl (setHasLoadedInitial false (signals c)))))]).
Proof.
  unfold navigateOrFetch.
  destruct (updateQueryParams_cases (onSignals (setHasLoadedInitial false) c)) as [E | E];
    rewrite E; cbn [negb].
  - right.
    destruct (fetchPublications baseUrl (signals (onSignals (setHasLoadedInitial false) c)))
      as [st' pending] eqn:F.
    pose proof (fetch_state (signals (onSignals (setHasLoadedInitial false) c))) as Hs.
    rewrite F in Hs. cbn [fst] in Hs. subst st'.
    assert (Hp : pending =
                 snd (fetchPublications baseUrl (setHasLoadedInitial false (signals c))))
      by (change (setHasLoadedInitial false (signals c))
            with (signals (onSignals (setHasLoadedInitial false) c)); now rewrite F).
    rewrite Hp. reflexivity.
  - left. reflexivity.
Qed.

Lemma fetch_url (st : State) :
  url (request (snd (fetchPublications baseUrl st))) = baseUrl ++ "/publications/" \/
  url (request (snd (fetchPublications baseUrl st))) = baseUrl ++ "/publications/search/".
Proof.
  rewrite PublicationListFacts.request_url.
  destruct (usingSearchEndpoint _); auto.
Qed.

(** What [navigateOrFetch] leaves as it was, and what it sets in motion. *)
Lemma navigateOrFetch_keeps (c : Component) :
  Invariants.sameQuery (signals (fst (navigateOrFetch baseUrl c))) (signals c) /\
  Invariants.sameSurroundings (fst (navigateOrFetch baseUrl c)) c /\
  Invariants.oneNavigationOrRequest baseUrl (signals (fst (navigateOrFetch baseUrl c)))
    (snd (navigateOrFetch baseUrl c)).
Proof.
  destruct (navigateOrFetch_cases c) as [E | E]; rewrite E; cbn [fst snd].
  - split; [repeat split | split; [repeat split |]]. left. reflexivity.
  - split; [repeat split | split; [repeat split |]]. right.
    eexists. split; [reflexivity |]. apply fetch_url.
Qed.

Lemma refreshFilterResults_keeps (c : Component) :
  page (signals (fst (refreshFilterResults baseUrl c))) = 1 /\
  pageSize (signals (fst (refreshFilterResults baseUrl c))) = pageSize (signals c) /\
  searchQuery (signals (fst (refreshFilterResults baseUrl c))) = searchQuery (signals c) /\
  count (signals (fst (refreshFilterResults baseUrl c))) = count (signals c) /\
  Invariants.sameFilters (signals (fst (refreshFilterResults baseUrl c))) (signals c) /\
  Invariants.sameSurroundings (fst (refreshFilterResults baseUrl c)) c /\
  Invariants.oneNavigationOrRequest baseUrl (signals (fst (refreshFilterResults baseUrl c)))
    (snd (refreshFilterResults baseUrl c)).
Proof.
  unfold refreshFilterResults.
  set (c1 := if negb (page (signals c) =? 1) then onSignals (setPage 1) c else c).
  assert (H1 : page (signals c1) = 1 /\ pageSize (signals c1) = pageSize (signals c) /\
               searchQuery (signals c1) = searchQuery (signals c) /\
               count (signals c1) = count (signals c) /\
               Invariants.sameFilters (signals c1) (signals c) /\
               Invariants.sameSurroundings c1 c).
  { subst c1. destruct (page (signals c) =? 1) eqn:E; cbn [negb].
    - apply Z.eqb_eq in E. repeat split; assumption.
    - repeat split. }
  destruct H1 as (Hp & Hz & Hq & Hc & Hf & Hs).
  destruct (navigateOrFetch_keeps c1) as ((Kp & Kz & Kq & Kc & Kf) & Ks & Ke).
  unfold Invariants.sameFilters, Invariants.sameSurroundings in *.
  repeat split; try congruence; try (etransitivity; [apply Kf | apply Hf]);
    try (etransitivity; [apply Ks | apply Hs]); try exact Ke.
Qed.

End WithBaseUrl.

End ListMethods.

(** ** The publication list: facet toggles and cleared filters *)

Lemma filter_out_shorter {A : Type} (p : A -> bool) (l : list A) :
  existsb p l = true ->
  Nat.eqb (length (filter (fun x => negb (p x)) l)) (length l) = false.
Proof.
  intros H. apply Nat.eqb_neq.
  assert (Hle : forall m : list A, (length (filter (fun x => negb (p x)) m) <= length m)%nat).
  { induction m as [| y m IH]; cbn [filter length]; [lia |].
    destruct (negb (p y)); cbn [length]; lia. }
  induction l as [| x l IH]; cbn [existsb filter length] in *; [discriminate |].
  destruct (p x) eqn:E; cbn [negb].
  - specialize (Hle l). lia.
  - cbn [orb] in H. cbn [length]. specialize (IH H). lia.
Qed.

Lemma filter_out_none {A : Type} (p : A -> bool) (l : list A) :
  existsb p l = false -> filter (fun x => negb (p x)) l = l.
Proof.
  induction l as [| x l IH]; cbn [existsb filter]; [reflexivity |].
  intros H. apply orb_false_iff in H. destruct H as [Hx Hl].
  rewrite Hx. cbn [negb]. now rewrite IH.
Qed.

Lemma activeTerm_existsb (value : string) (l : list string) :
  existsb (fun entry => String.eqb (Js.toLowerCase entry) (Js.toLowerCase value)) l = true <->
  Invariants.activeTerm value l.
Proof.
  unfold Invariants.activeTerm. rewrite existsb_exists.
  split; intros (t & Hin & Ht); exists t; (split; [exact Hin |]);
    [now apply String.eqb_eq | now apply String.eqb_eq].
Qed.

Lemma activeTerm_filtered (value : string) (l : list string) :
  ~ Invariants.activeTerm value
      (filter (fun entry => negb (String.eqb (Js.toLowerCase entry) (Js.toLowerCase value))) l).
Proof.
  intros (t & Hin & Ht). apply filter_In in Hin. destruct Hin as [_ Hn].
  apply String.eqb_eq in Ht. rewrite Ht in Hn. discriminate.
Qed.

Module Toggles.
Import PublicationListComponent.
Import ListMethods.

Section WithBaseUrl.
Variable baseUrl : string.

Lemma clearFilter_subject (value : string) (c : Component) :
  let next :=
    filter (fun s => negb (String.eqb (Js.toLowerCase s) (Js.toLowerCase value)))
           (subjectFilters (signals c)) in
  clearFilter baseUrl ActiveFilterKey.subject (Some value) c =
  if negb (Nat.eqb (length next) (length (subjectFilters (signals c))))
  then refreshFilterResults baseUrl (onSignals (setSubjectFilters next) c)
  else (c, []).
Proof.
  cbv zeta. unfold clearFilter. cbv zeta. cbn [Js.nullish].
  destruct (negb _); reflexivity.
Qed.

Lemma clearFilter_author (value : string) (c : Component) :
  let next :=
    filter (fun s => negb (String.eqb (Js.toLowerCase s) (Js.toLowerCase value)))
           (authorFilters (signals c)) in
  clearFilter baseUrl ActiveFilterKey.author (Some value) c =
  if negb (Nat.eqb (length next) (length (authorFilters (signals c))))
  then refreshFilterResults baseUrl (onSignals (setAuthorFilters next) c)
  else (c, []).
Proof.
  cbv zeta. unfold clearFilter. cbv zeta. cbn [Js.nullish].
  destruct (negb _); reflexivity.
Qed.

(** The component after the years were filtered: the sliders and the
    range go back to the bounds when no year is left. *)
Lemma clearFilter_issued_year (value : string) (c : Component) :
  let next :=
    filter (fun year => negb (String.eqb year (Js.trim value))) (issuedYearFilters (signals c)) in
  let reset := fun c : Component =>
    if Nat.eqb (length next) 0
    then onSignals (setIssuedTo None)
           (onSignals (setIssuedFrom None)
              (patchSliders (YearBounds.min (issuedYearBounds c))
                 (YearBounds.max (issuedYearBounds c)) c))
    else c in
  clearFilter baseUrl ActiveFilterKey.issued_year (Some value) c =
  if negb (Nat.eqb (length next) (length (issuedYearFilters (signals c))))
  then refreshFilterResults baseUrl (reset (onSignals (setIssuedYearFilters next) c))
  else (reset c, []).
Proof.
  cbv zeta. unfold clearFilter. cbv zeta. cbn [Js.nullish].
  destruct (negb _); destruct (Nat.eqb _ 0); reflexivity.
Qed.

(** Toggling a subject: the list of subjects afterwards. *)
Lemma toggle_subject (item : Models.FacetItem.t) (c : Component) :
  let value := Js.trim (Models.FacetItem.value item) in
  let active :=
    existsb (fun entry => String.eqb (Js.toLowerCase entry) (Js.toLowerCase value))
            (subjectFilters (signals c)) in
  Js.truthy value = true ->
  toggleFacet baseUrl subjects item c =
  refreshFilterResults baseUrl
    (onSignals
       (setSubjectFilters
          (if active
           then filter (fun s => negb (String.eqb (Js.toLowerCase s) (Js.toLowerCase value)))
                       (subjectFilters (signals c))
           else (subjectFilters (signals c) ++ [value])%list)) c).
Proof.
  cbv zeta. intros Hv. unfold toggleFacet. cbv zeta. rewrite Hv. cbn [negb].
  destruct (existsb _ _) eqn:E; [| reflexivity].
  rewrite clearFilter_subject. cbv zeta.
  rewrite (filter_out_shorter _ _ E). reflexivity.
Qed.

Lemma toggle_author (item : Models.FacetItem.t) (c : Component) :
  let value := Js.trim (Models.FacetItem.value item) in
  let active :=
    existsb (fun entry => String.eqb (Js.toLowerCase entry) (Js.toLowerCase value))
            (authorFilters (signals c)) in
  Js.truthy value = true ->
  toggleFacet baseUrl authors item c =
  refreshFilterResults baseUrl
    (onSignals
       (setAuthorFilters
          (if active
           then filter (fun s => negb (String.eqb (Js.toLowerCase s) (Js.toLowerCase value)))
                       (authorFilters (signals c))
           else (authorFilters (signals c) ++ [value])%list)) c).
Proof.
  cbv zeta. intros Hv. unfold toggleFacet. cbv zeta. rewrite Hv. cbn [negb].
  destruct (existsb _ _) eqn:E; [| reflexivity].
  rewrite clearFilter_author. cbv zeta.
  rewrite (filter_out_shorter _ _ E). reflexivity.
Qed.

Lemma existsb_eqb_in (value : string) (l : list string) :
  existsb (String.eqb value) l = true <-> In value l.
Proof.
  rewrite existsb_exists. split.
  - intros (t & Hin & Ht). apply String.eqb_eq in Ht. now subst.
  - intros Hin. exists value. split; [exact Hin | apply String.eqb_refl].
Qed.

Lemma filter_year_out (value : string) (l : list string) :
  ~ In value (filter (fun year => negb (String.eqb year value)) l).
Proof.
  intros Hin. apply filter_In in Hin. destruct Hin as [_ Hn].
  rewrite String.eqb_refl in Hn. discriminate.
Qed.

Lemma ensure_signals (year : Z) (c : Component) :
  signals (ensureYearWithinBounds year c) = signals c.
Proof. unfold ensureYearWithinBounds. cbv zeta. destruct (_ || _); reflexivity. Qed.

(** Toggling a year: the list of years afterwards. *)
Lemma toggle_year_filters (item : Models.FacetItem.t) (c : Component) :
  let value := Js.trim (Models.FacetItem.value item) in
  Js.truthy value = true ->
  issuedYearFilters (signals (fst (toggleFacet baseUrl issued_years item c))) =
  if existsb (String.eqb value) (issuedYearFilters (signals c))
  then filter (fun year => negb (String.eqb year value)) (issuedYearFilters (signals c))
  else (issuedYearFilters (signals c) ++ [value])%list.
Proof.
  cbv zeta. intros Hv. unfold toggleFacet. cbv zeta. rewrite Hv. cbn [negb].
  destruct (existsb _ _) eqn:E.
  - rewrite clearFilter_issued_year. cbv zeta. rewrite trim_idempotent.
    assert (Hsh : Nat.eqb
                    (length (filter (fun year => negb (String.eqb year
                                                         (Js.trim (Models.FacetItem.value item))))
                                    (issuedYearFilters (signals c))))
                    (length (issuedYearFilters (signals c))) = false).
    { apply (filter_out_shorter (fun year => String.eqb year _)).
      rewrite <- E. apply eq_true_iff_eq. rewrite !existsb_exists.
      split; intros (t & Hin & Ht); exists t; (split; [exact Hin |]);
        apply String.eqb_eq in Ht; apply String.eqb_eq; congruence. }
    rewrite Hsh. cbn [negb].
    match goal with
    | |- context [refreshFilterResults baseUrl ?x] =>
        destruct (refreshFilterResults_keeps baseUrl x) as (_ & _ & _ & _ & Hf & _)
    end.
    destruct Hf as (_ & _ & _ & _ & _ & _ & _ & Hy). rewrite Hy.
    destruct (Nat.eqb _ 0); reflexivity.
  - destruct (Js.parseInt _) as [numeric |];
      match goal with
      | |- context [refreshFilterResults baseUrl ?x] =>
          destruct (refreshFilterResults_keeps baseUrl x) as (_ & _ & _ & _ & Hf & _)
      end;
      destruct Hf as (_ & _ & _ & _ & _ & _ & _ & Hy); rewrite Hy;
      cbn [patchSliders withFiltersForm signals]; rewrite ?ensure_signals; reflexivity.
Qed.

End WithBaseUrl.

End Toggles.

Module ToggleFacts.
Import PublicationListComponent.
Import ListMethods.
Import Toggles.

Section WithBaseUrl.
Variable baseUrl : string.

Lemma refresh_subjects (c : Component) :
  subjectFilters (signals (fst (refreshFilterResults baseUrl c))) = subjectFilters (signals c).
Proof.
  destruct (refreshFilterResults_keeps baseUrl c) as (_ & _ & _ & _ & Hf & _).
  unfold Invariants.sameFilters in Hf. tauto.
Qed.

Lemma refresh_authors (c : Component) :
  authorFilters (signals (fst (refreshFilterResults baseUrl c))) = authorFilters (signals c).
Proof.
  destruct (refreshFilterResults_keeps baseUrl c) as (_ & _ & _ & _ & Hf & _).
  unfold Invariants.sameFilters in Hf. tauto.
Qed.

Lemma refresh_years (c : Component) :
  issuedYearFilters (signals (fst (refreshFilterResults baseUrl c))) =
  issuedYearFilters (signals c).
Proof.
  destruct (refreshFilterResults_keeps baseUrl c) as (_ & _ & _ & _ & Hf & _).
  unfold Invariants.sameFilters in Hf. tauto.
Qed.

Lemma refresh_scalars (c : Component) :
  journalSlug (signals (fst (refreshFilterResults baseUrl c))) = journalSlug (signals c) /\
  journalName (signals (fst (refreshFilterResults baseUrl c))) = journalName (signals c) /\
  ordering (signals (fst (refreshFilterResults baseUrl c))) = ordering (signals c) /\
  issuedFrom (signals (fst (refreshFilterResults baseUrl c))) = issuedFrom (signals c) /\
  issuedTo (signals (fst (refreshFilterResults baseUrl c))) = issuedTo (signals c).
Proof.
  destruct (refreshFilterResults_keeps baseUrl c) as (_ & _ & _ & _ & Hf & _).
  unfold Invariants.sameFilters in Hf. tauto.
Qed.

(** After [clearFilter], each list of terms is the old one or a part of
    it. *)
Lemma clearFilter_lists (key : ActiveFilterKey.t) (value : option string) (c : Component)
    (P : string -> Prop) :
  (Forall P (subjectFilters (signals c)) ->
   Forall P (subjectFilters (signals (fst (clearFilter baseUrl key value c))))) /\
  (Forall P (authorFilters (signals c)) ->
   Forall P (authorFilters (signals (fst (clearFilter baseUrl key value c))))) /\
  (Forall P (issuedYearFilters (signals c)) ->
   Forall P (issuedYearFilters (signals (fst (clearFilter baseUrl key value c))))).
Proof.
  assert (Hfilter : forall (q : string -> bool) (l : list string),
             Forall P l -> Forall P (filter q l)).
  { intros q l Hl. apply Forall_forall. intros t Ht. apply filter_In in Ht.
    rewrite Forall_forall in Hl. now apply Hl. }
  unfold clearFilter. cbv zeta.
  destruct key;
    repeat match goal with
           | |- context [if ?b then _ else _] => destruct b
           end;
    cbn [fst snd negb];
    rewrite ?refresh_subjects, ?refresh_authors, ?refresh_years;
    through_setters;
    repeat split; intros H; try exact H; try (apply Hfilter; exact H).
Qed.

Lemma toggleFacet_lists (facet : FacetType) (item : Models.FacetItem.t) (c : Component)
    (P : string -> Prop) :
  (Js.trim (Models.FacetItem.value item) <> "" -> P (Js.trim (Models.FacetItem.value item))) ->
  (Forall P (subjectFilters (signals c)) ->
   Forall P (subjectFilters (signals (fst (toggleFacet baseUrl facet item c))))) /\
  (Forall P (authorFilters (signals c)) ->
   Forall P (authorFilters (signals (fst (toggleFacet baseUrl facet item c))))) /\
  (Forall P (issuedYearFilters (signals c)) ->
   Forall P (issuedYearFilters (signals (fst (toggleFacet baseUrl facet item c))))).
Proof.
  intros Hv.
  unfold toggleFacet. cbv zeta.
  destruct (Js.truthy (Js.trim (Models.FacetItem.value item))) eqn:Ht; cbn [negb].
  - apply truthy_true_iff in Ht. specialize (Hv Ht).
    assert (Hadd : forall l : list string,
               Forall P l -> Forall P (l ++ [Js.trim (Models.FacetItem.value item)])%list).
    { intros l Hl. apply Forall_app. split; [exact Hl | now constructor]. }
    destruct facet;
      repeat match goal with
             | |- context [if ?b then _ else _] => destruct b
             | |- context [match Js.parseInt ?x with _ => _ end] => destruct (Js.parseInt x)
             end;
      try apply clearFilter_lists;
      cbn [fst snd negb];
      rewrite ?refresh_subjects, ?refresh_authors, ?refresh_years;
      cbn [patchSliders patchJournal withFiltersForm signals]; rewrite ?ensure_signals;
      through_setters;
      repeat split; intros Hl; try exact Hl; try (apply Hadd; exact Hl).
  - destruct facet;
      repeat match goal with
             | |- context [if ?b then _ else _] => destruct b
             end;
      try apply clearFilter_lists;
      cbn [fst snd negb];
      rewrite ?refresh_subjects, ?refresh_authors, ?refresh_years;
      through_setters;
      repeat split; intros Hl; exact Hl.
Qed.

(** A toggle with a value that is not blank ends in
    [refreshFilterResults], with the page size and the search text it
    found. *)
Lemma toggle_refreshes (facet : FacetType) (item : Models.FacetItem.t) (c : Component) :
  Js.trim (Models.FacetItem.value item) <> "" ->
  exists c1,
    toggleFacet baseUrl facet item c = refreshFilterResults baseUrl c1 /\
    pageSize (signals c1) = pageSize (signals c) /\
    searchQuery (signals c1) = searchQuery (signals c).
Proof.
  intros Hv. assert (Ht := Hv). apply truthy_true_iff in Ht.
  destruct facet.
  - eexists. split; [now apply toggle_author | split; reflexivity].
  - eexists. split; [now apply toggle_subject | split; reflexivity].
  - unfold toggleFacet. cbv zeta.
    destruct (Js.sameOpt _ _) eqn:E; [| eexists; split; [reflexivity | split; reflexivity]].
    apply sameOpt_eq in E. unfold clearFilter. cbv zeta. rewrite E.
    assert (Hne : Js.truthy (Models.FacetItem.value item) = true).
    { destruct (Models.FacetItem.value item); [now contradiction Hv | reflexivity]. }
    cbn [Js.truthyOpt]. rewrite Hne.
    cbn [negb];
      repeat (match goal with
              | |- context [if ?b then _ else _] => destruct b
              end; cbn [negb]);
      eexists; (split; [reflexivity | split; reflexivity]).
  - unfold toggleFacet. cbv zeta. rewrite Ht. cbn [negb].
    destruct (existsb _ _) eqn:E.
    2:{ destruct (Js.parseInt _); eexists; (split; [reflexivity |]);
          cbn [patchSliders withFiltersForm signals]; rewrite ?ensure_signals;
          split; reflexivity. }
    rewrite clearFilter_issued_year. cbv zeta. rewrite trim_idempotent.
    assert (Hsh : Nat.eqb
                    (length (filter (fun year => negb (String.eqb year
                                                         (Js.trim (Models.FacetItem.value item))))
                                    (issuedYearFilters (signals c))))
                    (length (issuedYearFilters (signals c))) = false).
    { apply (filter_out_shorter (fun year => String.eqb year _)).
      rewrite <- E. apply eq_true_iff_eq. rewrite !existsb_exists.
      split; intros (t & Hin & Hy); exists t; (split; [exact Hin |]);
        apply String.eqb_eq in Hy; apply String.eqb_eq; congruence. }
    rewrite Hsh. cbn [negb].
    destruct (Nat.eqb _ 0); eexists; (split; [reflexivity | split; reflexivity]).
Qed.

End WithBaseUrl.

End ToggleFacts.

(** ** Properties of the publication list *)

(** X1. [normalizeYearInput] returns [null] or a text of exactly four
    decimal digits that reads as a year from 1000 to 9999, whatever it is
    given; and a text it returned is returned unchanged when it is given
    back. *)
Theorem normalizeYearInput_year (value : PublicationListComponent.Raw) (y : string) :
  PublicationListComponent.normalizeYearInput value = Some y ->
  Invariants.fourDigitYear y /\
  PublicationListComponent.normalizeYearInput (PublicationListComponent.RawString y) = Some y.
Proof.
  intros H. apply normalizeYearInput_shape in H. split; [exact H |].
  destruct H as (Hl & Hd & Hn). now apply normalizeYearInput_again.
Qed.

(** The year of a date: " 2020-05 " is read as 2020. *)
Lemma normalizeYearInput_year_witness :
  Invariants.fourDigitYear "2020" /\
  PublicationListComponent.normalizeYearInput (PublicationListComponent.RawString "2020") =
    Some "2020".
Proof.
  apply (normalizeYearInput_year (PublicationListComponent.RawString " 2020-05 ")).
  reflexivity.
Defined.

(** X2. [areStringArraysEqual(a, b)] holds exactly when [b] is a
    rearrangement of [a], letter case apart: the order of the terms and
    their case do not count, their number of occurrences does. *)
Theorem areStringArraysEqual_iff (a b : list string) :
  PublicationListComponent.areStringArraysEqual a b = true <->
  Permutation (map Js.toLowerCase a) (map Js.toLowerCase b).
Proof.
  rewrite areStringArraysEqual_sorted. split.
  - intros H. eapply Permutation_trans; [apply Permutation_sym, sort_perm |].
    rewrite H. apply sort_perm.
  - apply sort_of_perm.
Qed.

(** X3. Navigation settles: [updateQueryParams] either does nothing or
    asks the router for the parameters of the current signals; and once
    the route holds these parameters, it does nothing. This needs the
    filters to be stored as the route handler stores them: no empty
    scalar, subjects without comma, terms trimmed. *)
Theorem updateQueryParams_settles (c : PublicationListComponent.Component) :
  Invariants.routeShaped (PublicationListComponent.signals c) ->
  (PublicationListComponent.updateQueryParams c = (false, []) \/
   PublicationListComponent.updateQueryParams c =
     (true, [Navigate [] (PublicationListComponent.targetQueryParams
                            (PublicationListComponent.signals c))])) /\
  (PublicationListComponent.queryParamMap c =
     routeOf (PublicationListComponent.targetQueryParams (PublicationListComponent.signals c)) ->
   PublicationListComponent.updateQueryParams c = (false, [])).
Proof.
  intros (_ & _ & _ & Hj & _ & Ho & Hf & Ht & Hs & Ha & Hy).
  split; [apply ListMethods.updateQueryParams_cases |].
  assert (Hscalar : forall v, Invariants.scalarTrimmed v -> v <> Some "")
    by (intros v Hv E; destruct (Hv "" E) as [_ Hne]; now apply Hne).
  assert (Hyear : forall v, Invariants.yearOrNone v -> v <> Some "")
    by (intros v Hv E; destruct (Hv "" E) as [Hl _]; discriminate Hl).
  apply updateQueryParams_on_target; auto.
Qed.

Lemma updateQueryParams_settles_witness :
  PublicationListComponent.updateQueryParams MoreSamples.listPage = (false, []).
Proof.
  refine (proj2 (updateQueryParams_settles MoreSamples.listPage _) eq_refl).
  unfold Invariants.routeShaped, Invariants.scalarTrimmed, Invariants.yearOrNone,
    Invariants.termsTrimmed.
  cbn [MoreSamples.listPage PublicationListComponent.signals Samples.soilAndCrops
       PublicationListComponent.page PublicationListComponent.pageSize
       PublicationListComponent.searchQuery PublicationListComponent.journalSlug
       PublicationListComponent.journalName PublicationListComponent.ordering
       PublicationListComponent.issuedFrom PublicationListComponent.issuedTo
       PublicationListComponent.subjectFilters PublicationListComponent.authorFilters
       PublicationListComponent.issuedYearFilters].
  repeat split; try lia; try discriminate;
    try (match goal with H : Some _ = Some _ |- _ => injection H as <- end;
         first [reflexivity | discriminate]);
    repeat constructor; discriminate.
Defined.

(** X4. A facet toggle flips the value: after [toggleFacet] on a subject
    or an author, the value is among the filters, letter case apart,
    exactly when it was not before; after [toggleFacet] on an issued year,
    the trimmed value is among the years exactly when it was not before. *)
Theorem toggleFacet_flips (baseUrl : string) (item : Models.FacetItem.t)
    (c : PublicationListComponent.Component) :
  let value := Js.trim (Models.FacetItem.value item) in
  let before := PublicationListComponent.signals c in
  let after := fun facet =>
    PublicationListComponent.signals
      (fst (PublicationListComponent.toggleFacet baseUrl facet item c)) in
  value <> "" ->
  (Invariants.activeTerm value
     (PublicationListComponent.subjectFilters (after PublicationListComponent.subjects)) <->
   ~ Invariants.activeTerm value (PublicationListComponent.subjectFilters before)) /\
  (Invariants.activeTerm value
     (PublicationListComponent.authorFilters (after PublicationListComponent.authors)) <->
   ~ Invariants.activeTerm value (PublicationListComponent.authorFilters before)) /\
  (In value
     (PublicationListComponent.issuedYearFilters (after PublicationListComponent.issued_years)) <->
   ~ In value (PublicationListComponent.issuedYearFilters before)).
Proof.
  intros value before after Hv. assert (Ht := Hv). apply truthy_true_iff in Ht.
  assert (Hself : Invariants.activeTerm value [value])
    by (exists value; split; [now left | reflexivity]).
  assert (Hflip : forall l : list string,
             Invariants.activeTerm value
               (if existsb (fun entry => String.eqb (Js.toLowerCase entry)
                                           (Js.toLowerCase value)) l
                then filter (fun s => negb (String.eqb (Js.toLowerCase s)
                                              (Js.toLowerCase value))) l
                else (l ++ [value])%list) <-> ~ Invariants.activeTerm value l).
  { intros l. destruct (existsb _ l) eqn:E.
    - apply activeTerm_existsb in E. split.
      + intros H. now apply activeTerm_filtered in H.
      + intros H. contradiction.
    - split.
      + intros _ H. apply activeTerm_existsb in H. congruence.
      + intros _. exists value. split; [apply in_or_app; right; now left | reflexivity]. }
  subst after. cbv beta. split; [| split].
  - rewrite (Toggles.toggle_subject baseUrl item c Ht), ToggleFacts.refresh_subjects.
    apply Hflip.
  - rewrite (Toggles.toggle_author baseUrl item c Ht), ToggleFacts.refresh_authors.
    apply Hflip.
  - rewrite (Toggles.toggle_year_filters baseUrl item c Ht). fold value. fold before.
    destruct (existsb _ _) eqn:E.
    + apply Toggles.existsb_eqb_in in E. split.
      * intros H. now apply Toggles.filter_year_out in H.
      * intros H. contradiction.
    + split.
      * intros _ H. apply Toggles.existsb_eqb_in in H. congruence.
      * intros _. apply in_or_app. right. now left.
Qed.

(** Soil is selected on the sample page; toggling " Soil " takes it out. *)
Lemma toggleFacet_flips_witness :
  ~ Invariants.activeTerm "Soil"
      (PublicationListComponent.subjectFilters
         (PublicationListComponent.signals
            (fst (PublicationListComponent.toggleFacet "/api" PublicationListComponent.subjects
                    (MoreSamples.item " Soil " "Soil" 12) MoreSamples.listPage)))).
Proof.
  destruct (toggleFacet_flips "/api" (MoreSamples.item " Soil " "Soil" 12) MoreSamples.listPage)
    as (Hs & _); [discriminate |].
  intros H. apply Hs in H. apply H.
  exists "soil". split; [now left | reflexivity].
Defined.

(** X5. The filter terms stay clean: when the subjects, the authors and the
    issued years are stored trimmed and none is empty, they are so after
    [toggleFacet] and after [clearFilter], whatever the facet, the item,
    the key and the value. *)
Theorem filter_terms_stay_trimmed (baseUrl : string) (facet : PublicationListComponent.FacetType)
    (item : Models.FacetItem.t) (key : PublicationListComponent.ActiveFilterKey.t)
    (value : option string) (c : PublicationListComponent.Component) :
  let clean := fun st =>
    Invariants.termsTrimmed (PublicationListComponent.subjectFilters st) /\
    Invariants.termsTrimmed (PublicationListComponent.authorFilters st) /\
    Invariants.termsTrimmed (PublicationListComponent.issuedYearFilters st) in
  clean (PublicationListComponent.signals c) ->
  clean (PublicationListComponent.signals
           (fst (PublicationListComponent.toggleFacet baseUrl facet item c))) /\
  clean (PublicationListComponent.signals
           (fst (PublicationListComponent.clearFilter baseUrl key value c))).
Proof.
  intros clean (Hs & Ha & Hy). subst clean. cbv beta. unfold Invariants.termsTrimmed in *.
  split.
  - destruct (ToggleFacts.toggleFacet_lists baseUrl facet item c
                (fun t => Js.trim t = t /\ t <> "")) as (Ks & Ka & Ky).
    + intros Hne. split; [apply trim_idempotent | exact Hne].
    + auto.
  - destruct (ToggleFacts.clearFilter_lists baseUrl key value c
                (fun t => Js.trim t = t /\ t <> "")) as (Ks & Ka & Ky).
    auto.
Qed.

Lemma filter_terms_stay_trimmed_witness :
  Invariants.termsTrimmed
    (PublicationListComponent.subjectFilters
       (PublicationListComponent.signals
          (fst (PublicationListComponent.toggleFacet "/api" PublicationListComponent.subjects
                  (MoreSamples.item " maize " "maize" 7) MoreSamples.listPage)))).
Proof.
  refine (proj1 (proj1 (filter_terms_stay_trimmed "/api" PublicationListComponent.subjects
                          (MoreSamples.item " maize " "maize" 7)
                          PublicationListComponent.ActiveFilterKey.subject None
                          MoreSamples.listPage _))).
  repeat split; repeat constructor; discriminate.
Defined.

(** X6. A facet toggle with a value that is not blank goes back to the
    first page and sets off exactly one effect: a navigation to the
    parameters of the new state, or one request to the list or the search
    endpoint. A toggle of a subject, an author or a year with a blank value
    does nothing at all. *)
Theorem toggleFacet_refreshes (baseUrl : string) (facet : PublicationListComponent.FacetType)
    (item : Models.FacetItem.t) (c : PublicationListComponent.Component) :
  let outcome := PublicationListComponent.toggleFacet baseUrl facet item c in
  (Js.trim (Models.FacetItem.value item) <> "" ->
   PublicationListComponent.page (PublicationListComponent.signals (fst outcome)) = 1 /\
   PublicationListComponent.pageSize (PublicationListComponent.signals (fst outcome)) =
     PublicationListComponent.pageSize (PublicationListComponent.signals c) /\
   PublicationListComponent.searchQuery (PublicationListComponent.signals (fst outcome)) =
     PublicationListComponent.searchQuery (PublicationListComponent.signals c) /\
   Invariants.oneNavigationOrRequest baseUrl
     (PublicationListComponent.signals (fst outcome)) (snd outcome)) /\
  (Js.trim (Models.FacetItem.value item) = "" ->
   facet <> PublicationListComponent.journals ->
   outcome = (c, [])).
Proof.
  intros outcome. subst outcome. split.
  - intros Hv.
    destruct (ToggleFacts.toggle_refreshes baseUrl facet item c Hv) as (c1 & E & Hz1 & Hq1).
    rewrite E.
    destruct (ListMethods.refreshFilterResults_keeps baseUrl c1)
      as (Hp & Hz & Hq & _ & _ & _ & He).
    repeat split; try assumption; congruence.
  - intros Hv Hf. unfold PublicationListComponent.toggleFacet. cbv zeta. rewrite Hv.
    destruct facet; try reflexivity. now contradiction Hf.
Qed.

Lemma hasActiveFilters_spec (st : PublicationListComponent.State) :
  PublicationListComponent.hasActiveFilters st =
  (Js.truthyOpt (PublicationListComponent.journalSlug st) ||
   Js.truthyOpt (PublicationListComponent.issuedFrom st) ||
   Js.truthyOpt (PublicationListComponent.issuedTo st) ||
   negb (Z.of_nat (length (PublicationListComponent.subjectFilters st)) =? 0) ||
   negb (Z.of_nat (length (PublicationListComponent.authorFilters st)) =? 0) ||
   negb (Z.of_nat (length (PublicationListComponent.issuedYearFilters st)) =? 0)).
Proof.
  unfold PublicationListComponent.hasActiveFilters, PublicationListComponent.activeFilters.
  cbv zeta.
  destruct (Js.truthyOpt (PublicationListComponent.journalSlug st));
    destruct (Js.truthyOpt (PublicationListComponent.issuedFrom st));
    destruct (Js.truthyOpt (PublicationListComponent.issuedTo st));
    destruct (PublicationListComponent.subjectFilters st) as [| s ss];
    destruct (PublicationListComponent.authorFilters st) as [| a aa];
    destruct (PublicationListComponent.issuedYearFilters st) as [| y yy];
    rewrite ?length_app, ?length_map; cbn [length app map orb negb Nat.add];
    try reflexivity;
    match goal with
    | |- (0 <? ?n) = _ =>
        transitivity true; [apply Z.ltb_lt; lia |];
        symmetry; rewrite ?orb_true_r; try reflexivity;
        repeat (apply orb_true_iff; first [left; reflexivity | right]);
        try reflexivity
    end.
Qed.

(** X7. [clearAllFilters] clears everything or nothing. The active
    filters are the structured filters without the ordering. When none is
    active the method leaves the component as it is, an ordering included,
    and sets nothing off. When one is active it clears the journal, the
    year range, the ordering and the three lists of terms, resets the
    filter form to the bounds of the sliders, goes back to the first page
    and sets off exactly one navigation or request. *)
Theorem clearAllFilters_all_or_nothing (baseUrl : string)
    (c : PublicationListComponent.Component) :
  let st := PublicationListComponent.signals c in
  let outcome := PublicationListComponent.clearAllFilters baseUrl c in
  let st' := PublicationListComponent.signals (fst outcome) in
  PublicationListComponent.hasActiveFilters st =
    PublicationListComponent.hasAdditionalFilters (PublicationListComponent.setOrdering None st) /\
  (PublicationListComponent.hasActiveFilters st = false -> outcome = (c, [])) /\
  (PublicationListComponent.hasActiveFilters st = true ->
   ~ Reading.structuredFilterSet st' /\
   PublicationListComponent.journalName st' = None /\
   PublicationListComponent.page st' = 1 /\
   PublicationListComponent.filtersForm (fst outcome) =
     {| PublicationListComponent.FiltersForm.journal := "";
        PublicationListComponent.FiltersForm.issuedFromSlider :=
          PublicationListComponent.YearBounds.min (PublicationListComponent.issuedYearBounds c);
        PublicationListComponent.FiltersForm.issuedToSlider :=
          PublicationListComponent.YearBounds.max (PublicationListComponent.issuedYearBounds c) |} /\
   Invariants.oneNavigationOrRequest baseUrl st' (snd outcome)).
Proof.
  intros st outcome st'. subst st' outcome.
  split; [| split].
  - rewrite hasActiveFilters_spec. unfold PublicationListComponent.hasAdditionalFilters.
    subst st. ListMethods.through_setters. cbn [Js.truthyOpt]. now rewrite orb_false_r.
  - intros H. unfold PublicationListComponent.clearAllFilters. cbv zeta.
    fold st. now rewrite H.
  - intros H. unfold PublicationListComponent.clearAllFilters. cbv zeta. fold st.
    rewrite H. cbn [negb].
    rewrite hasActiveFilters_spec in H. rewrite H. cbn [negb].
    match goal with
    | |- context [PublicationListComponent.refreshFilterResults baseUrl ?x] =>
        destruct (ListMethods.refreshFilterResults_keeps baseUrl x)
          as (Hp & _ & _ & _ & Hf & Hs & He)
    end.
    destruct Hf as (F1 & F2 & F3 & F4 & F5 & F6 & F7 & F8).
    destruct Hs as (_ & S2 & _).
    split; [| split; [| split; [| split]]];
      [| exact F2 | exact Hp | exact S2 | exact He].
    unfold Reading.structuredFilterSet. rewrite F1, F3, F4, F5, F6, F7, F8.
    ListMethods.through_setters.
    intros [[s [E _]] | [[s [E _]] | [[s [E _]] | [[s [E _]] | [E | [E | E]]]]]];
      first [discriminate E | now apply E].
Qed.

Module NextFacts.
Import PublicationListComponent.
Import ListMethods.

Lemma updateIssuedYearBounds_signals (facets : option Models.PublicationFacetCollection.t)
    (c : Component) :
  signals (updateIssuedYearBounds facets c) = signals c.
Proof.
  unfold updateIssuedYearBounds. destruct facets as [collection |]; [| reflexivity].
  cbv zeta. destruct (_ =? 0); [reflexivity |]. destruct (_ || _); reflexivity.
Qed.

Section WithBaseUrl.
Variable baseUrl : string.

(** The [next] callback, case by case. *)
Lemma next_cases (p : Pending) (response : ListBody.t) (c : Component) :
  let results := Js.nullish (ListBody.results response) [] in
  let totalCount := Js.nullish (ListBody.count response) (Z.of_nat (length results)) in
  let totalPages :=
    if 0 <? totalCount then Js.ceilDiv totalCount (requestedPageSize p) else 1 in
  let c0 :=
    updateIssuedYearBounds (ListBody.facets response)
      (onSignals (setFacets (ListBody.facets response)) (onSignals (setCount totalCount) c)) in
  fetchPublicationsNext baseUrl p response c =
  if totalCount =? 0
  then
    if negb (currentPage p =? 1)
    then
      let c1 := onSignals (setHasLoadedInitial false) (onSignals (setPage 1) c0) in
      (onSignals (fun st => setHasLoadedInitial true (setLoading false (setPublications [] st))) c1,
       snd (updateQueryParams c1))
    else
      (onSignals (fun st => setHasLoadedInitial true (setLoading false (setPublications [] st))) c0,
       [])
  else if (Z.of_nat (length results) =? 0) && (totalPages <? currentPage p) &&
          negb (Js.max 1 totalPages =? currentPage p)
  then
    (onSignals (setLoading false)
       (fst (navigateOrFetch baseUrl (onSignals (setPage (Js.max 1 totalPages)) c0))),
     snd (navigateOrFetch baseUrl (onSignals (setPage (Js.max 1 totalPages)) c0)))
  else
    (onSignals (fun st => setHasLoadedInitial true (setLoading false (setPublications results st)))
       c0, []).
Proof.
  cbv zeta. unfold fetchPublicationsNext. cbv zeta.
  destruct (_ =? 0).
  - destruct (negb (currentPage p =? 1)); [| reflexivity].
    match goal with
    | |- context [updateQueryParams ?x] => destruct (updateQueryParams_cases x) as [E | E]
    end; rewrite E; reflexivity.
  - destruct (_ && _); [| reflexivity].
    unfold navigateOrFetch.
    match goal with
    | |- context [updateQueryParams ?x] => destruct (updateQueryParams_cases x) as [E | E]
    end; rewrite E; cbn [negb]; [| reflexivity].
    match goal with
    | |- context [fetchPublications baseUrl ?x] => destruct (fetchPublications baseUrl x)
    end. reflexivity.
Qed.

End WithBaseUrl.

End NextFacts.

(** X8. The answer to a list request. The count and the facets of the
    answer are taken over. With a count of zero the list is empty, no
    request follows, and a request for another page than the first puts
    the component back on the first page. With results, or on a page that
    exists, the results are shown and nothing else happens. On an empty
    page beyond the last one the component moves to the last page, which
    exists, and sets off exactly one navigation or request: it does not
    rest on an empty page while there are results. *)
Theorem fetchPublicationsNext_pages (baseUrl : string) (asked : PublicationListComponent.State)
    (response : PublicationListComponent.ListBody.t)
    (c : PublicationListComponent.Component) :
  let p := snd (PublicationListComponent.fetchPublications baseUrl asked) in
  let results := Js.nullish (PublicationListComponent.ListBody.results response) [] in
  let totalCount :=
    Js.nullish (PublicationListComponent.ListBody.count response) (Z.of_nat (length results)) in
  let lastPage := Js.ceilDiv totalCount (Js.max 1 (PublicationListComponent.pageSize asked)) in
  let outcome := PublicationListComponent.fetchPublicationsNext baseUrl p response c in
  let st' := PublicationListComponent.signals (fst outcome) in
  (PublicationListComponent.count st' = totalCount /\
   PublicationListComponent.facets st' = PublicationListComponent.ListBody.facets response /\
   PublicationListComponent.loading st' = false) /\
  (totalCount = 0 ->
   PublicationListComponent.publications st' = [] /\
   httpCalls (snd outcome) = [] /\
   (PublicationListComponent.page asked <> 1 -> PublicationListComponent.page st' = 1)) /\
  (0 < totalCount ->
   results <> [] \/ PublicationListComponent.page asked <= lastPage ->
   PublicationListComponent.publications st' = results /\
   PublicationListComponent.page st' =
     PublicationListComponent.page (PublicationListComponent.signals c) /\
   snd outcome = []) /\
  (0 < totalCount ->
   results = [] -> lastPage < PublicationListComponent.page asked ->
   PublicationListComponent.page st' = lastPage /\
   1 <= lastPage /\
   Invariants.oneNavigationOrRequest baseUrl st' (snd outcome)).
Proof.
  intros p results totalCount lastPage outcome st'. subst st' outcome.
  rewrite NextFacts.next_cases. cbv zeta. fold results. fold totalCount.
  change (PublicationListComponent.requestedPageSize p)
    with (Js.max 1 (PublicationListComponent.pageSize asked)).
  change (PublicationListComponent.currentPage p) with (PublicationListComponent.page asked).
  fold lastPage.
  assert (Hlast : 0 < totalCount -> 1 <= lastPage).
  { intros Hc. subst lastPage. apply ceilDiv_positive; [unfold Js.max; lia | exact Hc]. }
  destruct (totalCount =? 0) eqn:E0.
  - apply Z.eqb_eq in E0.
    destruct (negb (PublicationListComponent.page asked =? 1)) eqn:E1; cbn [fst snd].
    + ListMethods.through_setters. rewrite NextFacts.updateIssuedYearBounds_signals.
      ListMethods.through_setters.
      split; [repeat split |]. split; [| split; intros; lia].
      intros _. split; [reflexivity |]. split; [| reflexivity].
      match goal with
      | |- context [PublicationListComponent.updateQueryParams ?x] =>
          destruct (ListMethods.updateQueryParams_cases x) as [E | E]
      end; rewrite E; reflexivity.
    + ListMethods.through_setters. rewrite NextFacts.updateIssuedYearBounds_signals.
      ListMethods.through_setters.
      split; [repeat split |]. split; [| split; intros; lia].
      intros _. split; [reflexivity |]. split; [reflexivity |].
      apply negb_false_iff, Z.eqb_eq in E1. intros H. contradiction.
  - apply Z.eqb_neq in E0.
    destruct (0 <? totalCount) eqn:Epos.
    + apply Z.ltb_lt in Epos. specialize (Hlast Epos).
      destruct ((Z.of_nat (length results) =? 0) &&
                (lastPage <? PublicationListComponent.page asked) &&
                negb (Js.max 1 lastPage =? PublicationListComponent.page asked)) eqn:Eb;
        cbn [fst snd].
      * apply andb_true_iff in Eb. destruct Eb as [Eb _].
        apply andb_true_iff in Eb. destruct Eb as [Er Ep].
        apply Z.eqb_eq in Er. apply Z.ltb_lt in Ep.
        assert (Hr : results = []) by (destruct results; [reflexivity | discriminate Er]).
        match goal with
        | |- context [PublicationListComponent.navigateOrFetch baseUrl ?x] =>
            destruct (ListMethods.navigateOrFetch_keeps baseUrl x)
              as ((Kp & _ & _ & Kc & _) & _ & Ke);
            destruct (ListMethods.navigateOrFetch_cases baseUrl x) as [En | En]
        end.
        -- rewrite En in *. cbn [fst snd] in *. ListMethods.through_setters.
           rewrite NextFacts.updateIssuedYearBounds_signals. ListMethods.through_setters.
           split; [repeat split |]. split; [intros; lia |].
           split; [intros _ [Hn | Hn]; [congruence | lia] |].
           intros _ _ _. replace (Js.max 1 lastPage) with lastPage by (unfold Js.max; lia).
           split; [reflexivity |]. split; [exact Hlast |]. left. reflexivity.
        -- rewrite En in *. cbn [fst snd] in *. ListMethods.through_setters.
           rewrite NextFacts.updateIssuedYearBounds_signals. ListMethods.through_setters.
           split; [repeat split |]. split; [intros; lia |].
           split; [intros _ [Hn | Hn]; [congruence | lia] |].
           intros _ _ _. replace (Js.max 1 lastPage) with lastPage by (unfold Js.max; lia).
           split; [reflexivity |]. split; [exact Hlast |].
           right. eexists. split; [reflexivity | apply ListMethods.fetch_url].
      * ListMethods.through_setters. rewrite NextFacts.updateIssuedYearBounds_signals.
        ListMethods.through_setters.
        split; [repeat split |]. split; [intros; lia |].
        split; [intros _ _; repeat split |].
        intros _ Hr Hp. exfalso.
        rewrite Hr in Eb. cbn [length Z.of_nat Z.eqb andb] in Eb.
        apply andb_false_iff in Eb. destruct Eb as [Eb | Eb].
        -- apply Z.ltb_ge in Eb. lia.
        -- apply negb_false_iff, Z.eqb_eq in Eb. unfold Js.max in Eb. lia.
    + apply Z.ltb_ge in Epos. cbn [fst snd].
      destruct (_ && _); cbn [fst snd].
      * match goal with
        | |- context [PublicationListComponent.navigateOrFetch baseUrl ?x] =>
            destruct (ListMethods.navigateOrFetch_cases baseUrl x) as [En | En]
        end; rewrite En; cbn [fst snd]; ListMethods.through_setters;
          rewrite NextFacts.updateIssuedYearBounds_signals; ListMethods.through_setters;
          (split; [repeat split |]); repeat split; intros; lia.
      * ListMethods.through_setters. rewrite NextFacts.updateIssuedYearBounds_signals.
        ListMethods.through_setters.
        (split; [repeat split |]); repeat split; intros; lia.
Qed.

Lemma goToPage_cases (baseUrl : string) (target : Z) (c : PublicationListComponent.Component) :
  (PublicationListComponent.goToPage baseUrl target c = (c, []) /\
   (target = PublicationListComponent.page (PublicationListComponent.signals c) \/
    target < 1 \/
    PublicationListComponent.totalPages (PublicationListComponent.signals c) < target)) \/
  (PublicationListComponent.goToPage baseUrl target c =
     PublicationListComponent.navigateOrFetch baseUrl
       (PublicationListComponent.onSignals (PublicationListComponent.setPage target) c) /\
   target <> PublicationListComponent.page (PublicationListComponent.signals c) /\
   1 <= target <= PublicationListComponent.totalPages (PublicationListComponent.signals c)).
Proof.
  unfold PublicationListComponent.goToPage.
  destruct (target =? _) eqn:E1; cbn [orb].
  - left. apply Z.eqb_eq in E1. auto.
  - destruct (target <? 1) eqn:E2; cbn [orb].
    + left. apply Z.ltb_lt in E2. auto.
    + destruct (_ <? target) eqn:E3.
      * left. apply Z.ltb_lt in E3. auto.
      * right. apply Z.eqb_neq in E1. apply Z.ltb_ge in E2. apply Z.ltb_ge in E3.
        repeat split; auto.
Qed.

Lemma goToPage_in_range (baseUrl : string) (target : Z)
    (c : PublicationListComponent.Component) :
  Invariants.pageInRange (PublicationListComponent.signals c) ->
  Invariants.pageInRange
    (PublicationListComponent.signals (fst (PublicationListComponent.goToPage baseUrl target c))).
Proof.
  intros Hin. destruct (goToPage_cases baseUrl target c) as [[E _] | (E & Hne & Hr)];
    rewrite E; [exact Hin |].
  destruct (ListMethods.navigateOrFetch_keeps baseUrl
              (PublicationListComponent.onSignals (PublicationListComponent.setPage target) c))
    as ((Kp & Kz & _ & Kc & _) & _).
  unfold Invariants.pageInRange, PublicationListComponent.totalPages in *.
  rewrite Kp, Kz, Kc. exact Hr.
Qed.

(** X9. Paging stays on pages that exist. When the page shown exists, it
    still does after [goToPage], [nextPage] and [previousPage], whatever
    the target. A target that is the current page, below one or beyond the
    last page changes nothing and sets nothing off; any other target
    becomes the page and sets off exactly one navigation or request. *)
Theorem goToPage_stays_in_range (baseUrl : string) (target : Z)
    (c : PublicationListComponent.Component) :
  let st := PublicationListComponent.signals c in
  let outcome := PublicationListComponent.goToPage baseUrl target c in
  Invariants.pageInRange st ->
  Invariants.pageInRange (PublicationListComponent.signals (fst outcome)) /\
  Invariants.pageInRange
    (PublicationListComponent.signals (fst (PublicationListComponent.nextPage baseUrl c))) /\
  Invariants.pageInRange
    (PublicationListComponent.signals (fst (PublicationListComponent.previousPage baseUrl c))) /\
  (target = PublicationListComponent.page st \/ target < 1 \/
   PublicationListComponent.totalPages st < target -> outcome = (c, [])) /\
  (target <> PublicationListComponent.page st ->
   1 <= target <= PublicationListComponent.totalPages st ->
   PublicationListComponent.page (PublicationListComponent.signals (fst outcome)) = target /\
   Invariants.oneNavigationOrRequest baseUrl
     (PublicationListComponent.signals (fst outcome)) (snd outcome)).
Proof.
  intros st outcome Hin. subst outcome.
  split; [now apply goToPage_in_range |].
  split; [now apply goToPage_in_range |].
  split; [now apply goToPage_in_range |].
  destruct (goToPage_cases baseUrl target c) as [[E Hout] | (E & Hne & Hr)]; rewrite E.
  - split; [reflexivity |]. fold st in Hout. intros H1 H2. lia.
  - fold st in Hne, Hr. split; [intros; lia |]. intros _ _.
    destruct (ListMethods.navigateOrFetch_keeps baseUrl
                (PublicationListComponent.onSignals (PublicationListComponent.setPage target) c))
      as ((Kp & _) & _ & Ke).
    split; [exact Kp | exact Ke].
Qed.

(** Page 5 of 10 on the sample page: page 6 is next. *)
Lemma goToPage_stays_in_range_witness :
  PublicationListComponent.page
    (PublicationListComponent.signals
       (fst (PublicationListComponent.goToPage "/api" 6 MoreSamples.listPage))) = 6.
Proof.
  assert (Hin : Invariants.pageInRange (PublicationListComponent.signals MoreSamples.listPage))
    by (unfold Invariants.pageInRange; cbn; lia).
  destruct (goToPage_stays_in_range "/api" 6 MoreSamples.listPage Hin) as (_ & _ & _ & _ & H).
  apply H; cbn; lia.
Defined.

(** ** The bounds of the year sliders *)

Lemma minOf_spec (a : Z) (l : list Z) :
  Js.minOf a l <= a /\ Forall (fun x => Js.minOf a l <= x) l.
Proof.
  unfold Js.minOf. revert a. induction l as [| x l IH]; intros a; cbn [fold_left].
  - split; [lia | constructor].
  - destruct (IH (Z.min a x)) as [H1 H2]. split; [lia |].
    constructor; [lia | exact H2].
Qed.

Lemma maxOf_spec (a : Z) (l : list Z) :
  a <= Js.maxOf a l /\ Forall (fun x => x <= Js.maxOf a l) l.
Proof.
  unfold Js.maxOf. revert a. induction l as [| x l IH]; intros a; cbn [fold_left].
  - split; [lia | constructor].
  - destruct (IH (Z.max a x)) as [H1 H2]. split; [lia |].
    constructor; [lia | exact H2].
Qed.

Lemma finiteYears_in (values : list string) (n : Z) :
  In n (PublicationListComponent.finiteYears values) <->
  exists v, In v values /\ Js.parseInt v = Some n.
Proof.
  unfold PublicationListComponent.finiteYears. rewrite in_flat_map. split.
  - intros (v & Hin & Hn). exists v. split; [exact Hin |].
    destruct (Js.parseInt v) as [m |]; [| contradiction].
    destruct Hn as [-> | []]. reflexivity.
  - intros (v & Hin & Hn). exists v. split; [exact Hin |]. rewrite Hn. now left.
Qed.

(** X10. The bounds of the year sliders only grow. After
    [ensureYearWithinBounds(year)] the year lies within the bounds. After
    [updateIssuedYearBounds(facets)] every issued-year filter and every
    value of the issued-year facet that reads as a number lies within the
    bounds. Both keep every year that was within the bounds before, and
    neither touches the signals. *)
Theorem issuedYearBounds_only_grow (year : Z)
    (facets : Models.PublicationFacetCollection.t)
    (c : PublicationListComponent.Component) :
  let before := PublicationListComponent.issuedYearBounds c in
  let ensured := PublicationListComponent.ensureYearWithinBounds year c in
  let updated := PublicationListComponent.updateIssuedYearBounds (Some facets) c in
  (Invariants.withinBounds (PublicationListComponent.issuedYearBounds ensured) year /\
   Invariants.widens before (PublicationListComponent.issuedYearBounds ensured) /\
   PublicationListComponent.signals ensured = PublicationListComponent.signals c) /\
  (Invariants.widens before (PublicationListComponent.issuedYearBounds updated) /\
   PublicationListComponent.signals updated = PublicationListComponent.signals c /\
   (forall v n,
      In v (PublicationListComponent.issuedYearFilters (PublicationListComponent.signals c)) \/
      In v (map Models.FacetItem.value
              (Models.FacetSummary.items
                 (Models.PublicationFacetCollection.issued_years facets))) ->
      Js.parseInt v = Some n ->
      Invariants.withinBounds (PublicationListComponent.issuedYearBounds updated) n)) /\
  PublicationListComponent.updateIssuedYearBounds None c = c.
Proof.
  intros before ensured updated. subst before ensured updated.
  unfold Invariants.withinBounds, Invariants.widens.
  split; [| split; [| reflexivity]].
  - split; [| split; [| apply Toggles.ensure_signals]];
      unfold PublicationListComponent.ensureYearWithinBounds; cbv zeta;
      destruct (_ || _) eqn:E;
      cbn [PublicationListComponent.withBounds PublicationListComponent.issuedYearBounds
           PublicationListComponent.YearBounds.min PublicationListComponent.YearBounds.max];
      unfold Js.min, Js.max in *; try lia;
      apply orb_false_iff in E; destruct E as [E1 E2];
      apply negb_false_iff, Z.eqb_eq in E1; apply negb_false_iff, Z.eqb_eq in E2; lia.
  - split; [| split; [apply NextFacts.updateIssuedYearBounds_signals |]].
    + unfold PublicationListComponent.updateIssuedYearBounds. cbv zeta.
      destruct (_ =? 0); [lia |].
      match goal with
      | |- context [Js.minOf ?a ?l] =>
          destruct (minOf_spec a l) as [Hmin _]; destruct (maxOf_spec
            (PublicationListComponent.YearBounds.max (PublicationListComponent.issuedYearBounds c)) l) as [Hmax _]
      end.
      destruct (_ || _);
        cbn [PublicationListComponent.withBounds PublicationListComponent.issuedYearBounds
             PublicationListComponent.YearBounds.min PublicationListComponent.YearBounds.max];
        lia.
    + intros v n Hv Hn.
      unfold PublicationListComponent.updateIssuedYearBounds. cbv zeta.
      set (years := (PublicationListComponent.finiteYears
                       (PublicationListComponent.issuedYearFilters
                          (PublicationListComponent.signals c)) ++
                     PublicationListComponent.finiteYears
                       (map Models.FacetItem.value
                          (Models.FacetSummary.items
                             (Models.PublicationFacetCollection.issued_years facets))))%list).
      assert (Hin : In n years).
      { subst years. apply in_or_app.
        destruct Hv as [Hv | Hv]; [left | right]; apply finiteYears_in; now exists v. }
      destruct (minOf_spec (PublicationListComponent.YearBounds.min (PublicationListComponent.issuedYearBounds c)) years) as [_ Hmin].
      destruct (maxOf_spec (PublicationListComponent.YearBounds.max (PublicationListComponent.issuedYearBounds c)) years) as [_ Hmax].
      rewrite Forall_forall in Hmin, Hmax. specialize (Hmin n Hin). specialize (Hmax n Hin).
      destruct (Z.of_nat (length years) =? 0) eqn:E0.
      { apply Z.eqb_eq in E0. destruct years; [contradiction | discriminate E0]. }
      destruct (_ || _) eqn:E;
        cbn [PublicationListComponent.withBounds PublicationListComponent.issuedYearBounds
             PublicationListComponent.YearBounds.min PublicationListComponent.YearBounds.max];
        [lia |].
      apply orb_false_iff in E. destruct E as [E1 E2].
      apply negb_false_iff, Z.eqb_eq in E1. apply negb_false_iff, Z.eqb_eq in E2. lia.
Qed.

(** ** The publication list: the route handler *)

Lemma split_pieces (c : ascii) (s : string) :
  Forall (fun piece => Js.includes c piece = false) (Js.split c s).
Proof.
  induction s as [| d s IH]; cbn [Js.split].
  - repeat constructor.
  - destruct (Ascii.eqb d c) eqn:E.
    + constructor; [reflexivity | exact IH].
    + destruct (Js.split c s) as [| h t].
      * repeat constructor. cbn [Js.includes]. now rewrite E.
      * inversion IH as [| ? ? Hh Ht]; subst.
        constructor; [| exact Ht]. cbn [Js.includes]. now rewrite E, Hh.
Qed.

Lemma includes_trimStart (c : ascii) (s : string) :
  Js.includes c s = false -> Js.includes c (Js.trimStart s) = false.
Proof.
  induction s as [| d s IH]; cbn [Js.trimStart Js.includes]; [auto |].
  intros H. apply orb_false_iff in H. destruct H as [Hd Hs].
  destruct (Js.isWhiteSpace d); [now apply IH |].
  cbn [Js.includes]. now rewrite Hd, Hs.
Qed.

Lemma includes_trimEnd (c : ascii) (s : string) :
  Js.includes c s = false -> Js.includes c (Js.trimEnd s) = false.
Proof.
  induction s as [| d s IH]; cbn [Js.trimEnd Js.includes]; [auto |].
  intros H. apply orb_false_iff in H. destruct H as [Hd Hs].
  specialize (IH Hs). destruct (Js.trimEnd s) as [| e r].
  - destruct (Js.isWhiteSpace d); [reflexivity |]. cbn [Js.includes]. now rewrite Hd.
  - cbn [Js.includes] in *. now rewrite Hd, IH.
Qed.

Lemma parseSubjectParam_plain (v : option string) :
  Forall Reading.plainTerm (PublicationListComponent.parseSubjectParam v).
Proof.
  unfold PublicationListComponent.parseSubjectParam.
  destruct (negb (Js.truthyOpt v)); [constructor |].
  apply Forall_forall. intros t Ht. apply filter_In in Ht. destruct Ht as [Hin Hlen].
  apply in_map_iff in Hin. destruct Hin as (piece & <- & Hpiece).
  rewrite length_positive_truthy in Hlen. apply truthy_true_iff in Hlen.
  pose proof (split_pieces ","%char (Js.nullish v "")) as Hall.
  rewrite Forall_forall in Hall. specialize (Hall piece Hpiece).
  repeat split; [exact Hlen | apply trim_idempotent |].
  unfold Js.trim. now apply includes_trimEnd, includes_trimStart.
Qed.

Lemma trimmedOrNull_shape (raw : option string) :
  Invariants.scalarTrimmed (PublicationListComponent.trimmedOrNull raw).
Proof.
  unfold PublicationListComponent.trimmedOrNull. intros s.
  destruct raw as [r |]; [| discriminate].
  destruct (Js.truthy r && _) eqn:E; [| discriminate].
  intros [= <-]. apply andb_true_iff in E. destruct E as [_ E].
  rewrite length_positive_truthy in E. apply truthy_true_iff in E.
  split; [apply trim_idempotent | exact E].
Qed.

Lemma normalized_year_shape (raw : PublicationListComponent.Raw) :
  Invariants.yearOrNone
    (Js.orUndefined (Js.nullish (PublicationListComponent.normalizeYearInput raw) "")).
Proof.
  intros y. destruct (PublicationListComponent.normalizeYearInput raw) as [x |] eqn:E;
    cbn [Js.nullish]; [| discriminate].
  unfold Js.orUndefined. destruct (Js.truthy x); [| discriminate].
  intros [= <-]. now apply normalizeYearInput_shape in E.
Qed.

Module RouteHandler.
Import PublicationListComponent.
Import ListMethods.

Section WithBaseUrl.
Variable baseUrl : string.

(** The signals after the route handler, read off the route. *)
Lemma onQueryParams_signals (pageParam pageSizeParam : option Z) (params : ParamMap.t)
    (c : Component) :
  let st' := signals (fst (onQueryParams baseUrl pageParam pageSizeParam params c)) in
  let rawParam := fun name =>
    match ParamMap.get name params with
    | Some s => RawString s
    | None => RawNull
    end in
  page st' = match pageParam with Some n => if 0 <? n then n else 1 | None => 1 end /\
  pageSize st' =
    Js.max 1 match pageSizeParam with
             | Some n => if 0 <? n then n else DEFAULT_PAGE_SIZE
             | None => DEFAULT_PAGE_SIZE
             end /\
  searchQuery st' = Js.trim (Js.nullish (ParamMap.get "search" params) "") /\
  journalSlug st' = trimmedOrNull (ParamMap.get "journal" params) /\
  journalName st' = trimmedOrNull (ParamMap.get "journal_name" params) /\
  ordering st' = trimmedOrNull (ParamMap.get "ordering" params) /\
  issuedFrom st' =
    Js.orUndefined (Js.nullish (normalizeYearInput (rawParam "issued_from")) "") /\
  issuedTo st' = Js.orUndefined (Js.nullish (normalizeYearInput (rawParam "issued_to")) "") /\
  subjectFilters st' = parseSubjectParam (ParamMap.get "subject" params) /\
  authorFilters st' = trimmedTerms (ParamMap.getAll "author" params) /\
  issuedYearFilters st' = trimmedTerms (ParamMap.getAll "issued_year" params) /\
  hasLoadedInitial st' = true.
Proof.
  cbv zeta. unfold onQueryParams. cbv zeta.
  match goal with
  | |- context [if negb (Z.of_nat (length ?l) =? 0) then ?a else c] =>
      generalize (if negb (Z.of_nat (length l) =? 0) then a else c)
  end.
  intros c0.
  match goal with
  | |- context [if ?b then _ else (?x, @nil Effect)] => destruct b
  end; cbn [fst snd]; through_setters; repeat split.
Qed.

End WithBaseUrl.

End RouteHandler.

(** X11. The route handler leaves the signals in shape. For every route
    whose [page] and [page_size] are absent, not numbers, or whole numbers
    (a page that is not whole is kept by the source as it is, and is not a
    page of the embedding): a page and a page size of at least one, a
    trimmed search text, a journal, a journal name and an ordering that are
    absent or trimmed and not empty, a year range of four-digit years,
    subjects that are trimmed, not empty and without comma, and authors and
    issued years that are trimmed and not empty. *)
Theorem onQueryParams_shapes (baseUrl : string) (pageParam pageSizeParam : option Z)
    (params : ParamMap.t) (c : PublicationListComponent.Component) :
  Invariants.routeShaped
    (PublicationListComponent.signals
       (fst (PublicationListComponent.onQueryParams baseUrl pageParam pageSizeParam params c))).
Proof.
  destruct (RouteHandler.onQueryParams_signals baseUrl pageParam pageSizeParam params c)
    as (Hp & Hz & Hq & Hj & Hn & Ho & Hf & Ht & Hs & Ha & Hy & _).
  unfold Invariants.routeShaped.
  rewrite Hp, Hz, Hq, Hj, Hn, Ho, Hf, Ht, Hs, Ha, Hy.
  split.
  { destruct pageParam as [n |]; [destruct (0 <? n) eqn:E |]; lia. }
  split; [unfold Js.max; lia |].
  split; [apply trim_idempotent |].
  split; [apply trimmedOrNull_shape |].
  split; [apply trimmedOrNull_shape |].
  split; [apply trimmedOrNull_shape |].
  split; [apply normalized_year_shape |].
  split; [apply normalized_year_shape |].
  split; [apply parseSubjectParam_plain |].
  split; apply trimmedTerms_shape.
Qed.

Module RouteHandlerOnce.
Import PublicationListComponent.
Import ListMethods.

Section WithBaseUrl.
Variable baseUrl : string.
Variables (pageParam pageSizeParam : option Z) (params : ParamMap.t).

(** The route as the handler resolves it. *)
Lemma onQueryParams_last (c : Component) :
  let rawParam := fun name =>
    match ParamMap.get name params with
    | Some s => RawString s
    | None => RawNull
    end in
  lastRouteState (fst (onQueryParams baseUrl pageParam pageSizeParam params c)) =
  {| RouteSnapshotState.page :=
       match pageParam with Some n => if 0 <? n then n else 1 | None => 1 end;
     RouteSnapshotState.search := Js.trim (Js.nullish (ParamMap.get "search" params) "");
     RouteSnapshotState.pageSize :=
       Js.max 1 match pageSizeParam with
                | Some n => if 0 <? n then n else DEFAULT_PAGE_SIZE
                | None => DEFAULT_PAGE_SIZE
                end;
     RouteSnapshotState.journal := trimmedOrNull (ParamMap.get "journal" params);
     RouteSnapshotState.journalName := trimmedOrNull (ParamMap.get "journal_name" params);
     RouteSnapshotState.ordering := trimmedOrNull (ParamMap.get "ordering" params);
     RouteSnapshotState.issuedFrom :=
       Some (Js.nullish (normalizeYearInput (rawParam "issued_from")) "");
     RouteSnapshotState.issuedTo :=
       Some (Js.nullish (normalizeYearInput (rawParam "issued_to")) "");
     RouteSnapshotState.subjectFilters := parseSubjectParam (ParamMap.get "subject" params);
     RouteSnapshotState.authors := trimmedTerms (ParamMap.getAll "author" params);
     RouteSnapshotState.issuedYears := trimmedTerms (ParamMap.getAll "issued_year" params) |}.
Proof.
  cbv zeta. unfold onQueryParams. cbv zeta.
  match goal with
  | |- context [if ?b then _ else (?x, @nil Effect)] => destruct b
  end; reflexivity.
Qed.

(** What the handler sets off: one request, or nothing. *)
Lemma onQueryParams_effects (c : Component) :
  (snd (onQueryParams baseUrl pageParam pageSizeParam params c) = [] \/
   exists r, snd (onQueryParams baseUrl pageParam pageSizeParam params c) = [Http r] /\
             (url r = baseUrl ++ "/publications/" \/
              url r = baseUrl ++ "/publications/search/")) /\
  (hasLoadedInitial (signals c) = false ->
   snd (onQueryParams baseUrl pageParam pageSizeParam params c) <> []).
Proof.
  unfold onQueryParams. cbv zeta.
  match goal with
  | |- context [if negb (Z.of_nat (length ?l) =? 0) then ?a else c] =>
      assert (Hc0 : hasLoadedInitial
                      (signals (if negb (Z.of_nat (length l) =? 0) then a else c)) =
                    hasLoadedInitial (signals c))
        by (destruct (negb (Z.of_nat (length l) =? 0)); [destruct (_ || _) |]; reflexivity);
      generalize dependent (if negb (Z.of_nat (length l) =? 0) then a else c)
  end.
  intros c0 Hc0.
  match goal with
  | |- context [if ?b then _ else (?x, @nil Effect)] => destruct b eqn:E
  end; cbn [fst snd].
  - split; [| discriminate]. right. eexists. split; [reflexivity | apply fetch_url].
  - split; [now left |]. intros H. exfalso.
    through_setters. rewrite Hc0, H in E. discriminate E.
Qed.

Lemma onQueryParams_again (c : Component) :
  snd (onQueryParams baseUrl pageParam pageSizeParam params
         (fst (onQueryParams baseUrl pageParam pageSizeParam params c))) = [].
Proof.
  pose proof (onQueryParams_last c) as Hlast. cbv zeta in Hlast.
  destruct (RouteHandler.onQueryParams_signals baseUrl pageParam pageSizeParam params c)
    as (_ & _ & _ & _ & _ & _ & _ & _ & _ & _ & _ & Hloaded).
  generalize dependent (fst (onQueryParams baseUrl pageParam pageSizeParam params c)).
  intros c1 Hlast Hloaded.
  unfold onQueryParams. cbv zeta.
  match goal with
  | |- context [if negb (Z.of_nat (length ?l) =? 0) then ?a else c1] =>
      assert (Hc0 : hasLoadedInitial
                      (signals (if negb (Z.of_nat (length l) =? 0) then a else c1)) =
                    hasLoadedInitial (signals c1) /\
                    lastRouteState (if negb (Z.of_nat (length l) =? 0) then a else c1) =
                    lastRouteState c1)
        by (destruct (negb (Z.of_nat (length l) =? 0)); [destruct (_ || _) |]; split;
            reflexivity);
      generalize dependent (if negb (Z.of_nat (length l) =? 0) then a else c1)
  end.
  intros c0 [Hc0 Hl0].
  through_setters. rewrite Hl0, Hlast, Hc0, Hloaded.
  cbn [RouteSnapshotState.page RouteSnapshotState.search RouteSnapshotState.pageSize
       RouteSnapshotState.journal RouteSnapshotState.journalName RouteSnapshotState.ordering
       RouteSnapshotState.issuedFrom RouteSnapshotState.issuedTo
       RouteSnapshotState.subjectFilters RouteSnapshotState.authors
       RouteSnapshotState.issuedYears].
  rewrite !Z.eqb_refl, !String.eqb_refl, !sameOpt_refl, !areStringArraysEqual_refl.
  reflexivity.
Qed.

End WithBaseUrl.

End RouteHandlerOnce.

(** X12. One route, one request. The route handler sets off one request
    to the list or the search endpoint, or nothing; the first event of a
    route always sets one off; and the same route handled a second time in
    a row sets nothing off. *)
Theorem onQueryParams_fetches_once (baseUrl : string) (pageParam pageSizeParam : option Z)
    (params : ParamMap.t) (c : PublicationListComponent.Component) :
  let first := PublicationListComponent.onQueryParams baseUrl pageParam pageSizeParam params c in
  let second :=
    PublicationListComponent.onQueryParams baseUrl pageParam pageSizeParam params (fst first) in
  (snd first = [] \/
   exists r, snd first = [Http r] /\
             (url r = baseUrl ++ "/publications/" \/
              url r = baseUrl ++ "/publications/search/")) /\
  (PublicationListComponent.hasLoadedInitial (PublicationListComponent.signals c) = false ->
   snd first <> []) /\
  snd second = [].
Proof.
  intros first second. subst first second.
  destruct (RouteHandlerOnce.onQueryParams_effects baseUrl pageParam pageSizeParam params c)
    as [H1 H2].
  split; [exact H1 |]. split; [exact H2 |].
  apply RouteHandlerOnce.onQueryParams_again.
Qed.

(** ** The publication list: the year sliders *)

Lemma coerceSliderValue_range (raw : PublicationListComponent.Raw) (lo hi : Z) :
  lo <= hi ->
  lo <= PublicationListComponent.coerceSliderValue raw lo hi <= hi.
Proof.
  intros H. unfold PublicationListComponent.coerceSliderValue. cbv zeta.
  match goal with |- context [match ?n with Some _ => _ | None => _ end] => destruct n as [k |] end;
    [| lia].
  destruct (k <? lo) eqn:E1; [lia |]. destruct (hi <? k) eqn:E2; lia.
Qed.

Module Sliders.
Import PublicationListComponent.
Import ListMethods.

Section WithBaseUrl.
Variable baseUrl : string.

Lemma from_slider_cases (value : Raw) (c : Component) :
  let bounds := issuedYearBounds c in
  let lo := YearBounds.min bounds in
  let hi := YearBounds.max bounds in
  let toValue := coerceSliderValue (RawNumber (FiltersForm.issuedToSlider (filtersForm c))) lo hi in
  let fromValue := Z.min (coerceSliderValue value lo hi) toValue in
  let filterValue := if fromValue <=? lo then None else Some (Js.toString fromValue) in
  issuedFrom (signals (fst (issuedFromSliderValueChanges baseUrl value c))) = filterValue /\
  (snd (issuedFromSliderValueChanges baseUrl value c) <> [] ->
   issuedYearFilters (signals (fst (issuedFromSliderValueChanges baseUrl value c))) = []) /\
  issuedTo (signals (fst (issuedFromSliderValueChanges baseUrl value c))) =
    issuedTo (signals c).
Proof.
  cbv zeta. unfold issuedFromSliderValueChanges. cbv zeta.
  set (lo := YearBounds.min (issuedYearBounds c)).
  set (hi := YearBounds.max (issuedYearBounds c)).
  set (toValue := coerceSliderValue (RawNumber (FiltersForm.issuedToSlider (filtersForm c))) lo hi).
  set (raw := coerceSliderValue value lo hi).
  destruct (toValue <? raw) eqn:E.
  - apply Z.ltb_lt in E. replace (Z.min raw toValue) with toValue by lia.
    cbn [patchSliders withFiltersForm signals].
    destruct (Js.sameOpt _ _) eqn:Es; cbn [fst snd].
    + apply sameOpt_eq in Es. split; [now symmetry |]. split; [congruence | reflexivity].
    + match goal with
      | |- context [refreshFilterResults baseUrl ?x] =>
          destruct (refreshFilterResults_keeps baseUrl x) as (_ & _ & _ & _ & Hf & _)
      end.
      destruct Hf as (_ & _ & _ & F4 & F5 & _ & _ & F8). rewrite F4, F5, F8.
      destruct (negb _) eqn:En; through_setters; repeat split; try reflexivity.
      intros _. apply negb_false_iff, Z.eqb_eq in En.
      destruct (issuedYearFilters (signals c)); [reflexivity | discriminate En].
  - apply Z.ltb_ge in E. replace (Z.min raw toValue) with raw by lia.
    destruct (Js.sameOpt _ _) eqn:Es; cbn [fst snd].
    + apply sameOpt_eq in Es. split; [now symmetry |]. split; [congruence | reflexivity].
    + match goal with
      | |- context [refreshFilterResults baseUrl ?x] =>
          destruct (refreshFilterResults_keeps baseUrl x) as (_ & _ & _ & _ & Hf & _)
      end.
      destruct Hf as (_ & _ & _ & F4 & F5 & _ & _ & F8). rewrite F4, F5, F8.
      destruct (negb _) eqn:En; through_setters; repeat split; try reflexivity.
      intros _. apply negb_false_iff, Z.eqb_eq in En.
      destruct (issuedYearFilters (signals c)); [reflexivity | discriminate En].
Qed.

Lemma to_slider_cases (value : Raw) (c : Component) :
  let bounds := issuedYearBounds c in
  let lo := YearBounds.min bounds in
  let hi := YearBounds.max bounds in
  let fromValue :=
    coerceSliderValue (RawNumber (FiltersForm.issuedFromSlider (filtersForm c))) lo hi in
  let toValue := Z.max (coerceSliderValue value lo hi) fromValue in
  let filterValue := if hi <=? toValue then None else Some (Js.toString toValue) in
  issuedTo (signals (fst (issuedToSliderValueChanges baseUrl value c))) = filterValue /\
  (snd (issuedToSliderValueChanges baseUrl value c) <> [] ->
   issuedYearFilters (signals (fst (issuedToSliderValueChanges baseUrl value c))) = []) /\
  issuedFrom (signals (fst (issuedToSliderValueChanges baseUrl value c))) =
    issuedFrom (signals c).
Proof.
  cbv zeta. unfold issuedToSliderValueChanges. cbv zeta.
  set (lo := YearBounds.min (issuedYearBounds c)).
  set (hi := YearBounds.max (issuedYearBounds c)).
  set (fromValue :=
         coerceSliderValue (RawNumber (FiltersForm.issuedFromSlider (filtersForm c))) lo hi).
  set (raw := coerceSliderValue value lo hi).
  destruct (raw <? fromValue) eqn:E.
  - apply Z.ltb_lt in E. replace (Z.max raw fromValue) with fromValue by lia.
    cbn [patchSliders withFiltersForm signals].
    destruct (Js.sameOpt _ _) eqn:Es; cbn [fst snd].
    + apply sameOpt_eq in Es. split; [now symmetry |]. split; [congruence | reflexivity].
    + match goal with
      | |- context [refreshFilterResults baseUrl ?x] =>
          destruct (refreshFilterResults_keeps baseUrl x) as (_ & _ & _ & _ & Hf & _)
      end.
      destruct Hf as (_ & _ & _ & F4 & F5 & _ & _ & F8). rewrite F4, F5, F8.
      destruct (negb _) eqn:En; through_setters; repeat split; try reflexivity.
      intros _. apply negb_false_iff, Z.eqb_eq in En.
      destruct (issuedYearFilters (signals c)); [reflexivity | discriminate En].
  - apply Z.ltb_ge in E. replace (Z.max raw fromValue) with raw by lia.
    destruct (Js.sameOpt _ _) eqn:Es; cbn [fst snd].
    + apply sameOpt_eq in Es. split; [now symmetry |]. split; [congruence | reflexivity].
    + match goal with
      | |- context [refreshFilterResults baseUrl ?x] =>
          destruct (refreshFilterResults_keeps baseUrl x) as (_ & _ & _ & _ & Hf & _)
      end.
      destruct Hf as (_ & _ & _ & F4 & F5 & _ & _ & F8). rewrite F4, F5, F8.
      destruct (negb _) eqn:En; through_setters; repeat split; try reflexivity.
      intros _. apply negb_false_iff, Z.eqb_eq in En.
      destruct (issuedYearFilters (signals c)); [reflexivity | discriminate En].
Qed.

End WithBaseUrl.

End Sliders.

Lemma toggle_year_clears_range (baseUrl : string) (item : Models.FacetItem.t)
    (c : PublicationListComponent.Component) :
  Js.trim (Models.FacetItem.value item) <> "" ->
  ~ In (Js.trim (Models.FacetItem.value item))
       (PublicationListComponent.issuedYearFilters (PublicationListComponent.signals c)) ->
  PublicationListComponent.issuedFrom
    (PublicationListComponent.signals
       (fst (PublicationListComponent.toggleFacet baseUrl PublicationListComponent.issued_years
               item c))) = None /\
  PublicationListComponent.issuedTo
    (PublicationListComponent.signals
       (fst (PublicationListComponent.toggleFacet baseUrl PublicationListComponent.issued_years
               item c))) = None.
Proof.
  intros Hv Hin. apply truthy_true_iff in Hv.
  unfold PublicationListComponent.toggleFacet. cbv zeta. rewrite Hv. cbn [negb].
  destruct (existsb _ _) eqn:E; [apply Toggles.existsb_eqb_in in E; contradiction |].
  destruct (Js.parseInt _);
    match goal with
    | |- context [PublicationListComponent.refreshFilterResults baseUrl ?x] =>
        destruct (ToggleFacts.refresh_scalars baseUrl x) as (_ & _ & _ & F4 & F5)
    end; rewrite F4, F5;
    cbn [PublicationListComponent.patchSliders PublicationListComponent.withFiltersForm
         PublicationListComponent.signals];
    rewrite ?Toggles.ensure_signals; split; reflexivity.
Qed.

(** X13. The year range and the issued years exclude each other, and the
    range stays inside the bounds. With bounds [lo <= hi]: after the
    handler of the from-slider the lower end of the range is absent or the
    text of a year above [lo] and at most [hi]; after the handler of the
    to-slider the upper end is absent or the text of a year below [hi] and
    at least [lo]; whenever one of them sets a navigation or a request off,
    the issued-year filters are empty afterwards; and selecting an issued
    year that was not selected clears both ends of the range. *)
Theorem year_range_or_years (baseUrl : string) (value : PublicationListComponent.Raw)
    (item : Models.FacetItem.t) (c : PublicationListComponent.Component) :
  let lo := PublicationListComponent.YearBounds.min (PublicationListComponent.issuedYearBounds c) in
  let hi := PublicationListComponent.YearBounds.max (PublicationListComponent.issuedYearBounds c) in
  let from := PublicationListComponent.issuedFromSliderValueChanges baseUrl value c in
  let to := PublicationListComponent.issuedToSliderValueChanges baseUrl value c in
  let picked :=
    PublicationListComponent.toggleFacet baseUrl PublicationListComponent.issued_years item c in
  lo <= hi ->
  (PublicationListComponent.issuedFrom (PublicationListComponent.signals (fst from)) = None \/
   exists v, PublicationListComponent.issuedFrom (PublicationListComponent.signals (fst from)) =
               Some (Js.toString v) /\ lo < v <= hi) /\
  (PublicationListComponent.issuedTo (PublicationListComponent.signals (fst to)) = None \/
   exists v, PublicationListComponent.issuedTo (PublicationListComponent.signals (fst to)) =
               Some (Js.toString v) /\ lo <= v < hi) /\
  (snd from <> [] ->
   PublicationListComponent.issuedYearFilters (PublicationListComponent.signals (fst from)) = []) /\
  (snd to <> [] ->
   PublicationListComponent.issuedYearFilters (PublicationListComponent.signals (fst to)) = []) /\
  (Js.trim (Models.FacetItem.value item) <> "" ->
   ~ In (Js.trim (Models.FacetItem.value item))
        (PublicationListComponent.issuedYearFilters (PublicationListComponent.signals c)) ->
   PublicationListComponent.issuedFrom (PublicationListComponent.signals (fst picked)) = None /\
   PublicationListComponent.issuedTo (PublicationListComponent.signals (fst picked)) = None).
Proof.
  intros lo hi from to picked Hb. subst from to picked.
  destruct (Sliders.from_slider_cases baseUrl value c) as (Hf & Hfy & _).
  destruct (Sliders.to_slider_cases baseUrl value c) as (Ht & Hty & _).
  cbv zeta in Hf, Ht. fold lo hi in Hf, Ht.
  pose proof (coerceSliderValue_range value lo hi Hb) as Hv.
  pose proof (coerceSliderValue_range
                (PublicationListComponent.RawNumber
                   (PublicationListComponent.FiltersForm.issuedToSlider
                      (PublicationListComponent.filtersForm c))) lo hi Hb) as Hto.
  pose proof (coerceSliderValue_range
                (PublicationListComponent.RawNumber
                   (PublicationListComponent.FiltersForm.issuedFromSlider
                      (PublicationListComponent.filtersForm c))) lo hi Hb) as Hfrom.
  split; [| split; [| split; [exact Hfy | split; [exact Hty |]]]].
  - rewrite Hf. destruct (_ <=? lo) eqn:E; [now left | right].
    apply Z.leb_gt in E. eexists. split; [reflexivity | lia].
  - rewrite Ht. destruct (hi <=? _) eqn:E; [now left | right].
    apply Z.leb_gt in E. eexists. split; [reflexivity | lia].
  - apply toggle_year_clears_range.
Qed.

(** The sliders of the sample page run from 1950 to 2025; the from-slider
    set to 1990 gives the lower end 1990. *)
Lemma year_range_or_years_witness :
  PublicationListComponent.issuedFrom
    (PublicationListComponent.signals
       (fst (PublicationListComponent.issuedFromSliderValueChanges "/api"
               (PublicationListComponent.RawNumber 1990) MoreSamples.listPage))) = None \/
  exists v,
    PublicationListComponent.issuedFrom
      (PublicationListComponent.signals
         (fst (PublicationListComponent.issuedFromSliderValueChanges "/api"
                 (PublicationListComponent.RawNumber 1990) MoreSamples.listPage))) =
      Some (Js.toString v) /\ 1950 < v <= 2025.
Proof.
  refine (proj1 (year_range_or_years "/api" (PublicationListComponent.RawNumber 1990)
                   (MoreSamples.item "2020" "2020" 3) MoreSamples.listPage _)).
  cbn. lia.
Defined.

(** ** The publication API: what a request never carries *)

Lemma list_terms (baseUrl : string) (options : option PublicationApiService.O.t) :
  let o := Js.nullish options PublicationApiService.noOptions in
  HttpParams.getAll "author" (params (PublicationApiService.list baseUrl options)) =
    match PublicationApiService.O.authors o with
    | Some l => filter Js.truthy (map Js.trim l)
    | None => []
    end /\
  HttpParams.getAll "issued_year" (params (PublicationApiService.list baseUrl options)) =
    match PublicationApiService.O.issuedYears o with
    | Some l => map Js.toString (PublicationApiService.finiteYears l)
    | None => []
    end.
Proof.
  cbv zeta. unfold PublicationApiService.list; cbn [params].
  split; through_builders; reflexivity.
Qed.

(** X14. No request of the publication API carries a blank author or an
    issued year that is not a number. For options whose issued years, as
    far as they read as numbers, are safe integers (whole numbers of a
    magnitude up to [2^53 - 1], which a [number] holds exactly and prints
    in plain digits): every [author] parameter of [list], [search],
    [listFacet] and [searchFacet] is trimmed and not empty, and every
    [issued_year] parameter is the decimal text of an integer, which reads
    back as that integer. Authors that are blank and years that do not
    read as a number are left out, the others are sent in their order. *)
Theorem api_sends_clean_terms (baseUrl query facetName : string)
    (options : option PublicationApiService.O.t) (r : HttpRequest) :
  In r [ PublicationApiService.list baseUrl options;
         PublicationApiService.search baseUrl query options;
         PublicationApiService.listFacet baseUrl facetName options;
         PublicationApiService.searchFacet baseUrl query facetName options ] ->
  (forall y, In y (Js.nullish
                     (PublicationApiService.O.issuedYears
                        (Js.nullish options PublicationApiService.noOptions)) []) ->
     match y with
     | PublicationApiService.YearNumber n => Reading.safeInteger n
     | PublicationApiService.YearString s =>
         forall n, Js.parseInt s = Some n -> Reading.safeInteger n
     end) ->
  let o := Js.nullish options PublicationApiService.noOptions in
  HttpParams.getAll "author" (params r) =
    filter Js.truthy (map Js.trim (Js.nullish (PublicationApiService.O.authors o) [])) /\
  HttpParams.getAll "issued_year" (params r) =
    map Js.toString
      (PublicationApiService.finiteYears (Js.nullish (PublicationApiService.O.issuedYears o) [])) /\
  Invariants.termsTrimmed (HttpParams.getAll "author" (params r)) /\
  Forall (fun y => exists n, y = Js.toString n /\ Js.parseInt y = Some n /\
                             Reading.safeInteger n)
         (HttpParams.getAll "issued_year" (params r)).
Proof.
  intros Hr Hsafe o.
  assert (Hsame : HttpParams.getAll "author" (params r) =
                    HttpParams.getAll "author" (params (PublicationApiService.list baseUrl options)) /\
                  HttpParams.getAll "issued_year" (params r) =
                    HttpParams.getAll "issued_year"
                      (params (PublicationApiService.list baseUrl options))).
  { assert (Ha : In "author" Reading.structuredFilterKeys) by (cbn; tauto).
    assert (Hy : In "issued_year" Reading.structuredFilterKeys) by (cbn; tauto).
    destruct Hr as [<- | [<- | [<- | [<- | []]]]].
    - split; reflexivity.
    - split; now apply list_search_filters.
    - split; now apply facet_filters_as_list.
    - split; (etransitivity; [now apply facet_filters_as_search | now apply list_search_filters]). }
  destruct Hsame as [Ha Hy]. destruct (list_terms baseUrl options) as [La Ly].
  cbv zeta in La, Ly. fold o in La, Ly.
  assert (Ea : HttpParams.getAll "author" (params r) =
               filter Js.truthy (map Js.trim (Js.nullish (PublicationApiService.O.authors o) [])))
    by (rewrite Ha, La; destruct (PublicationApiService.O.authors o); reflexivity).
  assert (Ey : HttpParams.getAll "issued_year" (params r) =
               map Js.toString
                 (PublicationApiService.finiteYears
                    (Js.nullish (PublicationApiService.O.issuedYears o) [])))
    by (rewrite Hy, Ly; destruct (PublicationApiService.O.issuedYears o); reflexivity).
  split; [exact Ea |]. split; [exact Ey |]. split.
  - rewrite Ea. unfold Invariants.termsTrimmed. apply Forall_forall. intros t Ht.
    apply filter_In in Ht. destruct Ht as [Hin Htr].
    apply in_map_iff in Hin. destruct Hin as (v & <- & _).
    split; [apply trim_idempotent | now apply truthy_true_iff].
  - rewrite Ey. apply Forall_forall. intros y Hin.
    apply in_map_iff in Hin. destruct Hin as (n & <- & Hn).
    exists n. split; [reflexivity |]. split; [apply parseInt_toString |].
    fold o in Hsafe. revert Hn Hsafe.
    generalize (Js.nullish (PublicationApiService.O.issuedYears o) []).
    intros l. induction l as [| y l IH]; cbn [PublicationApiService.finiteYears];
      intros Hn Hsafe; [contradiction |].
    assert (Hrest : forall y', In y' l ->
              match y' with
              | PublicationApiService.YearNumber n => Reading.safeInteger n
              | PublicationApiService.YearString s =>
                  forall n, Js.parseInt s = Some n -> Reading.safeInteger n
              end) by (intros y' Hy'; apply Hsafe; now right).
    specialize (Hsafe y (or_introl eq_refl)).
    destruct y as [m | s]; cbn [PublicationApiService.yearNumber] in Hn.
    + destruct Hn as [<- | Hn]; [exact Hsafe | now apply IH].
    + destruct (Js.parseInt s) as [m |] eqn:E; [| now apply IH].
      destruct Hn as [<- | Hn]; [now apply Hsafe | now apply IH].
Qed.

(** A blank author and a year without number are left out. *)
Lemma api_sends_clean_terms_witness :
  let options :=
    Some {| PublicationApiService.O.page := Some 2;
            PublicationApiService.O.search := None;
            PublicationApiService.O.pageSize := None;
            PublicationApiService.O.journalSlug := None;
            PublicationApiService.O.journalId := None;
            PublicationApiService.O.ordering := None;
            PublicationApiService.O.issuedFrom := None;
            PublicationApiService.O.issuedTo := None;
            PublicationApiService.O.subject := None;
            PublicationApiService.O.authors := Some [" Otieno "; "  "];
            PublicationApiService.O.issuedYears :=
              Some [PublicationApiService.YearString "2020";
                    PublicationApiService.YearString "n.d."] |} in
  HttpParams.getAll "author" (params (PublicationApiService.listFacet "/api" "authors" options)) =
    ["Otieno"] /\
  HttpParams.getAll "issued_year"
    (params (PublicationApiService.listFacet "/api" "authors" options)) = ["2020"].
Proof.
  intros options.
  destruct (api_sends_clean_terms "/api" "" "authors" options
              (PublicationApiService.listFacet "/api" "authors" options))
    as (Ha & Hy & _).
  - right. right. left. reflexivity.
  - intros y [<- | [<- | []]] n Hn; vm_compute in Hn.
    + injection Hn as <-. unfold Reading.safeInteger. vm_compute. discriminate.
    + discriminate Hn.
  - split; [exact Ha | exact Hy].
Defined.

(** ** Merging navigations *)

Lemma getAll_routeEntry_other (k k' : string) (v : QueryValue) :
  String.eqb k' k = false -> HttpParams.getAll k (routeEntry (k', v)) = [].
Proof.
  intros Hk. unfold routeEntry; cbn [fst snd].
  destruct v as [s | n | [| x l] |]; cbn [HttpParams.getAll]; rewrite ?Hk; reflexivity.
Qed.

Lemma getAll_mergeEntry (k : string) (m : ParamMap.t) (kv : string * QueryValue) :
  HttpParams.getAll k (mergeEntry m kv) =
  if String.eqb (fst kv) k then HttpParams.getAll k (routeEntry kv) else HttpParams.getAll k m.
Proof.
  destruct kv as [k' v]. unfold mergeEntry, removeKey; cbn [fst].
  destruct (String.eqb k' k) eqn:Hk.
  - apply String.eqb_eq in Hk. subst k'.
    induction m as [| [a vs] m IH]; [reflexivity |].
    cbn [filter fst]. destruct (String.eqb a k) eqn:Ha; cbn [negb]; [exact IH |].
    cbn [app HttpParams.getAll]. rewrite Ha. exact IH.
  - induction m as [| [a vs] m IH].
    + cbn [filter app]. now apply getAll_routeEntry_other.
    + cbn [filter fst HttpParams.getAll].
      destruct (String.eqb a k') eqn:Ha; cbn [negb].
      * apply String.eqb_eq in Ha. subst a. rewrite Hk. exact IH.
      * cbn [app HttpParams.getAll]. destruct (String.eqb a k); [reflexivity | exact IH].
Qed.

Lemma get_mergeEntry (k : string) (m : ParamMap.t) (kv : string * QueryValue) :
  ParamMap.get k (mergeEntry m kv) =
  if String.eqb (fst kv) k then ParamMap.get k (routeEntry kv) else ParamMap.get k m.
Proof.
  unfold ParamMap.get, HttpParams.get. rewrite getAll_mergeEntry.
  now destruct (String.eqb (fst kv) k).
Qed.

(** A key that the navigation does not name keeps its values. *)
Lemma getAll_mergeRoute_other (k : string) (q : QueryParams) (current : ParamMap.t) :
  queryParam k q = None ->
  HttpParams.getAll k (mergeRoute current q) = HttpParams.getAll k current.
Proof.
  unfold mergeRoute, queryParam. revert current.
  induction q as [| [k' v] q IH]; intros current Hq; [reflexivity |].
  cbn [fold_left]. cbn [find fst] in Hq.
  destruct (String.eqb k' k) eqn:Hk; [discriminate |].
  rewrite IH by exact Hq. rewrite getAll_mergeEntry. cbn [fst]. now rewrite Hk.
Qed.

Lemma get_entry_null (k : string) : ParamMap.get k (routeEntry (k, QNull)) = None.
Proof. reflexivity. Qed.

Lemma get_entry_string (k v : string) : ParamMap.get k (routeEntry (k, QString v)) = Some v.
Proof.
  pose proof (entry_string k v) as H. unfold ParamMap.getAll in H.
  unfold ParamMap.get, HttpParams.get. now rewrite H.
Qed.

Lemma get_entry_number (k : string) (n : Z) :
  ParamMap.get k (routeEntry (k, QNumber n)) = Some (Js.toString n).
Proof.
  pose proof (entry_number k n) as H. unfold ParamMap.getAll in H.
  unfold ParamMap.get, HttpParams.get. now rewrite H.
Qed.

(** ** The route of the harvest-log list *)

Module HarvestRoute.
Import HarvestLogListComponent.

Lemma stringOrNull_entry (k : string) (v : option string) :
  ParamMap.get k (routeEntry (k, stringOrNull v)) =
  match v with
  | Some s => if Js.truthy s then Some s else None
  | None => None
  end.
Proof.
  destruct v as [s |]; [| reflexivity]. cbn [stringOrNull].
  destruct (Js.truthy s); [apply get_entry_string | reflexivity].
Qed.

(** A key on which the route and the wanted value do not differ holds the
    wanted value already. *)
Lemma same_value (current : ParamMap.t) (k : string) (v : QueryValue) :
  match v with QArray _ => False | _ => True end ->
  (let kv := (k, v) in
   let currentValue := ParamMap.get (fst kv) current in
   match snd kv with
   | QNull => match currentValue with Some _ => true | None => false end
   | nextValue =>
       match currentValue with
       | Some c => negb (String.eqb (queryValueString nextValue) c)
       | None => true
       end
   end) = false ->
  ParamMap.get k current = ParamMap.get k (routeEntry (k, v)).
Proof.
  intros Hv H. cbv zeta in H. cbn [fst snd] in H.
  destruct v as [s | n | l |]; [| | contradiction |]; cbn [queryValueString] in H.
  - rewrite get_entry_string. destruct (ParamMap.get k current) as [c |]; [| discriminate].
    apply negb_false_iff, String.eqb_eq in H. now subst c.
  - rewrite get_entry_number. destruct (ParamMap.get k current) as [c |]; [| discriminate].
    apply negb_false_iff, String.eqb_eq in H. now subst c.
  - rewrite get_entry_null. now destruct (ParamMap.get k current).
Qed.

Lemma stringOrNull_scalar (v : option string) :
  match stringOrNull v with QArray _ => False | _ => True end.
Proof. destruct v as [s |]; [| exact I]. cbn. now destruct (Js.truthy s). Qed.

(** The route after [updateQueryParams], key by key. *)
Lemma route_after (current : ParamMap.t) (overrides : Overrides) (st : State) :
  let route := Invariants.routeAfter current (updateQueryParams current overrides st) in
  let nextPage := Js.nullish (o_page overrides) (page st) in
  let nextPageSize := Js.nullish (o_page_size overrides) (pageSize st) in
  ParamMap.get "page" route =
    (if 1 <? nextPage then Some (Js.toString nextPage) else None) /\
  ParamMap.get "page_size" route =
    (if nextPageSize =? DEFAULT_PAGE_SIZE then None else Some (Js.toString nextPageSize)) /\
  ParamMap.get "journal" route =
    ParamMap.get "journal"
      (routeEntry ("journal", stringOrNull (Js.nullish (o_journal overrides) (journalSlug st)))) /\
  ParamMap.get "journal_name" route =
    ParamMap.get "journal_name"
      (routeEntry ("journal_name",
                   stringOrNull (Js.nullish (o_journal_name overrides) (journalName st)))) /\
  ParamMap.get "status" route =
    ParamMap.get "status"
      (routeEntry ("status", stringOrNull (Js.nullish (o_status overrides) (statusFilter st)))).
Proof.
  cbv zeta. unfold updateQueryParams. cbv zeta.
  match goal with
  | |- context [if negb ?b then _ else _] => destruct b eqn:E
  end; cbn [negb].
  - unfold Invariants.routeAfter; cbn [fold_left]. unfold mergeRoute; cbn [fold_left].
    rewrite !get_mergeEntry. cbn [fst]. decide_keys.
    repeat split.
    + destruct (1 <? _); [apply get_entry_number | reflexivity].
    + destruct (_ =? DEFAULT_PAGE_SIZE); cbn [negb]; [reflexivity | apply get_entry_number].
  - unfold Invariants.routeAfter; cbn [fold_left].
    cbn [existsb fst snd] in E.
    repeat match type of E with
           | (_ || _)%bool = false => apply orb_false_iff in E; destruct E as [?H E]
           end.
    repeat split.
    + destruct (1 <? _).
      * rewrite <- get_entry_number with (k := "page"). now apply same_value.
      * now apply (same_value current "page" QNull).
    + destruct (_ =? DEFAULT_PAGE_SIZE); cbn [negb] in *.
      * now apply (same_value current "page_size" QNull).
      * rewrite <- get_entry_number with (k := "page_size"). now apply same_value.
    + apply same_value; [apply stringOrNull_scalar | assumption].
    + apply same_value; [apply stringOrNull_scalar | assumption].
    + apply same_value; [apply stringOrNull_scalar | assumption].
Qed.

End HarvestRoute.

Module HarvestSettle.
Import HarvestLogListComponent.

(** A key that holds the wanted value is not a difference. *)
Lemma no_difference (route : ParamMap.t) (k : string) (v : QueryValue) :
  match v with QArray _ => False | _ => True end ->
  ParamMap.get k route = ParamMap.get k (routeEntry (k, v)) ->
  (let kv := (k, v) in
   let currentValue := ParamMap.get (fst kv) route in
   match snd kv with
   | QNull => match currentValue with Some _ => true | None => false end
   | nextValue =>
       match currentValue with
       | Some c => negb (String.eqb (queryValueString nextValue) c)
       | None => true
       end
   end) = false.
Proof.
  intros Hv H. cbv zeta. cbn [fst snd]. rewrite H.
  destruct v as [s | n | l |]; [| | contradiction |]; cbn [queryValueString].
  - rewrite get_entry_string. now rewrite String.eqb_refl.
  - rewrite get_entry_number. now rewrite String.eqb_refl.
  - now rewrite get_entry_null.
Qed.

Lemma effects_cases (current : ParamMap.t) (overrides : Overrides) (st : State) :
  updateQueryParams current overrides st = [] \/
  exists q, updateQueryParams current overrides st = [Navigate [] q] /\
            map fst q = ["page"; "page_size"; "journal"; "journal_name"; "status"].
Proof.
  unfold updateQueryParams; cbv zeta.
  match goal with
  | |- context [if ?b then _ else _] => destruct b
  end; [now left | right; eexists; split; reflexivity].
Qed.

Lemma foreign_keys (current : ParamMap.t) (overrides : Overrides) (st : State) (k : string) :
  ~ In k ["page"; "page_size"; "journal"; "journal_name"; "status"] ->
  ParamMap.getAll k (Invariants.routeAfter current (updateQueryParams current overrides st)) =
  ParamMap.getAll k current.
Proof.
  intros Hk. destruct (effects_cases current overrides st) as [-> | (q & -> & Hq)];
    [reflexivity |].
  unfold Invariants.routeAfter; cbn [fold_left]. apply getAll_mergeRoute_other.
  unfold queryParam. destruct (find _ q) as [[k' v] |] eqn:Hf; [| reflexivity].
  apply find_some in Hf. destruct Hf as [Hin Hk']. cbn [fst] in Hk'.
  apply String.eqb_eq in Hk'. subst k'.
  exfalso. apply Hk. rewrite <- Hq. now apply (in_map fst) in Hin.
Qed.

End HarvestSettle.

(** X15. The harvest-log list and its route agree after one navigation. For
    every route, state and overrides, [updateQueryParams] navigates at most
    once, with a navigation that stays on the page; on the route that
    results (the parameters of the navigation merged into the current
    ones) the same call navigates no more, and every query parameter other
    than [page], [page_size], [journal], [journal_name] and [status] is as
    it was. *)
Theorem harvest_route_settles (current : ParamMap.t)
    (overrides : HarvestLogListComponent.Overrides) (st : HarvestLogListComponent.State) :
  let effects := HarvestLogListComponent.updateQueryParams current overrides st in
  let route := Invariants.routeAfter current effects in
  (effects = [] \/ exists q, effects = [Navigate [] q]) /\
  HarvestLogListComponent.updateQueryParams route overrides st = [] /\
  (forall k, ~ In k ["page"; "page_size"; "journal"; "journal_name"; "status"] ->
             ParamMap.getAll k route = ParamMap.getAll k current).
Proof.
  cbv zeta. split; [| split].
  - destruct (HarvestSettle.effects_cases current overrides st) as [H | (q & H & _)];
      [now left | right; now exists q].
  - destruct (HarvestRoute.route_after current overrides st) as (Hp & Hs & Hj & Hn & Ht).
    set (route := Invariants.routeAfter current _) in *.
    unfold HarvestLogListComponent.updateQueryParams; cbv zeta.
    match goal with
    | |- (if negb ?b then _ else _) = _ => assert (E : b = false); [| now rewrite E]
    end.
    cbn [existsb].
    rewrite !HarvestSettle.no_difference; [reflexivity | ..];
      try apply HarvestRoute.stringOrNull_scalar; try assumption.
    + now destruct (negb _).
    + rewrite Hs. destruct (_ =? HarvestLogListComponent.DEFAULT_PAGE_SIZE); cbn [negb];
        [reflexivity | symmetry; apply get_entry_number].
    + now destruct (1 <? _).
    + rewrite Hp. destruct (1 <? _); [symmetry; apply get_entry_number | reflexivity].
  - intros k Hk. now apply HarvestSettle.foreign_keys.
Qed.

(** X16. Going to a page of the harvest logs. For a target page that
    exists and is not the page shown, the route after [goToPage] names the
    target in [page], or leaves [page] out when the target is the first
    page; the signals are not touched (the route handler sets them when the
    route changes). *)
Theorem harvest_goToPage_route (current : ParamMap.t) (target : Z)
    (st : HarvestLogListComponent.State) :
  1 <= target <= HarvestLogListComponent.totalPages st ->
  target <> HarvestLogListComponent.page st ->
  let result := HarvestLogListComponent.goToPage current target st in
  fst result = st /\
  ParamMap.get "page" (Invariants.routeAfter current (snd result)) =
  if target =? 1 then None else Some (Js.toString target).
Proof.
  intros Hr Hn. cbv zeta. unfold HarvestLogListComponent.goToPage.
  replace (target =? HarvestLogListComponent.page st) with false by (symmetry; lia).
  replace (target <? 1) with false by (symmetry; lia).
  replace (HarvestLogListComponent.totalPages st <? target) with false by (symmetry; lia).
  cbn [orb fst snd]. split; [reflexivity |].
  match goal with
  | |- context [HarvestLogListComponent.updateQueryParams ?c ?o ?s] =>
      destruct (HarvestRoute.route_after c o s) as (Hp & _)
  end.
  rewrite Hp. cbn [Js.nullish HarvestLogListComponent.o_page].
  destruct (target =? 1) eqn:E.
  - replace (1 <? target) with false by (symmetry; lia). reflexivity.
  - replace (1 <? target) with true by (symmetry; lia). reflexivity.
Qed.

Lemma harvest_goToPage_route_witness :
  fst (HarvestLogListComponent.goToPage [] 3 Samples.manyLogs) = Samples.manyLogs /\
  ParamMap.get "page"
    (Invariants.routeAfter [] (snd (HarvestLogListComponent.goToPage [] 3 Samples.manyLogs))) =
  Some "3".
Proof.
  apply (harvest_goToPage_route [] 3 Samples.manyLogs); vm_compute; intuition discriminate.
Defined.

(** X17. Changing the page size of the harvest logs goes back to the first
    page. When the chosen value reads as a positive number other than the
    size in use, the route after [changePageSize] has no [page] and names
    the size in [page_size], or leaves [page_size] out when the size is the
    default of 25; the signals are not touched. *)
Theorem harvest_changePageSize_route (current : ParamMap.t) (value : string) (n : Z)
    (st : HarvestLogListComponent.State) :
  Js.parseInt value = Some n ->
  0 < n ->
  n <> HarvestLogListComponent.pageSize st ->
  let result := HarvestLogListComponent.changePageSize current value st in
  fst result = st /\
  ParamMap.get "page" (Invariants.routeAfter current (snd result)) = None /\
  ParamMap.get "page_size" (Invariants.routeAfter current (snd result)) =
  if n =? 25 then None else Some (Js.toString n).
Proof.
  intros Hv Hp Hn. cbv zeta. unfold HarvestLogListComponent.changePageSize. rewrite Hv.
  replace (n <=? 0) with false by (symmetry; lia).
  unfold Js.max. replace (Z.max 1 n) with n by lia.
  replace (n =? HarvestLogListComponent.pageSize st) with false by (symmetry; lia).
  cbn [fst snd]. split; [reflexivity |].
  match goal with
  | |- context [HarvestLogListComponent.updateQueryParams ?c ?o ?s] =>
      destruct (HarvestRoute.route_after c o s) as (H1 & H2 & _)
  end.
  rewrite H1, H2.
  cbn [Js.nullish HarvestLogListComponent.o_page HarvestLogListComponent.o_page_size].
  split; reflexivity.
Qed.

Lemma harvest_changePageSize_route_witness :
  let result := HarvestLogListComponent.changePageSize [("page", ["4"])] "50" Samples.manyLogs in
  fst result = Samples.manyLogs /\
  ParamMap.get "page" (Invariants.routeAfter [("page", ["4"])] (snd result)) = None /\
  ParamMap.get "page_size" (Invariants.routeAfter [("page", ["4"])] (snd result)) = Some "50".
Proof.
  apply (harvest_changePageSize_route [("page", ["4"])] "50" 50 Samples.manyLogs);
    vm_compute; intuition discriminate.
Defined.

(** X18. Clearing the journal filter of the harvest logs. After
    [clearJournalFilter] the component has no journal and no journal name,
    and the route has neither [journal] nor [journal_name] nor [page];
    the status filter, the page size and the loaded logs are as before. *)
Theorem harvest_clearJournalFilter_route (current : ParamMap.t)
    (st : HarvestLogListComponent.State) :
  let result := HarvestLogListComponent.clearJournalFilter current st in
  let route := Invariants.routeAfter current (snd result) in
  HarvestLogListComponent.journalSlug (fst result) = None /\
  HarvestLogListComponent.journalName (fst result) = None /\
  ParamMap.get "journal" route = None /\
  ParamMap.get "journal_name" route = None /\
  ParamMap.get "page" route = None /\
  HarvestLogListComponent.statusFilter (fst result) = HarvestLogListComponent.statusFilter st /\
  HarvestLogListComponent.pageSize (fst result) = HarvestLogListComponent.pageSize st /\
  HarvestLogListComponent.logs (fst result) = HarvestLogListComponent.logs st.
Proof.
  cbv zeta. unfold HarvestLogListComponent.clearJournalFilter. cbn [fst snd].
  match goal with
  | |- context [HarvestLogListComponent.updateQueryParams ?c ?o ?s] =>
      destruct (HarvestRoute.route_after c o s) as (Hp & _ & Hj & Hn & _)
  end.
  rewrite Hp, Hj, Hn. repeat split; reflexivity.
Qed.

Lemma sorted_bool_prop {A : Type} (le : A -> A -> bool) (R : A -> A -> Prop) (l : list A) :
  (forall a b, le a b = true -> R a b) ->
  StronglySorted (fun a b => le a b = true) l -> StronglySorted R l.
Proof.
  intros HR Hs. induction Hs as [| a l Hs IH Ha]; constructor; [exact IH |].
  eapply Forall_impl; [| exact Ha]. intros b Hb. now apply HR.
Qed.




(** ** The facet page *)

(** X20. The facet values shown. Whatever the facet endpoint answers,
    [fetchFacetNext] shows exactly the values received (none when the
    answer has no array of results), each as often as it was received, in
    the order of falling count; it ends the loading state, makes no call
    and keeps the facet, the search and the filters of the page. *)
Theorem fetchFacetNext_sorts (options : PublicationApiService.O.t)
    (response : Models.FacetListResponse.t) (st : PublicationFacetListComponent.State) :
  let result := PublicationFacetListComponent.fetchFacetNext options response st in
  let st' := fst result in
  Permutation (PublicationFacetListComponent.items st')
    (Js.nullish (Models.FacetListResponse.results response) []) /\
  Invariants.byFallingCount (PublicationFacetListComponent.items st') /\
  PublicationFacetListComponent.loading st' = false /\
  snd result = [] /\
  PublicationFacetListComponent.facetKey st' = PublicationFacetListComponent.facetKey st /\
  PublicationFacetListComponent.searchTerm st' = PublicationFacetListComponent.searchTerm st /\
  PublicationFacetListComponent.baseQueryParams st' =
    PublicationFacetListComponent.baseQueryParams st.
Proof.
  cbv zeta. unfold PublicationFacetListComponent.fetchFacetNext; cbv zeta.
  cbn [fst snd PublicationFacetListComponent.items PublicationFacetListComponent.loading
       PublicationFacetListComponent.facetKey PublicationFacetListComponent.searchTerm
       PublicationFacetListComponent.baseQueryParams].
  split; [apply sortBy_perm |]. split; [| repeat split].
  unfold Invariants.byFallingCount.
  apply (sorted_bool_prop
           (fun a b => Models.FacetItem.count b <=? Models.FacetItem.count a));
    [intros a b H; lia |].
  apply sortBy_sorted.
  - intros a b.
    destruct (Z.leb_spec (Models.FacetItem.count b) (Models.FacetItem.count a));
      [now left | right; lia].
  - intros a b c Hab Hbc. lia.
Qed.

(** X21. The page links of the facet page. For a page that exists (between
    1 and the number of pages) [pageNumbers] is a run of at most seven
    consecutive, strictly increasing page numbers, each of them a page that
    exists, with the page shown among them. *)
Theorem facet_pageNumbers_window (st : PublicationFacetListComponent.State) :
  1 <= PublicationFacetListComponent.page st <= PublicationFacetListComponent.totalPages st ->
  Reading.pageWindow (PublicationFacetListComponent.pageNumbers st)
    (PublicationFacetListComponent.page st) (PublicationFacetListComponent.totalPages st).
Proof.
  intros H. unfold PublicationFacetListComponent.pageNumbers; cbv zeta.
  change PublicationFacetListComponent.MAX_PAGE_LINKS with 7. now apply page_window.
Qed.

Lemma facet_pageNumbers_window_witness :
  Reading.pageWindow (PublicationFacetListComponent.pageNumbers MoreSamples.subjectsPage) 1 1.
Proof.
  apply (facet_pageNumbers_window MoreSamples.subjectsPage). vm_compute.
  split; discriminate.
Defined.

Module FacetRoute.
Import PublicationFacetListComponent.

Lemma get_of_getAll (k : string) (a b : ParamMap.t) :
  ParamMap.getAll k a = ParamMap.getAll k b -> ParamMap.get k a = ParamMap.get k b.
Proof.
  unfold ParamMap.getAll, ParamMap.get, HttpParams.get. now intros ->.
Qed.

(** What [parseQueryParams] reads beside the page and the page size
    depends on the other query parameters only. *)
Lemma parseQueryParams_filters (a b : ParamMap.t) :
  (forall k, k <> "page" -> k <> "page_size" -> ParamMap.getAll k a = ParamMap.getAll k b) ->
  c_searchMode (parseQueryParams a) = c_searchMode (parseQueryParams b) /\
  c_searchTerm (parseQueryParams a) = c_searchTerm (parseQueryParams b) /\
  c_baseQuery (parseQueryParams a) = c_baseQuery (parseQueryParams b) /\
  c_filterChips (parseQueryParams a) = c_filterChips (parseQueryParams b).
Proof.
  intros H.
  assert (Hg : forall k, k <> "page" -> k <> "page_size" ->
                         ParamMap.get k a = ParamMap.get k b).
  { intros k H1 H2. apply get_of_getAll. now apply H. }
  unfold parseQueryParams; cbv zeta.
  rewrite (Hg "search"), (Hg "search_mode"), (Hg "journal"), (Hg "journal_name"),
    (Hg "ordering"), (Hg "issued_from"), (Hg "issued_to"), (Hg "subject"),
    (H "author"), (H "issued_year") by discriminate.
  repeat match goal with
         | |- context [match ?p with pair _ _ => _ end] => destruct p
         end.
  repeat split.
Qed.

Lemma parseQueryParams_page (q : ParamMap.t) :
  c_page (parseQueryParams q) =
  match Js.parseInt (Js.nullish (ParamMap.get "page" q) "") with
  | Some n => if 0 <? n then n else 1
  | None => 1
  end.
Proof.
  unfold parseQueryParams; cbv zeta.
  repeat match goal with
         | |- context [let '(x, y) := ?p in _] => destruct p
         end.
  reflexivity.
Qed.

Lemma parseQueryParams_pageSize (q : ParamMap.t) :
  c_pageSize (parseQueryParams q) =
  match Js.parseInt (Js.nullish (ParamMap.get "page_size" q) "") with
  | Some n => if 0 <? n then n else DEFAULT_PAGE_SIZE
  | None => DEFAULT_PAGE_SIZE
  end.
Proof.
  unfold parseQueryParams; cbv zeta.
  repeat match goal with
         | |- context [let '(x, y) := ?p in _] => destruct p
         end.
  reflexivity.
Qed.

End FacetRoute.

(** X22. Going to a page of the facet list and back through the route. For
    a target page that exists and is not the page shown, [goToPage]
    navigates once; the route that results reads, in [parseQueryParams], as
    the target page with the page size, the search and every filter of the
    route before. *)
Theorem facet_goToPage_round_trip (route : ParamMap.t) (target : Z)
    (st : PublicationFacetListComponent.State) :
  1 <= target <= PublicationFacetListComponent.totalPages st ->
  target <> PublicationFacetListComponent.page st ->
  let route' :=
    Invariants.routeAfter route (PublicationFacetListComponent.goToPage target st) in
  let before := PublicationFacetListComponent.parseQueryParams route in
  let after := PublicationFacetListComponent.parseQueryParams route' in
  PublicationFacetListComponent.c_page after = target /\
  PublicationFacetListComponent.c_pageSize after =
    PublicationFacetListComponent.c_pageSize before /\
  PublicationFacetListComponent.c_searchMode after =
    PublicationFacetListComponent.c_searchMode before /\
  PublicationFacetListComponent.c_searchTerm after =
    PublicationFacetListComponent.c_searchTerm before /\
  PublicationFacetListComponent.c_baseQuery after =
    PublicationFacetListComponent.c_baseQuery before /\
  PublicationFacetListComponent.c_filterChips after =
    PublicationFacetListComponent.c_filterChips before.
Proof.
  intros Hr Hn. cbv zeta. unfold PublicationFacetListComponent.goToPage.
  replace (target =? PublicationFacetListComponent.page st) with false by (symmetry; lia).
  replace (target <? 1) with false by (symmetry; lia).
  replace (PublicationFacetListComponent.totalPages st <? target) with false
    by (symmetry; lia).
  cbn [orb]. unfold Invariants.routeAfter; cbn [fold_left].
  unfold mergeRoute; cbn [fold_left].
  split; [| split].
  - rewrite FacetRoute.parseQueryParams_page, get_mergeEntry. cbn [fst]. decide_keys.
    destruct (1 <? target) eqn:E.
    + rewrite get_entry_number. cbn [Js.nullish]. rewrite parseInt_toString.
      replace (0 <? target) with true by (symmetry; lia). reflexivity.
    + rewrite get_entry_null. cbn [Js.nullish].
      change (Js.parseInt "") with (@None Z). cbv iota. apply Z.ltb_ge in E. lia.
  - rewrite !FacetRoute.parseQueryParams_pageSize, get_mergeEntry. cbn [fst]. decide_keys.
    reflexivity.
  - apply FacetRoute.parseQueryParams_filters. intros k H1 H2.
    unfold ParamMap.getAll. rewrite getAll_mergeEntry. cbn [fst].
    destruct (String.eqb "page" k) eqn:E; [| reflexivity].
    apply String.eqb_eq in E. congruence.
Qed.

Lemma facet_goToPage_round_trip_witness :
  let st := fst (PublicationFacetListComponent.fetchFacetNext Samples.facetOptions
                   {| Models.FacetListResponse.count := Some 240;
                      Models.FacetListResponse.page := Some 1;
                      Models.FacetListResponse.page_size := Some 50;
                      Models.FacetListResponse.total_pages := Some 5;
                      Models.FacetListResponse.next := None;
                      Models.FacetListResponse.previous := None;
                      Models.FacetListResponse.param := None;
                      Models.FacetListResponse.results := None |}
                   MoreSamples.subjectsPage) in
  let route := [("journal", ["ajk"]); ("page_size", ["50"])] in
  let after :=
    PublicationFacetListComponent.parseQueryParams
      (Invariants.routeAfter route (PublicationFacetListComponent.goToPage 3 st)) in
  PublicationFacetListComponent.c_page after = 3 /\
  PublicationFacetListComponent.c_baseQuery after = [("journal", QString "ajk")].
Proof.
  cbv zeta.
  match goal with
  | |- context [PublicationFacetListComponent.goToPage 3 ?st] =>
      destruct (facet_goToPage_round_trip [("journal", ["ajk"]); ("page_size", ["50"])] 3 st)
        as (Hp & _ & _ & _ & Hb & _)
  end.
  - vm_compute. split; discriminate.
  - vm_compute. discriminate.
  - split; [exact Hp |]. rewrite Hb. reflexivity.
Defined.

(** X23. Changing the page size of the facet list. When the chosen value
    reads as a positive number, [changePageSize] navigates once; the route
    that results reads, in [parseQueryParams], as the first page of that
    size, with the search and every filter of the route before. A value
    that does not read as a positive number changes nothing. *)
Theorem facet_changePageSize_round_trip (route : ParamMap.t) (rawValue : string)
    (st : PublicationFacetListComponent.State) :
  let effects := PublicationFacetListComponent.changePageSize rawValue st in
  let before := PublicationFacetListComponent.parseQueryParams route in
  let after :=
    PublicationFacetListComponent.parseQueryParams (Invariants.routeAfter route effects) in
  match Js.parseInt rawValue with
  | Some n =>
      if 0 <? n
      then PublicationFacetListComponent.c_page after = 1 /\
           PublicationFacetListComponent.c_pageSize after = n
      else effects = []
  | None => effects = []
  end /\
  PublicationFacetListComponent.c_searchMode after =
    PublicationFacetListComponent.c_searchMode before /\
  PublicationFacetListComponent.c_searchTerm after =
    PublicationFacetListComponent.c_searchTerm before /\
  PublicationFacetListComponent.c_baseQuery after =
    PublicationFacetListComponent.c_baseQuery before /\
  PublicationFacetListComponent.c_filterChips after =
    PublicationFacetListComponent.c_filterChips before.
Proof.
  cbv zeta. unfold PublicationFacetListComponent.changePageSize.
  destruct (Js.parseInt rawValue) as [n |]; [| now repeat split].
  destruct (Z.ltb_spec 0 n) as [Hn | Hn].
  - replace (n <=? 0) with false by (symmetry; lia).
    unfold Js.max. replace (Z.max 1 n) with n by lia.
    unfold Invariants.routeAfter; cbn [fold_left]. unfold mergeRoute; cbn [fold_left].
    split; [split |].
    + rewrite FacetRoute.parseQueryParams_page, !get_mergeEntry. cbn [fst]. decide_keys.
      reflexivity.
    + rewrite FacetRoute.parseQueryParams_pageSize, !get_mergeEntry. cbn [fst]. decide_keys.
      rewrite get_entry_number. cbn [Js.nullish]. rewrite parseInt_toString.
      replace (0 <? n) with true by (symmetry; lia). reflexivity.
    + apply FacetRoute.parseQueryParams_filters. intros k H1 H2.
      unfold ParamMap.getAll. rewrite !getAll_mergeEntry. cbn [fst].
      destruct (String.eqb "page" k) eqn:E1;
        [apply String.eqb_eq in E1; congruence |].
      destruct (String.eqb "page_size" k) eqn:E2;
        [apply String.eqb_eq in E2; congruence |].
      reflexivity.
  - replace (n <=? 0) with true by (symmetry; lia). now repeat split.
Qed.

(** ** Assignments to and deletions from a [queryParams] object *)

Section PutFacts.

Lemma getAll_entry_app (k : string) (kv : string * QueryValue) (a b : ParamMap.t) :
  ParamMap.getAll k a = ParamMap.getAll k b ->
  ParamMap.getAll k (routeEntry kv ++ a)%list = ParamMap.getAll k (routeEntry kv ++ b)%list.
Proof.
  intros H. unfold routeEntry, ParamMap.getAll in *. destruct kv as [k' v]. cbn [fst snd].
  destruct v as [s | n | [| x l] |]; cbn [app HttpParams.getAll];
    try exact H; destruct (String.eqb k' k); auto.
Qed.

Lemma route_absent (k : string) (q : QueryParams) :
  ~ In k (map fst q) -> ParamMap.getAll k (routeOf q) = [].
Proof.
  induction q as [| [k' v] q IH]; intros Hk; [reflexivity |].
  cbn [map fst In] in Hk. change (routeOf ((k', v) :: q)) with (routeEntry (k', v) ++ routeOf q)%list.
  rewrite routeEntry_other.
  - apply IH. tauto.
  - apply String.eqb_neq. tauto.
Qed.

Lemma route_put_other (k k' : string) (v : QueryValue) (q : QueryParams) :
  String.eqb k' k = false ->
  ParamMap.getAll k (routeOf (put k' v q)) = ParamMap.getAll k (routeOf q).
Proof.
  intros Hk. induction q as [| [a va] q IH]; cbn [put].
  - change (routeOf [(k', v)]) with (routeEntry (k', v) ++ [])%list.
    now rewrite routeEntry_other.
  - destruct (String.eqb a k') eqn:Ha.
    + apply String.eqb_eq in Ha. subst a.
      change (routeOf ((k', v) :: q)) with (routeEntry (k', v) ++ routeOf q)%list.
      change (routeOf ((k', va) :: q)) with (routeEntry (k', va) ++ routeOf q)%list.
      now rewrite !routeEntry_other.
    + change (routeOf ((a, va) :: put k' v q))
        with (routeEntry (a, va) ++ routeOf (put k' v q))%list.
      change (routeOf ((a, va) :: q)) with (routeEntry (a, va) ++ routeOf q)%list.
      now apply getAll_entry_app.
Qed.

Lemma route_put_same (k : string) (v : QueryValue) (q : QueryParams) :
  Invariants.distinctKeys q ->
  ParamMap.getAll k (routeOf (put k v q)) = ParamMap.getAll k (routeEntry (k, v)).
Proof.
  unfold Invariants.distinctKeys. induction q as [| [a va] q IH]; intros Hd; cbn [put].
  - change (routeOf [(k, v)]) with (routeEntry (k, v) ++ [])%list. now rewrite app_nil_r.
  - cbn [map fst] in Hd. inversion Hd as [| ? ? Hin Hrest]; subst.
    destruct (String.eqb a k) eqn:Ha.
    + apply String.eqb_eq in Ha. subst a.
      change (routeOf ((k, v) :: q)) with (routeEntry (k, v) ++ routeOf q)%list.
      pose proof (route_absent k q Hin) as Hq.
      unfold routeEntry, ParamMap.getAll in *; cbn [fst snd].
      destruct v as [s | n | [| x l] |]; cbn [app HttpParams.getAll];
        rewrite ?String.eqb_refl; auto.
    + change (routeOf ((a, va) :: put k v q))
        with (routeEntry (a, va) ++ routeOf (put k v q))%list.
      rewrite routeEntry_other by exact Ha. now apply IH.
Qed.

Lemma route_delete_other (k k' : string) (q : QueryParams) :
  String.eqb k' k = false ->
  ParamMap.getAll k (routeOf (deleteParam k' q)) = ParamMap.getAll k (routeOf q).
Proof.
  intros Hk. unfold deleteParam. induction q as [| [a va] q IH]; [reflexivity |].
  cbn [filter fst]. destruct (String.eqb a k') eqn:Ha; cbn [negb].
  - apply String.eqb_eq in Ha. subst a.
    change (routeOf ((k', va) :: q)) with (routeEntry (k', va) ++ routeOf q)%list.
    now rewrite routeEntry_other.
  - match goal with
    | |- ParamMap.getAll k (routeOf (_ :: ?r)) = _ =>
        change (routeOf ((a, va) :: r)) with (routeEntry (a, va) ++ routeOf r)%list
    end.
    change (routeOf ((a, va) :: q)) with (routeEntry (a, va) ++ routeOf q)%list.
    now apply getAll_entry_app.
Qed.

Lemma delete_keys (k : string) (q : QueryParams) :
  map fst (deleteParam k q) = filter (fun a => negb (String.eqb a k)) (map fst q).
Proof.
  unfold deleteParam. induction q as [| [a va] q IH]; [reflexivity |].
  cbn [filter map fst]. destruct (negb (String.eqb a k)); cbn [map fst]; now rewrite IH.
Qed.

Lemma route_delete_same (k : string) (q : QueryParams) :
  ParamMap.getAll k (routeOf (deleteParam k q)) = [].
Proof.
  apply route_absent. rewrite delete_keys. intros H. apply filter_In in H.
  destruct H as [_ H]. now rewrite String.eqb_refl in H.
Qed.

Lemma delete_distinct (k : string) (q : QueryParams) :
  Invariants.distinctKeys q -> Invariants.distinctKeys (deleteParam k q).
Proof.
  unfold Invariants.distinctKeys. rewrite delete_keys. apply NoDup_filter.
Qed.

Lemma put_keys (k : string) (v : QueryValue) (q : QueryParams) :
  forall a, In a (map fst (put k v q)) <-> a = k \/ In a (map fst q).
Proof.
  intros a. induction q as [| [b vb] q IH]; cbn [put map fst In].
  - intuition congruence.
  - destruct (String.eqb b k) eqn:Hb; cbn [map fst In].
    + apply String.eqb_eq in Hb. subst b. intuition congruence.
    + rewrite IH. tauto.
Qed.

Lemma put_distinct (k : string) (v : QueryValue) (q : QueryParams) :
  Invariants.distinctKeys q -> Invariants.distinctKeys (put k v q).
Proof.
  unfold Invariants.distinctKeys. induction q as [| [b vb] q IH]; intros Hd; cbn [put].
  - repeat constructor. intros [].
  - cbn [map fst] in Hd. inversion Hd as [| ? ? Hin Hrest]; subst.
    destruct (String.eqb b k) eqn:Hb; cbn [map fst].
    + now constructor.
    + constructor; [| now apply IH].
      rewrite put_keys. intros [-> | H]; [| contradiction].
      now rewrite String.eqb_refl in Hb.
Qed.

End PutFacts.

Module ApplyFacet.
Import PublicationFacetListComponent.

Ltac past_other_keys :=
  repeat first [ rewrite route_put_other by reflexivity
               | rewrite route_delete_other by reflexivity ].

Ltac keys_distinct :=
  repeat first [ apply put_distinct | apply delete_distinct ]; assumption.

(** The route that [applyFacetFilter] asks for, key by key. *)
Lemma applyFacetFilter_route (item : Models.FacetItem.t) (st : State) :
  Invariants.distinctKeys (baseQueryParams st) ->
  Js.trim (Models.FacetItem.value item) <> "" ->
  exists q,
    applyFacetFilter item st = [Navigate ["/publications"] q] /\
    ParamMap.getAll "page" (routeOf q) = [] /\
    ParamMap.getAll "page_size" (routeOf q) = [] /\
    ParamMap.getAll (FACET_PARAM_MAP (facetKey st)) (routeOf q) =
      [Js.trim (Models.FacetItem.value item)] /\
    ParamMap.getAll "journal_name" (routeOf q) =
      match facetKey st with
      | journals => [Models.FacetItem.label item]
      | _ => []
      end /\
    (facetKey st = issued_years ->
     ParamMap.getAll "issued_from" (routeOf q) = [] /\
     ParamMap.getAll "issued_to" (routeOf q) = []) /\
    forall k,
      ~ In k ["page"; "page_size"; "journal_name"; FACET_PARAM_MAP (facetKey st)] ->
      (facetKey st = issued_years -> k <> "issued_from" /\ k <> "issued_to") ->
      ParamMap.getAll k (routeOf q) = ParamMap.getAll k (routeOf (baseQueryParams st)).
Proof.
  intros Hd Hv. apply truthy_true_iff in Hv.
  unfold applyFacetFilter; cbv zeta. rewrite Hv. cbn [negb].
  eexists. split; [reflexivity |].
  split; [| split; [| split; [| split; [| split]]]].
  - past_other_keys. rewrite route_put_same; [reflexivity |].
    destruct (facetKey st); keys_distinct.
  - rewrite route_put_same; [reflexivity |].
    apply put_distinct. destruct (facetKey st); keys_distinct.
  - destruct (facetKey st); cbn [FACET_PARAM_MAP]; past_other_keys;
      (rewrite route_put_same; [| keys_distinct]).
    + apply entry_array.
    + apply entry_string.
    + apply entry_string.
    + apply entry_array.
  - past_other_keys. destruct (facetKey st); try apply route_delete_same.
    rewrite route_put_same; [apply entry_string | keys_distinct].
  - intros ->. split; past_other_keys; apply route_delete_same.
  - intros k Hk Hy. cbn [In] in Hk.
    assert (H1 : String.eqb "page" k = false) by (apply String.eqb_neq; intuition).
    assert (H2 : String.eqb "page_size" k = false) by (apply String.eqb_neq; intuition).
    assert (H3 : String.eqb "journal_name" k = false) by (apply String.eqb_neq; intuition).
    assert (H4 : String.eqb (FACET_PARAM_MAP (facetKey st)) k = false)
      by (apply String.eqb_neq; intuition).
    rewrite !route_put_other by assumption.
    destruct (facetKey st) eqn:E; cbn [FACET_PARAM_MAP] in H4;
      rewrite ?route_delete_other by assumption;
      rewrite ?route_put_other by assumption; try reflexivity.
    destruct (Hy eq_refl) as [H5 H6].
    apply String.eqb_neq in H5, H6. rewrite String.eqb_sym in H5, H6.
    rewrite !route_delete_other by assumption.
    now rewrite route_put_other by assumption.
Qed.

End ApplyFacet.

Lemma trimmedOrNull_trimmed (s : string) :
  Js.trim s <> "" ->
  PublicationListComponent.trimmedOrNull (Some (Js.trim s)) = Some (Js.trim s).
Proof.
  intros H. unfold PublicationListComponent.trimmedOrNull.
  rewrite trim_idempotent, length_positive_truthy.
  apply truthy_true_iff in H. now rewrite H.
Qed.

Lemma get_of_values (k : string) (m : ParamMap.t) (l : list string) :
  ParamMap.getAll k m = l -> ParamMap.get k m = hd_error l.
Proof.
  unfold ParamMap.getAll, ParamMap.get, HttpParams.get. intros ->. now destruct l.
Qed.

(** X24. From a facet value to the filtered list. For a facet page whose
    base query has distinct keys and a facet value that is not blank,
    [applyFacetFilter] navigates once, to [/publications]; the route
    handler of the publication list, on the route of that navigation (which
    has no [page], so that [Number(params.get('page'))] is 0), shows the
    first page with the trimmed value as its filter: as the only author or
    the only issued year (the year range then being empty), as the journal
    with the label of the value as its name, or as the only subject when
    the value has no comma. For a facet other than the journals the journal
    name is dropped. Every other query parameter of the base query reaches
    the route as it is. *)
Theorem applyFacetFilter_filters_list (baseUrl : string) (item : Models.FacetItem.t)
    (st : PublicationFacetListComponent.State) (c : PublicationListComponent.Component) :
  Invariants.distinctKeys (PublicationFacetListComponent.baseQueryParams st) ->
  Js.trim (Models.FacetItem.value item) <> "" ->
  let value := Js.trim (Models.FacetItem.value item) in
  let key := PublicationFacetListComponent.facetKey st in
  exists q,
    PublicationFacetListComponent.applyFacetFilter item st = [Navigate ["/publications"] q] /\
    (let list :=
       PublicationListComponent.signals
         (fst (PublicationListComponent.onQueryParams baseUrl (Some 0) (Some 0) (routeOf q) c)) in
     PublicationListComponent.page list = 1 /\
     match key with
     | PublicationFacetListComponent.authors =>
         PublicationListComponent.authorFilters list = [value] /\
         PublicationListComponent.journalName list = None
     | PublicationFacetListComponent.subjects =>
         (Js.includes ","%char value = false ->
          PublicationListComponent.subjectFilters list = [value]) /\
         PublicationListComponent.journalName list = None
     | PublicationFacetListComponent.journals =>
         PublicationListComponent.journalSlug list = Some value /\
         PublicationListComponent.journalName list =
           PublicationListComponent.trimmedOrNull (Some (Models.FacetItem.label item))
     | PublicationFacetListComponent.issued_years =>
         PublicationListComponent.issuedYearFilters list = [value] /\
         PublicationListComponent.issuedFrom list = None /\
         PublicationListComponent.issuedTo list = None /\
         PublicationListComponent.journalName list = None
     end) /\
    forall k,
      ~ In k ["page"; "page_size"; "journal_name";
              PublicationFacetListComponent.FACET_PARAM_MAP key] ->
      (key = PublicationFacetListComponent.issued_years ->
       k <> "issued_from" /\ k <> "issued_to") ->
      ParamMap.getAll k (routeOf q) =
      ParamMap.getAll k (routeOf (PublicationFacetListComponent.baseQueryParams st)).
Proof.
  intros Hd Hv. cbv zeta.
  destruct (ApplyFacet.applyFacetFilter_route item st Hd Hv)
    as (q & Hq & _ & _ & Hown & Hname & Hrange & Hframe).
  exists q. split; [exact Hq |]. split; [| exact Hframe].
  destruct (RouteHandler.onQueryParams_signals baseUrl (Some 0) (Some 0) (routeOf q) c)
    as (Hp & _ & _ & Hj & Hjn & _ & Hfrom & Hto & Hsub & Hau & Hyr & _).
  cbv zeta in Hfrom, Hto.
  split; [exact Hp |].
  pose proof (get_of_values _ _ _ Hown) as Hget. cbn [hd_error] in Hget.
  pose proof (get_of_values _ _ _ Hname) as Hgetn.
  assert (Hterm : Invariants.termsTrimmed [Js.trim (Models.FacetItem.value item)]).
  { constructor; [| constructor]. split; [apply trim_idempotent | exact Hv]. }
  destruct (PublicationFacetListComponent.facetKey st) eqn:E;
    cbn [PublicationFacetListComponent.FACET_PARAM_MAP hd_error] in *.
  - split; [| now rewrite Hjn, Hgetn].
    rewrite Hau, Hown. now apply trimmedTerms_fixed.
  - split; [| now rewrite Hjn, Hgetn].
    intros Hc. rewrite Hsub, Hget, parseSubjectParam_some.
    apply (parse_join [Js.trim (Models.FacetItem.value item)]).
    constructor; [| constructor]. repeat split; [exact Hv | apply trim_idempotent | exact Hc].
  - split.
    + rewrite Hj, Hget. now apply trimmedOrNull_trimmed.
    + now rewrite Hjn, Hgetn.
  - destruct (Hrange eq_refl) as [Hf Ht].
    apply get_of_values in Hf, Ht. cbn [hd_error] in Hf, Ht.
    split; [| split; [| split]].
    + rewrite Hyr, Hown. now apply trimmedTerms_fixed.
    + now rewrite Hfrom, Hf.
    + now rewrite Hto, Ht.
    + now rewrite Hjn, Hgetn.
Qed.

Lemma applyFacetFilter_filters_list_witness :
  exists q,
    PublicationFacetListComponent.applyFacetFilter
      (MoreSamples.item " maize " "maize" 7) MoreSamples.subjectsPage =
    [Navigate ["/publications"] q] /\
    PublicationListComponent.subjectFilters
      (PublicationListComponent.signals
         (fst (PublicationListComponent.onQueryParams "/api" (Some 0) (Some 0) (routeOf q)
                 MoreSamples.listPage))) = ["maize"] /\
    ParamMap.getAll "journal" (routeOf q) = ["ajk"].
Proof.
  destruct (applyFacetFilter_filters_list "/api" (MoreSamples.item " maize " "maize" 7)
              MoreSamples.subjectsPage MoreSamples.listPage)
    as (q & Hq & (_ & Hs & _) & Hframe).
  - unfold Invariants.distinctKeys. cbn.
    constructor; [cbn; intuition discriminate |].
    constructor; [cbn; intuition | constructor].
  - vm_compute. discriminate.
  - exists q. split; [exact Hq |]. split.
    + apply Hs. reflexivity.
    + rewrite Hframe; [reflexivity | cbn; intuition discriminate | discriminate].
Defined.

(** ** The payload of the publication form *)

Module PayloadShape.
Import PublicationFormComponent.

Lemma lowerCased_lower (s : string) :
  Js.truthy s = true -> Invariants.lowerCased (Js.toLowerCase s).
Proof.
  intros H. split; [| apply toLowerCase_idempotent].
  apply truthy_true_iff. now rewrite toLowerCase_truthy.
Qed.

Lemma orElse_truthy (a b : string) : Js.truthy b = true -> Js.truthy (Js.orElse a b) = true.
Proof. intros H. unfold Js.orElse. now destruct (Js.truthy a) eqn:E. Qed.

Lemma mapiFrom_Forall {A B : Type} (P : A -> Prop) (Q : B -> Prop) (f : A -> Z -> B)
    (s : Z) (l : list A) :
  (forall a i, P a -> Q (f a i)) -> Forall P l -> Forall Q (Js.mapiFrom f s l).
Proof.
  intros Hf Hl. revert s. induction Hl as [| a l Ha Hl IH]; intros s; cbn [Js.mapiFrom];
    constructor; auto.
Qed.

Lemma positioned_sanitized (e : Models.PublicationMetadataPayload.t) (i : Z) :
  Js.trim (Models.PublicationMetadataPayload.value e) = Models.PublicationMetadataPayload.value e /\
  Models.PublicationMetadataPayload.value e <> "" /\
  Js.truthy (Models.PublicationMetadataPayload.element e) = true ->
  Invariants.sanitized (positioned e i).
Proof.
  intros (Htrim & Hne & Hel). unfold Invariants.sanitized, positioned.
  cbn [Models.PublicationMetadataPayload.value Models.PublicationMetadataPayload.element
       Models.PublicationMetadataPayload.schema Models.PublicationMetadataPayload.qualifier
       Models.PublicationMetadataPayload.language].
  split; [exact Htrim |]. split; [exact Hne |].
  split; [| split; [| split]].
  - apply lowerCased_lower. unfold Js.orElse. now rewrite Hel.
  - eexists. split; [reflexivity |]. apply lowerCased_lower. now apply orElse_truthy.
  - intros q. destruct (Models.PublicationMetadataPayload.qualifier e) as [q0 |];
      cbn [Js.truthyOpt option_map]; [| discriminate].
    destruct (Js.truthy q0) eqn:E; [| discriminate].
    intros [= <-]. now apply lowerCased_lower.
  - intros l. destruct (Models.PublicationMetadataPayload.language e) as [l0 |];
      cbn [Js.truthyOpt option_map]; [| discriminate].
    destruct (Js.truthy l0) eqn:E; [| discriminate].
    intros [= <-]. now apply lowerCased_lower.
Qed.

Lemma sanitizeRow_shape (group : MetadataFormGroup.t) (e : Models.PublicationMetadataPayload.t) :
  sanitizeRow group = Some e ->
  Js.trim (Models.PublicationMetadataPayload.value e) = Models.PublicationMetadataPayload.value e /\
  Models.PublicationMetadataPayload.value e <> "" /\
  Js.truthy (Models.PublicationMetadataPayload.element e) = true.
Proof.
  unfold sanitizeRow; cbv zeta.
  destruct (Js.truthy (Js.trim (MetadataFormGroup.value group))) eqn:Hv; cbn [negb orb];
    [| discriminate].
  destruct (Js.truthy (Js.trim (MetadataFormGroup.element group))) eqn:He; cbn [negb];
    [| discriminate].
  intros [= <-]. cbn [Models.PublicationMetadataPayload.value
                      Models.PublicationMetadataPayload.element].
  split; [apply trim_idempotent |]. split; [now apply truthy_true_iff |].
  now rewrite toLowerCase_truthy.
Qed.

Lemma metadataEntries_shape (rows : list MetadataFormGroup.t) :
  Forall (fun e =>
            Js.trim (Models.PublicationMetadataPayload.value e) =
              Models.PublicationMetadataPayload.value e /\
            Models.PublicationMetadataPayload.value e <> "" /\
            Js.truthy (Models.PublicationMetadataPayload.element e) = true)
         (metadataEntries rows).
Proof.
  induction rows as [| g rows IH]; cbn [metadataEntries]; [constructor |].
  destruct (sanitizeRow g) as [e |] eqn:E; [| exact IH].
  constructor; [now apply (sanitizeRow_shape g) | exact IH].
Qed.

Lemma addCoreEntry_shape (f : Form.t) (field : CoreFieldKey.t) (value : option string)
    (l : list Models.PublicationMetadataPayload.t) :
  Forall (fun e =>
            Js.trim (Models.PublicationMetadataPayload.value e) =
              Models.PublicationMetadataPayload.value e /\
            Models.PublicationMetadataPayload.value e <> "" /\
            Js.truthy (Models.PublicationMetadataPayload.element e) = true) l ->
  Forall (fun e =>
            Js.trim (Models.PublicationMetadataPayload.value e) =
              Models.PublicationMetadataPayload.value e /\
            Models.PublicationMetadataPayload.value e <> "" /\
            Js.truthy (Models.PublicationMetadataPayload.element e) = true)
         (addCoreEntryFromControls f field value l).
Proof.
  intros Hl. unfold addCoreEntryFromControls; cbv zeta.
  destruct (Js.truthy (Js.trim (Js.nullish value ""))) eqn:Hv; cbn [negb]; [| exact Hl].
  match goal with
  | |- context [if negb (Js.truthy ?x) then l else _] => destruct (Js.truthy x) eqn:He
  end; cbn [negb]; [| exact Hl].
  apply Forall_app. split; [exact Hl |]. constructor; [| constructor].
  cbn [Models.PublicationMetadataPayload.value Models.PublicationMetadataPayload.element].
  split; [apply trim_idempotent |]. split; [now apply truthy_true_iff |].
  now rewrite toLowerCase_truthy.
Qed.

Lemma coreEntries_shape (f : Form.t) :
  Forall (fun e =>
            Js.trim (Models.PublicationMetadataPayload.value e) =
              Models.PublicationMetadataPayload.value e /\
            Models.PublicationMetadataPayload.value e <> "" /\
            Js.truthy (Models.PublicationMetadataPayload.element e) = true)
         (coreEntries f).
Proof.
  unfold coreEntries; cbv zeta. repeat apply addCoreEntry_shape. constructor.
Qed.

Lemma positioned_values (s : Z) (l : list Models.PublicationMetadataPayload.t) :
  map Models.PublicationMetadataPayload.value (Js.mapiFrom positioned s l) =
  map Models.PublicationMetadataPayload.value l.
Proof.
  revert s. induction l as [| e l IH]; intros s; cbn [Js.mapiFrom map]; [reflexivity |].
  now rewrite IH.
Qed.

Lemma metadataEntries_values (rows : list MetadataFormGroup.t) :
  map Models.PublicationMetadataPayload.value (metadataEntries rows) =
  map (fun group => Js.trim (MetadataFormGroup.value group))
      (filter (fun group =>
                 Js.truthy (Js.trim (MetadataFormGroup.value group)) &&
                 Js.truthy (Js.trim (MetadataFormGroup.element group))) rows).
Proof.
  induction rows as [| g rows IH]; cbn [metadataEntries filter]; [reflexivity |].
  unfold sanitizeRow; cbv zeta.
  destruct (Js.truthy (Js.trim (MetadataFormGroup.value g)));
    destruct (Js.truthy (Js.trim (MetadataFormGroup.element g)));
    cbn [negb orb andb map Models.PublicationMetadataPayload.value]; now rewrite ?IH.
Qed.

End PayloadShape.

(** X25. What the publication form sends. Whatever the controls and the
    rows of the form hold, every metadata entry of the payload built by
    [buildPayload] has a value that is not empty and has no white space
    around it, an element and a schema that are not empty and in lower
    case, and a qualifier and a language that are either absent or not
    empty and in lower case. The values sent are those of the core
    entries, followed by the trimmed values of the rows that have a value
    and an element, in the order of the rows; a row without value or
    without element is not sent. *)
Theorem buildPayload_sanitized (f : PublicationFormComponent.Form.t) :
  let sent := Models.PublicationPayload.metadata (PublicationFormComponent.buildPayload f) in
  Forall Invariants.sanitized sent /\
  map Models.PublicationMetadataPayload.value sent =
  (map Models.PublicationMetadataPayload.value (PublicationFormComponent.coreEntries f) ++
   map (fun group => Js.trim (PublicationFormComponent.MetadataFormGroup.value group))
       (filter (fun group =>
                  Js.truthy (Js.trim (PublicationFormComponent.MetadataFormGroup.value group)) &&
                  Js.truthy (Js.trim (PublicationFormComponent.MetadataFormGroup.element group)))
               (PublicationFormComponent.Form.metadata f)))%list.
Proof.
  cbv zeta. unfold PublicationFormComponent.buildPayload; cbv zeta.
  cbn [Models.PublicationPayload.metadata]. unfold Js.mapi. split.
  - eapply PayloadShape.mapiFrom_Forall.
    + intros e i He. apply PayloadShape.positioned_sanitized. exact He.
    + apply Forall_app. split;
        [apply PayloadShape.coreEntries_shape | apply PayloadShape.metadataEntries_shape].
  - rewrite PayloadShape.positioned_values, map_app.
    now rewrite PayloadShape.metadataEntries_values.
Qed.

(** ** Rows and core entries of the publication form *)

Lemma removeAt_nth {A : Type} (i j : nat) (l : list A) :
  nth_error (Js.removeAt i l) j = nth_error l (if (j <? i)%nat then j else S j).
Proof.
  revert i j. induction l as [| x l IH]; intros i j.
  - assert (Hnil : forall k, nth_error (@nil A) k = None) by (intros [| k]; reflexivity).
    destruct i; cbn [Js.removeAt]; now rewrite !Hnil.
  - destruct i as [| i]; cbn [Js.removeAt].
    + reflexivity.
    + destruct j as [| j]; [reflexivity |].
      cbn [nth_error]. rewrite IH.
      change (S j <? S i)%nat with (j <? i)%nat. now destruct (j <? i)%nat.
Qed.

Lemma removeAt_length {A : Type} (i : nat) (l : list A) :
  (i < length l)%nat -> S (length (Js.removeAt i l)) = length l.
Proof.
  revert i. induction l as [| x l IH]; intros i Hi; cbn [length] in *; [lia |].
  destruct i as [| i]; cbn [Js.removeAt length]; [reflexivity |].
  rewrite IH by lia. reflexivity.
Qed.

Lemma removeAt_perm {A : Type} (i : nat) (l : list A) (x : A) :
  nth_error l i = Some x -> Permutation l (x :: Js.removeAt i l).
Proof.
  revert i. induction l as [| y l IH]; intros i H; [now destruct i |].
  destruct i as [| i]; cbn [nth_error Js.removeAt] in *.
  - injection H as ->. apply Permutation_refl.
  - eapply Permutation_trans; [apply perm_skip, (IH i H) | apply perm_swap].
Qed.

Lemma findIndex_some {A : Type} (p : A -> bool) (l : list A) (i : nat) :
  Js.findIndex p l = Some i ->
  exists x, nth_error l i = Some x /\ p x = true /\
            forall j y, (j < i)%nat -> nth_error l j = Some y -> p y = false.
Proof.
  revert i. induction l as [| a l IH]; intros i H; cbn [Js.findIndex] in H; [discriminate |].
  destruct (p a) eqn:Ha.
  - injection H as <-. exists a. repeat split; [exact Ha |]. intros j y Hj. lia.
  - destruct (Js.findIndex p l) as [k |]; [| discriminate]. injection H as <-.
    destruct (IH k eq_refl) as (x & Hx & Hp & Hfirst).
    exists x. repeat split; [exact Hx | exact Hp |].
    intros [| j] y Hj Hy; cbn [nth_error] in Hy.
    + now injection Hy as <-.
    + apply (Hfirst j); [lia | exact Hy].
Qed.

Lemma findIndex_none {A : Type} (p : A -> bool) (l : list A) :
  Js.findIndex p l = None -> Forall (fun x => p x = false) l.
Proof.
  induction l as [| a l IH]; intros H; cbn [Js.findIndex] in H; constructor.
  - now destruct (p a).
  - destruct (p a); [discriminate |]. apply IH. now destruct (Js.findIndex p l).
Qed.

(** X26. Rows of the metadata array. A row that is added goes first, and
    removing the first row right after gives the form back. Removing at an
    index outside the rows changes nothing; removing at an index within
    them leaves one row less, the rows before the index and the rows after
    it in their order. The text controls are never touched. *)
Theorem metadata_rows_add_remove (preset : option PublicationFormComponent.PartialEntry.t)
    (index : Z) (f : PublicationFormComponent.Form.t) :
  let rows := PublicationFormComponent.Form.metadata f in
  let after := PublicationFormComponent.removeMetadataEntry index f in
  PublicationFormComponent.removeMetadataEntry 0
    (PublicationFormComponent.addMetadataEntry preset f) = f /\
  PublicationFormComponent.Form.controls after = PublicationFormComponent.Form.controls f /\
  (index < 0 \/ Z.of_nat (length rows) <= index -> after = f) /\
  (0 <= index < Z.of_nat (length rows) ->
   Z.of_nat (length (PublicationFormComponent.Form.metadata after)) =
     Z.of_nat (length rows) - 1 /\
   forall j : nat,
     nth_error (PublicationFormComponent.Form.metadata after) j =
     nth_error rows (if Z.of_nat j <? index then j else S j)).
Proof.
  cbv zeta. split; [| split; [| split]].
  - unfold PublicationFormComponent.removeMetadataEntry, PublicationFormComponent.addMetadataEntry.
    cbn [PublicationFormComponent.Form.metadata PublicationFormComponent.Form.controls length].
    replace (0 <? 0) with false by reflexivity.
    replace (Z.of_nat (S (length (PublicationFormComponent.Form.metadata f))) <=? 0)
      with false by (symmetry; apply Z.leb_gt; lia).
    cbn [orb Z.to_nat Js.removeAt]. now destruct f.
  - unfold PublicationFormComponent.removeMetadataEntry.
    now destruct (_ || _).
  - intros H. unfold PublicationFormComponent.removeMetadataEntry.
    replace ((index <? 0) ||
             (Z.of_nat (length (PublicationFormComponent.Form.metadata f)) <=? index))
      with true; [reflexivity |].
    symmetry. apply orb_true_iff.
    destruct H; [left; apply Z.ltb_lt | right; apply Z.leb_le]; lia.
  - intros H. unfold PublicationFormComponent.removeMetadataEntry.
    replace (index <? 0) with false by (symmetry; apply Z.ltb_ge; lia).
    replace (Z.of_nat (length (PublicationFormComponent.Form.metadata f)) <=? index)
      with false by (symmetry; apply Z.leb_gt; lia).
    cbn [orb PublicationFormComponent.Form.metadata]. split.
    + pose proof (removeAt_length (Z.to_nat index)
                    (PublicationFormComponent.Form.metadata f)) as Hl.
      lia.
    + intros j. rewrite removeAt_nth.
      destruct (Z.ltb_spec (Z.of_nat j) index);
        destruct (Nat.ltb_spec j (Z.to_nat index)); try reflexivity; lia.
Qed.

(** X27. Taking the entry of a core field out of the stored metadata.
    [extractCoreEntry] takes out at most one entry and leaves the others in
    their order. The entry taken is the first whose value equals the value
    of the field (white space around it and letter case apart, and only
    when that value is not blank); when there is none, it is the first
    entry with the default schema, element and qualifier of the field; when
    there is none of these either, nothing is taken and the entries are as
    they were. *)
Theorem extractCoreEntry_takes_first (entries : list Models.PublicationMetadataEntry.t)
    (targetValue : option string) (defaults : PublicationFormComponent.CoreFieldDefaults.t) :
  let normalize := PublicationFormComponent.normalizeValue in
  let target := normalize (Some (Js.nullish targetValue "")) in
  let byValue := fun entry =>
    Js.truthy target &&
    String.eqb (normalize (Some (Models.PublicationMetadataEntry.value entry))) target in
  let byDefaults := fun entry =>
    String.eqb (normalize (Some (Models.PublicationMetadataEntry.schema entry)))
               (normalize (Some (PublicationFormComponent.CoreFieldDefaults.schema defaults))) &&
    String.eqb (normalize (Some (Models.PublicationMetadataEntry.element entry)))
               (normalize (Some (PublicationFormComponent.CoreFieldDefaults.element defaults))) &&
    String.eqb
      (normalize (Some (Js.nullish (Models.PublicationMetadataEntry.qualifier entry) "")))
      (normalize (Some (PublicationFormComponent.CoreFieldDefaults.qualifier defaults))) in
  let result := PublicationFormComponent.extractCoreEntry entries targetValue defaults in
  match fst result with
  | Some taken =>
      exists i,
        nth_error entries i = Some taken /\
        snd result = Js.removeAt i entries /\
        Permutation entries (taken :: snd result) /\
        ((byValue taken = true /\
          forall j x, (j < i)%nat -> nth_error entries j = Some x -> byValue x = false) \/
         (Forall (fun x => byValue x = false) entries /\
          byDefaults taken = true /\
          forall j x, (j < i)%nat -> nth_error entries j = Some x -> byDefaults x = false))
  | None =>
      snd result = entries /\
      Forall (fun x => byValue x = false /\ byDefaults x = false) entries
  end.
Proof.
  cbv zeta. unfold PublicationFormComponent.extractCoreEntry; cbv zeta.
  set (target := PublicationFormComponent.normalizeValue (Some (Js.nullish targetValue ""))).
  set (pv := fun entry : Models.PublicationMetadataEntry.t =>
               String.eqb (PublicationFormComponent.normalizeValue
                             (Some (Models.PublicationMetadataEntry.value entry))) target).
  set (pd := fun entry : Models.PublicationMetadataEntry.t => (_ && _ && _)%bool).
  assert (Hvalue : forall i, (if Js.truthy target then Js.findIndex pv entries else None) = Some i ->
            exists x, nth_error entries i = Some x /\ (Js.truthy target && pv x = true) /\
              forall j y, (j < i)%nat -> nth_error entries j = Some y ->
                          Js.truthy target && pv y = false).
  { intros i Hi. destruct (Js.truthy target); [| discriminate].
    destruct (findIndex_some pv entries i Hi) as (x & Hx & Hp & Hfirst).
    exists x. cbn [andb]. repeat split; assumption. }
  assert (Hnone : (if Js.truthy target then Js.findIndex pv entries else None) = None ->
            Forall (fun x => Js.truthy target && pv x = false) entries).
  { intros Hi. destruct (Js.truthy target); cbn [andb].
    - now apply findIndex_none.
    - apply Forall_forall. reflexivity. }
  destruct (if Js.truthy target then Js.findIndex pv entries else None) as [i |] eqn:E.
  - destruct (Hvalue i eq_refl) as (x & Hx & Hp & Hfirst).
    cbn [fst snd]. rewrite Hx. exists i.
    split; [exact Hx |]. split; [reflexivity |].
    split; [now apply removeAt_perm |]. left. split; assumption.
  - specialize (Hnone eq_refl).
    destruct (Js.findIndex pd entries) as [i |] eqn:Ed.
    + destruct (findIndex_some pd entries i Ed) as (x & Hx & Hp & Hfirst).
      cbn [fst snd]. rewrite Hx. exists i.
      split; [exact Hx |]. split; [reflexivity |].
      split; [now apply removeAt_perm |]. right. repeat split; assumption.
    + cbn [fst snd]. split; [reflexivity |].
      pose proof (findIndex_none pd entries Ed) as Hd.
      rewrite Forall_forall in *. intros x Hx. split; [now apply Hnone | now apply Hd].
Qed.

(** ** From a journal to its harvest logs *)

(** X28. From the page of a journal to its harvest logs. With a journal
    loaded, [viewHarvestLogs] navigates once, to [/harvest-logs]; the route
    handler of the harvest-log list, on the route of that navigation (which
    has neither [page] nor [page_size], so that [Number(params.get(...))]
    is 0 for both), shows the first page of 25 with no
    status filter, takes the trimmed slug of the journal as its journal
    filter and the trimmed name of the journal, when it is not blank, as
    the name shown, and asks [/harvest-logs/] for exactly the logs of that
    slug. *)
Theorem viewHarvestLogs_filters_logs (baseUrl : string) (st : JournalDetailComponent.State)
    (j : Models.Journal.t) (h : HarvestLogListComponent.State) :
  JournalDetailComponent.journal st = Some j ->
  let slug := Js.trim (Models.Journal.slug j) in
  let name := Js.trim (Models.Journal.name j) in
  exists q,
    JournalDetailComponent.viewHarvestLogs st = [Navigate ["/harvest-logs"] q] /\
    let result := HarvestLogListComponent.onQueryParams baseUrl (Some 0) (Some 0) (routeOf q) h in
    HarvestLogListComponent.page (fst result) = 1 /\
    HarvestLogListComponent.pageSize (fst result) = 25 /\
    HarvestLogListComponent.statusFilter (fst result) = None /\
    HarvestLogListComponent.journalSlug (fst result) =
      (if Js.truthy (Models.Journal.slug j) then Some slug else None) /\
    (name <> "" -> HarvestLogListComponent.journalName (fst result) = Some name) /\
    exists r,
      snd result = [Http r] /\
      url r = baseUrl ++ "/harvest-logs/" /\
      HttpParams.getAll "journal" (params r) = (if Js.truthy slug then [slug] else []) /\
      HttpParams.getAll "status" (params r) = [].
Proof.
  intros Hj. cbv zeta. unfold JournalDetailComponent.viewHarvestLogs. rewrite Hj.
  eexists. split; [reflexivity |].
  unfold HarvestLogListComponent.onQueryParams; cbv zeta.
  change (ParamMap.get "journal"
            (routeOf [("journal", QString (Models.Journal.slug j));
                      ("journal_name", QString (Models.Journal.name j))]))
    with (Some (Models.Journal.slug j)).
  change (ParamMap.get "journal_name"
            (routeOf [("journal", QString (Models.Journal.slug j));
                      ("journal_name", QString (Models.Journal.name j))]))
    with (Some (Models.Journal.name j)).
  change (ParamMap.get "status"
            (routeOf [("journal", QString (Models.Journal.slug j));
                      ("journal_name", QString (Models.Journal.name j))]))
    with (@None string).
  unfold HarvestLogListComponent.fetchLogs;
    cbn [fst snd HarvestLogListComponent.page HarvestLogListComponent.pageSize
         HarvestLogListComponent.statusFilter HarvestLogListComponent.journalSlug
         HarvestLogListComponent.journalName HarvestLogListComponent.normalizedStatus
         Js.truthyOpt Js.nullish].
  split; [reflexivity |]. split; [reflexivity |]. split; [reflexivity |].
  split; [reflexivity |]. split.
  - intros Hn. apply truthy_true_iff in Hn.
    destruct (Js.truthy (Models.Journal.name j)) eqn:E.
    + now rewrite Hn.
    + apply truthy_false_iff in E. rewrite E in Hn. discriminate Hn.
  - eexists. split; [reflexivity |]. split; [reflexivity |].
    match goal with
    | |- context [HarvestLogApiService.list ?b ?query] =>
        destruct (harvest_list_params b query) as (_ & _ & H3 & H4)
    end.
    cbv zeta in H3, H4. rewrite H3, H4.
    cbn [HarvestLogApiService.journal HarvestLogApiService.status Js.truthyOpt].
    split; [| reflexivity].
    destruct (Js.truthy (Models.Journal.slug j)) eqn:E; cbn [Js.truthyOpt Js.nullish].
    + destruct (Js.truthy (Js.trim (Models.Journal.slug j))) eqn:Et;
        cbn [Js.truthyOpt Js.nullish]; now rewrite ?Et.
    + apply truthy_false_iff in E. rewrite E. reflexivity.
Qed.

Lemma viewHarvestLogs_filters_logs_witness :
  exists q,
    JournalDetailComponent.viewHarvestLogs Samples.journalPage =
      [Navigate ["/harvest-logs"] q] /\
    HarvestLogListComponent.journalSlug
      (fst (HarvestLogListComponent.onQueryParams "/api" (Some 0) (Some 0) (routeOf q)
              Samples.manyLogs)) = Some "ajk" /\
    HarvestLogListComponent.statusFilter
      (fst (HarvestLogListComponent.onQueryParams "/api" (Some 0) (Some 0) (routeOf q)
              Samples.manyLogs)) = None.
Proof.
  destruct (viewHarvestLogs_filters_logs "/api" Samples.journalPage
              {| Models.Journal.id := "7";
                 Models.Journal.name := "African Journal";
                 Models.Journal.slug := "ajk";
                 Models.Journal.description := "";
                 Models.Journal.homepage_url := "https://ajk.example";
                 Models.Journal.oai_url := Some " https://ajk.example/oai ";
                 Models.Journal.last_harvested_at := None;
                 Models.Journal.chief_editor := "";
                 Models.Journal.publisher := "";
                 Models.Journal.issn_print := "";
                 Models.Journal.issn_online := "";
                 Models.Journal.language := "en";
                 Models.Journal.country := "KE";
                 Models.Journal.founded_year := None;
                 Models.Journal.contact_email := "";
                 Models.Journal.is_active := true;
                 Models.Journal.created_at := "2024-01-01";
                 Models.Journal.updated_at := "2024-01-01" |}
              Samples.manyLogs eq_refl)
    as (q & Hq & _ & _ & Hs & Hj & _).
  exists q. split; [exact Hq |]. split; [exact Hj | exact Hs].
Defined.

(** ** The metadata values shown in the list *)

Lemma nonblank_truthy (v : string) :
  Js.truthy v && Js.truthy (Js.trim v) = true <-> Js.trim v <> "".
Proof.
  rewrite andb_true_iff, !truthy_true_iff. split; [tauto |].
  intros H. split; [| exact H]. intros ->. now apply H.
Qed.

(** X29. The metadata values the list shows. [metadataValues(publication,
    element, qualifier)] holds exactly the values, not blank, of the
    entries of the publication whose schema is [dc] (or empty), whose
    element is the element asked for and, when a qualifier is asked for,
    whose qualifier is that qualifier; schema, element and qualifier are
    compared without regard to letter case, and without a qualifier asked
    for the entries of every qualifier count. Asking in lower case gives the
    same values. A publication without metadata has none. *)
Theorem metadataValues_lookup (publication : Models.Publication.t) (element : string)
    (qualifier : option string) :
  let entries := Js.nullish (Models.Publication.metadata publication) [] in
  (forall v,
     In v (PublicationListComponent.metadataValues publication element qualifier) <->
     Js.trim v <> "" /\
     exists entry,
       In entry entries /\
       Models.PublicationMetadataEntry.value entry = v /\
       Js.toLowerCase (Js.orElse (Models.PublicationMetadataEntry.schema entry) "dc") = "dc" /\
       Js.toLowerCase (Models.PublicationMetadataEntry.element entry) =
         Js.toLowerCase element /\
       (forall q, qualifier = Some q -> q <> "" ->
                  Js.toLowerCase (Js.nullish (Models.PublicationMetadataEntry.qualifier entry) "") =
                  Js.toLowerCase q)) /\
  PublicationListComponent.metadataValues publication (Js.toLowerCase element)
    (option_map Js.toLowerCase qualifier) =
  PublicationListComponent.metadataValues publication element qualifier /\
  (entries = [] ->
   PublicationListComponent.metadataValues publication element qualifier = []).
Proof.
  cbv zeta. unfold PublicationListComponent.metadataValues; cbv zeta.
  split; [| split].
  - intros v.
    assert (Hq : forall entry : Models.PublicationMetadataEntry.t,
              (if Js.truthyOpt
                    (if Js.truthyOpt qualifier
                     then Some (Js.toLowerCase (Js.nullish qualifier "")) else None)
               then String.eqb
                      (Js.toLowerCase
                         (Js.nullish (Models.PublicationMetadataEntry.qualifier entry) ""))
                      (Js.nullish
                         (if Js.truthyOpt qualifier
                          then Some (Js.toLowerCase (Js.nullish qualifier "")) else None) "")
               else true) = true <->
              (forall q, qualifier = Some q -> q <> "" ->
                 Js.toLowerCase
                   (Js.nullish (Models.PublicationMetadataEntry.qualifier entry) "") =
                 Js.toLowerCase q)).
    { intros entry. destruct qualifier as [q |]; cbn [Js.truthyOpt Js.nullish].
      - destruct (Js.truthy q) eqn:E; cbn [Js.truthyOpt Js.nullish].
        + rewrite toLowerCase_truthy, E, String.eqb_eq. split.
          * intros H q' [= <-] _. exact H.
          * intros H. apply (H q eq_refl). now apply truthy_true_iff.
        + split; [| reflexivity]. intros _ q' [= <-] Hne.
          apply truthy_false_iff in E. contradiction.
      - split; [| reflexivity]. intros _ q' Hq'. discriminate Hq'. }
    destruct (Models.Publication.metadata publication) as [metadata |]; cbn [Js.nullish].
    + destruct (Z.of_nat (length metadata) =? 0) eqn:El.
      * assert (metadata = []) by (destruct metadata; [reflexivity | discriminate El]).
        subst metadata. cbn [In]. split; [contradiction |].
        intros [_ (entry & [] & _)].
      * rewrite filter_In, in_map_iff, nonblank_truthy. split.
        -- intros [(entry & Hv & He) Hb]. split; [exact Hb |].
           apply filter_In in He. destruct He as [He Hc].
           exists entry. split; [exact He |]. split; [exact Hv |].
           destruct (String.eqb _ "dc") eqn:E1; cbn [negb] in Hc; [| discriminate].
           destruct (String.eqb _ (Js.toLowerCase element)) eqn:E2; cbn [negb] in Hc;
             [| discriminate].
           apply String.eqb_eq in E1, E2. split; [exact E1 |]. split; [exact E2 |].
           now apply Hq.
        -- intros [Hb (entry & He & Hv & H1 & H2 & H3)]. split; [| exact Hb].
           exists entry. split; [exact Hv |]. apply filter_In. split; [exact He |].
           apply String.eqb_eq in H1, H2. rewrite H1, H2. cbn [negb]. now apply Hq.
    + cbn [In]. split; [contradiction |]. intros [_ (entry & [] & _)].
  - rewrite toLowerCase_idempotent.
    destruct qualifier as [q |]; cbn [option_map Js.truthyOpt Js.nullish]; [| reflexivity].
    now rewrite toLowerCase_truthy, toLowerCase_idempotent.
  - intros He. destruct (Models.Publication.metadata publication) as [metadata |];
      [| reflexivity].
    cbn [Js.nullish] in He. subst metadata. reflexivity.
Qed.

(** ** The base query of the facet page *)

Module BaseQuery.
Import PublicationFacetListComponent.

(** The base query, without the chips that are collected beside it. *)
Lemma c_baseQuery_chain (route : ParamMap.t) :
  let single := fun name => Js.trim (Js.nullish (ParamMap.get name route) "") in
  let several := fun name => filter Js.truthy (map Js.trim (ParamMap.getAll name route)) in
  c_baseQuery (parseQueryParams route) =
  let q : QueryParams := [] in
  let q := if Js.truthy (single "search")
           then assign "search" (QString (single "search")) q else q in
  let q := if Js.truthy (single "journal")
           then if Js.truthy (single "journal_name")
                then assign "journal_name" (QString (single "journal_name"))
                       (assign "journal" (QString (single "journal")) q)
                else assign "journal" (QString (single "journal")) q
           else q in
  let q := if Js.truthy (single "ordering")
           then assign "ordering" (QString (single "ordering")) q else q in
  let q := if Js.truthy (single "issued_from")
           then assign "issued_from" (QString (single "issued_from")) q else q in
  let q := if Js.truthy (single "issued_to")
           then assign "issued_to" (QString (single "issued_to")) q else q in
  let q := if Js.truthy (single "subject")
           then assign "subject" (QString (single "subject")) q else q in
  let q := if negb (Z.of_nat (length (several "author")) =? 0)
           then assign "author" (QArray (several "author")) q else q in
  if negb (Z.of_nat (length (several "issued_year")) =? 0)
  then assign "issued_year" (QArray (several "issued_year")) q else q.
Proof.
  cbv zeta. unfold parseQueryParams; cbv zeta.
  generalize (Js.parseInt (Js.nullish (ParamMap.get "page" route) "")).
  generalize (Js.parseInt (Js.nullish (ParamMap.get "page_size" route) "")).
  generalize (ParamMap.get "search_mode" route).
  generalize (Js.trim (Js.nullish (ParamMap.get "search" route) "")).
  generalize (Js.trim (Js.nullish (ParamMap.get "journal" route) "")).
  generalize (Js.trim (Js.nullish (ParamMap.get "journal_name" route) "")).
  generalize (Js.trim (Js.nullish (ParamMap.get "ordering" route) "")).
  generalize (Js.trim (Js.nullish (ParamMap.get "issued_from" route) "")).
  generalize (Js.trim (Js.nullish (ParamMap.get "issued_to" route) "")).
  generalize (Js.trim (Js.nullish (ParamMap.get "subject" route) "")).
  generalize (filter Js.truthy (map Js.trim (ParamMap.getAll "author" route))).
  generalize (filter Js.truthy (map Js.trim (ParamMap.getAll "issued_year" route))).
  intros years authors subject issuedTo issuedFrom ordering journalName journal search
         mode size page.
  destruct (Js.truthy search), (Js.truthy journal), (Js.truthy journalName),
    (Js.truthy ordering), (Js.truthy issuedFrom), (Js.truthy issuedTo), (Js.truthy subject),
    (negb (Z.of_nat (length authors) =? 0)), (negb (Z.of_nat (length years) =? 0));
    reflexivity.
Qed.

Lemma when_distinct (k : string) (v : QueryValue) (c : bool) (q : QueryParams)
    (known : list string) :
  Invariants.distinctKeys q /\ incl (map fst q) known ->
  ~ In k known ->
  Invariants.distinctKeys (if c then assign k v q else q) /\
  incl (map fst (if c then assign k v q else q)) (k :: known).
Proof.
  unfold Invariants.distinctKeys. intros [Hd Hi] Hk. destruct c.
  - unfold assign. rewrite map_app. cbn [map fst]. split.
    + apply NoDup_app; [exact Hd | repeat constructor; intros [] |].
      intros x Hx [<- | []]. apply Hk. now apply Hi.
    + intros x Hx. apply in_app_or in Hx. destruct Hx as [Hx | [<- | []]];
        [right; now apply Hi | now left].
  - split; [exact Hd |]. intros x Hx. right. now apply Hi.
Qed.

End BaseQuery.

(** X30. The base query of the facet page, and the way back. On a route
    that names a facet, the route handler of the facet page keeps as base
    query the filters of the route and nothing else: its keys are distinct,
    it has neither [page] nor [page_size], and on the route it stands for,
    [search], [journal], [ordering], [issued_from], [issued_to] and
    [subject] hold the trimmed value of the route or are absent when that
    is empty, [journal_name] likewise but only beside a journal, and
    [author] and [issued_year] hold the trimmed values of the route that
    are not empty, in their order. [goBackToResults] navigates once, to
    [/publications], with exactly this base query. *)
Theorem facet_base_query (baseUrl : string) (facet : option string) (route : ParamMap.t)
    (st : PublicationFacetListComponent.State) :
  let single := fun name => Js.trim (Js.nullish (ParamMap.get name route) "") in
  let q :=
    PublicationFacetListComponent.c_baseQuery
      (PublicationFacetListComponent.parseQueryParams route) in
  let shown := fst (PublicationFacetListComponent.onRoute baseUrl facet route st) in
  Invariants.distinctKeys q /\
  ParamMap.getAll "page" (routeOf q) = [] /\
  ParamMap.getAll "page_size" (routeOf q) = [] /\
  (forall k, In k ["search"; "journal"; "ordering"; "issued_from"; "issued_to"; "subject"] ->
             ParamMap.get k (routeOf q) = Js.orUndefined (single k)) /\
  ParamMap.get "journal_name" (routeOf q) =
    (if Js.truthy (single "journal") then Js.orUndefined (single "journal_name") else None) /\
  (forall k, In k ["author"; "issued_year"] ->
             ParamMap.getAll k (routeOf q) =
             filter Js.truthy (map Js.trim (ParamMap.getAll k route))) /\
  (PublicationFacetListComponent.isFacetRouteKey facet <> None ->
   PublicationFacetListComponent.baseQueryParams shown = q /\
   PublicationFacetListComponent.goBackToResults shown = [Navigate ["/publications"] q]).
Proof.
  cbv zeta. rewrite BaseQuery.c_baseQuery_chain; cbv zeta.
  split; [| split; [| split; [| split; [| split; [| split]]]]].
  - match goal with
    | |- Invariants.distinctKeys ?q =>
        assert (H : Invariants.distinctKeys q /\
                    incl (map fst q)
                      ["issued_year"; "author"; "subject"; "issued_to"; "issued_from";
                       "ordering"; "journal_name"; "journal"; "search"]); [| exact (proj1 H)]
    end.
    do 6 (apply BaseQuery.when_distinct; [| cbn [In]; intuition discriminate]).
    match goal with
    | |- context [if ?c1 then if ?c2 then _ else _ else _] => destruct c1, c2
    end.
    + apply (BaseQuery.when_distinct "journal_name" _ true);
        [| cbn [In]; intuition discriminate].
      apply (BaseQuery.when_distinct "journal" _ true); [| cbn [In]; intuition discriminate].
      apply BaseQuery.when_distinct; [| intros []].
      split; [constructor | intros x []].
    + assert (H : forall (q : QueryParams) (known : list string),
                Invariants.distinctKeys q /\ incl (map fst q) known ->
                Invariants.distinctKeys q /\ incl (map fst q) ("journal_name" :: known)).
      { intros q known [Hd Hi]. split; [exact Hd |]. intros x Hx. right. now apply Hi. }
      apply H.
      apply (BaseQuery.when_distinct "journal" _ true); [| cbn [In]; intuition discriminate].
      apply BaseQuery.when_distinct; [| intros []].
      split; [constructor | intros x []].
    + apply (BaseQuery.when_distinct "journal_name" (QString "") false);
        [| cbn [In]; intuition discriminate].
      apply (BaseQuery.when_distinct "journal" (QString "") false);
        [| cbn [In]; intuition discriminate].
      apply BaseQuery.when_distinct; [| intros []].
      split; [constructor | intros x []].
    + apply (BaseQuery.when_distinct "journal_name" (QString "") false);
        [| cbn [In]; intuition discriminate].
      apply (BaseQuery.when_distinct "journal" (QString "") false);
        [| cbn [In]; intuition discriminate].
      apply BaseQuery.when_distinct; [| intros []].
      split; [constructor | intros x []].
  - rewrite !route_when_other by reflexivity.
    rewrite route_journal_other by reflexivity.
    rewrite !route_when_other by reflexivity. reflexivity.
  - rewrite !route_when_other by reflexivity.
    rewrite route_journal_other by reflexivity.
    rewrite !route_when_other by reflexivity. reflexivity.
  - intros k Hk. cbn [In] in Hk. unfold Js.orUndefined.
    destruct Hk as [<- | [<- | [<- | [<- | [<- | [<- | []]]]]]]; apply link_single.
    + lookup_in_link. reflexivity.
    + rewrite !route_when_other by reflexivity.
      destruct (Js.truthy (Js.trim (Js.nullish (ParamMap.get "journal" route) ""))).
      * destruct (Js.truthy (Js.trim (Js.nullish (ParamMap.get "journal_name" route) "")));
          rewrite ?route_assign_other by reflexivity;
          rewrite route_assign_new by prefix_unbound; reflexivity.
      * apply unbound_lookup. prefix_unbound.
    + lookup_in_link. reflexivity.
    + lookup_in_link. reflexivity.
    + lookup_in_link. reflexivity.
    + lookup_in_link. reflexivity.
  - unfold Js.orUndefined.
    destruct (Js.truthy (Js.trim (Js.nullish (ParamMap.get "journal" route) ""))) eqn:Ej;
      [destruct (Js.truthy (Js.trim (Js.nullish (ParamMap.get "journal_name" route) "")))
         eqn:En |].
    + apply (link_single "journal_name" true). rewrite !route_when_other by reflexivity.
      rewrite route_assign_new; [reflexivity |].
      apply unbound_assign_other; [reflexivity |]. prefix_unbound.
    + apply (link_single "journal_name" false ""). rewrite !route_when_other by reflexivity.
      apply unbound_lookup. apply unbound_assign_other; [reflexivity |]. prefix_unbound.
    + apply (link_single "journal_name" false ""). rewrite !route_when_other by reflexivity.
      apply unbound_lookup. prefix_unbound.
  - intros k Hk. cbn [In] in Hk.
    destruct Hk as [<- | [<- | []]]; lookup_in_link.
    + destruct (filter Js.truthy (map Js.trim (ParamMap.getAll "author" route)))
        as [| x l]; [reflexivity |].
      replace (negb (Z.of_nat (length (x :: l)) =? 0)) with true
        by (symmetry; apply nonempty_list_iff; discriminate).
      apply entry_array.
    + destruct (filter Js.truthy (map Js.trim (ParamMap.getAll "issued_year" route)))
        as [| x l]; [reflexivity |].
      replace (negb (Z.of_nat (length (x :: l)) =? 0)) with true
        by (symmetry; apply nonempty_list_iff; discriminate).
      apply entry_array.
  - intros Hf. rewrite <- BaseQuery.c_baseQuery_chain.
    unfold PublicationFacetListComponent.onRoute,
      PublicationFacetListComponent.goBackToResults.
    destruct (PublicationFacetListComponent.isFacetRouteKey facet) as [key |];
      [| contradiction].
    split; reflexivity.
Qed.
